(** * Deep-Coding-Agent: the markdown-backed plan engine ([utils/plans.py])

    A shallow embedding of the plan-state engine and the properties its
    specification states about it.

    Conventions of the embedding.
    - Python text is a [string] of 8-bit code points (the Latin-1 range);
      the character classes below are Python's, restricted to that range.
    - A decoded JSON value is a [json]; a Python [dict] is an association
      list in insertion order.
    - A plan state, which the program keeps as a [dict] with nine fixed keys,
      is the record [state].
    - The file tree, the clock, the operating system's refusals and the
      wording of the JSON decoder's complaints are the [world] an operation
      runs in; an operation is a function from a world to an outcome and the
      world it leaves. *)

From Stdlib Require Import ZArith Lia Bool List Ascii String DecimalString.
From Stdlib Require Import SpecFloat DecimalFacts DecimalPos DecimalZ.
From Stdlib Require Import QArith Qpower Lqa Psatz.
From stdpp Require Import base option list strings gmap.

Set Warnings "-register-all".
Local Open Scope Z_scope.

(** ** Text *)

Module Text.

Definition code (c : ascii) : N := N_of_ascii c.

Definition between (lo hi : N) (c : ascii) : bool :=
  ((lo <=? code c) && (code c <=? hi))%N.

(** [str.isspace] and the regular expression class [\s]. *)
Definition isspace (c : ascii) : bool :=
  between 9 13 c || between 28 32 c || (code c =? 133)%N || (code c =? 160)%N.

(** The regular expression class [\w]. *)
Definition isword (c : ascii) : bool :=
  between 48 57 c || between 65 90 c || (code c =? 95)%N || between 97 122 c
  || (code c =? 170)%N || between 178 179 c || (code c =? 181)%N
  || between 185 186 c || between 188 190 c || between 192 214 c
  || between 216 246 c || between 248 255 c.

(** [str.isprintable], as [repr] uses it. *)
Definition isprintable (c : ascii) : bool :=
  negb (between 0 31 c || between 127 160 c || (code c =? 173)%N).

Definition nonempty (s : string) : bool :=
  match s with EmptyString => false | String _ _ => true end.

Fixpoint lstrip_by (p : ascii -> bool) (s : string) : string :=
  match s with
  | EmptyString => EmptyString
  | String c r => if p c then lstrip_by p r else s
  end.

Fixpoint rstrip_by (p : ascii -> bool) (s : string) : string :=
  match s with
  | EmptyString => EmptyString
  | String c r =>
      match rstrip_by p r with
      | EmptyString => if p c then EmptyString else String c EmptyString
      | r' => String c r'
      end
  end.

Definition strip_by (p : ascii -> bool) (s : string) : string :=
  rstrip_by p (lstrip_by p s).

(** [s.strip()] *)
Definition strip (s : string) : string := strip_by isspace s.

Definition one_of (set : string) (c : ascii) : bool :=
  existsb (Ascii.eqb c) (list_ascii_of_string set).

(** [s.strip(chars)] *)
Definition strip_chars (set : string) (s : string) : string :=
  strip_by (one_of set) s.

Definition cons_head (c : ascii) (l : list string) : list string :=
  match l with
  | h :: t => String c h :: t
  | [] => [String c EmptyString]
  end.

(** The pieces of [s] between single characters of the class [p]. *)
Fixpoint split_on (p : ascii -> bool) (s : string) : list string :=
  match s with
  | EmptyString => [EmptyString]
  | String c r =>
      if p c then EmptyString :: split_on p r else cons_head c (split_on p r)
  end.

(** [s.split()]: the maximal runs of characters that are not whitespace. *)
Definition split (s : string) : list string :=
  List.filter nonempty (split_on isspace s).

(** [sep.join(l)] *)
Definition join (sep : string) (l : list string) : string := String.concat sep l.

(** [s.startswith(p)] *)
Definition startswith (p s : string) : bool := String.prefix p s.

(** [needle in s] *)
Fixpoint contains (needle s : string) : bool :=
  String.prefix needle s
  || match s with
     | EmptyString => false
     | String _ r => contains needle r
     end.

(** [re.split(r"[...]+", s)] for a character class [p]: the pieces between
    the maximal runs of characters of the class.  [in_run] says that the
    character before was of the class. *)
Fixpoint re_split_runs (p : ascii -> bool) (in_run : bool) (s : string)
  : list string :=
  match s with
  | EmptyString => [EmptyString]
  | String c r =>
      if p c
      then if in_run then re_split_runs p true r
           else EmptyString :: re_split_runs p true r
      else cons_head c (re_split_runs p false r)
  end.

(** ASCII case folding: all that [re.I] does to the letters of the
    connective words below. *)
Definition lower (c : ascii) : ascii :=
  if between 65 90 c then ascii_of_N (code c + 32) else c.

(** [kw] matches, ignoring case, at the start of [s]: what follows it. *)
Fixpoint match_nocase (kw s : string) : option string :=
  match kw, s with
  | EmptyString, _ => Some s
  | String k kw', String c s' =>
      if Ascii.eqb (lower k) (lower c) then match_nocase kw' s' else None
  | String _ _, EmptyString => None
  end.

Definition isword_opt (c : option ascii) : bool :=
  match c with Some c => isword c | None => false end.

(** [\b] between two neighbouring characters (None: an end of the text). *)
Definition word_boundary (before after : option ascii) : bool :=
  xorb (isword_opt before) (isword_opt after).

Definition head_char (s : string) : option ascii :=
  match s with EmptyString => None | String c _ => Some c end.

Fixpoint last_char (dflt : option ascii) (s : string) : option ascii :=
  match s with EmptyString => dflt | String c r => last_char (Some c) r end.

(** [\b(?:k1|k2|...)\b] at the start of [s], the character before being
    [prev]: the length of the match, alternatives tried in order. *)
Fixpoint match_words (kws : list string) (prev : option ascii) (s : string)
  : option nat :=
  match kws with
  | [] => None
  | kw :: rest =>
      match match_nocase kw s with
      | Some after =>
          if word_boundary prev (head_char s)
             && word_boundary (last_char prev kw) (head_char after)
          then Some (String.length kw)
          else match_words rest prev s
      | None => match_words rest prev s
      end
  end.

(** [re.split(r"\b(?:k1|k2|...)\b", s, flags=re.I)]: [skip] characters of a
    match are still to be passed over. *)
Fixpoint re_split_words (kws : list string) (prev : option ascii) (skip : nat)
    (s : string) : list string :=
  match s with
  | EmptyString => [EmptyString]
  | String c r =>
      match skip with
      | S k => re_split_words kws (Some c) k r
      | O =>
          match match_words kws prev s with
          | Some (S k) => EmptyString :: re_split_words kws (Some c) k r
          | _ => cons_head c (re_split_words kws (Some c) O r)
          end
      end
  end.

(** [str(n)] for an integer. *)
Definition of_Z (z : Z) : string := NilZero.string_of_int (Z.to_int z).

Definition hex_digit (n : N) : ascii :=
  if (n <? 10)%N then ascii_of_N (48 + n) else ascii_of_N (87 + n).

Definition hex2 (c : ascii) : string :=
  String (hex_digit (code c / 16)) (String (hex_digit (code c mod 16)) EmptyString).

End Text.

(** ** Decoded JSON values and Python's view of them *)

Inductive json : Type :=
| JNull
| JBool (b : bool)
| JInt (n : Z)
| JFloat (repr : string)   (* a float, known by its [repr] *)
| JStr (s : string)
| JList (items : list json)
| JDict (entries : list (string * json)).

(** The exceptions [plans.py] raises itself or handles.  What else the
    interpreter and the libraries can raise ([RecursionError], [RuntimeError],
    the Unicode errors) is outside the model. *)
Inductive exn : Type :=
| TypeError (msg : string)
| ValueError (msg : string)
| OSError (msg : string).

(** An instance of [int]: [bool] is a subclass of [int] in Python. *)
Inductive pyint : Type :=
| PInt (n : Z)
| PBool (b : bool).

Definition pyint_value (p : pyint) : Z :=
  match p with
  | PInt n => n
  | PBool true => 1
  | PBool false => 0
  end.

Module Py.
Import Text.

Definition squote : ascii := "'"%char.
Definition dquote : ascii := "034"%char.
Definition backslash : ascii := "\"%char.

Definition repr_char (q c : ascii) : string :=
  if Ascii.eqb c backslash then "\\"
  else if Ascii.eqb c q then String backslash (String q EmptyString)
  else if Ascii.eqb c "009"%char then "\t"
  else if Ascii.eqb c "010"%char then "\n"
  else if Ascii.eqb c "013"%char then "\r"
  else if isprintable c then String c EmptyString
  else "\x" +:+ hex2 c.

(** [repr(s)] for a string. *)
Definition repr_str (s : string) : string :=
  let q :=
    if contains (String squote EmptyString) s
       && negb (contains (String dquote EmptyString) s)
    then dquote else squote in
  String q (String.concat "" (List.map (repr_char q) (list_ascii_of_string s)))
  +:+ String q EmptyString.

(** [repr(v)] *)
Fixpoint repr (v : json) : string :=
  match v with
  | JNull => "None"
  | JBool true => "True"
  | JBool false => "False"
  | JInt n => of_Z n
  | JFloat r => r
  | JStr s => repr_str s
  | JList l => "[" +:+ join ", " (List.map repr l) +:+ "]"
  | JDict d =>
      "{" +:+ join ", " (List.map (fun kv => repr_str (fst kv) +:+ ": " +:+ repr (snd kv)) d)
      +:+ "}"
  end.

(** [str(v)] *)
Definition str (v : json) : string :=
  match v with
  | JStr s => s
  | _ => repr v
  end.

(** [bool(v)] *)
Definition truthy (v : json) : bool :=
  match v with
  | JNull => false
  | JBool b => b
  | JInt n => negb (n =? 0)
  | JFloat r => negb (String.eqb r "0.0" || String.eqb r "-0.0")
  | JStr s => nonempty s
  | JList l => match l with [] => false | _ => true end
  | JDict d => match d with [] => false | _ => true end
  end.

Definition type_name (v : json) : string :=
  match v with
  | JNull => "NoneType"
  | JBool _ => "bool"
  | JInt _ => "int"
  | JFloat _ => "float"
  | JStr _ => "str"
  | JList _ => "list"
  | JDict _ => "dict"
  end.

(** What [for raw in v] goes through, or the [TypeError] it raises. *)
Definition iter (v : json) : exn + list json :=
  match v with
  | JList l => inr l
  | JStr s => inr (List.map (fun c => JStr (String c EmptyString)) (list_ascii_of_string s))
  | JDict d => inr (List.map (fun kv => JStr (fst kv)) d)
  | _ => inl (TypeError ("'" +:+ type_name v +:+ "' object is not iterable"))
  end.

(** [d.get(key)] *)
Fixpoint get (d : list (string * json)) (key : string) : option json :=
  match d with
  | [] => None
  | (k, v) :: rest => if String.eqb k key then Some v else get rest key
  end.

(** [d.get(key, dflt)] *)
Definition get_or (d : list (string * json)) (key : string) (dflt : json) : json :=
  match get d key with Some v => v | None => dflt end.

(** [d[key] = v]: a key keeps the position of its first insertion. *)
Fixpoint set (d : list (string * json)) (key : string) (v : json)
  : list (string * json) :=
  match d with
  | [] => [(key, v)]
  | (k, x) :: rest =>
      if String.eqb k key then (k, v) :: rest else (k, x) :: set rest key v
  end.

(** [isinstance(v, int)], with the instance. *)
Definition as_int (v : option json) : option pyint :=
  match v with
  | Some (JInt n) => Some (PInt n)
  | Some (JBool b) => Some (PBool b)
  | _ => None
  end.

(** [enumerate(l, start)] *)
Fixpoint enumerate {A : Type} (start : Z) (l : list A) : list (Z * A) :=
  match l with
  | [] => []
  | x :: rest => (start, x) :: enumerate (start + 1) rest
  end.

End Py.

(** ** The plan state *)

Record item : Type := mk_item {
  item_id : Z;
  item_description : string;
  item_status : string
}.

Record progress_entry : Type := mk_progress {
  pe_timestamp : string;
  pe_message : string;
  pe_percent_complete : option pyint
}.

Record reflection : Type := mk_reflection {
  rf_timestamp : string;
  rf_summary : string;
  rf_risks : list string;
  rf_next_actions : list string
}.

Record state : Type := mk_state {
  task : string;
  status : string;
  created_at : string;
  updated_at : string;
  percent_complete : option pyint;
  steps : list item;
  subgoals : list item;
  progress_log : list progress_entry;
  reflections : list reflection
}.

Definition DEFAULT_PLAN_FILE : string := "agent_plan.md".
Definition VALID_STATUSES : list string :=
  ["pending"; "in_progress"; "completed"; "blocked"].
Definition STATE_START : string := "<!-- PLAN_STATE_JSON_START -->".
Definition STATE_END : string := "<!-- PLAN_STATE_JSON_END -->".

(** [x in l] for strings. *)
Definition str_in (x : string) (l : list string) : bool :=
  existsb (String.eqb x) l.

(** ** The world an operation runs in *)

(** The file system as far as the plan engine uses it: files hold text, a
    path resolves without I/O, a query is never refused, and a write or a
    removal that is refused leaves the file as it was.  The real calls can do
    otherwise: [Path.resolve] asks the file system, [Path.exists] lets some
    [OSError]s through, [read_text] refuses bytes that are not UTF-8, and
    [write_text] empties the file before it writes.  What is proved of the
    files a refused write leaves is therefore stated for worlds that refuse
    no call. *)

Definition path : Type := list string.

Inductive node : Type :=
| File (content : string)
| Dir.

Inductive io_event : Type :=
| ev_stat (p : path)
| ev_read (p : path)
| ev_mkdir (p : path)
| ev_write (p : path) (content : string)
| ev_unlink (p : path).

Record world : Type := mk_world {
  w_root : path;                    (* WORKSPACE_ROOT *)
  w_resolve : string -> path;       (* pathlib: expanduser, then resolve (a relative
                                       path against the workspace root) *)
  w_nodes : gmap path node;         (* the file tree *)
  w_clock : nat -> string;          (* the n-th reading of the UTC clock, isoformat *)
  w_ticks : nat;                    (* readings of the clock so far *)
  w_oserror : nat -> option string; (* the OSError, if any, the n-th I/O call meets *)
  w_json_error : string -> string;  (* what [json.loads] says of a text it refuses:
                                       the message and the position *)
  w_trace : list io_event           (* the I/O calls so far, latest first *)
}.

Inductive result (A : Type) : Type :=
| Ok (a : A)
| Raise (e : exn).
Arguments Ok {A} a.
Arguments Raise {A} e.

(** Code that reads or changes the world and may raise. *)
Definition M (A : Type) : Type := world -> result A * world.

Definition ret {A : Type} (a : A) : M A := fun w => (Ok a, w).
Definition raise {A : Type} (e : exn) : M A := fun w => (Raise e, w).
Definition bind {A B : Type} (m : M A) (k : A -> M B) : M B :=
  fun w =>
    match m w with
    | (Ok a, w') => k a w'
    | (Raise e, w') => (Raise e, w')
    end.
(** [try: m except ...: h] *)
Definition catch {A : Type} (m : M A) (h : exn -> option (M A)) : M A :=
  fun w =>
    match m w with
    | (Ok a, w') => (Ok a, w')
    | (Raise e, w') =>
        match h e with
        | Some k => k w'
        | None => (Raise e, w')
        end
    end.
Definition lift {A : Type} (r : exn + A) : M A :=
  match r with
  | inl e => raise e
  | inr a => ret a
  end.

Notation "x <- m ;; k" := (bind m (fun x => k))
  (at level 100, m at next level, right associativity).

Fixpoint for_each {A B : Type} (f : A -> M (list B)) (l : list A) : M (list B) :=
  match l with
  | [] => ret []
  | x :: rest =>
      ys <- f x ;;
      zs <- for_each f rest ;;
      ret (ys ++ zs)
  end.

(** [_now_utc_iso] *)
Definition _now_utc_iso : M string :=
  fun w =>
    (Ok (w_clock w (w_ticks w)),
     mk_world (w_root w) (w_resolve w) (w_nodes w) (w_clock w) (S (w_ticks w))
              (w_oserror w) (w_json_error w) (w_trace w)).

(** [text or _now_utc_iso()] *)
Definition or_now (text : string) : M string :=
  if Text.nonempty text then ret text else _now_utc_iso.

(** ** The state coercer *)

(** The loop of [_normalize_text_items]: [seen] is the set of texts kept so
    far. *)
Fixpoint normalize_loop (seen : list string) (values : list string) : list string :=
  match values with
  | [] => []
  | raw :: rest =>
      let text := Text.strip raw in
      if negb (Text.nonempty text) || str_in text seen
      then normalize_loop seen rest
      else text :: normalize_loop (text :: seen) rest
  end.

(** [_normalize_text_items] on a list of strings ([str(raw)] is [raw]). *)
Definition _normalize_text_items (values : list string) : list string :=
  normalize_loop [] values.

(** [_normalize_text_items] on whatever a decoded document holds under a key
    ([None] when the key is absent): a falsy value gives the empty list, a
    value that cannot be iterated raises. *)
Definition _normalize_text_items_json (values : option json) : exn + list string :=
  match values with
  | None => inr []
  | Some v =>
      if negb (Py.truthy v) then inr []
      else match Py.iter v with
           | inl e => inl e
           | inr raws => inr (_normalize_text_items (List.map Py.str raws))
           end
  end.

(** [_build_plan_items] *)
Definition _build_plan_items (items : list string) (default_status : string)
  : list item :=
  List.map (fun it => mk_item (fst it) (snd it) default_status) (Py.enumerate 1 items).

(** One turn of the loop of [_coerce_item_list]: the description and status
    kept for [raw], if any. *)
Definition coerce_item (raw : json) : option (string * string) :=
  let (description, status) :=
    match raw with
    | JDict d =>
        (Text.strip (Py.str (Py.get_or d "description" (JStr ""))),
         Text.strip (Py.str (Py.get_or d "status" (JStr "pending"))))
    | _ => (Text.strip (Py.str raw), "pending")
    end in
  if negb (Text.nonempty description) then None
  else Some (description, if str_in status VALID_STATUSES then status else "pending").

(** [_coerce_item_list] *)
Definition _coerce_item_list (raw_items : option json) : list item :=
  match raw_items with
  | Some (JList raws) =>
      let items := omap coerce_item raws in
      List.map (fun it => mk_item (fst it) (fst (snd it)) (snd (snd it)))
               (Py.enumerate 1 items)
  | _ => []
  end.

(** One turn of the loop of [_coerce_progress]. *)
Definition coerce_progress_entry (entry : json) : M (list progress_entry) :=
  match entry with
  | JDict d =>
      let message := Text.strip (Py.str (Py.get_or d "message" (JStr ""))) in
      timestamp <- or_now (Text.strip (Py.str (Py.get_or d "timestamp" (JStr "")))) ;;
      let percent := Py.as_int (Py.get d "percent_complete") in
      if negb (Text.nonempty message) then ret []
      else ret [mk_progress timestamp message percent]
  | _ => ret []
  end.

(** [_coerce_progress] *)
Definition _coerce_progress (raw_progress : option json) : M (list progress_entry) :=
  match raw_progress with
  | Some (JList entries) => for_each coerce_progress_entry entries
  | _ => ret []
  end.

(** One turn of the loop of [_coerce_reflections]. *)
Definition coerce_reflection (entry : json) : M (list reflection) :=
  match entry with
  | JDict d =>
      let summary := Text.strip (Py.str (Py.get_or d "summary" (JStr ""))) in
      timestamp <- or_now (Text.strip (Py.str (Py.get_or d "timestamp" (JStr "")))) ;;
      if negb (Text.nonempty summary) then ret []
      else
        risks <- lift (_normalize_text_items_json (Py.get d "risks")) ;;
        next_actions <- lift (_normalize_text_items_json (Py.get d "next_actions")) ;;
        ret [mk_reflection timestamp summary risks next_actions]
  | _ => ret []
  end.

(** [_coerce_reflections] *)
Definition _coerce_reflections (raw_reflections : option json) : M (list reflection) :=
  match raw_reflections with
  | Some (JList entries) => for_each coerce_reflection entries
  | _ => ret []
  end.

(** The state-level [percent_complete] of [_coerce_state]. *)
Definition coerce_percent (raw : option json) : option pyint :=
  match Py.as_int raw with
  | Some p =>
      if (pyint_value p <? 0) || (pyint_value p >? 100) then None else Some p
  | None => None
  end.

(** [_coerce_state] *)
Definition _coerce_state (raw_state : list (string * json)) : M state :=
  created_at <- or_now (Text.strip (Py.str (Py.get_or raw_state "created_at" (JStr "")))) ;;
  let updated_at :=
    let u := Text.strip (Py.str (Py.get_or raw_state "updated_at" (JStr ""))) in
    if Text.nonempty u then u else created_at in
  let status :=
    let s := Text.strip (Py.str (Py.get_or raw_state "status" (JStr "active"))) in
    let s := if Text.nonempty s then s else "active" in
    if str_in s ["active"; "completed"] then s else "active" in
  let percent_complete := coerce_percent (Py.get raw_state "percent_complete") in
  let task := Text.strip (Py.str (Py.get_or raw_state "task" (JStr ""))) in
  let steps := _coerce_item_list (Py.get raw_state "steps") in
  let subgoals := _coerce_item_list (Py.get raw_state "subgoals") in
  progress_log <- _coerce_progress (Py.get raw_state "progress_log") ;;
  reflections <- _coerce_reflections (Py.get raw_state "reflections") ;;
  ret (mk_state task status created_at updated_at percent_complete
                steps subgoals progress_log reflections).

(** ** The document codec: writing *)

Module Json.
Import Text.

(** [json.dumps] with [ensure_ascii]: one character of a string. *)
Definition escape_char (c : ascii) : string :=
  if Ascii.eqb c Py.dquote then String Py.backslash (String Py.dquote EmptyString)
  else if Ascii.eqb c Py.backslash then "\\"
  else if Ascii.eqb c "010"%char then "\n"
  else if Ascii.eqb c "013"%char then "\r"
  else if Ascii.eqb c "009"%char then "\t"
  else if Ascii.eqb c "008"%char then "\b"
  else if Ascii.eqb c "012"%char then "\f"
  else if between 32 126 c then String c EmptyString
  else "\u00" +:+ hex2 c.

Fixpoint escape (s : string) : string :=
  match s with
  | EmptyString => EmptyString
  | String c r => escape_char c +:+ escape r
  end.

Definition dumps_str (s : string) : string :=
  String Py.dquote (escape s) +:+ String Py.dquote EmptyString.

Definition dumps_float (r : string) : string :=
  if String.eqb r "nan" then "NaN"
  else if String.eqb r "inf" then "Infinity"
  else if String.eqb r "-inf" then "-Infinity"
  else r.

(** [sorted(d.items())]: by key, in code point order. *)
Fixpoint insert_sorted {A : Type} (kv : string * A) (l : list (string * A))
  : list (string * A) :=
  match l with
  | [] => [kv]
  | kv' :: rest =>
      if String.leb (fst kv) (fst kv') then kv :: l
      else kv' :: insert_sorted kv rest
  end.

Definition sort_items {A : Type} (l : list (string * A)) : list (string * A) :=
  List.fold_right insert_sorted [] l.

(** The value with the entries of every dict in key order
    ([sort_keys=True]). *)
Fixpoint sort_keys (v : json) : json :=
  match v with
  | JList l => JList (List.map sort_keys l)
  | JDict d => JDict (sort_items (List.map (fun kv => (fst kv, sort_keys (snd kv))) d))
  | _ => v
  end.

Fixpoint spaces (n : nat) : string :=
  match n with
  | O => EmptyString
  | S k => String " " (spaces k)
  end.

(** A line break and the indentation of nesting depth [level]
    ([indent=2]). *)
Definition newline_indent (level : nat) : string :=
  String "010" (spaces (2 * level)).

(** The text of [v] at nesting depth [level], entries in the order given. *)
Fixpoint render (level : nat) (v : json) : string :=
  match v with
  | JNull => "null"
  | JBool true => "true"
  | JBool false => "false"
  | JInt n => of_Z n
  | JFloat r => dumps_float r
  | JStr s => dumps_str s
  | JList [] => "[]"
  | JList l =>
      "[" +:+ newline_indent (S level)
      +:+ join ("," +:+ newline_indent (S level)) (List.map (render (S level)) l)
      +:+ newline_indent level +:+ "]"
  | JDict [] => "{}"
  | JDict d =>
      "{" +:+ newline_indent (S level)
      +:+ join ("," +:+ newline_indent (S level))
            (List.map (fun kv => dumps_str (fst kv) +:+ ": " +:+ render (S level) (snd kv)) d)
      +:+ newline_indent level +:+ "}"
  end.

(** [json.dumps(v, indent=2, sort_keys=True)] *)
Definition dumps (v : json) : string := render 0 (sort_keys v).

End Json.

Definition pyint_json (p : option pyint) : json :=
  match p with
  | None => JNull
  | Some (PInt n) => JInt n
  | Some (PBool b) => JBool b
  end.

(** [str(p)] for an [int] instance. *)
Definition pyint_str (p : pyint) : string :=
  match p with
  | PInt n => Text.of_Z n
  | PBool true => "True"
  | PBool false => "False"
  end.

(** The [dict]s the program keeps, keys in the order it inserts them. *)
Definition item_json (it : item) : json :=
  JDict [("id", JInt (item_id it));
         ("description", JStr (item_description it));
         ("status", JStr (item_status it))].

Definition progress_json (e : progress_entry) : json :=
  JDict [("timestamp", JStr (pe_timestamp e));
         ("message", JStr (pe_message e));
         ("percent_complete", pyint_json (pe_percent_complete e))].

Definition reflection_json (r : reflection) : json :=
  JDict [("timestamp", JStr (rf_timestamp r));
         ("summary", JStr (rf_summary r));
         ("risks", JList (List.map JStr (rf_risks r)));
         ("next_actions", JList (List.map JStr (rf_next_actions r)))].

Definition state_entries (s : state) : list (string * json) :=
  [("task", JStr (task s));
   ("status", JStr (status s));
   ("created_at", JStr (created_at s));
   ("updated_at", JStr (updated_at s));
   ("percent_complete", pyint_json (percent_complete s));
   ("steps", JList (List.map item_json (steps s)));
   ("subgoals", JList (List.map item_json (subgoals s)));
   ("progress_log", JList (List.map progress_json (progress_log s)));
   ("reflections", JList (List.map reflection_json (reflections s)))].

Definition state_json (s : state) : json := JDict (state_entries s).

Definition NL : string := String "010" EmptyString.

(** [_format_items] *)
Definition _format_items (items : list item) : string :=
  match items with
  | [] => "- (none)"
  | _ =>
      Text.join NL
        (List.map (fun it =>
                     let checked := if String.eqb (item_status it) "completed" then "x" else " " in
                     Text.of_Z (item_id it) +:+ ". [" +:+ checked +:+ "] ("
                     +:+ item_status it +:+ ") " +:+ item_description it)
                  items)
  end.

(** [_format_progress] *)
Definition _format_progress (entries : list progress_entry) : string :=
  match entries with
  | [] => "- (none)"
  | _ =>
      Text.join NL
        (List.map (fun e =>
                     let percent_label :=
                       match pe_percent_complete e with
                       | Some p => pyint_str p +:+ "%"
                       | None => "-"
                       end in
                     "- " +:+ pe_timestamp e +:+ " | " +:+ percent_label +:+ " | "
                     +:+ pe_message e)
                  entries)
  end.

(** The lines [_format_reflections] adds for one reflection. *)
Definition reflection_lines (ir : Z * reflection) : list string :=
  let (idx, r) := ir in
  ["### Reflection " +:+ Text.of_Z idx +:+ " (" +:+ rf_timestamp r +:+ ")";
   rf_summary r]
  ++ match rf_risks r with
     | [] => []
     | risks => "Risks:" :: List.map (fun risk => "- " +:+ risk) risks
     end
  ++ match rf_next_actions r with
     | [] => []
     | actions => "Next Actions:" :: List.map (fun action => "- " +:+ action) actions
     end.

(** [_format_reflections] *)
Definition _format_reflections (rs : list reflection) : string :=
  match rs with
  | [] => "- (none)"
  | _ => Text.join NL (List.concat (List.map reflection_lines (Py.enumerate 1 rs)))
  end.

(** The lines of [_serialize_markdown] before the embedded state. *)
Definition prose_lines (s : state) : list string :=
  let percent_label :=
    match percent_complete s with
    | Some p => pyint_str p +:+ "%"
    | None => "n/a"
    end in
  ["# Agent Plan";
   "";
   "## Summary";
   "- Task: " +:+ task s;
   "- Status: " +:+ status s;
   "- Progress: " +:+ percent_label;
   "- Created (UTC): " +:+ created_at s;
   "- Updated (UTC): " +:+ updated_at s;
   "";
   "## Steps";
   _format_items (steps s);
   "";
   "## Subgoals";
   _format_items (subgoals s);
   "";
   "## Progress Log";
   _format_progress (progress_log s);
   "";
   "## Reflections";
   _format_reflections (reflections s);
   "";
   "---"].

(** [_serialize_markdown] *)
Definition _serialize_markdown (s : state) : string :=
  Text.join NL
    (prose_lines s
     ++ [STATE_START;
         "```json";
         Json.dumps (state_json s);
         "```";
         STATE_END;
         ""]).

(** ** The document codec: reading *)

Module Pattern.
Import Text.

(** [s] without the prefix [p], when it starts with it. *)
Fixpoint drop_prefix (p s : string) : option string :=
  match p, s with
  | EmptyString, _ => Some s
  | String a p', String b s' => if Ascii.eqb a b then drop_prefix p' s' else None
  | String _ _, EmptyString => None
  end.

(** [\s*]: a class that none of the literals after it starts with, so the
    longest run is the only one that lets the rest match. *)
Definition skip_spaces (s : string) : string := lstrip_by isspace s.

(** The end of the pattern, [\}\s*```\s*STATE_END], at the start of [s]. *)
Definition closes_here (s : string) : bool :=
  match s with
  | String c r =>
      Ascii.eqb c "}"
      && match drop_prefix "```" (skip_spaces r) with
         | Some r' => String.prefix STATE_END (skip_spaces r')
         | None => false
         end
  | EmptyString => false
  end.

(** The greedy [.*\}] followed by the end of the pattern: the longest
    prefix of [s] that ends in a brace at which the pattern closes. *)
Fixpoint through_last_close (s : string) : option string :=
  match s with
  | EmptyString => None
  | String c r =>
      match through_last_close r with
      | Some g => Some (String c g)
      | None => if closes_here s then Some (String c EmptyString) else None
      end
  end.

(** The whole pattern at the start of [s]: its group 1. *)
Definition match_here (s : string) : option string :=
  match drop_prefix STATE_START s with
  | Some r1 =>
      match drop_prefix "```json" (skip_spaces r1) with
      | Some r2 =>
          match skip_spaces r2 with
          | String c r3 =>
              if Ascii.eqb c "{"
              then match through_last_close r3 with
                   | Some g => Some (String c g)
                   | None => None
                   end
              else None
          | EmptyString => None
          end
      | None => None
      end
  | None => None
  end.

(** [STATE_PATTERN.search(content)]: group 1 of the leftmost match. *)
Fixpoint search (content : string) : option string :=
  match match_here content with
  | Some g => Some g
  | None =>
      match content with
      | EmptyString => None
      | String _ r => search r
      end
  end.

End Pattern.

Module Decode.
Import Text.

(** The decoder's whitespace: [ \t\n\r]. *)
Definition isws (c : ascii) : bool :=
  Ascii.eqb c " " || Ascii.eqb c "009" || Ascii.eqb c "010" || Ascii.eqb c "013".

Definition skip (s : string) : string := lstrip_by isws s.

Definition isdigit (c : ascii) : bool := between 48 57 c.

Definition hex_value (c : ascii) : option N :=
  if between 48 57 c then Some (code c - 48)%N
  else if between 97 102 c then Some (code c - 87)%N
  else if between 65 70 c then Some (code c - 55)%N
  else None.

(** The four hexadecimal digits after [\u]: the code point, when it is in
    the alphabet of the embedding. *)
Definition unicode_escape (s : string) : option (ascii * string) :=
  match s with
  | String a (String b (String c (String d r))) =>
      match hex_value a, hex_value b, hex_value c, hex_value d with
      | Some x, Some y, Some z, Some t =>
          if ((x =? 0) && (y =? 0))%N then Some (ascii_of_N (16 * z + t), r) else None
      | _, _, _, _ => None
      end
  | _ => None
  end.

(** The body of a string up to and with its closing quote (strict mode:
    no raw control character). *)
Fixpoint scanstring (s : string) : option (string * string) :=
  match s with
  | EmptyString => None
  | String c r =>
      if Ascii.eqb c Py.dquote then Some (EmptyString, r)
      else if Ascii.eqb c Py.backslash then
        match r with
        | String e r' =>
            let simple (x : ascii) :=
              match scanstring r' with
              | Some (t, rest) => Some (String x t, rest)
              | None => None
              end in
            if Ascii.eqb e Py.dquote then simple Py.dquote
            else if Ascii.eqb e Py.backslash then simple Py.backslash
            else if Ascii.eqb e "/" then simple "/"%char
            else if Ascii.eqb e "b" then simple "008"%char
            else if Ascii.eqb e "f" then simple "012"%char
            else if Ascii.eqb e "n" then simple "010"%char
            else if Ascii.eqb e "r" then simple "013"%char
            else if Ascii.eqb e "t" then simple "009"%char
            else if Ascii.eqb e "u" then
              match r' with
              | String a (String b (String c' (String d r'')) as tail) =>
                  match unicode_escape r' with
                  | Some (x, _) =>
                      match scanstring r'' with
                      | Some (t, rest) => Some (String x t, rest)
                      | None => None
                      end
                  | None => None
                  end
              | _ => None
              end
            else None
        | EmptyString => None
        end
      else if between 0 31 c then None
      else match scanstring r with
           | Some (t, rest) => Some (String c t, rest)
           | None => None
           end
  end.

(** The longest run of digits at the start of [s], and what follows. *)
Fixpoint digits (s : string) : string * string :=
  match s with
  | String c r =>
      if isdigit c then let (d, rest) := digits r in (String c d, rest)
      else (EmptyString, s)
  | EmptyString => (EmptyString, EmptyString)
  end.

Fixpoint digits_value (acc : Z) (d : string) : Z :=
  match d with
  | EmptyString => acc
  | String c r => digits_value (10 * acc + Z.of_N (code c - 48)) r
  end.

(** The integer part of a number: an optional minus sign, then a single
    zero or a run of digits that does not start with zero. *)
Definition integer_part (s : string) : option (string * string) :=
  let (sign, body) :=
    match s with
    | String "-" r => ("-", r)
    | _ => (EmptyString, s)
    end in
  match body with
  | String "0" r => Some (sign +:+ "0", r)
  | _ =>
      match digits body with
      | (EmptyString, _) => None
      | (d, rest) => Some (sign +:+ d, rest)
      end
  end.

(** The optional fraction: a dot and at least one digit. *)
Definition fraction_part (s : string) : string * string :=
  match s with
  | String "." r =>
      match digits r with
      | (EmptyString, _) => (EmptyString, s)
      | (d, rest) => (String "." d, rest)
      end
  | _ => (EmptyString, s)
  end.

(** The optional exponent: e or E, an optional sign, at least one digit. *)
Definition exponent_part (s : string) : string * string :=
  match s with
  | String e r =>
      if Ascii.eqb e "e" || Ascii.eqb e "E" then
        let (sign, body) :=
          match r with
          | String g r' =>
              if Ascii.eqb g "-" || Ascii.eqb g "+"
              then (String g EmptyString, r') else (EmptyString, r)
          | EmptyString => (EmptyString, r)
          end in
        match digits body with
        | (EmptyString, _) => (EmptyString, s)
        | (d, rest) => (String e (sign +:+ d), rest)
        end
      else (EmptyString, s)
  | EmptyString => (EmptyString, s)
  end.

Definition int_of_lexeme (l : string) : Z :=
  match l with
  | String "-" d => - digits_value 0 d
  | d => digits_value 0 d
  end.

(** A number.  One with a fraction or an exponent is a float: it is kept
    as written, where Python shows the [repr] of the nearest double; no
    plan state holds a float. *)
Definition number (s : string) : option (json * string) :=
  match integer_part s with
  | Some (i, r1) =>
      let (f, r2) := fraction_part r1 in
      let (e, r3) := exponent_part r2 in
      match f, e with
      | EmptyString, EmptyString => Some (JInt (int_of_lexeme i), r3)
      | _, _ => Some (JFloat (i +:+ f +:+ e), r3)
      end
  | None => None
  end.

Definition literal (s : string) : option (json * string) :=
  match Pattern.drop_prefix "null" s with
  | Some r => Some (JNull, r)
  | None =>
  match Pattern.drop_prefix "true" s with
  | Some r => Some (JBool true, r)
  | None =>
  match Pattern.drop_prefix "false" s with
  | Some r => Some (JBool false, r)
  | None =>
  match number s with
  | Some x => Some x
  | None =>
  match Pattern.drop_prefix "NaN" s with
  | Some r => Some (JFloat "nan", r)
  | None =>
  match Pattern.drop_prefix "Infinity" s with
  | Some r => Some (JFloat "inf", r)
  | None =>
  match Pattern.drop_prefix "-Infinity" s with
  | Some r => Some (JFloat "-inf", r)
  | None => None
  end end end end end end end.

(** [scan_once], with [JSONObject] and [JSONArray]: a value at the start of
    [s] and what follows it.  [fuel] bounds the calls. *)
Fixpoint value (fuel : nat) (s : string) : option (json * string) :=
  match fuel with
  | O => None
  | S fuel' =>
      match s with
      | String c r =>
          if Ascii.eqb c Py.dquote then
            match scanstring r with
            | Some (t, rest) => Some (JStr t, rest)
            | None => None
            end
          else if Ascii.eqb c "{" then
            match skip r with
            | String c' r' =>
                if Ascii.eqb c' "}" then Some (JDict [], r')
                else if Ascii.eqb c' Py.dquote then members fuel' [] r'
                else None
            | EmptyString => None
            end
          else if Ascii.eqb c "[" then
            match skip r with
            | String c' r' =>
                if Ascii.eqb c' "]" then Some (JList [], r')
                else elements fuel' [] (skip r)
            | EmptyString => None
            end
          else literal s
      | EmptyString => None
      end
  end

(** The entries of an object, from just after the opening quote of a key. *)
with members (fuel : nat) (acc : list (string * json)) (s : string)
  : option (json * string) :=
  match fuel with
  | O => None
  | S fuel' =>
      match scanstring s with
      | Some (key, r1) =>
          match skip r1 with
          | String ":" r2 =>
              match value fuel' (skip r2) with
              | Some (v, r3) =>
                  let acc' := Py.set acc key v in
                  match skip r3 with
                  | String "}" r4 => Some (JDict acc', r4)
                  | String "," r4 =>
                      match skip r4 with
                      | String c r5 =>
                          if Ascii.eqb c Py.dquote then members fuel' acc' r5 else None
                      | EmptyString => None
                      end
                  | _ => None
                  end
              | None => None
              end
          | _ => None
          end
      | None => None
      end
  end

(** The items of an array, from the start of an item. *)
with elements (fuel : nat) (acc : list json) (s : string)
  : option (json * string) :=
  match fuel with
  | O => None
  | S fuel' =>
      match value fuel' s with
      | Some (v, r1) =>
          match skip r1 with
          | String "]" r2 => Some (JList (List.rev (v :: acc)), r2)
          | String "," r2 => elements fuel' (v :: acc) (skip r2)
          | _ => None
          end
      | None => None
      end
  end.

(** [json.loads(s)]; [None] is [JSONDecodeError]. *)
Definition loads (s : string) : option json :=
  match value (2 * String.length s + 2) (skip s) with
  | Some (v, rest) =>
      match skip rest with
      | EmptyString => Some v
      | _ => None
      end
  | None => None
  end.

End Decode.

(** [_load_state_from_markdown] *)
Definition _load_state_from_markdown (content : string) : M state :=
  match Pattern.search content with
  | None => raise (ValueError "Plan file is missing embedded JSON state markers")
  | Some group1 =>
      match Decode.loads group1 with
      | None =>
          fun w =>
            raise (ValueError ("Plan file contains invalid JSON state: "
                               +:+ w_json_error w group1)) w
      | Some (JDict loaded) => _coerce_state loaded
      | Some _ => raise (ValueError "Plan state must be a JSON object")
      end
  end.

(** ** Paths and files *)

Definition with_nodes (w : world) (nodes : gmap path node) : world :=
  mk_world (w_root w) (w_resolve w) nodes (w_clock w) (w_ticks w) (w_oserror w)
           (w_json_error w) (w_trace w).

(** An I/O call: it is recorded, and the operating system may refuse it. *)
Definition io_call (e : io_event) : M unit :=
  fun w =>
    let w' := mk_world (w_root w) (w_resolve w) (w_nodes w) (w_clock w) (w_ticks w)
                       (w_oserror w) (w_json_error w) (e :: w_trace w) in
    match w_oserror w (List.length (w_trace w)) with
    | Some msg => (Raise (OSError msg), w')
    | None => (Ok tt, w')
    end.

(** A call that asks about a file.  It is taken to meet no refusal:
    [Path.exists] and the like answer [False] for a path that is not there;
    the [OSError] they let through otherwise (a directory that cannot be
    searched, a name too long) is outside the model. *)
Definition io_stat (p : path) : M (option node) :=
  fun w =>
    (Ok (w_nodes w !! p),
     mk_world (w_root w) (w_resolve w) (w_nodes w) (w_clock w) (w_ticks w)
              (w_oserror w) (w_json_error w) (ev_stat p :: w_trace w)).

(** [p.as_posix()] for an absolute path. *)
Definition as_posix (p : path) : string := "/" +:+ Text.join "/" p.

(** [p.exists()] *)
Definition path_exists (p : path) : M bool :=
  n <- io_stat p ;; ret (match n with Some _ => true | None => false end).

(** [p.is_file()] *)
Definition path_is_file (p : path) : M bool :=
  n <- io_stat p ;; ret (match n with Some (File _) => true | _ => false end).

(** [p.is_dir()] *)
Definition path_is_dir (p : path) : M bool :=
  n <- io_stat p ;; ret (match n with Some Dir => true | _ => false end).

(** [p.read_text(encoding="utf-8")], of a file that holds text: the
    [UnicodeDecodeError] of other bytes is outside the model. *)
Definition read_text (p : path) : M string :=
  _ <- io_call (ev_read p) ;;
  fun w =>
    match w_nodes w !! p with
    | Some (File content) => (Ok content, w)
    | Some Dir => (Raise (OSError ("Is a directory: '" +:+ as_posix p +:+ "'")), w)
    | None => (Raise (OSError ("No such file or directory: '" +:+ as_posix p +:+ "'")), w)
    end.

(** The proper prefixes of [p] and [p] itself, shortest first. *)
Fixpoint ancestors (p : path) : list path :=
  match p with
  | [] => [[]]
  | c :: rest => [] :: List.map (cons c) (ancestors rest)
  end.

Definition is_file_node (n : option node) : bool :=
  match n with Some (File _) => true | _ => false end.

(** [p.mkdir(parents=True, exist_ok=True)] *)
Definition mkdir_parents (p : path) : M unit :=
  _ <- io_call (ev_mkdir p) ;;
  fun w =>
    if existsb (fun a => is_file_node (w_nodes w !! a)) (ancestors p)
    then (Raise (OSError ("File exists: '" +:+ as_posix p +:+ "'")), w)
    else (Ok tt,
          with_nodes w (List.fold_right (fun a m => <[a := Dir]> m) (w_nodes w) (ancestors p))).

(** [p.write_text(content, encoding="utf-8")].  A refused write is taken to
    leave the file as it was; [Path.write_text] empties the file when it
    opens it, so that a write refused later leaves it empty or cut short. *)
Definition write_text (p : path) (content : string) : M unit :=
  _ <- io_call (ev_write p content) ;;
  fun w =>
    match w_nodes w !! p with
    | Some Dir => (Raise (OSError ("Is a directory: '" +:+ as_posix p +:+ "'")), w)
    | _ => (Ok tt, with_nodes w (<[p := File content]> (w_nodes w)))
    end.

(** [p.unlink(missing_ok=True)] *)
Definition unlink_missing_ok (p : path) : M unit :=
  _ <- io_call (ev_unlink p) ;;
  fun w =>
    match w_nodes w !! p with
    | Some Dir => (Raise (OSError ("Is a directory: '" +:+ as_posix p +:+ "'")), w)
    | _ => (Ok tt, with_nodes w (delete p (w_nodes w)))
    end.

(** [p.relative_to(root)]: the components of [p] below [root]. *)
Fixpoint relative_to (root p : path) : option path :=
  match root, p with
  | [], _ => Some p
  | r :: root', c :: p' => if String.eqb r c then relative_to root' p' else None
  | _ :: _, [] => None
  end.

(** [_resolve_workspace_path]: what [expanduser] and [resolve] give is the
    world's [w_resolve]; the queries they make and the errors they raise are
    outside the model. *)
Definition _resolve_workspace_path (path_value : string) : M path :=
  fun w =>
    let resolved := w_resolve w path_value in
    match relative_to (w_root w) resolved with
    | Some _ => (Ok resolved, w)
    | None =>
        (Raise (ValueError ("Path '" +:+ path_value +:+ "' is outside workspace root '"
                            +:+ as_posix (w_root w) +:+ "'")), w)
    end.

(** [_to_workspace_relative] *)
Definition _to_workspace_relative (p : path) : M string :=
  fun w =>
    match relative_to (w_root w) p with
    | Some [] => (Ok ".", w)
    | Some rel => (Ok (Text.join "/" rel), w)
    | None =>
        (Raise (ValueError ("'" +:+ as_posix p +:+ "' is not in the subpath of '"
                            +:+ as_posix (w_root w) +:+ "'")), w)
    end.

Definition exn_text (e : exn) : string :=
  match e with
  | TypeError msg => msg
  | ValueError msg => msg
  | OSError msg => msg
  end.

Definition on_OSError {A : Type} (h : string -> M A) (e : exn) : option (M A) :=
  match e with OSError msg => Some (h msg) | _ => None end.

(** [_write_state] *)
Definition _write_state (plan_path : path) (s : state) : M string :=
  catch
    (_ <- mkdir_parents (removelast plan_path) ;;
     _ <- write_text plan_path (_serialize_markdown s) ;;
     rel <- _to_workspace_relative plan_path ;;
     ret ("Saved plan to " +:+ rel))
    (on_OSError (fun err =>
       ret ("Error: Unable to write plan file '" +:+ as_posix plan_path +:+ "': " +:+ err))).

(** [try: x = m except E as err: ...]: the value of [m], or the text of the
    exception of the class [sel] it raised. *)
Definition attempt {A : Type} (sel : exn -> option string) (m : M A) : M (string + A) :=
  fun w =>
    match m w with
    | (Ok a, w') => (Ok (inr a), w')
    | (Raise e, w') =>
        match sel e with
        | Some err => (Ok (inl err), w')
        | None => (Raise e, w')
        end
    end.

Definition value_error (e : exn) : option string :=
  match e with ValueError msg => Some msg | _ => None end.

Definition os_error (e : exn) : option string :=
  match e with OSError msg => Some msg | _ => None end.

(** [_read_existing_state]: the path, the state and the error text. *)
Definition _read_existing_state (plan_file : string)
  : M (option path * option state * string) :=
  resolved <- attempt value_error (_resolve_workspace_path plan_file) ;;
  match resolved with
  | inl err => ret (None, None, "Error: " +:+ err)
  | inr plan_path =>
      found <- path_exists plan_path ;;
      if negb found
      then ret (Some plan_path, None, "Error: Plan file '" +:+ plan_file +:+ "' not found")
      else
        is_file <- path_is_file plan_path ;;
        if negb is_file
        then ret (Some plan_path, None, "Error: '" +:+ plan_file +:+ "' is not a file")
        else
          content <- attempt os_error (read_text plan_path) ;;
          match content with
          | inl err =>
              ret (Some plan_path, None,
                   "Error: Unable to read '" +:+ plan_file +:+ "': " +:+ err)
          | inr content =>
              loaded <- attempt value_error (_load_state_from_markdown content) ;;
              match loaded with
              | inl err => ret (Some plan_path, None, "Error: " +:+ err)
              | inr s => ret (Some plan_path, Some s, "")
              end
          end
  end.

(** ** Floating point, as [_recompute_percent_from_steps] uses it *)

Module Float.

(** Python's [float]: IEEE 754 binary64. *)
Definition prec : Z := 53.
Definition emax : Z := 1024.

(** [float(n)] *)
Definition of_int (n : Z) : spec_float := binary_normalize prec emax n 0 false.

(** [a / b] for integers below 2^53, which [float] represents exactly: the
    correctly rounded quotient. *)
Definition truediv (a b : Z) : spec_float := SFdiv prec emax (of_int a) (of_int b).

(** [x * y] *)
Definition mul (x y : spec_float) : spec_float := SFmul prec emax x y.

(** The integer nearest to m * 2^e, a tie going to the even one. *)
Definition round_half_even (m e : Z) : Z :=
  if 0 <=? e then m * 2 ^ e
  else
    let d := 2 ^ (- e) in
    let q := m / d in
    let r := m mod d in
    match 2 * r ?= d with
    | Lt => q
    | Gt => q + 1
    | Eq => if Z.even q then q else q + 1
    end.

(** [round(x)] for a finite float (it raises on an infinity or a NaN, which
    a quotient of list lengths times 100 never is). *)
Definition round (x : spec_float) : Z :=
  match x with
  | S754_finite false m e => round_half_even (Zpos m) e
  | S754_finite true m e => - round_half_even (Zpos m) e
  | _ => 0
  end.

End Float.

(** ** Plan operations *)

Definition set_item_status (st : string) (it : item) : item :=
  mk_item (item_id it) (item_description it) st.

Definition with_status (s : state) (st : string) : state :=
  mk_state (task s) st (created_at s) (updated_at s) (percent_complete s)
           (steps s) (subgoals s) (progress_log s) (reflections s).

Definition with_updated_at (s : state) (t : string) : state :=
  mk_state (task s) (status s) (created_at s) t (percent_complete s)
           (steps s) (subgoals s) (progress_log s) (reflections s).

Definition with_percent (s : state) (p : option pyint) : state :=
  mk_state (task s) (status s) (created_at s) (updated_at s) p
           (steps s) (subgoals s) (progress_log s) (reflections s).

Definition with_steps (s : state) (l : list item) : state :=
  mk_state (task s) (status s) (created_at s) (updated_at s) (percent_complete s)
           l (subgoals s) (progress_log s) (reflections s).

Definition with_subgoals (s : state) (l : list item) : state :=
  mk_state (task s) (status s) (created_at s) (updated_at s) (percent_complete s)
           (steps s) l (progress_log s) (reflections s).

Definition with_progress_log (s : state) (l : list progress_entry) : state :=
  mk_state (task s) (status s) (created_at s) (updated_at s) (percent_complete s)
           (steps s) (subgoals s) l (reflections s).

Definition with_reflections (s : state) (l : list reflection) : state :=
  mk_state (task s) (status s) (created_at s) (updated_at s) (percent_complete s)
           (steps s) (subgoals s) (progress_log s) l.

Definition is_completed (it : item) : bool := String.eqb (item_status it) "completed".

(** [sum(1 for item in steps if item.get("status") == "completed")] *)
Definition completed_count (l : list item) : Z :=
  Z.of_nat (List.length (List.filter is_completed l)).

(** [int(round((completed / total) * 100))] *)
Definition ratio_percent (completed total : Z) : Z :=
  Float.round (Float.mul (Float.truediv completed total) (Float.of_int 100)).

(** [_recompute_percent_from_steps] *)
Definition _recompute_percent_from_steps (s : state) : state :=
  match steps s with
  | [] => with_percent s (Some (PInt 0))
  | l =>
      let completed := completed_count l in
      with_percent s (Some (PInt (ratio_percent completed (Z.of_nat (List.length l)))))
  end.

(** [_mark_all_completed] *)
Definition _mark_all_completed (items : list item) : list item :=
  List.map (set_item_status "completed") items.

(** [_maybe_cleanup_plan_file] *)
Definition _maybe_cleanup_plan_file (plan_path : path) (cleanup_plan_file : bool)
    (s : state) : M (option string) :=
  if negb cleanup_plan_file then ret None
  else if negb (String.eqb (status s) "completed")
  then ret (Some "Error: cleanup_plan_file requires a completed plan")
  else
    catch
      (_ <- unlink_missing_ok plan_path ;;
       rel <- _to_workspace_relative plan_path ;;
       ret (Some ("Completed plan and removed " +:+ rel)))
      (on_OSError (fun err =>
         rel <- _to_workspace_relative plan_path ;;
         ret (Some ("Warning: Plan completed but cleanup failed for '" +:+ rel
                    +:+ "': " +:+ err)))).

Definition CONNECTIVES : list string := ["then"; "after that"; "next"].

(** The class [;\n.] *)
Definition is_sentence_end (c : ascii) : bool :=
  Ascii.eqb c ";" || Ascii.eqb c "010" || Ascii.eqb c ".".

(** [part.strip(" ,:-")] for each part, the empty results left out. *)
Definition cleaned_parts (parts : list string) : list string :=
  List.filter Text.nonempty (List.map (Text.strip_chars " ,:-") parts).

(** [decompose_task] *)
Definition decompose_task (task : string) (max_steps : Z) : list string :=
  if max_steps <=? 0 then ["Error: max_steps must be > 0"]
  else
    let normalized := Text.strip (Text.join " " (Text.split task)) in
    if negb (Text.nonempty normalized) then ["Error: task must not be empty"]
    else
      let candidates :=
        List.flat_map
          (fun sentence => cleaned_parts (Text.re_split_words CONNECTIVES None O sentence))
          (Text.re_split_runs is_sentence_end false normalized) in
      let candidates :=
        if (Z.of_nat (List.length candidates) <? 2) && Text.contains "," normalized
        then candidates
             ++ cleaned_parts (Text.split_on (fun c => Ascii.eqb c ",") normalized)
        else candidates in
      let unique_candidates := _normalize_text_items candidates in
      if 2 <=? Z.of_nat (List.length unique_candidates)
      then List.firstn (Z.to_nat max_steps) unique_candidates
      else
        List.firstn (Z.to_nat max_steps)
          ["Clarify acceptance criteria for: " +:+ normalized;
           "Inspect the relevant code and dependencies";
           "Implement the required code changes";
           "Validate behavior with tests and checks";
           "Summarize results and remaining follow-ups"].

(** [steps[0]["status"] = st], when there is a first step. *)
Definition set_first_status (st : string) (l : list item) : list item :=
  match l with
  | [] => []
  | it :: rest => set_item_status st it :: rest
  end.

(** [create_plan] *)
Definition create_plan (task : string) (given_steps : option (list string))
    (plan_file : string) (overwrite : bool) : M string :=
  let task_text := Text.strip task in
  if negb (Text.nonempty task_text) then ret "Error: task must not be empty"
  else
    let given :=
      _normalize_text_items (match given_steps with Some l => l | None => [] end) in
    let normalized_steps :=
      match given with
      | [] => decompose_task task_text 6
      | _ => given
      end in
    let early :=
      match given, normalized_steps with
      | [], first :: _ => if Text.startswith "Error:" first then Some first else None
      | _, _ => None
      end in
    match early with
    | Some msg => ret msg
    | None =>
        resolved <- attempt value_error (_resolve_workspace_path plan_file) ;;
        match resolved with
        | inl err => ret ("Error: " +:+ err)
        | inr plan_path =>
            found <- path_exists plan_path ;;
            if found && negb overwrite
            then ret ("Error: Plan file '" +:+ plan_file
                      +:+ "' already exists and overwrite is False")
            else
              found <- path_exists plan_path ;;
              is_dir <- (if found then path_is_dir plan_path else ret false) ;;
              if is_dir then ret ("Error: '" +:+ plan_file +:+ "' is a directory")
              else
                created_at <- _now_utc_iso ;;
                let s :=
                  mk_state task_text "active" created_at created_at (Some (PInt 0))
                    (set_first_status "in_progress"
                       (_build_plan_items normalized_steps "pending"))
                    []
                    [mk_progress created_at "Plan created" (Some (PInt 0))]
                    [] in
                write_result <- _write_state plan_path s ;;
                if Text.startswith "Error:" write_result then ret write_result
                else
                  rel <- _to_workspace_relative plan_path ;;
                  ret ("Created plan " +:+ rel +:+ " with "
                       +:+ Text.of_Z (Z.of_nat (List.length (steps s))) +:+ " step(s)")
        end
    end.

(** The demotion loop of [update_plan]: every step other than [step_number]
    that is in progress becomes pending. *)
Definition demote_others (step_number : Z) (l : list item) : list item :=
  List.map
    (fun ix =>
       let (idx, it) := (ix : Z * item) in
       if negb (idx =? step_number) && String.eqb (item_status it) "in_progress"
       then set_item_status "pending" it else it)
    (Py.enumerate 1 l).

(** [all(item.get("status") == "completed" for item in steps)] on a list that
    is not empty. *)
Definition all_completed (l : list item) : bool :=
  match l with
  | [] => false
  | _ => forallb is_completed l
  end.

(** [update_plan], from the loaded state to the state it writes and the time
    it took from the clock. *)
Definition update_plan_state (step_number : Z) (new_status note : string)
    (timestamp : string) (s : state) : state :=
  let l := steps s in
  let l := if String.eqb new_status "in_progress" then demote_others step_number l else l in
  let l := alter (set_item_status new_status) (Z.to_nat (step_number - 1)) l in
  let s := with_steps s l in
  let s :=
    if Text.nonempty (Text.strip note)
    then with_progress_log s (progress_log s ++ [mk_progress timestamp (Text.strip note) None])
    else s in
  let s := with_status s (if all_completed l then "completed" else "active") in
  let s := with_updated_at s timestamp in
  _recompute_percent_from_steps s.

(** [update_plan] *)
Definition update_plan (step_number : Z) (new_status note plan_file : string)
  : M string :=
  if step_number <? 1 then ret "Error: step_number must be >= 1"
  else if negb (str_in new_status VALID_STATUSES)
  then ret "Error: status must be one of: pending, in_progress, completed, blocked"
  else
    loaded <- _read_existing_state plan_file ;;
    match loaded with
    | (_, _, String c err) => ret (String c err)
    | (Some plan_path, Some s, EmptyString) =>
        match steps s with
        | [] => ret "Error: Plan has no steps to update"
        | _ =>
            if step_number >? Z.of_nat (List.length (steps s))
            then ret ("Error: step_number " +:+ Text.of_Z step_number
                      +:+ " is out of range (1.."
                      +:+ Text.of_Z (Z.of_nat (List.length (steps s))) +:+ ")")
            else
              timestamp <- _now_utc_iso ;;
              let s' := update_plan_state step_number new_status note timestamp s in
              write_result <- _write_state plan_path s' ;;
              if Text.startswith "Error:" write_result then ret write_result
              else
                rel <- _to_workspace_relative plan_path ;;
                ret ("Updated step " +:+ Text.of_Z step_number +:+ " to '"
                     +:+ new_status +:+ "' in " +:+ rel)
        end
    | _ => ret "Error: Unable to load plan state"
    end.

(** [status_by_description.get(description, "pending")]: in the dict built
    from the subgoals in order, a later subgoal replaces an earlier one of the
    same description. *)
Fixpoint status_by_description (current : list item) (description : string)
    (dflt : string) : string :=
  match current with
  | [] => dflt
  | it :: rest =>
      status_by_description rest description
        (if String.eqb (item_description it) description then item_status it else dflt)
  end.

(** [set_subgoals], from the loaded state to the state it writes. *)
Definition set_subgoals_state (normalized_subgoals : list string) (replace : bool)
    (timestamp : string) (s : state) : state :=
  let current_subgoals := subgoals s in
  let merged :=
    if replace then normalized_subgoals
    else _normalize_text_items
           (List.map item_description current_subgoals ++ normalized_subgoals) in
  let updated_subgoals :=
    List.map
      (fun ix =>
         let (idx, description) := (ix : Z * string) in
         let existing_status := status_by_description current_subgoals description "pending" in
         let existing_status :=
           if str_in existing_status VALID_STATUSES then existing_status else "pending" in
         mk_item idx description existing_status)
      (Py.enumerate 1 merged) in
  with_updated_at (with_subgoals s updated_subgoals) timestamp.

(** [set_subgoals] *)
Definition set_subgoals (new_subgoals : list string) (plan_file : string)
    (replace : bool) : M string :=
  let normalized_subgoals := _normalize_text_items new_subgoals in
  match normalized_subgoals with
  | [] => ret "Error: subgoals must include at least one non-empty item"
  | _ =>
      loaded <- _read_existing_state plan_file ;;
      match loaded with
      | (_, _, String c err) => ret (String c err)
      | (Some plan_path, Some s, EmptyString) =>
          timestamp <- _now_utc_iso ;;
          let s' := set_subgoals_state normalized_subgoals replace timestamp s in
          write_result <- _write_state plan_path s' ;;
          if Text.startswith "Error:" write_result then ret write_result
          else
            rel <- _to_workspace_relative plan_path ;;
            ret ((if replace then "Set" else "Updated") +:+ " "
                 +:+ Text.of_Z (Z.of_nat (List.length (subgoals s')))
                 +:+ " subgoal(s) in " +:+ rel)
      | _ => ret "Error: Unable to load plan state"
      end
  end.

(** The force-complete branch of [track_progress] and [reflect_on_plan]. *)
Definition force_complete (s : state) : state :=
  let s := with_steps s (_mark_all_completed (steps s)) in
  let s := with_subgoals s (_mark_all_completed (subgoals s)) in
  let s := with_status s "completed" in
  with_percent s (Some (PInt 100)).

(** [track_progress], from the loaded state to the state it writes. *)
Definition track_progress_state (note : string) (percent : option Z)
    (complete_plan : bool) (timestamp : string) (s : state) : state :=
  let s :=
    with_progress_log s
      (progress_log s ++ [mk_progress timestamp note (option_map PInt percent)]) in
  let s :=
    match percent with
    | Some p => with_percent s (Some (PInt p))
    | None => s
    end in
  let s :=
    if complete_plan || match percent with Some p => p =? 100 | None => false end
    then force_complete s
    else
      let s := with_status s (if all_completed (steps s) then "completed" else "active") in
      match percent with
      | None => _recompute_percent_from_steps s
      | Some _ => s
      end in
  with_updated_at s timestamp.

Definition percent_text (p : option pyint) : string :=
  match p with
  | Some p => pyint_str p
  | None => "None"
  end.

(** [track_progress] *)
Definition track_progress (message : string) (percent : option Z) (plan_file : string)
    (complete_plan cleanup_plan_file : bool) : M string :=
  let note := Text.strip message in
  if negb (Text.nonempty note) then ret "Error: message must not be empty"
  else if match percent with Some p => (p <? 0) || (p >? 100) | None => false end
  then ret "Error: percent_complete must be between 0 and 100"
  else
    loaded <- _read_existing_state plan_file ;;
    match loaded with
    | (_, _, String c err) => ret (String c err)
    | (Some plan_path, Some s, EmptyString) =>
        timestamp <- _now_utc_iso ;;
        let s' := track_progress_state note percent complete_plan timestamp s in
        write_result <- _write_state plan_path s' ;;
        if Text.startswith "Error:" write_result then ret write_result
        else
          cleanup_result <- _maybe_cleanup_plan_file plan_path cleanup_plan_file s' ;;
          match cleanup_result with
          | Some (String c msg) => ret (String c msg)
          | _ =>
              rel <- _to_workspace_relative plan_path ;;
              ret ("Logged progress in " +:+ rel +:+ " (status=" +:+ status s'
                   +:+ ", progress=" +:+ percent_text (percent_complete s') +:+ "%)")
          end
    | _ => ret "Error: Unable to load plan state"
    end.

(** [reflect_on_plan], from the loaded state to the state it writes. *)
Definition reflect_on_plan_state (summary_text : string) (risks next_actions : list string)
    (finalize : bool) (timestamp : string) (s : state) : state :=
  let r :=
    mk_reflection timestamp summary_text
      (_normalize_text_items risks) (_normalize_text_items next_actions) in
  let s := with_reflections s (reflections s ++ [r]) in
  let s := if finalize then force_complete s else _recompute_percent_from_steps s in
  with_updated_at s timestamp.

(** [reflect_on_plan] *)
Definition reflect_on_plan (summary : string) (risks next_actions : option (list string))
    (plan_file : string) (finalize cleanup_plan_file : bool) : M string :=
  let summary_text := Text.strip summary in
  if negb (Text.nonempty summary_text) then ret "Error: summary must not be empty"
  else
    loaded <- _read_existing_state plan_file ;;
    match loaded with
    | (_, _, String c err) => ret (String c err)
    | (Some plan_path, Some s, EmptyString) =>
        timestamp <- _now_utc_iso ;;
        let s' :=
          reflect_on_plan_state summary_text
            (match risks with Some l => l | None => [] end)
            (match next_actions with Some l => l | None => [] end)
            finalize timestamp s in
        write_result <- _write_state plan_path s' ;;
        if Text.startswith "Error:" write_result then ret write_result
        else
          cleanup_result <- _maybe_cleanup_plan_file plan_path cleanup_plan_file s' ;;
          match cleanup_result with
          | Some (String c msg) => ret (String c msg)
          | _ =>
              rel <- _to_workspace_relative plan_path ;;
              ret ("Recorded reflection in " +:+ rel +:+ " (total reflections="
                   +:+ Text.of_Z (Z.of_nat (List.length (reflections s'))) +:+ ")")
          end
    | _ => ret "Error: Unable to load plan state"
    end.

(** ** Sequences of calls *)

Inductive call : Type :=
| CreatePlan (task : string) (given_steps : option (list string)) (plan_file : string)
    (overwrite : bool)
| UpdatePlan (step_number : Z) (new_status note plan_file : string)
| SetSubgoals (new_subgoals : list string) (plan_file : string) (replace : bool)
| TrackProgress (message : string) (percent : option Z) (plan_file : string)
    (complete_plan cleanup_plan_file : bool)
| ReflectOnPlan (summary : string) (risks next_actions : option (list string))
    (plan_file : string) (finalize cleanup_plan_file : bool).

Definition run_call (c : call) : M string :=
  match c with
  | CreatePlan t g f o => create_plan t g f o
  | UpdatePlan n st note f => update_plan n st note f
  | SetSubgoals l f r => set_subgoals l f r
  | TrackProgress m p f c d => track_progress m p f c d
  | ReflectOnPlan s r n f fin d => reflect_on_plan s r n f fin d
  end.

(** The world after the calls, one after the other. *)
Fixpoint run_calls (cs : list call) (w : world) : world :=
  match cs with
  | [] => w
  | c :: rest => run_calls rest (snd (run_call c w))
  end.

(** What a call answered, when it returned. *)
Definition answer (out : result string * world) : option string :=
  match fst out with
  | Ok msg => Some msg
  | Raise _ => None
  end.

(** A call succeeded: it returned, and not an error message. *)
Definition succeeded (out : result string * world) : Prop :=
  exists msg, fst out = Ok msg /\ Text.startswith "Error:" msg = false.

(** The state [plan_file] holds in [w], as an operation would load it. *)
Definition loads_as (plan_file : string) (w : world) (s : state) : Prop :=
  exists p, fst (_read_existing_state plan_file w) = Ok (Some p, Some s, EmptyString).

(** The document at [p] is the serialization of [s]. *)
Definition persisted (w : world) (p : path) (s : state) : Prop :=
  w_nodes w !! p = Some (File (_serialize_markdown s)).

Definition is_query (e : io_event) : bool :=
  match e with
  | ev_stat _ | ev_read _ => true
  | _ => false
  end.

(** From [w] to [w'] the environment is the same and I/O calls were only
    added. *)
Definition later (w w' : world) : Prop :=
  w_root w' = w_root w /\ w_resolve w' = w_resolve w /\ w_clock w' = w_clock w
  /\ w_oserror w' = w_oserror w
  /\ exists evs, w_trace w' = evs ++ w_trace w.

(** From [w] to [w'] nothing was written, made or removed. *)
Definition untouched (w w' : world) : Prop :=
  w_root w' = w_root w /\ w_resolve w' = w_resolve w /\ w_clock w' = w_clock w
  /\ w_oserror w' = w_oserror w
  /\ w_nodes w' = w_nodes w
  /\ exists evs, w_trace w' = evs ++ w_trace w /\ Forall (fun e => is_query e = true) evs.

Definition quiet {A : Type} (m : M A) : Prop := forall w, untouched w (snd (m w)).

Definition in_progress_count (l : list item) : nat :=
  List.length (List.filter (fun it => String.eqb (item_status it) "in_progress") l).

(** ** Vocabulary of the properties *)

(** The files of [w'] other than [p] are those of [w], with their contents. *)
Definition same_files_but (p : path) (w w' : world) : Prop :=
  forall q c, q <> p ->
    w_nodes w' !! q = Some (File c) <-> w_nodes w !! q = Some (File c).

(** The files of [w'] are those of [w], with their contents. *)
Definition same_files (w w' : world) : Prop :=
  forall q c, w_nodes w' !! q = Some (File c) <-> w_nodes w !! q = Some (File c).

(** The I/O calls made from [w] to [w']. *)
Definition wrote (w w' : world) (p : path) (content : string) : Prop :=
  exists evs, w_trace w' = evs ++ w_trace w /\ In (ev_write p content) evs.

Definition loaded (f : string) (w : world) (p : path) (s : state) : Prop :=
  fst (_read_existing_state f w) = Ok (Some p, Some s, EmptyString).

(** How a call that answered [msg] left the plan at [p], having computed
    [s']: an error and the files as they were, or [s'] persisted. *)
Definition committed (w : world) (p : path) (s' : state) (out : result string * world)
  : Prop :=
  later w (snd out) /\ same_files_but p w (snd out)
  /\ exists msg, fst out = Ok msg
     /\ ((Text.startswith "Error:" msg = true /\ same_files w (snd out))
         \/ (Text.startswith "Error:" msg = false /\ persisted (snd out) p s'
             /\ wrote w (snd out) p (_serialize_markdown s'))).

(** The reading of the clock a call makes once it has loaded [f]. *)
Definition stamp (f : string) (w : world) : string :=
  let w1 := snd (_read_existing_state f w) in w_clock w1 (w_ticks w1).

(** The three ways a requested cleanup can end for a plan at [p] whose state
    [s'] was just persisted. *)
Definition cleanup_trichotomy (p : path) (s' : state) (out : result string * world)
  : Prop :=
  (status s' <> "completed"
   /\ fst out = Ok "Error: cleanup_plan_file requires a completed plan"
   /\ persisted (snd out) p s')
  \/ (status s' = "completed"
      /\ (exists rel, fst out = Ok ("Completed plan and removed " +:+ rel))
      /\ w_nodes (snd out) !! p = None)
  \/ (status s' = "completed"
      /\ (exists rel err,
             fst out = Ok ("Warning: Plan completed but cleanup failed for '"
                           +:+ rel +:+ "': " +:+ err))
      /\ persisted (snd out) p s').

(** An error was answered and the files are as they were: what a refused
    write comes to in this model. *)
Definition write_refused (w : world) (out : result string * world) : Prop :=
  exists msg, fst out = Ok msg /\ Text.startswith "Error:" msg = true
              /\ same_files w (snd out).

(** How a call of [track_progress] or [reflect_on_plan] that computed [s']
    ends. *)
Definition finished (cleanup : bool) (w : world) (p : path) (s' : state)
    (out : result string * world) : Prop :=
  later w (snd out) /\ same_files_but p w (snd out)
  /\ (write_refused w out
      \/ (wrote w (snd out) p (_serialize_markdown s')
          /\ if cleanup then cleanup_trichotomy p s' out
             else exists msg, fst out = Ok msg /\ Text.startswith "Error:" msg = false
                              /\ persisted (snd out) p s')).

Definition percent_in_range (percent : option Z) : Prop :=
  match percent with
  | Some p => 0 <= p <= 100
  | None => True
  end.

Definition demote (n : Z) (ix : Z * item) : item :=
  if negb (fst ix =? n) && String.eqb (item_status (snd ix)) "in_progress"
  then set_item_status "pending" (snd ix) else snd ix.

Definition is_in_progress (it : item) : bool := String.eqb (item_status it) "in_progress".

(** The steps [update_plan] writes, for a step number in range. *)
Definition updated_steps (n : Z) (st : string) (l : list item) : list item :=
  alter (set_item_status st) (Z.to_nat (n - 1))
        (if String.eqb st "in_progress" then demote_others n l else l).

(** What may follow a number for its digits to end there. *)
Definition ends_number (rest : string) : Prop :=
  match rest with
  | EmptyString => True
  | String c _ =>
      Decode.isdigit c = false /\ Ascii.eqb c "." = false
      /\ Ascii.eqb c "e" = false /\ Ascii.eqb c "E" = false
  end.

(** A value [json.dumps] writes so that [json.loads] gives it back: no float,
    and the keys of a dict distinct. *)
Inductive plain : json -> Prop :=
| plain_null : plain JNull
| plain_bool (b : bool) : plain (JBool b)
| plain_int (n : Z) : plain (JInt n)
| plain_str (s : string) : plain (JStr s)
| plain_list (l : list json) : Forall plain l -> plain (JList l)
| plain_dict (d : list (string * json)) :
    NoDup (List.map fst d) -> Forall (fun kv => plain (snd kv)) d -> plain (JDict d).

Section json_induction.
Variable P : json -> Prop.
Hypothesis Hnull : P JNull.
Hypothesis Hbool : forall b, P (JBool b).
Hypothesis Hint : forall n, P (JInt n).
Hypothesis Hfloat : forall r, P (JFloat r).
Hypothesis Hstr : forall s, P (JStr s).
Hypothesis Hlist : forall l, Forall P l -> P (JList l).
Hypothesis Hdict : forall d, Forall (fun kv => P (snd kv)) d -> P (JDict d).

Fixpoint json_induction (v : json) : P v :=
  match v with
  | JNull => Hnull
  | JBool b => Hbool b
  | JInt n => Hint n
  | JFloat r => Hfloat r
  | JStr s => Hstr s
  | JList l =>
      Hlist l ((fix go (l : list json) : Forall P l :=
                  match l with
                  | [] => @List.Forall_nil _ P
                  | x :: r => @List.Forall_cons _ P x r (json_induction x) (go r)
                  end) l)
  | JDict d =>
      Hdict d ((fix go (d : list (string * json)) : Forall (fun kv => P (snd kv)) d :=
                  match d with
                  | [] => @List.Forall_nil _ (fun kv => P (snd kv))
                  | (k, x) :: r =>
                      @List.Forall_cons _ (fun kv => P (snd kv)) (k, x) r
                        (json_induction x) (go r)
                  end) d)
  end.
End json_induction.

(** A text that starts with a character that is no whitespace and no closing
    bracket. *)
Definition starts_value (t : string) : Prop :=
  exists c r, t = String c r /\ Decode.isws c = false /\ Ascii.eqb c "]" = false.

(** The text of the items of an array after its opening line. *)
Definition items_text (level : nat) (l : list json) : string :=
  Text.join ("," +:+ Json.newline_indent level) (List.map (Json.render level) l).

Definition entry_text (level : nat) (kv : string * json) : string :=
  Json.dumps_str (fst kv) +:+ ": " +:+ Json.render level (snd kv).

(** The text of the entries of an object after the opening quote of the
    first key. *)
Fixpoint member_tail (level : nat) (kv : string * json) (d : list (string * json))
  : string :=
  Json.escape (fst kv)
  +:+ String Py.dquote
        (String ":" (String " "
           (Json.render level (snd kv)
            +:+ match d with
                | [] => EmptyString
                | kv' :: d' =>
                    String "," (Json.newline_indent level
                                +:+ String Py.dquote (member_tail level kv' d'))
                end))).

(** Where a reader of JSON text is: between tokens, inside a string, or just
    after a backslash inside a string. *)
Inductive lex_state : Type := Outside | Inside | Escaped.

(** One character of JSON text, read loosely: a string holds no raw control
    character, and no backquote stands outside a string. *)
Definition lex_step (st : lex_state) (c : ascii) : option lex_state :=
  match st with
  | Outside =>
      if Ascii.eqb c Py.dquote then Some Inside
      else if Ascii.eqb c "`" then None
      else Some Outside
  | Inside =>
      if Ascii.eqb c Py.dquote then Some Outside
      else if Ascii.eqb c Py.backslash then Some Escaped
      else if Text.between 0 31 c then None
      else Some Inside
  | Escaped => if Text.between 0 31 c then None else Some Inside
  end.

Fixpoint lex (st : lex_state) (s : string) : option lex_state :=
  match s with
  | EmptyString => Some st
  | String c r =>
      match lex_step st c with
      | Some st' => lex st' r
      | None => None
      end
  end.

(** From [s], read from state [st], a prefix that ends between tokens leaves
    [rest]. *)
Definition consumes (st : lex_state) (s rest : string) : Prop :=
  exists c, s = c +:+ rest /\ lex st c = Some Outside.

(** The characters of a number: a reader between tokens stays there. *)
Definition number_text (s : string) : Prop := lex Outside s = Some Outside.

(** The two characters no accepted text holds next to each other: a line
    break, then a backquote. *)
Definition FENCE_BREAK : string := String "010" (String "`" EmptyString).

(** What [_serialize_markdown] writes after the embedded JSON text. *)
Definition FENCE_TAIL : string :=
  NL +:+ "```" +:+ NL +:+ STATE_END +:+ NL +:+ "".

(** The fenced block that [_serialize_markdown] ends a document with. *)
Definition state_block (body : string) : string :=
  STATE_START +:+ NL +:+ "```json" +:+ NL +:+ body +:+ FENCE_TAIL.

Definition no_lt (p : string) : bool :=
  forallb (fun a => negb (Ascii.eqb a "<")) (list_ascii_of_string p).

(** The [dict]s of a state as [json.dumps] writes them: keys in order. *)
Definition item_sorted (it : item) : json :=
  JDict [("description", JStr (item_description it));
         ("id", JInt (item_id it));
         ("status", JStr (item_status it))].

Definition progress_sorted (e : progress_entry) : json :=
  JDict [("message", JStr (pe_message e));
         ("percent_complete", pyint_json (pe_percent_complete e));
         ("timestamp", JStr (pe_timestamp e))].

Definition reflection_sorted (r : reflection) : json :=
  JDict [("next_actions", JList (List.map JStr (rf_next_actions r)));
         ("risks", JList (List.map JStr (rf_risks r)));
         ("summary", JStr (rf_summary r));
         ("timestamp", JStr (rf_timestamp r))].

Definition sorted_entries (s : state) : list (string * json) :=
  [("created_at", JStr (created_at s));
   ("percent_complete", pyint_json (percent_complete s));
   ("progress_log", JList (List.map progress_sorted (progress_log s)));
   ("reflections", JList (List.map reflection_sorted (reflections s)));
   ("status", JStr (status s));
   ("steps", JList (List.map item_sorted (steps s)));
   ("subgoals", JList (List.map item_sorted (subgoals s)));
   ("task", JStr (task s));
   ("updated_at", JStr (updated_at s))].

Definition valid_status (it : item) : bool := str_in (item_status it) VALID_STATUSES.

(** The status of the plan and of each step is one the tools write; a
    completed plan has every step completed; at most one step is in progress. *)
Definition tidy (s : state) : Prop :=
  str_in (status s) ["active"; "completed"] = true
  /\ forallb valid_status (steps s) = true.

Definition sound (s : state) : Prop :=
  tidy s
  /\ (status s = "completed" -> forallb is_completed (steps s) = true)
  /\ (in_progress_count (steps s) <= 1)%nat.

(** The states a call computes from the state [s] it loaded. *)
Inductive transition (s : state) : state -> Prop :=
| tr_update (n : Z) (st note t : string) :
    1 <= n <= Z.of_nat (List.length (steps s)) ->
    str_in st VALID_STATUSES = true ->
    transition s (update_plan_state n st note t s)
| tr_subgoals (l : list string) (replace : bool) (t : string) :
    transition s (set_subgoals_state l replace t s)
| tr_track (note : string) (percent : option Z) (complete_plan : bool) (t : string) :
    transition s (track_progress_state note percent complete_plan t s)
| tr_reflect (summary : string) (risks next_actions : list string) (finalize : bool)
    (t : string) :
    transition s (reflect_on_plan_state summary risks next_actions finalize t s).

(** The states [create_plan] writes. *)
Definition initial (s : state) : Prop :=
  exists task_text l t,
    s = mk_state task_text "active" t t (Some (PInt 0))
          (set_first_status "in_progress" (_build_plan_items l "pending"))
          [] [mk_progress t "Plan created" (Some (PInt 0))] [].

(** The steps of a reloaded state: those of non-blank description. *)
Definition kept (l : list item) : list item :=
  List.filter (fun it => Text.nonempty (Text.strip (item_description it))) l.

(** From [w] to [w'] the files are the same, or one plan was removed, or one
    plan was written: a new one, or one computed from the state loaded. *)
Definition effect (w w' : world) : Prop :=
  later w w'
  /\ (same_files w w'
      \/ exists p, same_files_but p w w'
           /\ (w_nodes w' !! p = None
               \/ exists s', persisted w' p s'
                    /\ (initial s' \/ exists f s, loaded f w p s /\ transition s s'))).

(** The document at [p], if there is one, is the serialization of a sound
    state. *)
Definition sound_at (w : world) (p : path) : Prop :=
  forall content, w_nodes w !! p = Some (File content) ->
    exists s, content = _serialize_markdown s /\ sound s.

(** The fallback plan of [decompose_task]. *)
Definition fallback_steps (normalized : string) : list string :=
  ["Clarify acceptance criteria for: " +:+ normalized;
   "Inspect the relevant code and dependencies";
   "Implement the required code changes";
   "Validate behavior with tests and checks";
   "Summarize results and remaining follow-ups"].

(** The candidate fragments [decompose_task] keeps for a normalized task. *)
Definition fragments (normalized : string) : list string :=
  let candidates :=
    List.flat_map
      (fun sentence => cleaned_parts (Text.re_split_words CONNECTIVES None O sentence))
      (Text.re_split_runs is_sentence_end false normalized) in
  let candidates :=
    if (Z.of_nat (List.length candidates) <? 2) && Text.contains "," normalized
    then candidates
         ++ cleaned_parts (Text.split_on (fun c => Ascii.eqb c ",") normalized)
    else candidates in
  _normalize_text_items candidates.

(** The percentage [_recompute_percent_from_steps] stores for the steps [l]. *)
Definition step_ratio (l : list item) : Z :=
  match l with
  | [] => 0
  | _ => ratio_percent (completed_count l) (Z.of_nat (List.length l))
  end.

(** The rational [m * 2^e]. *)
Definition F2Q (m e : Z) : Q := (inject_Z m * 2 ^ e)%Q.

(** The relative error of one rounding to 53 bits, at most. *)
Definition EPS : Q := (1 # 4503599627370496)%Q.

Definition valid_percent (p : option pyint) : Prop :=
  match p with
  | None => True
  | Some v => 0 <= pyint_value v <= 100
  end.

(** A description that is not empty, a status among the four, and the place
    in the list for id. *)
Definition valid_items (l : list item) : Prop :=
  forall i it, l !! i = Some it ->
    Text.nonempty (item_description it) = true
    /\ str_in (item_status it) VALID_STATUSES = true
    /\ item_id it = Z.of_nat i + 1.

Definition structurally_valid (s : state) : Prop :=
  str_in (status s) ["active"; "completed"] = true
  /\ valid_percent (percent_complete s)
  /\ valid_items (steps s)
  /\ valid_items (subgoals s)
  /\ Forall (fun e => Text.nonempty (pe_message e) = true) (progress_log s)
  /\ Forall (fun r => Text.nonempty (rf_summary r) = true) (reflections s).

(** A text that [strip] leaves as it is and that is not empty. *)
Definition solid (x : string) : Prop := Text.strip x = x /\ Text.nonempty x = true.

(** A list that [_normalize_text_items] leaves as it is. *)
Definition normalized (l : list string) : Prop := Forall solid l /\ NoDup l.

Definition wf_item (it : item) : Prop :=
  solid (item_description it) /\ str_in (item_status it) VALID_STATUSES = true.

Definition wf_items (l : list item) : Prop :=
  Forall wf_item l /\ List.map item_id l = List.map fst (Py.enumerate 1 l).

Definition wf_progress (e : progress_entry) : Prop :=
  solid (pe_timestamp e) /\ solid (pe_message e).

Definition wf_reflection (r : reflection) : Prop :=
  solid (rf_timestamp r) /\ solid (rf_summary r)
  /\ normalized (rf_risks r) /\ normalized (rf_next_actions r).

(** The states that the coercer returns, when the clock gives proper
    timestamps. *)
Definition wf_state (s : state) : Prop :=
  Text.strip (task s) = task s
  /\ str_in (status s) ["active"; "completed"] = true
  /\ solid (created_at s) /\ solid (updated_at s)
  /\ valid_percent (percent_complete s)
  /\ wf_items (steps s) /\ wf_items (subgoals s)
  /\ Forall wf_progress (progress_log s)
  /\ Forall wf_reflection (reflections s).

(** Every reading of the clock is a proper timestamp. *)
Definition clock_ok (w : world) : Prop := forall n, solid (w_clock w n).

(** The steps [create_plan] plans: those given, normalized, or else the
    decomposition of the task in at most six. *)
Definition planned_steps (task_text : string) (given_steps : option (list string))
  : list string :=
  let given :=
    _normalize_text_items (match given_steps with Some l => l | None => [] end) in
  match given with
  | [] => decompose_task task_text 6
  | _ => given
  end.

(** [create_plan], the state it writes at the time [t]. *)
Definition create_plan_state (task : string) (given_steps : option (list string))
    (t : string) : state :=
  mk_state (Text.strip task) "active" t t (Some (PInt 0))
    (set_first_status "in_progress"
       (_build_plan_items (planned_steps (Text.strip task) given_steps) "pending"))
    [] [mk_progress t "Plan created" (Some (PInt 0))] [].

(** The plan file a call names. *)
Definition plan_file_of (c : call) : string :=
  match c with
  | CreatePlan _ _ f _ => f
  | UpdatePlan _ _ _ f => f
  | SetSubgoals _ f _ => f
  | TrackProgress _ _ f _ _ => f
  | ReflectOnPlan _ _ _ f _ _ => f
  end.

(** Whether a call asks for the plan file to be removed. *)
Definition cleanup_of (c : call) : bool :=
  match c with
  | TrackProgress _ _ _ _ cleanup_plan_file => cleanup_plan_file
  | ReflectOnPlan _ _ _ _ _ cleanup_plan_file => cleanup_plan_file
  | _ => false
  end.

Definition creates (c : call) : bool :=
  match c with
  | CreatePlan _ _ _ _ => true
  | _ => false
  end.

(** The state a call writes, from the state [s] it loaded ([create_plan]
    loads none) and the time [t] it read. *)
Definition call_state (c : call) (t : string) (s : state) : state :=
  match c with
  | CreatePlan task given_steps _ _ => create_plan_state task given_steps t
  | UpdatePlan n st note _ => update_plan_state n st note t s
  | SetSubgoals l _ replace => set_subgoals_state (_normalize_text_items l) replace t s
  | TrackProgress message percent _ complete_plan _ =>
      track_progress_state (Text.strip message) percent complete_plan t s
  | ReflectOnPlan summary risks next_actions _ finalize _ =>
      reflect_on_plan_state (Text.strip summary)
        (match risks with Some l => l | None => [] end)
        (match next_actions with Some l => l | None => [] end) finalize t s
  end.

(** The reading of the clock that a call stores. *)
Definition call_stamp (c : call) (w : world) : string :=
  if creates c then w_clock w (w_ticks w) else stamp (plan_file_of c) w.

(** What a call requires of its arguments, and [update_plan] of the plan it
    loaded, before it writes. *)
Definition accepted (c : call) (s : state) : Prop :=
  match c with
  | CreatePlan task _ _ _ => Text.nonempty (Text.strip task) = true
  | UpdatePlan n st _ _ =>
      1 <= n <= Z.of_nat (List.length (steps s)) /\ str_in st VALID_STATUSES = true
  | SetSubgoals l _ _ => _normalize_text_items l <> []
  | TrackProgress message percent _ _ _ =>
      Text.nonempty (Text.strip message) = true /\ percent_in_range percent
  | ReflectOnPlan summary _ _ _ _ _ => Text.nonempty (Text.strip summary) = true
  end.

(** The checklist of [set_subgoals]: the merged descriptions, numbered, each
    with the status its description had, if that is a valid one. *)
Definition merged_subgoals (merged : list string) (current : list item) : list item :=
  List.map
    (fun ix : Z * string =>
       let (idx, description) := ix in
       let existing_status := status_by_description current description "pending" in
       let existing_status :=
         if str_in existing_status VALID_STATUSES then existing_status else "pending" in
       mk_item idx description existing_status)
    (Py.enumerate 1 merged).

(** Whether [track_progress] completes the plan by force. *)
Definition forced (percent : option Z) (complete_plan : bool) : bool :=
  complete_plan || match percent with Some p => p =? 100 | None => false end.

(** [it'] is [it] with a status of the four, perhaps another. *)
Definition restatus (it it' : item) : Prop :=
  item_id it' = item_id it /\ item_description it' = item_description it
  /\ str_in (item_status it') VALID_STATUSES = true.

(** The call wrote nothing and made no directory: it answered an error, or
    the coercer raised while the plan was loaded. *)
Definition refused (c : call) (w : world) (out : result string * world) : Prop :=
  untouched w (snd out)
  /\ ((exists msg, fst out = Ok msg /\ Text.startswith "Error:" msg = true)
      \/ (creates c = false
          /\ exists msg,
               fst (_read_existing_state (plan_file_of c) w) = Raise (TypeError msg)
               /\ fst out = Raise (TypeError msg))).

(** The call wrote the state it computed from [s], and went on to the
    cleanup if that was asked for. *)
Definition written (c : call) (w : world) (s : state) (out : result string * world)
  : Prop :=
  let p := w_resolve w (plan_file_of c) in
  let s' := call_state c (call_stamp c w) s in
  accepted c s
  /\ is_Some (relative_to (w_root w) p)
  /\ later w (snd out) /\ same_files_but p w (snd out)
  /\ wrote w (snd out) p (_serialize_markdown s')
  /\ if cleanup_of c then cleanup_trichotomy p s' out
     else exists msg, fst out = Ok msg /\ Text.startswith "Error:" msg = false
                      /\ persisted (snd out) p s'.

(** The only I/O calls an operation on the plan at [p] makes: it asks about
    [p], reads it, writes it, removes it, or makes its parent directory. *)
Definition touches_only (p : path) (e : io_event) : Prop :=
  match e with
  | ev_mkdir q => q = removelast p
  | ev_stat q | ev_read q | ev_unlink q => q = p
  | ev_write q _ => q = p
  end.

(** From [w] to [w'] only I/O calls that [P] holds of were made. *)
Definition made (P : io_event -> Prop) (w w' : world) : Prop :=
  exists evs, w_trace w' = evs ++ w_trace w /\ Forall P evs.

(** All the I/O calls the computation [m] makes are as [P] says. *)
Definition makes {A : Type} (P : io_event -> Prop) (m : M A) : Prop :=
  forall w, made P w (snd (m w)).

(** A value that is truthy and cannot be iterated, as a number other than
    zero or [True]: what [_normalize_text_items] raises on. *)
Definition truthy_scalar (v : option json) : bool :=
  match v with
  | Some x => Py.truthy x && match Py.iter x with inl _ => true | inr _ => false end
  | None => false
  end.

(** A reflection entry on which [_coerce_reflections] raises: a dict with a
    summary, whose risks or next actions are such a value. *)
Definition unreadable_reflection (entry : json) : Prop :=
  exists d,
    entry = JDict d
    /\ Text.nonempty (Text.strip (Py.str (Py.get_or d "summary" (JStr "")))) = true
    /\ (truthy_scalar (Py.get d "risks") = true
        \/ truthy_scalar (Py.get d "next_actions") = true).

(** The [OSError], if any, that the [k]-th I/O call made from [w] on meets,
    the next call being the call 0. *)
Definition refusal (w : world) (k : nat) : option string :=
  w_oserror w (List.length (w_trace w) + k).

(** No component of the directory of [p] is a file: the directory is there,
    or it can be made. *)
Definition directory_clear (w : world) (p : path) : bool :=
  negb (existsb (fun a => is_file_node (w_nodes w !! a)) (ancestors (removelast p))).

(** An operation that loads its plan from [w] makes three I/O calls to do so,
    [exists], [is_file] and [read_text]; its next calls are [mkdir] and
    [write_text], and then [unlink] when cleanup is asked for.  The refusal
    that the write of the new state meets, at making the directory or at
    writing the file, and the refusal that the removal meets. *)
Definition write_refusal (w : world) : option string :=
  match refusal w 3 with
  | Some err => Some err
  | None => refusal w 4
  end.

Definition unlink_refusal (w : world) : option string := refusal w 5.

(** What [_write_state] answers when the write is refused with [err]. *)
Definition unable_to_write (p : path) (err : string) : string :=
  "Error: Unable to write plan file '" +:+ as_posix p +:+ "': " +:+ err.

(** How a call ends once it has written the state [s'] at [p], when the
    removal of the plan file, if it comes to that, meets the refusal
    [refused]. *)
Definition ending (cleanup : bool) (refused : option string) (p : path) (s' : state)
    (out : result string * world) : Prop :=
  if cleanup
  then
    if negb (String.eqb (status s') "completed")
    then fst out = Ok "Error: cleanup_plan_file requires a completed plan"
         /\ persisted (snd out) p s'
    else
      match refused with
      | None =>
          (exists rel, fst out = Ok ("Completed plan and removed " +:+ rel))
          /\ w_nodes (snd out) !! p = None
      | Some err =>
          (exists rel,
              fst out = Ok ("Warning: Plan completed but cleanup failed for '"
                            +:+ rel +:+ "': " +:+ err))
          /\ persisted (snd out) p s'
      end
  else succeeded out /\ persisted (snd out) p s'.

(** Whether a call completes the plan by force: [track_progress] told to or
    given 100 percent, [reflect_on_plan] told to finalize. *)
Definition completes (c : call) : bool :=
  match c with
  | TrackProgress _ percent _ complete_plan _ => forced percent complete_plan
  | ReflectOnPlan _ _ _ _ finalize _ => finalize
  | _ => false
  end.

(** The only changes an operation on the plan at [p] makes: it writes [p] or
    removes it, or makes its parent directory.  What it asks about or reads
    is left open. *)
Definition changes_only (p : path) (e : io_event) : Prop :=
  match e with
  | ev_mkdir q => q = removelast p
  | ev_write q _ | ev_unlink q => q = p
  | ev_stat _ | ev_read _ => True
  end.

(** ** A workspace to run the operations in *)

(** What each call of a sequence answered. *)
Fixpoint answers (cs : list call) (w : world) : list (option string) :=
  match cs with
  | [] => []
  | c :: rest => answer (run_call c w) :: answers rest (snd (run_call c w))
  end.

(** A clock that advances by a second at each reading. *)
Definition clock_by_seconds (n : nat) : string :=
  "2024-01-01T00:00:0" +:+ Text.of_Z (Z.of_nat n) +:+ "+00:00".

(** What [json.loads] says of a text that opens an object and goes on with
    prose on the next line, as the texts refused below do. *)
Definition prose_in_object (text : string) : string :=
  "Expecting property name enclosed in double quotes: line 2 column 1 (char 2)".

(** The workspace [/ws], with no file in it and no I/O call refused. *)
Definition empty_workspace : world :=
  mk_world ["ws"] (fun f => ["ws"; f]) ∅ clock_by_seconds 0 (fun _ => None)
           prose_in_object [].

(** The empty workspace at a clock that stands still. *)
Definition still_workspace : world :=
  mk_world ["ws"] (fun f => ["ws"; f]) ∅ (fun _ => "2024-01-01T00:00:00+00:00") 0
           (fun _ => None) prose_in_object [].

(** The workspace with the one file [p] of content [content]. *)
Definition workspace_with (p : string) (content : string) : world :=
  mk_world ["ws"] (fun f => ["ws"; f]) {[ ["ws"; p] := File content ]}
           clock_by_seconds 1 (fun _ => None) prose_in_object [].

(** A plan of two steps, as [create_plan] leaves it. *)
Definition planned_world : world :=
  snd (create_plan "Write the parser then test it" None "plan.md" false empty_workspace).

Definition planned_state : state :=
  mk_state "Write the parser then test it" "active"
    "2024-01-01T00:00:00+00:00" "2024-01-01T00:00:00+00:00" (Some (PInt 0))
    [mk_item 1 "Write the parser" "in_progress"; mk_item 2 "test it" "pending"]
    [] [mk_progress "2024-01-01T00:00:00+00:00" "Plan created" (Some (PInt 0))] [].

(** A plan of one step, given a subgoal, then its step completed. *)
Definition shipping : list call :=
  [CreatePlan "Ship it" (Some ["only step"]) "p.md" false;
   SetSubgoals ["quality"] "p.md" true;
   UpdatePlan 1 "completed" "" "p.md"].

Definition shipped_state : state :=
  mk_state "Ship it" "completed"
    "2024-01-01T00:00:00+00:00" "2024-01-01T00:00:02+00:00" (Some (PInt 100))
    [mk_item 1 "only step" "completed"]
    [mk_item 1 "quality" "pending"]
    [mk_progress "2024-01-01T00:00:00+00:00" "Plan created" (Some (PInt 0))] [].

(** A task that quotes the opening of the state block. *)
Definition marker_task : string := STATE_START +:+ "```json{".

Definition marker_state : state :=
  mk_state marker_task "active"
    "2024-01-01T00:00:00+00:00" "2024-01-01T00:00:00+00:00" None [] [] [] [].

(** What the pattern of [_load_state_from_markdown] captures in the document
    of [marker_state]: from the brace of the task line on. *)
Definition marker_capture : string :=
  match Pattern.search (_serialize_markdown marker_state) with
  | Some group1 => group1
  | None => EmptyString
  end.

(** A plan without steps, which only a document written by hand holds. *)
Definition bare_state : state :=
  mk_state "Empty plan" "active"
    "2024-01-01T00:00:00+00:00" "2024-01-01T00:00:00+00:00" None [] [] [] [].

Definition bare_world : world := workspace_with "p.md" (_serialize_markdown bare_state).

(** A plan of forty steps, the first twenty-two completed. *)
Definition forty_steps : list item :=
  List.map
    (fun i => mk_item i ("step " +:+ Text.of_Z i)
                      (if i <=? 22 then "completed" else "pending"))
    (List.map Z.of_nat (seq 1 40)).

Definition forty_state : state :=
  mk_state "Forty steps" "active"
    "2024-01-01T00:00:00+00:00" "2024-01-01T00:00:00+00:00" (Some (PInt 55))
    forty_steps [] [] [].

Definition forty_world : world := workspace_with "p.md" (_serialize_markdown forty_state).

(** Modelled from the spec: [round(100 * completed_count / total_steps)], the
    product first and one division. *)
Definition spec_percent (completed total : Z) : Z :=
  Float.round (Float.truediv (100 * completed) total).

(** [p] is an integer nearest to [100 * completed / total]. *)
Definition nearest_percent (completed total p : Z) : bool :=
  Z.abs (200 * completed - 2 * p * total) <=? total.

(** A plan of one step with one subgoal. *)
Definition refined_world : world :=
  run_calls [CreatePlan "Ship it" (Some ["only step"]) "p.md" false;
             SetSubgoals ["quality"] "p.md" true] empty_workspace.

Definition refined_state : state :=
  mk_state "Ship it" "active"
    "2024-01-01T00:00:00+00:00" "2024-01-01T00:00:01+00:00" (Some (PInt 0))
    [mk_item 1 "only step" "in_progress"]
    [mk_item 1 "quality" "pending"]
    [mk_progress "2024-01-01T00:00:00+00:00" "Plan created" (Some (PInt 0))] [].

(** The plan of two steps, created at a clock that stands still. *)
Definition still_planned_world : world :=
  snd (create_plan "Write the parser then test it" None "plan.md" false still_workspace).

(** The workspace with the plan without steps, where the operating system
    refuses the sixth I/O call. *)
Definition guarded_world : world :=
  mk_world ["ws"] (fun f => ["ws"; f])
           {[ ["ws"; "p.md"] := File (_serialize_markdown bare_state) ]}
           clock_by_seconds 1
           (fun n => if (n =? 5)%nat then Some "[Errno 13] Permission denied" else None)
           prose_in_object [].

(** The plan of two steps after its second step was put in progress. *)
Definition moving : list call :=
  [CreatePlan "Write the parser then test it" None "plan.md" false;
   UpdatePlan 2 "in_progress" "" "plan.md"].

Definition moved_state : state :=
  mk_state "Write the parser then test it" "active"
    "2024-01-01T00:00:00+00:00" "2024-01-01T00:00:01+00:00" (Some (PInt 0))
    [mk_item 1 "Write the parser" "pending"; mk_item 2 "test it" "in_progress"]
    [] [mk_progress "2024-01-01T00:00:00+00:00" "Plan created" (Some (PInt 0))] [].




(** * Properties *)

(** ** Computations that only ask *)

Lemma untouched_refl (w : world) : untouched w w.
Proof.
  repeat split; exists []; split; [reflexivity | constructor].
Qed.

Lemma untouched_trans (w1 w2 w3 : world) :
  untouched w1 w2 -> untouched w2 w3 -> untouched w1 w3.
Proof.
  intros (R1 & S1 & C1 & O1 & N1 & e1 & T1 & F1) (R2 & S2 & C2 & O2 & N2 & e2 & T2 & F2).
  repeat split; try congruence.
  exists (e2 ++ e1); split.
  - rewrite T2, T1. now rewrite app_assoc.
  - apply Forall_app; split; assumption.
Qed.

Lemma quiet_ret {A : Type} (a : A) : quiet (ret a).
Proof. intros w; apply untouched_refl. Qed.

Lemma quiet_raise {A : Type} (e : exn) : quiet (@raise A e).
Proof. intros w; apply untouched_refl. Qed.

Lemma quiet_lift {A : Type} (r : exn + A) : quiet (lift r).
Proof. destruct r; [apply quiet_raise | apply quiet_ret]. Qed.

Lemma quiet_bind {A B : Type} (m : M A) (k : A -> M B) :
  quiet m -> (forall a, quiet (k a)) -> quiet (bind m k).
Proof.
  intros Hm Hk w. unfold bind. specialize (Hm w).
  destruct (m w) as [[a | e] w1]; simpl in *.
  - eapply untouched_trans; [exact Hm | apply Hk].
  - exact Hm.
Qed.

Lemma quiet_attempt {A : Type} (sel : exn -> option string) (m : M A) :
  quiet m -> quiet (attempt sel m).
Proof.
  intros Hm w. unfold attempt. specialize (Hm w).
  destruct (m w) as [[a | e] w1]; simpl in *; [exact Hm |].
  destruct (sel e); exact Hm.
Qed.

Lemma quiet_for_each {A B : Type} (f : A -> M (list B)) (l : list A) :
  (forall a, quiet (f a)) -> quiet (for_each f l).
Proof.
  intros Hf. induction l as [| x rest IH]; simpl.
  - apply quiet_ret.
  - apply quiet_bind; [apply Hf |]. intros ys.
    apply quiet_bind; [exact IH |]. intros zs. apply quiet_ret.
Qed.

Lemma quiet_now : quiet _now_utc_iso.
Proof. intros w. repeat split; exists []; split; [reflexivity | constructor]. Qed.

Lemma quiet_or_now (text : string) : quiet (or_now text).
Proof. unfold or_now. destruct (Text.nonempty text); [apply quiet_ret | apply quiet_now]. Qed.

Lemma quiet_io_stat (p : path) : quiet (io_stat p).
Proof.
  intros w. repeat split. exists [ev_stat p]; split; [reflexivity |].
  repeat constructor.
Qed.

Lemma quiet_read_text (p : path) : quiet (read_text p).
Proof.
  intros w. unfold read_text, bind, io_call.
  destruct (w_oserror w (List.length (w_trace w))); simpl.
  - repeat split. exists [ev_read p]; split; [reflexivity | repeat constructor].
  - destruct (w_nodes w !! p) as [[c |] |]; simpl;
      (repeat split; exists [ev_read p]; split; [reflexivity | repeat constructor]).
Qed.

Lemma quiet_resolve (f : string) : quiet (_resolve_workspace_path f).
Proof.
  intros w. unfold _resolve_workspace_path.
  destruct (relative_to (w_root w) (w_resolve w f)); apply untouched_refl.
Qed.

Lemma quiet_relative (p : path) : quiet (_to_workspace_relative p).
Proof.
  intros w. unfold _to_workspace_relative.
  destruct (relative_to (w_root w) p) as [[| c rel] |]; apply untouched_refl.
Qed.

Lemma quiet_coerce_state (d : list (string * json)) : quiet (_coerce_state d).
Proof.
  unfold _coerce_state.
  apply quiet_bind; [apply quiet_or_now |]. intros created.
  apply quiet_bind.
  - unfold _coerce_progress.
    destruct (Py.get d "progress_log") as [[] |]; try apply quiet_ret.
    apply quiet_for_each. intros e. unfold coerce_progress_entry.
    destruct e; try apply quiet_ret.
    apply quiet_bind; [apply quiet_or_now |]. intros t.
    destruct (negb _); apply quiet_ret.
  - intros pl. apply quiet_bind; [| intros; apply quiet_ret].
    unfold _coerce_reflections.
    destruct (Py.get d "reflections") as [[] |]; try apply quiet_ret.
    apply quiet_for_each. intros e. unfold coerce_reflection.
    destruct e; try apply quiet_ret.
    apply quiet_bind; [apply quiet_or_now |]. intros t.
    destruct (negb _); [apply quiet_ret |].
    apply quiet_bind; [apply quiet_lift |]. intros r.
    apply quiet_bind; [apply quiet_lift |]. intros n. apply quiet_ret.
Qed.

Lemma quiet_load (content : string) : quiet (_load_state_from_markdown content).
Proof.
  unfold _load_state_from_markdown.
  destruct (Pattern.search content); [| apply quiet_raise].
  destruct (Decode.loads s) as [[] |]; try apply quiet_raise.
  - apply quiet_coerce_state.
  - intros w. apply untouched_refl.
Qed.

Lemma quiet_read_existing_state (f : string) : quiet (_read_existing_state f).
Proof.
  unfold _read_existing_state.
  apply quiet_bind; [apply quiet_attempt, quiet_resolve |]. intros [err | p].
  { apply quiet_ret. }
  apply quiet_bind; [unfold path_exists; apply quiet_bind;
                     [apply quiet_io_stat | intros; apply quiet_ret] |].
  intros found. destruct (negb found); [apply quiet_ret |].
  apply quiet_bind; [unfold path_is_file; apply quiet_bind;
                     [apply quiet_io_stat | intros; apply quiet_ret] |].
  intros isf. destruct (negb isf); [apply quiet_ret |].
  apply quiet_bind; [apply quiet_attempt, quiet_read_text |]. intros [err | content].
  { apply quiet_ret. }
  apply quiet_bind; [apply quiet_attempt, quiet_load |].
  intros [err | s]; apply quiet_ret.
Qed.

#[local] Arguments String.append : simpl nomatch.
#[local] Arguments Json.newline_indent : simpl never.
#[local] Arguments Json.render : simpl never.

(** ** Writing and removing a plan file *)

Lemma later_refl (w : world) : later w w.
Proof. repeat split. exists []. reflexivity. Qed.

Lemma later_trans (w1 w2 w3 : world) : later w1 w2 -> later w2 w3 -> later w1 w3.
Proof.
  intros (R1 & S1 & C1 & O1 & e1 & T1) (R2 & S2 & C2 & O2 & e2 & T2).
  repeat split; try congruence.
  exists (e2 ++ e1). rewrite T2, T1. now rewrite app_assoc.
Qed.

Lemma untouched_later (w w' : world) : untouched w w' -> later w w'.
Proof.
  intros (R & S & C & O & N & e & T & F). repeat split; try assumption. now exists e.
Qed.

Lemma untouched_same_files (w w' : world) : untouched w w' -> same_files w w'.
Proof. intros (R & S & C & O & N & e) q c. now rewrite N. Qed.

Lemma same_files_refl (w : world) : same_files w w.
Proof. intros q c. reflexivity. Qed.

Lemma same_files_trans (w1 w2 w3 : world) :
  same_files w1 w2 -> same_files w2 w3 -> same_files w1 w3.
Proof. intros H1 H2 q c. etransitivity; [apply H2 | apply H1]. Qed.

Lemma same_files_weaken (p : path) (w w' : world) :
  same_files w w' -> same_files_but p w w'.
Proof. intros H q c _. apply H. Qed.

Lemma same_files_but_trans (p : path) (w1 w2 w3 : world) :
  same_files_but p w1 w2 -> same_files_but p w2 w3 -> same_files_but p w1 w3.
Proof. intros H1 H2 q c Hq. etransitivity; [now apply H2 | now apply H1]. Qed.

Lemma io_call_spec (e : io_event) (w : world) :
  let out := io_call e w in
  w_nodes (snd out) = w_nodes w /\ later w (snd out)
  /\ w_trace (snd out) = e :: w_trace w
  /\ (fst out = Ok tt \/ exists msg, fst out = Raise (OSError msg)).
Proof.
  unfold io_call. destruct (w_oserror w (List.length (w_trace w))); simpl.
  - repeat split; [exists [e]; reflexivity | right; eauto].
  - repeat split; [exists [e]; reflexivity | left; reflexivity].
Qed.

Lemma lookup_made_dirs (l : list path) (m : gmap path node) (q : path) :
  List.fold_right (fun a m => <[a := Dir]> m) m l !! q
  = if decide (q ∈ l) then Some Dir else m !! q.
Proof.
  induction l as [| a l IH]; simpl.
  - destruct (decide (q ∈ [])) as [H | H]; [inversion H | reflexivity].
  - destruct (decide (a = q)) as [-> | Hne].
    + rewrite lookup_insert_eq. destruct (decide (q ∈ q :: l)); [reflexivity |].
      exfalso. apply n. left.
    + rewrite lookup_insert_ne by assumption. rewrite IH.
      destruct (decide (q ∈ l)), (decide (q ∈ a :: l)); try reflexivity.
      * exfalso. apply n. now right.
      * exfalso. apply elem_of_cons in e as [-> | H]; [now apply Hne | now apply n].
Qed.

Lemma mkdir_parents_spec (p : path) (w : world) :
  let out := mkdir_parents p w in
  later w (snd out) /\ same_files w (snd out)
  /\ w_trace (snd out) = ev_mkdir p :: w_trace w
  /\ (fst out = Ok tt \/ exists msg, fst out = Raise (OSError msg)).
Proof.
  unfold mkdir_parents, bind, same_files.
  destruct (io_call_spec (ev_mkdir p) w) as (N & L & T & R).
  destruct (io_call (ev_mkdir p) w) as [[[] | e] w1]; simpl in *.
  - destruct (existsb _ _) eqn:Hfile; simpl.
    + split; [exact L |]. split; [intros q c; now rewrite N |].
      split; [exact T | right; eauto].
    + split; [exact L |]. split; [| split; [exact T | left; reflexivity]].
      intros q c. rewrite lookup_made_dirs, N.
      destruct (decide (q ∈ ancestors p)) as [Hin | Hout]; [| reflexivity].
      split; [discriminate |]. intros Hq. exfalso.
      assert (existsb (fun a => is_file_node (w_nodes w1 !! a)) (ancestors p) = true).
      { apply existsb_exists. exists q. split; [now apply list_elem_of_In |].
        rewrite N, Hq. reflexivity. }
      congruence.
  - split; [exact L |]. split; [intros q c; now rewrite N |].
    split; [exact T |]. destruct R as [R | R]; [discriminate | right; exact R].
Qed.

Lemma write_text_spec (p : path) (content : string) (w : world) :
  let out := write_text p content w in
  later w (snd out) /\ same_files_but p w (snd out)
  /\ w_trace (snd out) = ev_write p content :: w_trace w
  /\ ((fst out = Ok tt /\ w_nodes (snd out) !! p = Some (File content))
      \/ ((exists msg, fst out = Raise (OSError msg)) /\ w_nodes (snd out) = w_nodes w)).
Proof.
  unfold write_text, bind, same_files_but.
  destruct (io_call_spec (ev_write p content) w) as (N & L & T & R).
  destruct (io_call (ev_write p content) w) as [[[] | e] w1]; simpl in *.
  - destruct (w_nodes w1 !! p) as [[c |] |] eqn:Hp; simpl.
    + split; [exact L |]. split; [| split; [exact T |]].
      * intros q c' Hq. rewrite lookup_insert_ne by congruence. now rewrite N.
      * left. split; [reflexivity | apply lookup_insert_eq].
    + split; [exact L |]. split; [| split; [exact T |]].
      * intros q c' Hq. now rewrite N.
      * right. split; [eauto | assumption].
    + split; [exact L |]. split; [| split; [exact T |]].
      * intros q c' Hq. rewrite lookup_insert_ne by congruence. now rewrite N.
      * left. split; [reflexivity | apply lookup_insert_eq].
  - split; [exact L |]. split; [| split; [exact T |]].
    + intros q c' Hq. now rewrite N.
    + right. split; [| assumption]. destruct R as [R | R]; [discriminate | exact R].
Qed.

Lemma unlink_spec (p : path) (w : world) :
  let out := unlink_missing_ok p w in
  later w (snd out) /\ same_files_but p w (snd out)
  /\ w_trace (snd out) = ev_unlink p :: w_trace w
  /\ ((fst out = Ok tt /\ w_nodes (snd out) !! p = None)
      \/ ((exists msg, fst out = Raise (OSError msg)) /\ w_nodes (snd out) = w_nodes w)).
Proof.
  unfold unlink_missing_ok, bind, same_files_but.
  destruct (io_call_spec (ev_unlink p) w) as (N & L & T & R).
  destruct (io_call (ev_unlink p) w) as [[[] | e] w1]; simpl in *.
  - destruct (w_nodes w1 !! p) as [[c |] |] eqn:Hp; simpl.
    + split; [exact L |]. split; [| split; [exact T |]].
      * intros q c' Hq. rewrite lookup_delete_ne by congruence. now rewrite N.
      * left. split; [reflexivity | apply lookup_delete_eq].
    + split; [exact L |]. split; [| split; [exact T |]].
      * intros q c' Hq. now rewrite N.
      * right. split; [eauto | assumption].
    + split; [exact L |]. split; [| split; [exact T |]].
      * intros q c' Hq. rewrite lookup_delete_ne by congruence. now rewrite N.
      * left. split; [reflexivity | apply lookup_delete_eq].
  - split; [exact L |]. split; [| split; [exact T |]].
    + intros q c' Hq. now rewrite N.
    + right. split; [| assumption]. destruct R as [R | R]; [discriminate | exact R].
Qed.

Lemma relative_ok (p : path) (w : world) :
  is_Some (relative_to (w_root w) p) ->
  exists rel, _to_workspace_relative p w = (Ok rel, w).
Proof.
  intros [rel H]. unfold _to_workspace_relative. rewrite H.
  destruct rel; eauto.
Qed.

Lemma later_root (w w' : world) : later w w' -> w_root w' = w_root w.
Proof. now intros (R & _). Qed.

Lemma write_state_spec (p : path) (s : state) (w : world) :
  is_Some (relative_to (w_root w) p) ->
  let out := _write_state p s w in
  later w (snd out) /\ same_files_but p w (snd out)
  /\ exists msg, fst out = Ok msg
     /\ ((Text.startswith "Error:" msg = true /\ same_files w (snd out))
         \/ (Text.startswith "Error:" msg = false /\ persisted (snd out) p s
             /\ wrote w (snd out) p (_serialize_markdown s))).
Proof.
  intros Hin. unfold _write_state, catch, bind.
  destruct (mkdir_parents_spec (removelast p) w) as (L1 & F1 & T1 & R1).
  destruct (mkdir_parents (removelast p) w) as [[[] | e1] w1]; simpl in *.
  2:{ destruct R1 as [R1 | [msg R1]]; [discriminate |]. injection R1 as ->. simpl.
      split; [exact L1 |]. split; [now apply same_files_weaken |].
      eexists; split; [reflexivity |]. left. split; [reflexivity | exact F1]. }
  destruct (write_text_spec p (_serialize_markdown s) w1) as (L2 & F2 & T2 & R2).
  destruct (write_text p (_serialize_markdown s) w1) as [[[] | e2] w2]; simpl in *.
  2:{ destruct R2 as [[R2 _] | [[msg R2] N2]]; [discriminate |]. injection R2 as ->. simpl.
      split; [eapply later_trans; eassumption |].
      split; [eapply same_files_but_trans; [apply same_files_weaken |]; eassumption |].
      eexists; split; [reflexivity |]. left. split; [reflexivity |].
      intros q c. rewrite N2. apply F1. }
  destruct R2 as [[_ N2] | [[msg R2] _]]; [| discriminate].
  assert (Hin2 : is_Some (relative_to (w_root w2) p)).
  { rewrite (later_root _ _ L2), (later_root _ _ L1). exact Hin. }
  destruct (relative_ok p w2 Hin2) as [rel Hrel]. rewrite Hrel. simpl.
  split; [eapply later_trans; eassumption |].
  split; [eapply same_files_but_trans; [apply same_files_weaken |]; eassumption |].
  eexists; split; [reflexivity |]. right. split; [reflexivity |].
  split; [exact N2 |].
  exists [ev_write p (_serialize_markdown s); ev_mkdir (removelast p)].
  split; [rewrite T2, T1; reflexivity | left; reflexivity].
Qed.

(** What [_maybe_cleanup_plan_file] can do to a plan that was just
    persisted. *)
Lemma cleanup_spec (p : path) (s : state) (w : world) :
  is_Some (relative_to (w_root w) p) ->
  persisted w p s ->
  let out := _maybe_cleanup_plan_file p true s w in
  later w (snd out) /\ same_files_but p w (snd out)
  /\ ((status s <> "completed"
       /\ fst out = Ok (Some "Error: cleanup_plan_file requires a completed plan")
       /\ snd out = w)
      \/ (status s = "completed"
          /\ (exists rel, fst out = Ok (Some ("Completed plan and removed " +:+ rel)))
          /\ w_nodes (snd out) !! p = None)
      \/ (status s = "completed"
          /\ (exists rel err,
                 fst out = Ok (Some ("Warning: Plan completed but cleanup failed for '"
                                     +:+ rel +:+ "': " +:+ err)))
          /\ persisted (snd out) p s)).
Proof.
  intros Hin Hp. unfold _maybe_cleanup_plan_file. cbn [negb].
  destruct (String.eqb (status s) "completed") eqn:Hst; cbn [negb].
  2:{ simpl. split; [apply later_refl |]. split; [apply same_files_weaken, same_files_refl |].
      left. split; [| split; reflexivity]. now apply String.eqb_neq. }
  apply String.eqb_eq in Hst. unfold catch, bind.
  destruct (unlink_spec p w) as (L & F & T & R).
  destruct (unlink_missing_ok p w) as [[[] | e] w1]; cbn [fst snd] in *.
  - destruct R as [[_ N] | [[msg R] _]]; [| discriminate].
    assert (Hin1 : is_Some (relative_to (w_root w1) p))
      by (rewrite (later_root _ _ L); exact Hin).
    destruct (relative_ok p w1 Hin1) as [rel Hrel]. rewrite Hrel. simpl.
    split; [exact L |]. split; [exact F |].
    right; left. split; [exact Hst |]. split; [eauto | exact N].
  - destruct R as [[R _] | [[msg R] N]]; [discriminate |]. injection R as ->.
    assert (Hin1 : is_Some (relative_to (w_root w1) p))
      by (rewrite (later_root _ _ L); exact Hin).
    destruct (relative_ok p w1 Hin1) as [rel Hrel].
    cbn [on_OSError]. unfold bind. rewrite Hrel. simpl.
    split; [exact L |]. split; [exact F |].
    right; right. split; [exact Hst |]. split; [eauto |].
    unfold persisted. rewrite N. exact Hp.
Qed.

(** What [_read_existing_state] answers. *)
Lemma read_existing_spec (f : string) (w : world) :
  match fst (_read_existing_state f w) with
  | Ok (Some p, Some s, err) =>
      err = EmptyString /\ p = w_resolve w f /\ is_Some (relative_to (w_root w) p)
      /\ exists content w1 w2,
           w_nodes w !! p = Some (File content)
           /\ later w w1
           /\ _load_state_from_markdown content w1 = (Ok s, w2)
  | Ok (None, Some _, _) => False
  | Ok (_, None, err) => Text.startswith "Error:" err = true
  | Raise e => True
  end.
Proof.
  unfold _read_existing_state, bind, attempt, _resolve_workspace_path, path_exists,
    path_is_file, read_text, io_call, io_stat, bind, ret.
  destruct (relative_to (w_root w) (w_resolve w f)) as [rel |] eqn:Hrel;
    cbn -[_load_state_from_markdown]; [| reflexivity].
  destruct (w_nodes w !! w_resolve w f) as [[content |] |] eqn:Hnode;
    cbn -[_load_state_from_markdown]; try reflexivity.
  rewrite Hnode. cbn -[_load_state_from_markdown].
  destruct (w_oserror w _); cbn -[_load_state_from_markdown]; [reflexivity |].
  rewrite Hnode. cbn -[_load_state_from_markdown].
  match goal with |- context [_load_state_from_markdown content ?w1] =>
    set (w1' := w1);
    destruct (_load_state_from_markdown content w1') as [[s | e] w2] eqn:Hload end;
    cbn -[_load_state_from_markdown].
  - split; [reflexivity |]. split; [reflexivity |]. split; [eauto |].
    exists content, w1', w2. split; [exact Hnode |]. split; [| exact Hload].
    repeat split.
    exists [ev_read (w_resolve w f); ev_stat (w_resolve w f); ev_stat (w_resolve w f)].
    reflexivity.
  - destruct e as [msg | msg | msg]; cbn; trivial.
  - rewrite Hnode. reflexivity.
Qed.

(** ** The anatomy of a call that loaded a plan *)

Lemma loaded_inside (f : string) (w : world) (p : path) (s : state) :
  loaded f w p s -> is_Some (relative_to (w_root w) p).
Proof.
  intros H. pose proof (read_existing_spec f w) as Hs. rewrite H in Hs. tauto.
Qed.

Lemma wrote_later (w w1 w2 : world) (p : path) (c : string) :
  later w w1 -> wrote w1 w2 p c -> wrote w w2 p c.
Proof.
  intros (_ & _ & _ & _ & e1 & T1) (e2 & T2 & Hin).
  exists (e2 ++ e1). split; [rewrite T2, T1; now rewrite app_assoc |].
  apply in_or_app. now left.
Qed.

Lemma same_files_later_but (p : path) (w w1 w2 : world) :
  same_files w w1 -> same_files_but p w1 w2 -> same_files_but p w w2.
Proof.
  intros H1 H2. eapply same_files_but_trans; [apply same_files_weaken |]; eassumption.
Qed.

Lemma now_spec (w : world) :
  fst (_now_utc_iso w) = Ok (w_clock w (w_ticks w)) /\ untouched w (snd (_now_utc_iso w)).
Proof. split; [reflexivity | apply quiet_now]. Qed.

(** The common middle of the four operations that load, change and write:
    the clock is read, the new state written, and on success [tail] runs. *)
Lemma commit_spec (w w1 : world) (p : path) (mk : string -> state)
    (tail_ : state -> M string) :
  untouched w w1 ->
  is_Some (relative_to (w_root w) p) ->
  let s' := mk (w_clock w1 (w_ticks w1)) in
  let out :=
    (timestamp <- _now_utc_iso ;;
     write_result <- _write_state p (mk timestamp) ;;
     if Text.startswith "Error:" write_result then ret write_result
     else tail_ (mk timestamp)) w1 in
  (exists msg, fst out = Ok msg /\ Text.startswith "Error:" msg = true
               /\ later w (snd out) /\ same_files w (snd out))
  \/ (exists w3, out = tail_ s' w3 /\ later w w3 /\ same_files_but p w w3
                 /\ persisted w3 p s' /\ wrote w w3 p (_serialize_markdown s')).
Proof.
  intros Hu Hin s' out.
  assert (E : out = out) by reflexivity. unfold out at 2 in E. clearbody out.
  unfold bind in E.
  destruct (now_spec w1) as [Hn Hq].
  destruct (_now_utc_iso w1) as [r w2]. cbn [fst snd] in Hn, Hq. subst r. fold s' in E.
  assert (Hin2 : is_Some (relative_to (w_root w2) p)).
  { destruct Hq as (-> & _). destruct Hu as (-> & _). exact Hin. }
  destruct (write_state_spec p s' w2 Hin2) as (L & F & msg & Hm & Hcase).
  destruct (_write_state p s' w2) as [r w3]. cbn [fst snd] in *. subst r.
  assert (L02 : later w w2)
    by (eapply later_trans; apply untouched_later; eassumption).
  assert (F02 : same_files w w2)
    by (eapply same_files_trans; apply untouched_same_files; eassumption).
  destruct Hcase as [[He Hf] | (He & Hp & Hw)]; rewrite He in E; subst out.
  - left. exists msg. cbn [fst snd ret].
    split; [reflexivity |]. split; [exact He |].
    split; [eapply later_trans; eassumption | eapply same_files_trans; eassumption].
  - right. exists w3. split; [reflexivity |].
    split; [eapply later_trans; eassumption |].
    split; [eapply same_files_later_but; eassumption |].
    split; [exact Hp |]. eapply wrote_later; eassumption.
Qed.

Lemma loaded_untouched (f : string) (w : world) :
  untouched w (snd (_read_existing_state f w)).
Proof. apply quiet_read_existing_state. Qed.

(** [update_plan] on a loaded plan, with a step number in range and a valid
    status. *)
Lemma update_plan_loaded_at (n : Z) (st note f : string) (w : world) (p : path) (s : state) :
  loaded f w p s -> 1 <= n <= Z.of_nat (List.length (steps s)) ->
  str_in st VALID_STATUSES = true ->
  committed w p (update_plan_state n st note (stamp f w) s) (update_plan n st note f w).
Proof.
  intros Hl Hn Hv. pose proof (loaded_inside _ _ _ _ Hl) as Hin.
  pose proof (loaded_untouched f w) as Hu.
  unfold stamp, update_plan. replace (n <? 1) with false by (symmetry; apply Z.ltb_ge; lia).
  rewrite Hv. cbn [negb]. unfold bind at 1. unfold loaded in Hl.
  destruct (_read_existing_state f w) as [r w1]. simpl in Hl, Hu. subst r.
  remember (Z.of_nat (List.length (steps s))) as len eqn:Hlen.
  replace (n >? len) with false by (symmetry; rewrite Z.gtb_ltb; apply Z.ltb_ge; lia).
  destruct (steps s) as [| it rest] eqn:Hsteps; [simpl in Hlen; lia |].
  cbn [snd].
  destruct (commit_spec w w1 p (fun t => update_plan_state n st note t s)
              (fun _ => rel <- _to_workspace_relative p ;;
                        ret ("Updated step " +:+ Text.of_Z n +:+ " to '" +:+ st
                             +:+ "' in " +:+ rel)) Hu Hin)
    as [(msg & Hm & He & L & F) | (w3 & Ho & L & F & Hp & Hw)].
  - split; [exact L |]. split; [now apply same_files_weaken |].
    exists msg. split; [exact Hm |]. left. now split.
  - cbv zeta in Ho. rewrite Ho.
    assert (Hin3 : is_Some (relative_to (w_root w3) p))
      by (rewrite (later_root _ _ L); exact Hin).
    destruct (relative_ok p w3 Hin3) as [rel Hrel]. unfold bind. rewrite Hrel.
    split; [exact L |]. split; [exact F |].
    eexists. split; [reflexivity |]. right. split; [reflexivity |]. now split.
Qed.

Lemma update_plan_loaded (n : Z) (st note f : string) (w : world) (p : path) (s : state) :
  loaded f w p s -> 1 <= n <= Z.of_nat (List.length (steps s)) ->
  str_in st VALID_STATUSES = true ->
  exists t, committed w p (update_plan_state n st note t s) (update_plan n st note f w).
Proof. intros. eexists. now apply update_plan_loaded_at. Qed.

(** [set_subgoals] on a loaded plan. *)
Lemma set_subgoals_loaded_at (l : list string) (f : string) (replace : bool) (w : world)
    (p : path) (s : state) :
  loaded f w p s -> _normalize_text_items l <> [] ->
  committed w p (set_subgoals_state (_normalize_text_items l) replace (stamp f w) s)
            (set_subgoals l f replace w).
Proof.
  intros Hl Hne. pose proof (loaded_inside _ _ _ _ Hl) as Hin.
  pose proof (loaded_untouched f w) as Hu.
  unfold stamp, set_subgoals.
  destruct (_normalize_text_items l) as [| x xs] eqn:Hnorm; [congruence |].
  rewrite <- Hnorm. clear Hne.
  unfold bind at 1. unfold loaded in Hl.
  destruct (_read_existing_state f w) as [r w1]. simpl in Hl, Hu. subst r.
  cbn [snd].
  destruct (commit_spec w w1 p (fun t => set_subgoals_state (_normalize_text_items l) replace t s)
              (fun s' => rel <- _to_workspace_relative p ;;
                         ret ((if replace then "Set" else "Updated") +:+ " "
                              +:+ Text.of_Z (Z.of_nat (List.length (subgoals s')))
                              +:+ " subgoal(s) in " +:+ rel)) Hu Hin)
    as [(msg & Hm & He & L & F) | (w3 & Ho & L & F & Hp & Hw)].
  - split; [exact L |]. split; [now apply same_files_weaken |].
    exists msg. split; [exact Hm |]. left. now split.
  - cbv zeta in Ho. rewrite Ho.
    assert (Hin3 : is_Some (relative_to (w_root w3) p))
      by (rewrite (later_root _ _ L); exact Hin).
    destruct (relative_ok p w3 Hin3) as [rel Hrel]. unfold bind. rewrite Hrel.
    split; [exact L |]. split; [exact F |].
    eexists. split; [reflexivity |]. right.
    split; [destruct replace; reflexivity |]. now split.
Qed.

Lemma set_subgoals_loaded (l : list string) (f : string) (replace : bool) (w : world)
    (p : path) (s : state) :
  loaded f w p s -> _normalize_text_items l <> [] ->
  exists t, committed w p (set_subgoals_state (_normalize_text_items l) replace t s)
                      (set_subgoals l f replace w).
Proof. intros. eexists. now apply set_subgoals_loaded_at. Qed.

(** The end that [track_progress] and [reflect_on_plan] share: the cleanup,
    then the message [report]. *)
Lemma finish_spec (cleanup : bool) (w w3 : world) (p : path) (s' : state)
    (report : string -> string) :
  is_Some (relative_to (w_root w) p) ->
  later w w3 -> same_files_but p w w3 -> persisted w3 p s' ->
  wrote w w3 p (_serialize_markdown s') ->
  (forall rel, Text.startswith "Error:" (report rel) = false) ->
  finished cleanup w p s'
    ((cleanup_result <- _maybe_cleanup_plan_file p cleanup s' ;;
      match cleanup_result with
      | Some (String c msg) => ret (String c msg)
      | _ => rel <- _to_workspace_relative p ;; ret (report rel)
      end) w3).
Proof.
  intros Hin L F Hp Hw Hrep.
  assert (Hin3 : is_Some (relative_to (w_root w3) p))
    by (rewrite (later_root _ _ L); exact Hin).
  destruct cleanup.
  - unfold bind at 1.
    destruct (cleanup_spec p s' w3 Hin3 Hp) as (L' & F' & Hcase).
    destruct (_maybe_cleanup_plan_file p true s' w3) as [r w4]. cbn [fst snd] in *.
    assert (Hw4 : wrote w w4 p (_serialize_markdown s')).
    { destruct L' as (_ & _ & _ & _ & e & T). destruct Hw as (e' & T' & Hi).
      exists (e ++ e'). split; [rewrite T, T'; now rewrite app_assoc |].
      apply in_or_app. now right. }
    assert (L4 : later w w4) by (eapply later_trans; eassumption).
    assert (F4 : same_files_but p w w4) by (eapply same_files_but_trans; eassumption).
    destruct Hcase as [(Hs & -> & ->) | [(Hs & [rel ->] & N) | (Hs & (rel & err & ->) & N)]];
      cbn -[Text.startswith]; (split; [exact L4 |]); (split; [exact F4 |]);
      right; (split; [exact Hw4 |]).
    + left. auto.
    + right; left. eauto.
    + right; right. split; [exact Hs |]. split; [eauto | exact N].
  - unfold _maybe_cleanup_plan_file. cbn [negb]. unfold bind, ret.
    destruct (relative_ok p w3 Hin3) as [rel Hrel]. rewrite Hrel.
    split; [exact L |]. split; [exact F |].
    right. split; [exact Hw |]. cbn [fst snd].
    eexists. split; [reflexivity |]. split; [apply Hrep | exact Hp].
Qed.

(** [track_progress] on a loaded plan, with a message and a percentage that
    pass validation. *)
Lemma track_progress_loaded_at (message : string) (percent : option Z) (f : string)
    (complete_plan cleanup : bool) (w : world) (p : path) (s : state) :
  loaded f w p s -> Text.nonempty (Text.strip message) = true ->
  percent_in_range percent ->
  finished cleanup w p
    (track_progress_state (Text.strip message) percent complete_plan (stamp f w) s)
    (track_progress message percent f complete_plan cleanup w).
Proof.
  intros Hl Hm Hr. pose proof (loaded_inside _ _ _ _ Hl) as Hin.
  pose proof (loaded_untouched f w) as Hu.
  unfold stamp, track_progress. rewrite Hm. cbn [negb].
  replace (match percent with Some p0 => (p0 <? 0) || (p0 >? 100) | None => false end)
    with false.
  2:{ destruct percent as [q |]; [| reflexivity]. simpl in Hr. symmetry.
      apply orb_false_iff. split; [apply Z.ltb_ge; lia |].
      rewrite Z.gtb_ltb. apply Z.ltb_ge. lia. }
  unfold bind at 1. unfold loaded in Hl.
  destruct (_read_existing_state f w) as [r w1]. simpl in Hl, Hu. subst r.
  cbn [snd].
  set (report := fun (s' : state) (rel : string) =>
                   "Logged progress in " +:+ rel +:+ " (status=" +:+ status s'
                   +:+ ", progress=" +:+ percent_text (percent_complete s') +:+ "%)").
  destruct (commit_spec w w1 p
              (fun t => track_progress_state (Text.strip message) percent complete_plan t s)
              (fun s' =>
                 cleanup_result <- _maybe_cleanup_plan_file p cleanup s' ;;
                 match cleanup_result with
                 | Some (String c msg) => ret (String c msg)
                 | _ => rel <- _to_workspace_relative p ;; ret (report s' rel)
                 end) Hu Hin)
    as [(msg & Hmsg & He & L & F) | (w3 & Ho & L & F & Hp & Hw)].
  - split; [exact L |]. split; [now apply same_files_weaken |].
    left. exists msg. auto.
  - cbv zeta in Ho. unfold report in Ho. rewrite Ho.
    apply (finish_spec cleanup w w3 p _ (report _)); try assumption.
    intros rel. reflexivity.
Qed.

Lemma track_progress_loaded (message : string) (percent : option Z) (f : string)
    (complete_plan cleanup : bool) (w : world) (p : path) (s : state) :
  loaded f w p s -> Text.nonempty (Text.strip message) = true ->
  percent_in_range percent ->
  exists t,
    finished cleanup w p
      (track_progress_state (Text.strip message) percent complete_plan t s)
      (track_progress message percent f complete_plan cleanup w).
Proof. intros. eexists. now apply track_progress_loaded_at. Qed.

(** [reflect_on_plan] on a loaded plan, with a summary that passes
    validation. *)
Lemma reflect_on_plan_loaded_at (summary : string) (risks next_actions : option (list string))
    (f : string) (finalize cleanup : bool) (w : world) (p : path) (s : state) :
  loaded f w p s -> Text.nonempty (Text.strip summary) = true ->
  finished cleanup w p
    (reflect_on_plan_state (Text.strip summary)
       (match risks with Some l => l | None => [] end)
       (match next_actions with Some l => l | None => [] end) finalize (stamp f w) s)
    (reflect_on_plan summary risks next_actions f finalize cleanup w).
Proof.
  intros Hl Hm. pose proof (loaded_inside _ _ _ _ Hl) as Hin.
  pose proof (loaded_untouched f w) as Hu.
  unfold stamp, reflect_on_plan. rewrite Hm. cbn [negb].
  unfold bind at 1. unfold loaded in Hl.
  destruct (_read_existing_state f w) as [r w1]. simpl in Hl, Hu. subst r.
  cbn [snd].
  set (report := fun (s' : state) (rel : string) =>
                   "Recorded reflection in " +:+ rel +:+ " (total reflections="
                   +:+ Text.of_Z (Z.of_nat (List.length (reflections s'))) +:+ ")").
  destruct (commit_spec w w1 p
              (fun t => reflect_on_plan_state (Text.strip summary)
                          (match risks with Some l => l | None => [] end)
                          (match next_actions with Some l => l | None => [] end)
                          finalize t s)
              (fun s' =>
                 cleanup_result <- _maybe_cleanup_plan_file p cleanup s' ;;
                 match cleanup_result with
                 | Some (String c msg) => ret (String c msg)
                 | _ => rel <- _to_workspace_relative p ;; ret (report s' rel)
                 end) Hu Hin)
    as [(msg & Hmsg & He & L & F) | (w3 & Ho & L & F & Hp & Hw)].
  - split; [exact L |]. split; [now apply same_files_weaken |].
    left. exists msg. auto.
  - cbv zeta in Ho. unfold report in Ho. rewrite Ho.
    apply (finish_spec cleanup w w3 p _ (report _)); try assumption.
    intros rel. reflexivity.
Qed.

Lemma reflect_on_plan_loaded (summary : string) (risks next_actions : option (list string))
    (f : string) (finalize cleanup : bool) (w : world) (p : path) (s : state) :
  loaded f w p s -> Text.nonempty (Text.strip summary) = true ->
  exists t,
    finished cleanup w p
      (reflect_on_plan_state (Text.strip summary)
         (match risks with Some l => l | None => [] end)
         (match next_actions with Some l => l | None => [] end) finalize t s)
      (reflect_on_plan summary risks next_actions f finalize cleanup w).
Proof. intros. eexists. now apply reflect_on_plan_loaded_at. Qed.

(** ** Exactly one step in progress (C3, one call) *)

Lemma demote_others_eq (n : Z) (l : list item) :
  demote_others n l = List.map (demote n) (Py.enumerate 1 l).
Proof.
  unfold demote_others. apply map_ext. intros [idx it]. reflexivity.
Qed.

Lemma in_progress_count_cons (it : item) (l : list item) :
  in_progress_count (it :: l)
  = ((if is_in_progress it then 1 else 0) + in_progress_count l)%nat.
Proof.
  unfold in_progress_count, is_in_progress. simpl.
  destruct (String.eqb (item_status it) "in_progress"); reflexivity.
Qed.

Lemma demoted_after (n start : Z) (l : list item) :
  n < start -> in_progress_count (List.map (demote n) (Py.enumerate start l)) = 0%nat.
Proof.
  revert start. induction l as [| it l IH]; intros start Hlt; [reflexivity |].
  simpl. rewrite in_progress_count_cons, IH by lia.
  unfold demote, is_in_progress. simpl.
  replace (start =? n) with false by (symmetry; apply Z.eqb_neq; lia). simpl.
  destruct (String.eqb (item_status it) "in_progress") eqn:E; simpl; [reflexivity |].
  now rewrite E.
Qed.

Lemma one_in_progress (n start : Z) (k : nat) (l : list item) :
  (k < List.length l)%nat -> n = start + Z.of_nat k ->
  in_progress_count
    (alter (set_item_status "in_progress") k (List.map (demote n) (Py.enumerate start l)))
  = 1%nat.
Proof.
  revert start k. induction l as [| it l IH]; intros start k Hk Hn; [simpl in Hk; lia |].
  destruct k as [| k]; cbn [Py.enumerate List.map].
  - change (alter ?f 0%nat (?x :: ?r)) with (f x :: r).
    rewrite in_progress_count_cons, demoted_after by lia. reflexivity.
  - change (alter ?f (S k) (?x :: ?r)) with (x :: alter f k r).
    rewrite in_progress_count_cons, (IH (start + 1) k) by (simpl in Hk; lia).
    unfold demote, is_in_progress. simpl.
    replace (start =? n) with false by (symmetry; apply Z.eqb_neq; lia). simpl.
    destruct (String.eqb (item_status it) "in_progress") eqn:E; simpl; [reflexivity |].
    now rewrite E.
Qed.

Lemma enumerate_lookup {A : Type} (start : Z) (l : list A) (i : nat) :
  Py.enumerate start l !! i = (fun x => (start + Z.of_nat i, x)) <$> l !! i.
Proof.
  revert start i. induction l as [| x l IH]; intros start i; [now destruct i |].
  destruct i as [| i]; simpl.
  - now rewrite Z.add_0_r.
  - rewrite IH. destruct (l !! i); simpl; [| reflexivity].
    do 2 f_equal. lia.
Qed.

Lemma enumerate_length {A : Type} (start : Z) (l : list A) :
  List.length (Py.enumerate start l) = List.length l.
Proof. revert start. induction l; intros; simpl; auto. Qed.

Lemma update_plan_state_steps (n : Z) (st note t : string) (s : state) :
  steps (update_plan_state n st note t s) = updated_steps n st (steps s).
Proof.
  unfold update_plan_state, updated_steps, _recompute_percent_from_steps.
  destruct (Text.nonempty (Text.strip note)); simpl;
    destruct (alter _ _ _); reflexivity.
Qed.

Lemma updated_steps_in_progress (n : Z) (l : list item) :
  1 <= n <= Z.of_nat (List.length l) ->
  let l' := updated_steps n "in_progress" l in
  in_progress_count l' = 1%nat
  /\ item_status <$> l' !! Z.to_nat (n - 1) = Some "in_progress"
  /\ forall i it, i <> Z.to_nat (n - 1) -> l !! i = Some it ->
       l' !! i = Some (if is_in_progress it then set_item_status "pending" it else it).
Proof.
  intros Hn. unfold updated_steps. simpl String.eqb. cbv iota.
  rewrite demote_others_eq.
  assert (Hk : (Z.to_nat (n - 1) < List.length l)%nat) by lia.
  split; [apply one_in_progress; [exact Hk | lia] |].
  split.
  - rewrite list_lookup_alter_eq, list_lookup_fmap, enumerate_lookup.
    destruct (lookup_lt_is_Some_2 l _ Hk) as [it Hit]. rewrite Hit. reflexivity.
  - intros i it Hi Hit.
    rewrite list_lookup_alter_ne by congruence.
    rewrite list_lookup_fmap, enumerate_lookup, Hit. simpl. f_equal.
    unfold demote, is_in_progress. simpl.
    replace (1 + Z.of_nat i =? n) with false by (symmetry; apply Z.eqb_neq; lia).
    reflexivity.
Qed.

(** [update_plan] with arguments it rejects. *)
Lemma update_plan_rejected (n : Z) (st note f : string) (w : world) :
  n < 1
  \/ str_in st VALID_STATUSES = false
  \/ (exists p s, loaded f w p s /\ Z.of_nat (List.length (steps s)) < n) ->
  let out := update_plan n st note f w in
  (exists msg, fst out = Ok msg /\ Text.startswith "Error:" msg = true)
  /\ untouched w (snd out)
  /\ (n < 1 \/ str_in st VALID_STATUSES = false -> snd out = w).
Proof.
  intros H. unfold update_plan.
  destruct (n <? 1) eqn:Hlow.
  { simpl. split; [eexists; split; reflexivity |].
    split; [apply untouched_refl | reflexivity]. }
  destruct (str_in st VALID_STATUSES) eqn:Hvalid; simpl.
  2:{ split; [eexists; split; reflexivity |].
      split; [apply untouched_refl | reflexivity]. }
  destruct H as [H | [H | (p & s & Hload & Hlen)]]; [lia | discriminate |].
  unfold bind. unfold loaded in Hload.
  pose proof (quiet_read_existing_state f w) as Hq.
  destruct (_read_existing_state f w) as [r w1]. simpl in Hload, Hq. subst r.
  assert (Hgt : (n >? Z.of_nat (List.length (steps s))) = true)
    by (apply Z.gtb_lt; exact Hlen).
  destruct (steps s) as [| it rest] eqn:Hsteps.
  - simpl. split; [eexists; split; reflexivity |]. split; [exact Hq |].
    intros [Hc | Hc]; [lia | discriminate].
  - rewrite Hgt. cbn [fst snd ret].
    split; [eexists; split; reflexivity |]. split; [exact Hq |].
    intros [Hc | Hc]; [lia | discriminate].
Qed.

Lemma succeeded_not_error (out : result string * world) (msg : string) :
  succeeded out -> fst out = Ok msg -> Text.startswith "Error:" msg = true -> False.
Proof. intros (m & Hm & He) Ho Ht. rewrite Ho in Hm. injection Hm as ->. congruence. Qed.

(** A successful [update_plan] had a step number in range and a valid status,
    and persisted the updated state. *)
Lemma update_plan_succeeded (n : Z) (st note f : string) (w : world) (p : path) (s : state) :
  loaded f w p s -> succeeded (update_plan n st note f w) ->
  1 <= n <= Z.of_nat (List.length (steps s))
  /\ str_in st VALID_STATUSES = true
  /\ exists t, persisted (snd (update_plan n st note f w)) p (update_plan_state n st note t s)
               /\ later w (snd (update_plan n st note f w))
               /\ same_files_but p w (snd (update_plan n st note f w)).
Proof.
  intros Hl Hs.
  assert (Hok : 1 <= n <= Z.of_nat (List.length (steps s)) /\ str_in st VALID_STATUSES = true).
  { destruct (Z.lt_ge_cases n 1) as [Hlow | Hlow].
    { exfalso. destruct (update_plan_rejected n st note f w (or_introl Hlow))
        as ((msg & Hm & He) & _). eapply succeeded_not_error; eassumption. }
    destruct (str_in st VALID_STATUSES) eqn:Hv.
    2:{ exfalso. destruct (update_plan_rejected n st note f w (or_intror (or_introl Hv)))
          as ((msg & Hm & He) & _). eapply succeeded_not_error; eassumption. }
    destruct (Z.lt_ge_cases (Z.of_nat (List.length (steps s))) n) as [Hhigh | Hhigh].
    { exfalso.
      destruct (update_plan_rejected n st note f w
                  (or_intror (or_intror (ex_intro _ p (ex_intro _ s (conj Hl Hhigh))))))
        as ((msg & Hm & He) & _). eapply succeeded_not_error; eassumption. }
    split; [lia | reflexivity]. }
  destruct Hok as [Hn Hv]. split; [exact Hn |]. split; [exact Hv |].
  destruct (update_plan_loaded n st note f w p s Hl Hn Hv) as (t & L & F & msg & Hm & Hcase).
  exists t. destruct Hcase as [[He _] | (He & Hp & _)].
  - exfalso. eapply succeeded_not_error; eassumption.
  - now split.
Qed.

(** ** Numbers: printed and read back *)

Lemma digits_string_of_uint (d : Decimal.uint) (rest : string) :
  ends_number rest ->
  Decode.digits (NilEmpty.string_of_uint d +:+ rest) = (NilEmpty.string_of_uint d, rest).
Proof.
  intros Hrest. induction d; simpl; try (rewrite IHd; reflexivity).
  destruct rest as [| c r]; [reflexivity |]. simpl in *.
  destruct Hrest as (-> & _). reflexivity.
Qed.

Lemma digits_value_acc (d : Decimal.uint) (acc : positive) :
  Decode.digits_value (Zpos acc) (NilEmpty.string_of_uint d) = Zpos (Pos.of_uint_acc d acc).
Proof.
  revert acc. induction d; intros acc; simpl; try reflexivity;
    rewrite <- IHd; f_equal; lia.
Qed.

Lemma digits_value_of_uint (d : Decimal.uint) :
  Decode.digits_value 0 (NilEmpty.string_of_uint d) = Z.of_N (Pos.of_uint d).
Proof.
  induction d; simpl; try reflexivity; try apply digits_value_acc.
  exact IHd.
Qed.

Lemma to_uint_head (p : positive) :
  match Pos.to_uint p with
  | Decimal.Nil | Decimal.D0 _ => False
  | _ => True
  end.
Proof.
  pose proof (DecimalPos.Unsigned.to_uint_nonzero p) as Hnz.
  pose proof (DecimalPos.Unsigned.to_of (Pos.to_uint p)) as Hn.
  rewrite DecimalPos.Unsigned.of_to in Hn. simpl in Hn.
  assert (Hh : Decimal.nzhead (Pos.to_uint p) <> Decimal.Nil).
  { intros H. apply Hnz. rewrite Hn. now apply DecimalFacts.unorm_0. }
  rewrite (DecimalFacts.unorm_nzhead _ Hh) in Hn.
  destruct (Pos.to_uint p) eqn:E; try exact I.
  - now apply Hh.
  - symmetry in Hn. now apply DecimalFacts.nzhead_nonzero in Hn.
Qed.

Lemma number_of_Z (n : Z) (rest : string) :
  ends_number rest -> Decode.number (Text.of_Z n +:+ rest) = Some (JInt n, rest).
Proof.
  intros Hrest.
  assert (Htail : Decode.fraction_part rest = (EmptyString, rest)
                  /\ Decode.exponent_part rest = (EmptyString, rest)).
  { destruct rest as [| c r]; [split; reflexivity |].
    destruct Hrest as (_ & Hdot & He & HE). split.
    - unfold Decode.fraction_part.
      destruct c as [[] [] [] [] [] [] [] []]; try reflexivity; discriminate.
    - unfold Decode.exponent_part. rewrite He, HE. reflexivity. }
  destruct Htail as [Hf He].
  unfold Text.of_Z, Decode.number.
  destruct n as [| p | p]; simpl Z.to_int.
  - unfold Decode.integer_part. cbn -[Decode.fraction_part Decode.exponent_part].
    rewrite Hf, He. reflexivity.
  - unfold NilZero.string_of_int, NilZero.string_of_uint.
    pose proof (to_uint_head p) as Hh.
    pose proof (DecimalPos.Unsigned.of_to p) as Hv.
    pose proof (digits_value_of_uint (Pos.to_uint p)) as Hd. rewrite Hv in Hd.
    pose proof (digits_string_of_uint (Pos.to_uint p) rest Hrest) as Hg.
    destruct (Pos.to_uint p) as [| u | u | u | u | u | u | u | u | u | u];
      try contradiction;
      (unfold Decode.integer_part;
       cbn -[Decode.fraction_part Decode.exponent_part Decode.digits] in Hg |- *;
       rewrite Hg; cbn -[Decode.fraction_part Decode.exponent_part Decode.digits];
       rewrite Hf, He; change (Z.of_N (N.pos p)) with (Z.pos p) in Hd;
       rewrite <- Hd; reflexivity).
  - unfold NilZero.string_of_int, NilZero.string_of_uint.
    pose proof (to_uint_head p) as Hh.
    pose proof (DecimalPos.Unsigned.of_to p) as Hv.
    pose proof (digits_value_of_uint (Pos.to_uint p)) as Hd. rewrite Hv in Hd.
    pose proof (digits_string_of_uint (Pos.to_uint p) rest Hrest) as Hg.
    destruct (Pos.to_uint p) as [| u | u | u | u | u | u | u | u | u | u];
      try contradiction;
      (unfold Decode.integer_part;
       cbn -[Decode.fraction_part Decode.exponent_part Decode.digits] in Hg |- *;
       rewrite Hg; cbn -[Decode.fraction_part Decode.exponent_part Decode.digits];
       rewrite Hf, He; change (Z.of_N (N.pos p)) with (Z.pos p) in Hd;
       change (Z.neg p) with (- Z.pos p); rewrite <- Hd; reflexivity).
Qed.

(** ** Strings: printed and read back *)

Lemma sapp_assoc (a b c : string) : (a +:+ b) +:+ c = a +:+ (b +:+ c).
Proof. induction a as [| x a IH]; simpl; [reflexivity | now rewrite IH]. Qed.

Lemma sapp_nil_r (a : string) : a +:+ "" = a.
Proof. induction a as [| x a IH]; simpl; [reflexivity | now rewrite IH]. Qed.

Lemma slen_app (a b : string) :
  String.length (a +:+ b) = (String.length a + String.length b)%nat.
Proof. induction a as [| x a IH]; simpl; [reflexivity | now rewrite IH]. Qed.

Lemma scanstring_char (c : ascii) (t : string) :
  Decode.scanstring (Json.escape_char c +:+ t)
  = match Decode.scanstring t with
    | Some (x, r) => Some (String c x, r)
    | None => None
    end.
Proof.
  destruct c as [[] [] [] [] [] [] [] []]; reflexivity.
Qed.

Lemma scanstring_escape (s rest : string) :
  Decode.scanstring (Json.escape s +:+ String Py.dquote rest) = Some (s, rest).
Proof.
  induction s as [| c s IH]; [reflexivity |].
  simpl Json.escape. rewrite sapp_assoc, scanstring_char, IH. reflexivity.
Qed.

Lemma scanstring_dumps (s rest : string) :
  exists t, Json.dumps_str s +:+ rest = String Py.dquote t
            /\ Decode.scanstring t = Some (s, rest).
Proof.
  exists (Json.escape s +:+ String Py.dquote rest). split.
  - unfold Json.dumps_str. simpl. now rewrite sapp_assoc.
  - apply scanstring_escape.
Qed.

(** ** Values: printed and read back *)

Lemma of_Z_starts (n : Z) : starts_value (Text.of_Z n).
Proof.
  unfold Text.of_Z. destruct n as [| p | p]; simpl Z.to_int.
  - exists "0"%char, EmptyString. repeat split.
  - unfold NilZero.string_of_int, NilZero.string_of_uint.
    pose proof (to_uint_head p) as Hh.
    destruct (Pos.to_uint p); try contradiction; simpl; eexists _, _; repeat split.
  - exists "-"%char. eexists. repeat split.
Qed.

Lemma render_starts (level : nat) (v : json) : plain v -> starts_value (Json.render level v).
Proof.
  intros Hp. destruct Hp as [| b | n | s | l Hl | d Hn Hd]; cbn [Json.render].
  - exists "n"%char. eexists. repeat split.
  - destruct b; [exists "t"%char | exists "f"%char]; eexists; repeat split.
  - apply of_Z_starts.
  - exists Py.dquote. eexists. repeat split.
  - destruct l; [exists "["%char; eexists; repeat split |].
    exists "["%char. eexists. repeat split.
  - destruct d; [exists "{"%char; eexists; repeat split |].
    exists "{"%char. eexists. repeat split.
Qed.

Lemma skip_spaces (n : nat) (t : string) :
  Decode.skip (Json.spaces n +:+ t) = Decode.skip t.
Proof. induction n as [| n IH]; simpl; [reflexivity | exact IH]. Qed.

Lemma skip_newline_indent (level : nat) (t : string) :
  Decode.skip (Json.newline_indent level +:+ t) = Decode.skip t.
Proof. unfold Json.newline_indent. simpl. apply skip_spaces. Qed.

Lemma skip_starts (t rest : string) : starts_value t -> Decode.skip (t +:+ rest) = t +:+ rest.
Proof.
  intros (c & r & -> & Hc & _). simpl. unfold Decode.skip. simpl. now rewrite Hc.
Qed.

Lemma ends_number_comma (t : string) : ends_number (String "," t).
Proof. repeat split. Qed.

Lemma ends_number_newline (level : nat) (t : string) :
  ends_number (Json.newline_indent level +:+ t).
Proof. repeat split. Qed.

Lemma items_text_cons2 (level : nat) (x y : json) (l : list json) :
  items_text level (x :: y :: l)
  = Json.render level x
    +:+ String "," (Json.newline_indent level +:+ items_text level (y :: l)).
Proof. reflexivity. Qed.

Lemma sapp_cons (c : ascii) (a b : string) : String c a +:+ b = String c (a +:+ b).
Proof. reflexivity. Qed.

Lemma elements_eq (fuel : nat) (acc : list json) (s : string) :
  Decode.elements (S fuel) acc s
  = match Decode.value fuel s with
    | Some (v, r1) =>
        match Decode.skip r1 with
        | String "]" r2 => Some (JList (List.rev (v :: acc)), r2)
        | String "," r2 => Decode.elements fuel (v :: acc) (Decode.skip r2)
        | _ => None
        end
    | None => None
    end.
Proof. reflexivity. Qed.

Lemma skip_bracket (c : ascii) (t : string) :
  Decode.isws c = false -> Decode.skip (String c t) = String c t.
Proof. intros H. unfold Decode.skip. simpl. now rewrite H. Qed.

Lemma elements_items (level0 level : nat) (l : list json) (rest : string) :
  l <> [] ->
  Forall plain l ->
  Forall (fun v => forall rest fuel, ends_number rest ->
            (String.length (Json.render level v) < fuel)%nat ->
            Decode.value fuel (Json.render level v +:+ rest) = Some (v, rest)) l ->
  forall acc fuel,
    (String.length (items_text level l) + 1 < fuel)%nat ->
    Decode.elements fuel acc
      (items_text level l +:+ Json.newline_indent level0 +:+ String "]" rest)
    = Some (JList (List.rev acc ++ l), rest).
Proof.
  intros Hne Hp IH. induction l as [| x l IHl]; [congruence |]. clear Hne.
  inversion Hp as [| ? ? Hpx Hpl]; subst. inversion IH as [| ? ? IHx IHr]; subst.
  intros acc fuel Hfuel. destruct fuel as [| fuel]; [lia |].
  destruct l as [| y l].
  - unfold items_text, Text.join in *. simpl String.concat in *.
    rewrite elements_eq, IHx; [| apply ends_number_newline | lia].
    rewrite skip_newline_indent, skip_bracket by reflexivity.
    reflexivity.
  - rewrite items_text_cons2 in *. rewrite sapp_assoc, sapp_cons, sapp_assoc.
    rewrite elements_eq, IHx; [| apply ends_number_comma |].
    2:{ repeat (rewrite slen_app in Hfuel || (progress (cbn [String.length] in Hfuel))). lia. }
    rewrite skip_bracket by reflexivity. cbv iota beta.
    rewrite skip_newline_indent.
    rewrite skip_starts.
    2:{ unfold items_text, Text.join. simpl.
        destruct (render_starts level y) as (c & r & -> & Hc & Hb);
          [now inversion Hpl |].
        destruct l; simpl; eexists _, _; repeat split; eassumption. }
    rewrite (IHl ltac:(discriminate) Hpl IHr (x :: acc) fuel).
    + simpl. rewrite <- app_assoc. reflexivity.
    + repeat (rewrite slen_app in Hfuel || (progress (cbn [String.length] in Hfuel))). lia.
Qed.

Lemma entries_member_tail (level : nat) (kv : string * json) (d : list (string * json)) :
  Text.join ("," +:+ Json.newline_indent level)
            (entry_text level kv :: List.map (entry_text level) d)
  = String Py.dquote (member_tail level kv d).
Proof.
  revert kv. induction d as [| kv' d IH]; intros kv.
  - unfold Text.join, entry_text, Json.dumps_str. cbn [List.map String.concat member_tail].
    rewrite !sapp_cons, !sapp_assoc, sapp_nil_r. reflexivity.
  - unfold Text.join in *. cbn [List.map member_tail].
    change (String.concat ?s (?a :: ?b :: ?l)) with (a +:+ s +:+ String.concat s (b :: l)).
    rewrite IH. unfold entry_text, Json.dumps_str.
    rewrite !sapp_cons, !sapp_assoc. reflexivity.
Qed.

Lemma members_eq (fuel : nat) (acc : list (string * json)) (s : string) :
  Decode.members (S fuel) acc s
  = match Decode.scanstring s with
    | Some (key, r1) =>
        match Decode.skip r1 with
        | String ":" r2 =>
            match Decode.value fuel (Decode.skip r2) with
            | Some (v, r3) =>
                let acc' := Py.set acc key v in
                match Decode.skip r3 with
                | String "}" r4 => Some (JDict acc', r4)
                | String "," r4 =>
                    match Decode.skip r4 with
                    | String c r5 =>
                        if Ascii.eqb c Py.dquote then Decode.members fuel acc' r5 else None
                    | EmptyString => None
                    end
                | _ => None
                end
            | None => None
            end
        | _ => None
        end
    | None => None
    end.
Proof. reflexivity. Qed.

Lemma set_fresh (acc : list (string * json)) (k : string) (v : json) :
  ~ In k (List.map fst acc) -> Py.set acc k v = acc ++ [(k, v)].
Proof.
  induction acc as [| [k' x] acc IH]; intros Hk; [reflexivity |].
  simpl in *. destruct (String.eqb_spec k' k) as [-> | Hne]; [tauto |].
  rewrite IH by tauto. reflexivity.
Qed.

Lemma skip_space (t : string) : Decode.skip (String " " t) = Decode.skip t.
Proof. reflexivity. Qed.

Lemma members_entries (level0 level : nat) (d : list (string * json)) (rest : string) :
  Forall (fun kv => plain (snd kv)) d ->
  Forall (fun kv => forall rest fuel, ends_number rest ->
            (String.length (Json.render level (snd kv)) < fuel)%nat ->
            Decode.value fuel (Json.render level (snd kv) +:+ rest) = Some (snd kv, rest)) d ->
  forall kv acc fuel,
    plain (snd kv) ->
    (forall rest fuel, ends_number rest ->
       (String.length (Json.render level (snd kv)) < fuel)%nat ->
       Decode.value fuel (Json.render level (snd kv) +:+ rest) = Some (snd kv, rest)) ->
    NoDup (List.map fst (acc ++ kv :: d)) ->
    (String.length (member_tail level kv d) + 1 < fuel)%nat ->
    Decode.members fuel acc
      (member_tail level kv d +:+ Json.newline_indent level0 +:+ String "}" rest)
    = Some (JDict (acc ++ kv :: d), rest).
Proof.
  intros Hp IH. induction d as [| kv' d IHd]; intros kv acc fuel Hpk IHk Hnd Hfuel;
    (destruct fuel as [| fuel]; [lia |]); destruct kv as [k v]; simpl fst in *; simpl snd in *.
  - cbn [member_tail fst snd] in *.
    rewrite members_eq, sapp_assoc, sapp_cons, scanstring_escape.
    rewrite !sapp_cons, skip_bracket by reflexivity. cbv iota beta.
    rewrite skip_space, sapp_assoc, skip_starts by (now apply render_starts).
    change ("" +:+ ?X) with X.
    rewrite IHk; [| apply ends_number_newline |].
    2:{ repeat (rewrite slen_app in Hfuel || (progress (cbn [String.length] in Hfuel))). lia. }
    cbv zeta. rewrite skip_newline_indent, skip_bracket by reflexivity.
    rewrite set_fresh; [reflexivity |].
    rewrite map_app in Hnd. apply NoDup_app in Hnd as (_ & Hd & _).
    intros Hin. apply (Hd k); [now apply list_elem_of_In | left].
  - inversion Hp as [| ? ? Hpk' Hpd]; subst. inversion IH as [| ? ? IHk' IHr]; subst.
    cbn [member_tail fst snd] in Hfuel |- *. fold member_tail in Hfuel |- *.
    rewrite members_eq, sapp_assoc, sapp_cons, scanstring_escape.
    rewrite !sapp_cons, skip_bracket by reflexivity. cbv iota beta.
    rewrite skip_space, !sapp_assoc, skip_starts by (now apply render_starts).
    rewrite sapp_cons.
    rewrite IHk; [| apply ends_number_comma |].
    2:{ repeat (rewrite slen_app in Hfuel || (progress (cbn [String.length] in Hfuel))). lia. }
    cbv zeta. rewrite skip_bracket by reflexivity. cbv iota beta.
    rewrite sapp_assoc, skip_newline_indent, sapp_cons, skip_bracket by reflexivity.
    cbv iota beta. rewrite Ascii.eqb_refl.
    assert (Hfresh : ~ In k (List.map fst acc)).
    { rewrite map_app in Hnd. apply NoDup_app in Hnd as (_ & Hd & _).
      intros Hin. apply (Hd k); [now apply list_elem_of_In | left]. }
    rewrite set_fresh by exact Hfresh.
    rewrite (IHd Hpd IHr kv' (acc ++ [(k, v)]) fuel Hpk' IHk').
    + now rewrite <- app_assoc.
    + now rewrite <- app_assoc.
    + repeat (rewrite slen_app in Hfuel || (progress (cbn [String.length] in Hfuel))). lia.
Qed.

Lemma value_string (fuel : nat) (t : string) :
  Decode.value (S fuel) (String Py.dquote t)
  = match Decode.scanstring t with
    | Some (x, rest) => Some (JStr x, rest)
    | None => None
    end.
Proof. reflexivity. Qed.

Lemma value_array (fuel : nat) (t : string) :
  Decode.value (S fuel) (String "[" t)
  = match Decode.skip t with
    | String c' r' =>
        if Ascii.eqb c' "]" then Some (JList [], r')
        else Decode.elements fuel [] (Decode.skip t)
    | EmptyString => None
    end.
Proof. reflexivity. Qed.

Lemma value_object (fuel : nat) (t : string) :
  Decode.value (S fuel) (String "{" t)
  = match Decode.skip t with
    | String c' r' =>
        if Ascii.eqb c' "}" then Some (JDict [], r')
        else if Ascii.eqb c' Py.dquote then Decode.members fuel [] r'
        else None
    | EmptyString => None
    end.
Proof. reflexivity. Qed.

Lemma value_of_number (fuel : nat) (c : ascii) (r : string) (x : json * string) :
  Decode.isdigit c = true \/ c = "-"%char ->
  Decode.number (String c r) = Some x ->
  Decode.value (S fuel) (String c r) = Some x.
Proof.
  intros Hc Hnum.
  destruct c as [[] [] [] [] [] [] [] []];
    (destruct Hc as [Hc | Hc]; [try discriminate Hc | try discriminate Hc]);
    cbn -[Decode.number]; rewrite Hnum; reflexivity.
Qed.

Lemma of_Z_head (n : Z) :
  exists c r, Text.of_Z n = String c r /\ (Decode.isdigit c = true \/ c = "-"%char).
Proof.
  unfold Text.of_Z. destruct n as [| p | p]; simpl Z.to_int.
  - exists "0"%char, EmptyString. split; [reflexivity | now left].
  - unfold NilZero.string_of_int, NilZero.string_of_uint.
    pose proof (to_uint_head p) as Hh.
    destruct (Pos.to_uint p); try contradiction; simpl; eexists _, _;
      (split; [reflexivity | now left]).
  - exists "-"%char. eexists. split; [reflexivity | now right].
Qed.

Lemma value_number (fuel : nat) (n : Z) (rest : string) :
  ends_number rest ->
  Decode.value (S fuel) (Text.of_Z n +:+ rest) = Some (JInt n, rest).
Proof.
  intros Hrest. pose proof (number_of_Z n rest Hrest) as Hnum.
  destruct (of_Z_head n) as (c & r & Hn & Hc). rewrite Hn in *.
  rewrite sapp_cons in *. now apply value_of_number.
Qed.

(** Reading back what was printed: the value, and the text after it. *)
Lemma value_render (v : json) :
  plain v ->
  forall level rest fuel,
    ends_number rest ->
    (String.length (Json.render level v) < fuel)%nat ->
    Decode.value fuel (Json.render level v +:+ rest) = Some (v, rest).
Proof.
  induction v as [| b | n | r | s | l IH | d IH] using json_induction;
    intros Hp level rest fuel Hrest Hfuel;
    (destruct fuel as [| fuel]; [lia |]).
  - reflexivity.
  - destruct b; reflexivity.
  - change (Json.render level (JInt n)) with (Text.of_Z n). now apply value_number.
  - inversion Hp.
  - change (Json.render level (JStr s))
      with (String Py.dquote (Json.escape s +:+ String Py.dquote "")).
    rewrite sapp_cons, value_string, sapp_assoc.
    rewrite sapp_cons, scanstring_escape. reflexivity.
  - inversion Hp as [| | | | ? Hl |]; subst.
    destruct l as [| x l]; [reflexivity |].
    change (Json.render level (JList (x :: l)))
      with (String "[" (Json.newline_indent (S level)
                        +:+ items_text (S level) (x :: l)
                        +:+ Json.newline_indent level +:+ "]")) in Hfuel |- *.
    rewrite sapp_cons, value_array.
    rewrite !sapp_assoc, skip_newline_indent.
    assert (Hstart : starts_value (items_text (S level) (x :: l))).
    { unfold items_text, Text.join.
      destruct (render_starts (S level) x) as (c & r & Hx & Hc & Hb);
        [now inversion Hl |].
      cbn [List.map String.concat]. rewrite Hx.
      destruct l; cbn [List.map]; eexists _, _; repeat split; eassumption. }
    rewrite skip_starts by exact Hstart.
    destruct Hstart as (c & r & Hx & Hc & Hb). rewrite Hx at 1. rewrite sapp_cons, Hb.
    change ("]" +:+ rest) with (String "]" rest).
    rewrite (elements_items level (S level) (x :: l) rest); try assumption.
    + reflexivity.
    + discriminate.
    + clear - IH Hl. induction IH as [| y l' Hy IH' IHl]; constructor.
      * intros rest fuel. apply Hy. now inversion Hl.
      * apply IHl. now inversion Hl.
    + repeat (rewrite slen_app in Hfuel || (progress (cbn [String.length] in Hfuel))). lia.
  - inversion Hp as [| | | | | ? Hnd Hd]; subst.
    destruct d as [| kv d]; [reflexivity |].
    change (Json.render level (JDict (kv :: d)))
      with (String "{" (Json.newline_indent (S level)
                        +:+ Text.join ("," +:+ Json.newline_indent (S level))
                              (entry_text (S level) kv :: List.map (entry_text (S level)) d)
                        +:+ Json.newline_indent level +:+ "}")) in Hfuel |- *.
    rewrite entries_member_tail in Hfuel |- *.
    rewrite sapp_cons, value_object.
    rewrite !sapp_assoc, skip_newline_indent, sapp_cons, skip_bracket by reflexivity.
    cbv iota beta. rewrite Ascii.eqb_refl.
    replace (Ascii.eqb Py.dquote "}") with false by reflexivity.
    change ("}" +:+ rest) with (String "}" rest).
    inversion Hd as [| ? ? Hpk Hpd]; subst. inversion IH as [| ? ? IHk IHr]; subst.
    rewrite (members_entries level (S level) d rest); try assumption.
    + reflexivity.
    + clear - IHr Hpd. induction IHr as [| y l' Hy IH' IHl]; constructor.
      * intros rest fuel. apply Hy. now inversion Hpd.
      * apply IHl. now inversion Hpd.
    + intros rest' fuel'. now apply IHk.
    + repeat (rewrite slen_app in Hfuel || (progress (cbn [String.length] in Hfuel))). lia.
Qed.

Lemma loads_render (v : json) : plain v -> Decode.loads (Json.render 0 v) = Some v.
Proof.
  intros Hp. unfold Decode.loads.
  pose proof (value_render v Hp 0%nat EmptyString) as Hv. rewrite sapp_nil_r in Hv.
  destruct (render_starts 0 v Hp) as (c & r & Hx & Hc & _).
  assert (Hskip : Decode.skip (Json.render 0 v) = Json.render 0 v)
    by (rewrite Hx; now apply skip_bracket).
  rewrite Hskip, Hv; [reflexivity | exact I | lia].
Qed.

(** ** What no JSON text contains *)

Lemma lex_app (st : lex_state) (a b : string) :
  lex st (a +:+ b) = match lex st a with Some st' => lex st' b | None => None end.
Proof.
  revert st. induction a as [| c a IH]; intros st; [reflexivity |].
  simpl. destruct (lex_step st c); [apply IH | reflexivity].
Qed.

Lemma consumes_refl (s : string) : consumes Outside s s.
Proof. exists EmptyString. split; reflexivity. Qed.

Lemma consumes_trans (st : lex_state) (s r r' : string) :
  consumes st s r -> consumes Outside r r' -> consumes st s r'.
Proof.
  intros (a & -> & Ha) (b & -> & Hb). exists (a +:+ b). split.
  - now rewrite sapp_assoc.
  - now rewrite lex_app, Ha.
Qed.

Lemma consumes_char (st st' : lex_state) (c : ascii) (s r : string) :
  lex_step st c = Some st' -> consumes st' s r -> consumes st (String c s) r.
Proof.
  intros Hc (a & -> & Ha). exists (String c a). split; [reflexivity |].
  simpl. now rewrite Hc.
Qed.

Lemma consumes_skip (s : string) : consumes Outside s (Decode.skip s).
Proof.
  induction s as [| c s IH]; [apply consumes_refl |].
  unfold Decode.skip. simpl. destruct (Decode.isws c) eqn:Hc; [| apply consumes_refl].
  eapply consumes_char; [| exact IH].
  unfold Decode.isws in Hc.
  destruct c as [[] [] [] [] [] [] [] []]; try discriminate Hc; reflexivity.
Qed.

Lemma consumes_prefix (p s r : string) :
  Pattern.drop_prefix p s = Some r -> lex Outside p = Some Outside -> consumes Outside s r.
Proof.
  intros Hd Hp. exists p. split; [| exact Hp].
  revert s Hd. clear Hp. induction p as [| a p IH]; intros s Hd.
  - simpl in Hd. now injection Hd as ->.
  - destruct s as [| b s]; [discriminate |]. simpl in Hd.
    destruct (Ascii.eqb_spec a b) as [-> |]; [| discriminate].
    simpl. f_equal. now apply IH.
Qed.

Lemma scanstring_consumes (s t rest : string) :
  Decode.scanstring s = Some (t, rest) -> consumes Inside s rest.
Proof.
  revert t rest.
  induction s as [s IH] using (well_founded_induction
                                 (Wf_nat.well_founded_ltof _ String.length)).
  intros t rest H. destruct s as [| c r]; [discriminate |].
  cbn [Decode.scanstring] in H.
  destruct (Ascii.eqb c Py.dquote) eqn:Hq.
  { injection H as <- <-. apply Ascii.eqb_eq in Hq as ->.
    eapply consumes_char; [reflexivity | apply consumes_refl]. }
  destruct (Ascii.eqb c Py.backslash) eqn:Hb.
  - apply Ascii.eqb_eq in Hb as ->.
    destruct r as [| e r']; [discriminate |].
    assert (Hsimple : forall x, match Decode.scanstring r' with
                                | Some (t0, rest0) => Some (String x t0, rest0)
                                | None => None
                                end = Some (t, rest) ->
                                Text.between 0 31 e = false ->
                                consumes Inside (String Py.backslash (String e r')) rest).
    { intros x Hx He. destruct (Decode.scanstring r') as [[t0 rest0] |] eqn:Hr; [| discriminate].
      injection Hx as <- <-.
      eapply consumes_char; [reflexivity |].
      eapply consumes_char; [simpl; rewrite He; reflexivity |].
      eapply (IH r'); [unfold ltof; simpl; lia | exact Hr]. }
    repeat match type of H with
           | (if Ascii.eqb e ?k then _ else _) = _ =>
               destruct (Ascii.eqb_spec e k) as [-> | _];
               [first [ exact (Hsimple _ H eq_refl) | idtac ] |]
           end.
    + destruct r' as [| a [| b [| c' [| d r'']]]]; try discriminate.
      destruct (Decode.unicode_escape _) as [[x ?] |] eqn:Hu; [| discriminate].
      destruct (Decode.scanstring r'') as [[t0 rest0] |] eqn:Hr; [| discriminate].
      injection H as <- <-.
      unfold Decode.unicode_escape in Hu.
      destruct (Decode.hex_value a) eqn:Ha; [| discriminate].
      destruct (Decode.hex_value b) eqn:Hb; [| discriminate].
      destruct (Decode.hex_value c') eqn:Hc; [| discriminate].
      destruct (Decode.hex_value d) eqn:Hd; [| discriminate].
      assert (Hhex : forall h val, Decode.hex_value h = Some val ->
                lex_step Inside h = Some Inside).
      { intros h val Hh. unfold Decode.hex_value in Hh.
        destruct h as [[] [] [] [] [] [] [] []]; try discriminate Hh; reflexivity. }
      eapply consumes_char; [reflexivity |].
      eapply consumes_char; [reflexivity |].
      eapply consumes_char; [eapply Hhex; eassumption |].
      eapply consumes_char; [eapply Hhex; eassumption |].
      eapply consumes_char; [eapply Hhex; eassumption |].
      eapply consumes_char; [eapply Hhex; eassumption |].
      eapply (IH r''); [unfold ltof; simpl; lia | exact Hr].
    + discriminate.
  - destruct (Text.between 0 31 c) eqn:Hctl; [discriminate |].
    destruct (Decode.scanstring r) as [[t0 rest0] |] eqn:Hr; [| discriminate].
    injection H as <- <-.
    eapply consumes_char; [simpl; rewrite Hq, Hb, Hctl; reflexivity |].
    eapply (IH r); [unfold ltof; simpl; lia | exact Hr].
Qed.

Lemma number_text_app (a b : string) : number_text a -> number_text b -> number_text (a +:+ b).
Proof. unfold number_text. intros Ha Hb. now rewrite lex_app, Ha. Qed.

Lemma digit_step (c : ascii) : Decode.isdigit c = true -> lex_step Outside c = Some Outside.
Proof.
  unfold Decode.isdigit. intros H.
  destruct c as [[] [] [] [] [] [] [] []]; try discriminate H; reflexivity.
Qed.

Lemma digits_split (s : string) :
  s = fst (Decode.digits s) +:+ snd (Decode.digits s) /\ number_text (fst (Decode.digits s)).
Proof.
  induction s as [| c s [IH1 IH2]]; [split; reflexivity |].
  simpl. destruct (Decode.isdigit c) eqn:Hc; [| split; reflexivity].
  destruct (Decode.digits s) as [d rest]. simpl in *. split; [now f_equal |].
  unfold number_text in *. cbn [lex]. now rewrite (digit_step c Hc).
Qed.

Lemma integer_part_split (s i r : string) :
  Decode.integer_part s = Some (i, r) -> s = i +:+ r /\ number_text i.
Proof.
  unfold Decode.integer_part. intros H.
  assert (Hbody : forall sign body,
            number_text sign ->
            match body with
            | String "0" r0 => Some (sign +:+ "0", r0)
            | _ => let (d, rest) := Decode.digits body in
                   match d with
                   | EmptyString => None
                   | String _ _ => Some (sign +:+ d, rest)
                   end
            end = Some (i, r) ->
            sign +:+ body = i +:+ r /\ number_text i).
  { intros sign body Hs Hb.
    assert (Hd : (let (d, rest) := Decode.digits body in
                  match d with
                  | EmptyString => None
                  | String _ _ => Some (sign +:+ d, rest)
                  end) = Some (i, r) -> sign +:+ body = i +:+ r /\ number_text i).
    { destruct (digits_split body) as [E N]. destruct (Decode.digits body) as [d rest].
      simpl in E, N. destruct d; [discriminate |]. intros Hi. injection Hi as <- <-.
      split; [now rewrite sapp_assoc, <- E | now apply number_text_app]. }
    destruct body as [| c b]; [now apply Hd |].
    destruct (Ascii.eqb_spec c "0") as [-> | Hne].
    - injection Hb as <- <-. split; [now rewrite sapp_assoc | now apply number_text_app].
    - apply Hd. rewrite <- Hb. clear - Hne.
      destruct c as [[] [] [] [] [] [] [] []]; try reflexivity. now contradiction Hne. }
  destruct s as [| c s]; [discriminate |].
  destruct (Ascii.eqb_spec c "-") as [-> | Hne].
  - apply (Hbody "-" s); [reflexivity | exact H].
  - apply (Hbody "" (String c s)); [reflexivity |]. rewrite <- H. clear - Hne.
    destruct c as [[] [] [] [] [] [] [] []]; try reflexivity. now contradiction Hne.
Qed.

Lemma fraction_part_split (s : string) :
  s = fst (Decode.fraction_part s) +:+ snd (Decode.fraction_part s)
  /\ number_text (fst (Decode.fraction_part s)).
Proof.
  unfold Decode.fraction_part. destruct s as [| c s]; [split; reflexivity |].
  destruct c as [[] [] [] [] [] [] [] []]; try (split; reflexivity).
  destruct (digits_split s) as [E N]. destruct (Decode.digits s) as [d rest].
  simpl in E, N. destruct d; [split; reflexivity |]. simpl.
  split; [now rewrite E | exact N].
Qed.

Lemma exponent_part_split (s : string) :
  s = fst (Decode.exponent_part s) +:+ snd (Decode.exponent_part s)
  /\ number_text (fst (Decode.exponent_part s)).
Proof.
  unfold Decode.exponent_part. destruct s as [| e r]; [split; reflexivity |].
  destruct (Ascii.eqb e "e" || Ascii.eqb e "E") eqn:He; [| split; reflexivity].
  assert (Hstep : lex_step Outside e = Some Outside).
  { destruct (Ascii.eqb_spec e "e") as [-> |]; [reflexivity |].
    destruct (Ascii.eqb_spec e "E") as [-> |]; [reflexivity | discriminate]. }
  assert (Hgo : forall sign body,
            number_text sign -> r = sign +:+ body ->
            let out := match Decode.digits body with
                       | (EmptyString, _) => (EmptyString, String e r)
                       | (d, rest) => (String e (sign +:+ d), rest)
                       end in
            String e r = fst out +:+ snd out /\ number_text (fst out)).
  { intros sign body Hs Hr. destruct (digits_split body) as [E N].
    destruct (Decode.digits body) as [d rest]. simpl in E, N.
    destruct d; [split; reflexivity |]. simpl. split.
    - rewrite Hr, E, sapp_assoc. reflexivity.
    - unfold number_text in *. cbn [lex]. rewrite Hstep. now apply number_text_app. }
  destruct r as [| g r'].
  - apply (Hgo "" ""); reflexivity.
  - destruct (Ascii.eqb g "-" || Ascii.eqb g "+") eqn:Hg.
    + apply (Hgo (String g "") r'); [| reflexivity].
      destruct (Ascii.eqb_spec g "-") as [-> |]; [reflexivity |].
      destruct (Ascii.eqb_spec g "+") as [-> |]; [reflexivity | discriminate].
    + apply (Hgo "" (String g r')); reflexivity.
Qed.

Lemma number_consumes (s rest : string) (v : json) :
  Decode.number s = Some (v, rest) -> consumes Outside s rest.
Proof.
  unfold Decode.number. intros H.
  destruct (Decode.integer_part s) as [[i r1] |] eqn:Hi; [| discriminate].
  apply integer_part_split in Hi as [E1 N1].
  destruct (fraction_part_split r1) as [E2 N2].
  destruct (Decode.fraction_part r1) as [f r2]. simpl in E2, N2.
  destruct (exponent_part_split r2) as [E3 N3].
  destruct (Decode.exponent_part r2) as [e r3]. simpl in E3, N3.
  assert (rest = r3) as -> by (destruct f, e; congruence).
  exists (i +:+ f +:+ e). split.
  - rewrite E1, E2, E3, !sapp_assoc. reflexivity.
  - apply number_text_app; [exact N1 | now apply number_text_app].
Qed.

Lemma literal_consumes (s rest : string) (v : json) :
  Decode.literal s = Some (v, rest) -> consumes Outside s rest.
Proof.
  unfold Decode.literal. intros H.
  destruct (Pattern.drop_prefix "null" s) eqn:H1;
    [injection H as <- <-; eapply consumes_prefix; [eassumption | reflexivity] |].
  destruct (Pattern.drop_prefix "true" s) eqn:H2;
    [injection H as <- <-; eapply consumes_prefix; [eassumption | reflexivity] |].
  destruct (Pattern.drop_prefix "false" s) eqn:H3;
    [injection H as <- <-; eapply consumes_prefix; [eassumption | reflexivity] |].
  destruct (Decode.number s) as [[v' r'] |] eqn:Hn;
    [injection H as <- <-; eapply number_consumes; eassumption |].
  destruct (Pattern.drop_prefix "NaN" s) eqn:H4;
    [injection H as <- <-; eapply consumes_prefix; [eassumption | reflexivity] |].
  destruct (Pattern.drop_prefix "Infinity" s) eqn:H5;
    [injection H as <- <-; eapply consumes_prefix; [eassumption | reflexivity] |].
  destruct (Pattern.drop_prefix "-Infinity" s) eqn:H6;
    [injection H as <- <-; eapply consumes_prefix; [eassumption | reflexivity] |].
  discriminate.
Qed.

Lemma value_eq (fuel : nat) (c : ascii) (r : string) :
  Decode.value (S fuel) (String c r)
  = if Ascii.eqb c Py.dquote then
      match Decode.scanstring r with
      | Some (t, rest) => Some (JStr t, rest)
      | None => None
      end
    else if Ascii.eqb c "{" then
      match Decode.skip r with
      | String c' r' =>
          if Ascii.eqb c' "}" then Some (JDict [], r')
          else if Ascii.eqb c' Py.dquote then Decode.members fuel [] r'
          else None
      | EmptyString => None
      end
    else if Ascii.eqb c "[" then
      match Decode.skip r with
      | String c' r' =>
          if Ascii.eqb c' "]" then Some (JList [], r')
          else Decode.elements fuel [] (Decode.skip r)
      | EmptyString => None
      end
    else Decode.literal (String c r).
Proof. reflexivity. Qed.

Lemma parse_consumes (fuel : nat) :
  (forall s v rest, Decode.value fuel s = Some (v, rest) -> consumes Outside s rest)
  /\ (forall acc s v rest, Decode.members fuel acc s = Some (v, rest) ->
        consumes Inside s rest)
  /\ (forall acc s v rest, Decode.elements fuel acc s = Some (v, rest) ->
        consumes Outside s rest).
Proof.
  induction fuel as [| fuel (IHv & IHm & IHe)]; [repeat split; discriminate |].
  split; [| split].
  - intros s v rest H. destruct s as [| c r]; [discriminate |].
    rewrite value_eq in H.
    destruct (Ascii.eqb_spec c Py.dquote) as [-> | _].
    { destruct (Decode.scanstring r) as [[t rest0] |] eqn:Hs; [| discriminate].
      injection H as <- <-. eapply consumes_char; [reflexivity |].
      eapply scanstring_consumes; eassumption. }
    destruct (Ascii.eqb_spec c "{") as [-> | _].
    { pose proof (consumes_skip r) as Hk.
      destruct (Decode.skip r) as [| c' r']; [discriminate |].
      eapply consumes_char; [reflexivity |]. eapply consumes_trans; [exact Hk |].
      destruct (Ascii.eqb_spec c' "}") as [-> | _].
      { injection H as <- <-. eapply consumes_char; [reflexivity | apply consumes_refl]. }
      destruct (Ascii.eqb_spec c' Py.dquote) as [-> | _]; [| discriminate].
      eapply consumes_char; [reflexivity |]. eapply IHm; eassumption. }
    destruct (Ascii.eqb_spec c "[") as [-> | _].
    { pose proof (consumes_skip r) as Hk.
      destruct (Decode.skip r) as [| c' r'] eqn:Hr; [discriminate |].
      eapply consumes_char; [reflexivity |].
      destruct (Ascii.eqb_spec c' "]") as [-> | _].
      { injection H as <- <-. eapply consumes_trans; [exact Hk |].
        eapply consumes_char; [reflexivity | apply consumes_refl]. }
      eapply consumes_trans; [exact Hk |]. eapply IHe; eassumption. }
    eapply literal_consumes; eassumption.
  - intros acc s v rest H. rewrite members_eq in H.
    destruct (Decode.scanstring s) as [[key r1] |] eqn:Hs; [| discriminate].
    eapply consumes_trans; [eapply scanstring_consumes; eassumption |].
    eapply consumes_trans; [apply consumes_skip |].
    destruct (Decode.skip r1) as [| c2 r2]; [discriminate |].
    destruct c2 as [[] [] [] [] [] [] [] []]; try discriminate H.
    eapply consumes_char; [reflexivity |].
    eapply consumes_trans; [apply consumes_skip |].
    destruct (Decode.value fuel (Decode.skip r2)) as [[v' r3] |] eqn:Hv; [| discriminate].
    eapply consumes_trans; [eapply IHv; eassumption |].
    cbv zeta in H.
    eapply consumes_trans; [apply consumes_skip |].
    destruct (Decode.skip r3) as [| c4 r4]; [discriminate |].
    destruct c4 as [[] [] [] [] [] [] [] []]; try discriminate H.
    + injection H as <- <-. eapply consumes_char; [reflexivity | apply consumes_refl].
    + eapply consumes_char; [reflexivity |].
      eapply consumes_trans; [apply consumes_skip |].
      destruct (Decode.skip r4) as [| c5 r5]; [discriminate |].
      destruct (Ascii.eqb_spec c5 Py.dquote) as [-> | _]; [| discriminate].
      eapply consumes_char; [reflexivity |].
      assert (Hin : consumes Inside r5 rest) by (eapply IHm; eassumption).
      exact Hin.
  - intros acc s v rest H. rewrite elements_eq in H.
    destruct (Decode.value fuel s) as [[v' r1] |] eqn:Hv; [| discriminate].
    eapply consumes_trans; [eapply IHv; eassumption |].
    eapply consumes_trans; [apply consumes_skip |].
    destruct (Decode.skip r1) as [| c2 r2]; [discriminate |].
    destruct c2 as [[] [] [] [] [] [] [] []]; try discriminate H.
    + injection H as <- <-. eapply consumes_char; [reflexivity | apply consumes_refl].
    + eapply consumes_char; [reflexivity |].
      eapply consumes_trans; [apply consumes_skip |]. eapply IHe; eassumption.
Qed.

Lemma lex_fence_break (s : string) :
  Text.contains FENCE_BREAK s = true -> forall st, lex st s = None.
Proof.
  induction s as [| c s IH]; intros H st; [discriminate |].
  cbn [Text.contains] in H. apply orb_true_iff in H as [H | H].
  - unfold FENCE_BREAK in H. cbn [String.prefix] in H.
    destruct (ascii_dec "010" c) as [<- |]; [| discriminate].
    destruct s as [| c' s]; cbn [String.prefix] in H; [discriminate |].
    destruct (ascii_dec "`" c') as [<- |]; [| discriminate].
    destruct st; reflexivity.
  - simpl. destruct (lex_step st c); [now apply IH | reflexivity].
Qed.

(** [json.loads] accepts no text in which a backquote follows a line
    break. *)
Lemma loads_fence_break (s : string) :
  Text.contains FENCE_BREAK s = true -> Decode.loads s = None.
Proof.
  intros Hc. unfold Decode.loads.
  destruct (Decode.value _ (Decode.skip s)) as [[v rest] |] eqn:Hv; [| reflexivity].
  destruct (Decode.skip rest) as [| c r] eqn:Hr; [exfalso | reflexivity].
  destruct (parse_consumes (2 * String.length s + 2)) as (Hval & _).
  pose proof (Hval _ _ _ Hv) as Hc2.
  pose proof (consumes_skip rest) as Hc3. rewrite Hr in Hc3.
  pose proof (consumes_trans _ _ _ _ (consumes_trans _ _ _ _ (consumes_skip s) Hc2) Hc3)
    as (a & Ha & Hl).
  pose proof (lex_fence_break s Hc Outside) as Hn.
  rewrite Ha, sapp_nil_r, Hl in Hn. discriminate Hn.
Qed.

(** ** Finding the embedded state in a serialized document *)

Lemma join_app (sep : string) (l1 l2 : list string) :
  l1 <> [] -> l2 <> [] ->
  Text.join sep (l1 ++ l2) = Text.join sep l1 +:+ sep +:+ Text.join sep l2.
Proof.
  intros H1 H2. unfold Text.join. induction l1 as [| a l1 IH]; [congruence |].
  destruct l1 as [| b l1].
  - destruct l2; [congruence | reflexivity].
  - change (String.concat sep ((a :: b :: l1) ++ l2))
      with (a +:+ sep +:+ String.concat sep ((b :: l1) ++ l2)).
    rewrite IH by discriminate.
    change (String.concat sep (a :: b :: l1)) with (a +:+ sep +:+ String.concat sep (b :: l1)).
    now rewrite !sapp_assoc.
Qed.

Lemma serialize_split (s : state) :
  _serialize_markdown s
  = (Text.join NL (prose_lines s) +:+ NL) +:+ state_block (Json.dumps (state_json s)).
Proof.
  unfold _serialize_markdown. rewrite join_app by discriminate.
  rewrite sapp_assoc. reflexivity.
Qed.

Lemma through_last_close_tail (x : string) :
  Pattern.through_last_close (x +:+ String "}" FENCE_TAIL) = Some (x +:+ "}").
Proof.
  induction x as [| c x IH]; [reflexivity |].
  rewrite sapp_cons. cbn [Pattern.through_last_close]. rewrite IH. reflexivity.
Qed.

Lemma drop_prefix_app (p rest : string) : Pattern.drop_prefix p (p +:+ rest) = Some rest.
Proof.
  induction p as [| c p IH]; [reflexivity |]. simpl. now rewrite Ascii.eqb_refl.
Qed.

(** The pattern, tried where the block starts, captures the embedded text. *)
Lemma match_here_block (x : string) :
  Pattern.match_here (state_block (String "{" (x +:+ "}"))) = Some (String "{" (x +:+ "}")).
Proof.
  unfold Pattern.match_here, state_block. rewrite drop_prefix_app.
  change (Pattern.skip_spaces (NL +:+ "```json" +:+ NL +:+ String "{" (x +:+ "}") +:+ FENCE_TAIL))
    with ("```json" +:+ NL +:+ String "{" (x +:+ "}") +:+ FENCE_TAIL).
  rewrite drop_prefix_app.
  change (Pattern.skip_spaces (NL +:+ String "{" (x +:+ "}") +:+ FENCE_TAIL))
    with (String "{" ((x +:+ "}") +:+ FENCE_TAIL)).
  cbv iota beta. rewrite Ascii.eqb_refl, sapp_assoc.
  change ("}" +:+ FENCE_TAIL) with (String "}" FENCE_TAIL).
  now rewrite through_last_close_tail.
Qed.

(** A literal without ["<"] matched before a text that starts with ["<"] lies
    wholly before it. *)
Lemma drop_prefix_before (p a r rest : string) :
  no_lt p = true ->
  Pattern.drop_prefix p (a +:+ String "<" r) = Some rest ->
  exists a', rest = a' +:+ String "<" r.
Proof.
  revert a. induction p as [| c p IH]; intros a Hp H.
  - simpl in H. injection H as <-. now exists a.
  - unfold no_lt in Hp. simpl in Hp. apply andb_true_iff in Hp as [Hc Hp].
    destruct a as [| b a].
    + simpl in H. destruct (Ascii.eqb_spec c "<") as [-> |]; [discriminate Hc | discriminate].
    + rewrite sapp_cons in H. simpl in H. destruct (Ascii.eqb c b); [| discriminate].
      now apply (IH a).
Qed.

Lemma skip_spaces_before (a r : string) :
  Pattern.skip_spaces (a +:+ String "<" r) = Pattern.skip_spaces a +:+ String "<" r.
Proof.
  unfold Pattern.skip_spaces. induction a as [| c a IH]; [reflexivity |].
  rewrite sapp_cons. simpl. destruct (Text.isspace c); [exact IH | reflexivity].
Qed.

Lemma contains_app_r (needle a b : string) :
  Text.contains needle b = true -> Text.contains needle (a +:+ b) = true.
Proof.
  intros H. induction a as [| c a IH]; [exact H |].
  rewrite sapp_cons. cbn [Text.contains]. rewrite IH. apply orb_true_r.
Qed.

Lemma prefix_app (p rest : string) : String.prefix p (p +:+ rest) = true.
Proof.
  induction p as [| c p IH]; [now destruct rest |].
  simpl. destruct (ascii_dec c c); [exact IH | congruence].
Qed.

Lemma contains_here (needle rest : string) : Text.contains needle (needle +:+ rest) = true.
Proof.
  destruct (needle +:+ rest) eqn:E; cbn [Text.contains]; rewrite <- E, prefix_app; reflexivity.
Qed.

Lemma block_shape (x : string) :
  state_block (String "{" (x +:+ "}"))
  = (STATE_START +:+ NL +:+ "```json" +:+ NL +:+ String "{" x) +:+ String "}" FENCE_TAIL.
Proof.
  unfold state_block.
  rewrite (sapp_cons "{" (x +:+ "}") FENCE_TAIL), (sapp_assoc x "}" FENCE_TAIL).
  rewrite !sapp_assoc. reflexivity.
Qed.

Lemma drop_prefix_cons (a b : ascii) (p s : string) :
  Pattern.drop_prefix (String a p) (String b s)
  = if Ascii.eqb a b then Pattern.drop_prefix p s else None.
Proof. reflexivity. Qed.

(** The pattern, tried before the block, captures a text in which the fence
    of the block stands. *)
Lemma match_here_before (c : ascii) (a x g : string) :
  Pattern.match_here (String c a +:+ state_block (String "{" (x +:+ "}"))) = Some g ->
  Text.contains FENCE_BREAK g = true.
Proof.
  unfold Pattern.match_here. intros H.
  set (body := String "{" (x +:+ "}")) in *.
  assert (Hblock : exists r, state_block body = String "<" r)
    by (eexists; reflexivity).
  destruct Hblock as [r Hr]. rewrite Hr in H.
  rewrite sapp_cons in H.
  change STATE_START with (String "<" "!-- PLAN_STATE_JSON_START -->") in H at 1.
  rewrite drop_prefix_cons in H.
  destruct (Ascii.eqb "<" c); [| discriminate].
  destruct (Pattern.drop_prefix "!-- PLAN_STATE_JSON_START -->" (a +:+ String "<" r))
    as [r1 |] eqn:H1; [| discriminate].
  apply drop_prefix_before in H1 as [a1 ->]; [| reflexivity].
  rewrite skip_spaces_before in H.
  destruct (Pattern.drop_prefix "```json" _) as [r2 |] eqn:H2; [| discriminate].
  apply drop_prefix_before in H2 as [a2 ->]; [| reflexivity].
  rewrite skip_spaces_before in H.
  destruct (Pattern.skip_spaces a2) as [| c3 a3]; [discriminate |].
  rewrite sapp_cons in H. destruct (Ascii.eqb c3 "{"); [| discriminate].
  rewrite <- Hr in H. unfold body in H.
  rewrite block_shape, <- sapp_assoc, through_last_close_tail in H.
  injection H as <-.
  apply (contains_app_r _ (String c3 "")).
  rewrite sapp_assoc. apply contains_app_r.
  change (Text.contains FENCE_BREAK
            ((STATE_START +:+ FENCE_BREAK +:+ "``json" +:+ NL +:+ String "{" x) +:+ "}")
          = true).
  rewrite !sapp_assoc. apply contains_app_r. apply contains_here.
Qed.

(** What the pattern finds in a document that ends in the block: the
    embedded text, or a text that [json.loads] refuses. *)
Lemma search_block (p x : string) :
  let body := String "{" (x +:+ "}") in
  Pattern.search (p +:+ state_block body) = Some body
  \/ exists g, Pattern.search (p +:+ state_block body) = Some g
               /\ Text.contains FENCE_BREAK g = true.
Proof.
  intros body. induction p as [| c p IH].
  - left. change ("" +:+ state_block body) with (state_block body).
    assert (Hm := match_here_block x). fold body in Hm.
    destruct (state_block body) eqn:E; cbn [Pattern.search]; rewrite Hm; reflexivity.
  - rewrite sapp_cons. cbn [Pattern.search]. rewrite <- sapp_cons.
    destruct (Pattern.match_here (String c p +:+ state_block body)) as [g |] eqn:Hm.
    + right. exists g. split; [reflexivity |]. eapply match_here_before. exact Hm.
    + exact IH.
Qed.

(** ** Reloading a serialized state *)

Lemma sort_keys_pyint (p : option pyint) : Json.sort_keys (pyint_json p) = pyint_json p.
Proof. destruct p as [[n | b] |]; reflexivity. Qed.

Lemma sort_keys_strings (l : list string) :
  List.map Json.sort_keys (List.map JStr l) = List.map JStr l.
Proof. rewrite List.map_map. apply List.map_ext. reflexivity. Qed.

Lemma sort_keys_state (s : state) : Json.sort_keys (state_json s) = JDict (sorted_entries s).
Proof.
  unfold state_json, state_entries, sorted_entries.
  cbn [Json.sort_keys List.map fst snd].
  rewrite !List.map_map, sort_keys_pyint.
  assert (Hi : forall l, List.map (fun x => Json.sort_keys (item_json x)) l
                         = List.map item_sorted l)
    by (intros l; apply List.map_ext; reflexivity).
  assert (Hp : List.map (fun x => Json.sort_keys (progress_json x)) (progress_log s)
               = List.map progress_sorted (progress_log s)).
  { apply List.map_ext. intros e. unfold progress_json, progress_sorted.
    cbn [Json.sort_keys List.map fst snd]. rewrite sort_keys_pyint. reflexivity. }
  assert (Hr : List.map (fun x => Json.sort_keys (reflection_json x)) (reflections s)
               = List.map reflection_sorted (reflections s)).
  { apply List.map_ext. intros r. unfold reflection_json, reflection_sorted.
    cbn [Json.sort_keys List.map fst snd]. rewrite !sort_keys_strings. reflexivity. }
  rewrite !Hi, Hp, Hr. reflexivity.
Qed.

Lemma plain_pyint (p : option pyint) : plain (pyint_json p).
Proof. destruct p as [[n | b] |]; constructor. Qed.

Lemma plain_strings (l : list string) : plain (JList (List.map JStr l)).
Proof. constructor. induction l; constructor; [constructor | assumption]. Qed.

Lemma NoDup_literal (l : list string) :
  (fix distinct (l : list string) : bool :=
     match l with
     | [] => true
     | x :: r => negb (str_in x r) && distinct r
     end) l = true -> NoDup l.
Proof.
  induction l as [| x r IH]; intros H; constructor.
  - apply andb_true_iff in H as [H _]. intros Hin. apply negb_true_iff in H.
    unfold str_in in H. assert (existsb (String.eqb x) r = true); [| congruence].
    apply existsb_exists. exists x. split; [now apply list_elem_of_In | apply String.eqb_refl].
  - apply IH. now apply andb_true_iff in H as [_ H].
Qed.

Lemma plain_sorted (s : state) : plain (JDict (sorted_entries s)).
Proof.
  constructor; [apply NoDup_literal; reflexivity |].
  assert (Hi : forall l, plain (JList (List.map item_sorted l))).
  { intros l. constructor. induction l; constructor; [| assumption].
    constructor; [apply NoDup_literal; reflexivity |]. repeat constructor. }
  repeat (apply List.Forall_cons || apply List.Forall_nil); cbn [snd];
    try apply plain_pyint; try apply Hi; try constructor.
  - induction (progress_log s); constructor; [| assumption].
    constructor; [apply NoDup_literal; reflexivity |].
    repeat (apply List.Forall_cons || apply List.Forall_nil); cbn [snd];
      try apply plain_pyint; constructor.
  - induction (reflections s); constructor; [| assumption].
    constructor; [apply NoDup_literal; reflexivity |].
    repeat (apply List.Forall_cons || apply List.Forall_nil); cbn [snd];
      try apply plain_strings; constructor.
Qed.

Lemma dumps_state_shape (s : state) :
  exists x, Json.dumps (state_json s) = String "{" (x +:+ "}").
Proof.
  unfold Json.dumps. rewrite sort_keys_state. unfold sorted_entries.
  match goal with
  | |- exists x, Json.render 0 (JDict (?e :: ?d)) = _ =>
      exists (Json.newline_indent 1
              +:+ Text.join ("," +:+ Json.newline_indent 1)
                    (List.map (fun kv => Json.dumps_str (fst kv) +:+ ": "
                                         +:+ Json.render 1 (snd kv)) (e :: d))
              +:+ Json.newline_indent 0);
      change (Json.render 0 (JDict (e :: d)))
        with (String "{" (Json.newline_indent 1
                          +:+ Text.join ("," +:+ Json.newline_indent 1)
                                (List.map (fun kv => Json.dumps_str (fst kv) +:+ ": "
                                                     +:+ Json.render 1 (snd kv)) (e :: d))
                          +:+ Json.newline_indent 0 +:+ "}"))
  end.
  now rewrite !sapp_assoc.
Qed.

(** Loading what [_serialize_markdown] wrote: the decoder is refused, or the
    coercer is given the entries of the state. *)
Lemma reload_spec (s : state) (w : world) :
(exists err,
      fst (_load_state_from_markdown (_serialize_markdown s) w)
      = Raise (ValueError ("Plan file contains invalid JSON state: " +:+ err)))
  \/ _load_state_from_markdown (_serialize_markdown s) w = _coerce_state (sorted_entries s) w.
Proof.
  unfold _load_state_from_markdown. rewrite serialize_split.
  destruct (dumps_state_shape s) as [x Hx]. rewrite Hx.
  destruct (search_block (Text.join NL (prose_lines s) +:+ NL) x) as [Hs | (g & Hs & Hg)];
    cbv zeta in Hs; rewrite Hs.
  - right. rewrite <- Hx. unfold Json.dumps. rewrite sort_keys_state.
    rewrite loads_render by apply plain_sorted. reflexivity.
  - left. rewrite (loads_fence_break g Hg). eexists. reflexivity.
Qed.

(** ** What every loaded state satisfies, and every call keeps *)

Lemma valid_status_strip (st : string) :
  str_in st VALID_STATUSES = true -> Text.strip st = st.
Proof.
  unfold str_in, VALID_STATUSES. cbn [existsb]. intros H.
  repeat (apply orb_true_iff in H as [H | H]); try discriminate;
    apply String.eqb_eq in H; subst st; reflexivity.
Qed.

Lemma plan_status_strip (st : string) :
  str_in st ["active"; "completed"] = true -> Text.strip st = st /\ Text.nonempty st = true.
Proof.
  unfold str_in. cbn [existsb]. intros H.
  repeat (apply orb_true_iff in H as [H | H]); try discriminate;
    apply String.eqb_eq in H; subst st; split; reflexivity.
Qed.

Lemma coerce_item_sorted (it : item) :
  valid_status it = true ->
  coerce_item (item_sorted it)
  = if Text.nonempty (Text.strip (item_description it))
    then Some (Text.strip (item_description it), item_status it) else None.
Proof.
  intros Hv. unfold valid_status in Hv. unfold coerce_item, item_sorted.
  change (Py.get_or _ "description" _) with (JStr (item_description it)).
  change (Py.get_or _ "status" _) with (JStr (item_status it)).
  cbn [Py.str]. rewrite (valid_status_strip _ Hv), Hv.
  now destruct (Text.nonempty (Text.strip (item_description it))).
Qed.

Lemma enumerate_statuses (start : Z) (l : list (string * string)) :
  List.map item_status
    (List.map (fun it : Z * (string * string) => mk_item (fst it) (fst (snd it)) (snd (snd it)))
       (Py.enumerate start l))
  = List.map snd l.
Proof.
  revert start. induction l as [| x l IH]; intros start; [reflexivity |].
  cbn [Py.enumerate List.map]. cbn [fst snd item_status]. now rewrite IH.
Qed.

Lemma omap_cons {A B : Type} (f : A -> option B) (x : A) (l : list A) :
  omap f (x :: l) = match f x with Some y => y :: omap f l | None => omap f l end.
Proof. reflexivity. Qed.

(** Reloading keeps the statuses of the steps it keeps. *)
Lemma coerce_items_sorted (l : list item) :
  forallb valid_status l = true ->
  List.map item_status (_coerce_item_list (Some (JList (List.map item_sorted l))))
  = List.map item_status (kept l).
Proof.
  intros Hv. unfold _coerce_item_list. rewrite enumerate_statuses.
  induction l as [| it l IH]; [reflexivity |].
  cbn [forallb] in Hv. apply andb_true_iff in Hv as [Hit Hl].
  cbn [List.map kept List.filter]. rewrite omap_cons, (coerce_item_sorted it Hit).
  destruct (Text.nonempty (Text.strip (item_description it)));
    cbn [List.map snd item_status]; [f_equal |]; now apply IH.
Qed.

Lemma coerce_state_fields (d : list (string * json)) (w w' : world) (s : state) :
  _coerce_state d w = (Ok s, w') ->
  status s
  = (let x := Text.strip (Py.str (Py.get_or d "status" (JStr "active"))) in
     let x := if Text.nonempty x then x else "active" in
     if str_in x ["active"; "completed"] then x else "active")
  /\ steps s = _coerce_item_list (Py.get d "steps")
  /\ subgoals s = _coerce_item_list (Py.get d "subgoals")
  /\ percent_complete s = coerce_percent (Py.get d "percent_complete").
Proof.
  unfold _coerce_state, bind.
  destruct (or_now _ w) as [[c | e] w1]; [| discriminate].
  destruct (_coerce_progress _ w1) as [[pl | e] w2]; [| discriminate].
  destruct (_coerce_reflections _ w2) as [[rl | e] w3]; [| discriminate].
  unfold ret. intros [= <- <-]. cbn [status steps subgoals percent_complete]. tauto.
Qed.

Lemma coerce_item_valid (raw : json) (x : string * string) :
  coerce_item raw = Some x -> str_in (snd x) VALID_STATUSES = true.
Proof.
  unfold coerce_item.
  destruct (match raw with JDict d => _ | _ => _ end) as [description st].
  destruct (negb (Text.nonempty description)); [discriminate |].
  destruct (str_in st VALID_STATUSES) eqn:E; intros H; injection H as <-;
    [exact E | reflexivity].
Qed.

Lemma coerce_item_list_valid (raw : option json) :
  forallb valid_status (_coerce_item_list raw) = true.
Proof.
  unfold _coerce_item_list. destruct raw as [[| | | | | raws |] |]; try reflexivity.
  apply forallb_forall. intros it Hin. apply in_map_iff in Hin as ([i x] & <- & Hin).
  assert (Hx : In x (omap coerce_item raws)).
  { clear - Hin. revert Hin. generalize 1. generalize (omap coerce_item raws) as l.
    induction l as [| y l IH]; intros start; cbn [Py.enumerate]; [tauto |].
    intros [[= _ ->] | H]; [now left | right; eapply IH; eassumption]. }
  apply list_elem_of_In, list_elem_of_omap in Hx as (raw & _ & Hraw).
  unfold valid_status. cbn [item_status fst snd]. eapply coerce_item_valid; eassumption.
Qed.

(** Every state the coercer returns is tidy. *)
Lemma coerce_state_tidy (d : list (string * json)) (w w' : world) (s : state) :
  _coerce_state d w = (Ok s, w') -> tidy s.
Proof.
  intros H. apply coerce_state_fields in H as (Hst & Hsteps & _). split.
  - rewrite Hst. cbv zeta.
    destruct (str_in (if Text.nonempty _ then _ else _) ["active"; "completed"]) eqn:E;
      [exact E | reflexivity].
  - rewrite Hsteps. apply coerce_item_list_valid.
Qed.

Lemma in_progress_count_statuses (l l' : list item) :
  List.map item_status l = List.map item_status l' ->
  in_progress_count l = in_progress_count l'.
Proof.
  revert l'. induction l as [| x l IH]; intros [| y l']; try discriminate; [reflexivity |].
  cbn [List.map]. intros [= Hx Hl]. unfold in_progress_count in *.
  cbn [List.filter]. rewrite Hx. destruct (String.eqb _ _); cbn [List.length];
    [f_equal |]; now apply IH.
Qed.

Lemma forallb_statuses (P : string -> bool) (l l' : list item) :
  List.map item_status l = List.map item_status l' ->
  forallb (fun it => P (item_status it)) l = forallb (fun it => P (item_status it)) l'.
Proof.
  revert l'. induction l as [| x l IH]; intros [| y l']; try discriminate; [reflexivity |].
  cbn [List.map forallb]. intros [= Hx Hl]. rewrite Hx. f_equal. now apply IH.
Qed.

Lemma kept_count (l : list item) : (in_progress_count (kept l) <= in_progress_count l)%nat.
Proof.
  unfold in_progress_count, kept. induction l as [| x l IH]; [reflexivity |].
  cbn [List.filter]. destruct (Text.nonempty _); cbn [List.filter];
    destruct (String.eqb _ _); cbn [List.length]; lia.
Qed.

Lemma kept_forallb (P : item -> bool) (l : list item) :
  forallb P l = true -> forallb P (kept l) = true.
Proof.
  unfold kept. induction l as [| x l IH]; [reflexivity |].
  cbn [forallb List.filter]. intros H. apply andb_true_iff in H as [Hx Hl].
  destruct (Text.nonempty _); cbn [forallb]; [rewrite Hx |]; now apply IH.
Qed.

(** Reloading a sound state gives a sound state. *)
Lemma reload_sound (s0 s : state) (w w' : world) :
  sound s0 -> _coerce_state (sorted_entries s0) w = (Ok s, w') -> sound s.
Proof.
  intros ((Hst0 & Hv0) & Hc0 & Hn0) H.
  pose proof (coerce_state_tidy _ _ _ _ H) as Ht.
  apply coerce_state_fields in H as (Hst & Hsteps & _).
  change (Py.get (sorted_entries s0) "steps")
    with (Some (JList (List.map item_sorted (steps s0)))) in Hsteps.
  change (Py.get_or (sorted_entries s0) "status" (JStr "active"))
    with (JStr (status s0)) in Hst.
  cbn [Py.str] in Hst. cbv zeta in Hst.
  destruct (plan_status_strip _ Hst0) as [E1 E2]. rewrite E1, E2, Hst0 in Hst.
  pose proof (coerce_items_sorted _ Hv0) as Hs. rewrite <- Hsteps in Hs.
  split; [exact Ht |]. split.
  - intros Hc. rewrite Hst in Hc.
    unfold is_completed.
    rewrite (forallb_statuses (fun st => String.eqb st "completed") _ _ Hs).
    apply (kept_forallb is_completed). now apply Hc0.
  - rewrite (in_progress_count_statuses _ _ Hs).
    etransitivity; [apply kept_count | exact Hn0].
Qed.

Lemma update_plan_state_status (n : Z) (st note t : string) (s : state) :
  status (update_plan_state n st note t s)
  = if all_completed (updated_steps n st (steps s)) then "completed" else "active".
Proof.
  unfold update_plan_state, updated_steps, _recompute_percent_from_steps.
  destruct (Text.nonempty (Text.strip note)); simpl;
    destruct (alter _ _ _); reflexivity.
Qed.

Lemma forallb_alter {A : Type} (P : A -> bool) (f : A -> A) (k : nat) (l : list A) :
  (forall x, P x = true -> P (f x) = true) ->
  forallb P l = true -> forallb P (alter f k l) = true.
Proof.
  intros Hf. revert k. induction l as [| x l IH]; intros k H; [exact H |].
  cbn [forallb] in H. apply andb_true_iff in H as [Hx Hl].
  destruct k as [| k]; cbn [alter list_alter forallb]; apply andb_true_iff; split; auto.
Qed.

Lemma demoted_valid (n start : Z) (l : list item) :
  forallb valid_status l = true ->
  forallb valid_status (List.map (demote n) (Py.enumerate start l)) = true.
Proof.
  revert start. induction l as [| x l IH]; intros start H; [reflexivity |].
  cbn [forallb] in H. apply andb_true_iff in H as [Hx Hl].
  cbn [Py.enumerate List.map forallb]. apply andb_true_iff. split; [| now apply IH].
  unfold demote. cbn [fst snd].
  destruct (negb (start =? n) && String.eqb (item_status x) "in_progress");
    [reflexivity | exact Hx].
Qed.

Lemma updated_steps_valid (n : Z) (st : string) (l : list item) :
  str_in st VALID_STATUSES = true ->
  forallb valid_status l = true -> forallb valid_status (updated_steps n st l) = true.
Proof.
  intros Hst Hl. unfold updated_steps. apply forallb_alter; [intros; exact Hst |].
  destruct (String.eqb st "in_progress"); [| exact Hl].
  rewrite demote_others_eq. now apply demoted_valid.
Qed.

Lemma alter_count (st : string) (k : nat) (l : list item) :
  String.eqb st "in_progress" = false ->
  (in_progress_count (alter (set_item_status st) k l) <= in_progress_count l)%nat.
Proof.
  intros Hst. revert k. induction l as [| x l IH]; intros k; [reflexivity |].
  destruct k as [| k]; cbn [alter list_alter]; rewrite !in_progress_count_cons.
  - unfold is_in_progress at 1. cbn [set_item_status item_status]. rewrite Hst. lia.
  - specialize (IH k). cbn [alter] in IH. lia.
Qed.

Lemma updated_steps_count (n : Z) (st : string) (l : list item) :
  1 <= n <= Z.of_nat (List.length l) ->
  (in_progress_count l <= 1)%nat -> (in_progress_count (updated_steps n st l) <= 1)%nat.
Proof.
  intros Hn Hl. destruct (String.eqb st "in_progress") eqn:Hst.
  - apply String.eqb_eq in Hst. subst st.
    destruct (updated_steps_in_progress n l Hn) as [-> _]. lia.
  - unfold updated_steps. rewrite Hst. etransitivity; [now apply alter_count | exact Hl].
Qed.

Lemma all_completed_forallb (l : list item) :
  all_completed l = true -> forallb is_completed l = true.
Proof. destruct l; [discriminate | exact id]. Qed.

Lemma marked_completed (l : list item) :
  forallb valid_status (_mark_all_completed l) = true
  /\ forallb is_completed (_mark_all_completed l) = true
  /\ in_progress_count (_mark_all_completed l) = 0%nat.
Proof.
  induction l as [| x l (IH1 & IH2 & IH3)]; [repeat split |].
  unfold _mark_all_completed in *. cbn [List.map]. rewrite in_progress_count_cons.
  cbn [forallb]. rewrite IH1, IH2, IH3. repeat split.
Qed.

Lemma force_complete_sound (s : state) : sound (force_complete s).
Proof.
  destruct (marked_completed (steps s)) as (H1 & H2 & H3).
  unfold sound, tidy, force_complete. cbn [status steps with_percent with_status
    with_subgoals with_steps].
  rewrite H1, H2, H3. repeat split. lia.
Qed.

Lemma sound_same (s s' : state) :
  status s' = status s -> steps s' = steps s -> sound s -> sound s'.
Proof. unfold sound, tidy. now intros -> ->. Qed.

Lemma sound_restatus (s s' : state) :
  status s' = (if all_completed (steps s) then "completed" else "active") ->
  steps s' = steps s -> sound s -> sound s'.
Proof.
  unfold sound, tidy. intros -> ->. intros ((_ & Hv) & _ & Hn).
  destruct (all_completed (steps s)) eqn:E.
  - repeat split; try assumption. intros _. now apply all_completed_forallb.
  - repeat split; try assumption. discriminate.
Qed.

Lemma recompute_fields (s : state) :
  status (_recompute_percent_from_steps s) = status s
  /\ steps (_recompute_percent_from_steps s) = steps s
  /\ subgoals (_recompute_percent_from_steps s) = subgoals s.
Proof.
  unfold _recompute_percent_from_steps.
  destruct (steps s) eqn:E; repeat split; try reflexivity; exact E.
Qed.

(** Every call writes a sound state when it loaded one. *)
Lemma transition_sound (s s' : state) : transition s s' -> sound s -> sound s'.
Proof.
  intros [n st note t Hn Hst | l replace t | note percent complete_plan t
          | summary risks next_actions finalize t] Hs.
  - destruct Hs as ((_ & Hv) & _ & Hc). unfold sound, tidy.
    rewrite update_plan_state_status, update_plan_state_steps.
    pose proof (updated_steps_valid n st _ Hst Hv) as Hv'.
    pose proof (updated_steps_count n st _ Hn Hc) as Hc'.
    destruct (all_completed (updated_steps n st (steps s))) eqn:E.
    + repeat split; try assumption. intros _. now apply all_completed_forallb.
    + repeat split; try assumption. discriminate.
  - revert Hs. now apply sound_same.
  - unfold track_progress_state.
    destruct (complete_plan || match percent with Some p => p =? 100 | None => false end).
    + eapply sound_same; [| | apply (force_complete_sound
        (match percent with
         | Some p => with_percent (with_progress_log s
                      (progress_log s ++ [mk_progress t note (option_map PInt percent)]))
                      (Some (PInt p))
         | None => with_progress_log s
                      (progress_log s ++ [mk_progress t note (option_map PInt percent)])
         end))]; reflexivity.
    + revert Hs. apply sound_restatus.
      * destruct percent; cbn [with_updated_at status]; [reflexivity |].
        now rewrite (proj1 (recompute_fields _)).
      * destruct percent; cbn [with_updated_at steps]; [reflexivity |].
        now rewrite (proj1 (proj2 (recompute_fields _))).
  - unfold reflect_on_plan_state. destruct finalize.
    + eapply sound_same; [| | apply force_complete_sound]; reflexivity.
    + revert Hs. apply sound_same; cbn [with_updated_at status steps].
      * now rewrite (proj1 (recompute_fields _)).
      * now rewrite (proj1 (proj2 (recompute_fields _))).
Qed.

Lemma built_items (l : list string) (start : Z) :
  forallb valid_status
    (List.map (fun it : Z * string => mk_item (fst it) (snd it) "pending")
       (Py.enumerate start l)) = true
  /\ in_progress_count
       (List.map (fun it : Z * string => mk_item (fst it) (snd it) "pending")
          (Py.enumerate start l)) = 0%nat.
Proof.
  revert start. induction l as [| x l IH]; intros start; [split; reflexivity |].
  destruct (IH (start + 1)) as [H1 H2].
  cbn [Py.enumerate List.map forallb]. rewrite in_progress_count_cons.
  split; [| exact H2]. exact H1.
Qed.

(** What [create_plan] writes is sound. *)
Lemma initial_sound (s : state) : initial s -> sound s.
Proof.
  intros (task_text & l & t & ->). unfold sound, tidy. cbn [status steps].
  unfold _build_plan_items. destruct (built_items l 1) as [Hv Hc].
  destruct (List.map _ (Py.enumerate 1 l)) as [| x r].
  - split; [split; reflexivity |]. split; [discriminate | cbn; lia].
  - cbn [set_first_status]. cbn [forallb] in *. rewrite in_progress_count_cons in *.
    apply andb_true_iff in Hv as [_ Hr]. rewrite Hr.
    split; [split; reflexivity |]. split; [discriminate |].
    unfold is_in_progress at 1. cbn [set_item_status item_status].
    change (String.eqb "in_progress" "in_progress") with true.
    destruct (is_in_progress x); lia.
Qed.

(** ** What a call does to the files *)

Lemma bind_ok {A B : Type} (m : M A) (k : A -> M B) (w : world) (a : A) :
  fst (m w) = Ok a -> bind m k w = k a (snd (m w)).
Proof. unfold bind. destruct (m w) as [r w1]. cbn [fst snd]. now intros ->. Qed.

Lemma bind_raise {A B : Type} (m : M A) (k : A -> M B) (w : world) (e : exn) :
  fst (m w) = Raise e -> bind m k w = (Raise e, snd (m w)).
Proof. unfold bind. destruct (m w) as [r w1]. cbn [fst snd]. now intros ->. Qed.

Lemma read_cases (f : string) (w : world) :
  (exists p s, loaded f w p s)
  \/ (exists e, fst (_read_existing_state f w) = Raise e)
  \/ (exists op c err, fst (_read_existing_state f w) = Ok (op, None, String c err)).
Proof.
  pose proof (read_existing_spec f w) as H. unfold loaded.
  destruct (fst (_read_existing_state f w)) as [[[[p |] [s |]] err] | e].
  - destruct H as (-> & _). left. eauto.
  - right; right. destruct err; [discriminate | eauto].
  - contradiction.
  - right; right. destruct err; [discriminate | eauto].
  - right; left. eauto.
Qed.

Lemma effect_untouched (w w' : world) : untouched w w' -> effect w w'.
Proof. intros H. split; [now apply untouched_later | left; now apply untouched_same_files]. Qed.

Lemma effect_committed (w : world) (p : path) (f : string) (s s' : state)
    (out : result string * world) :
  loaded f w p s -> transition s s' -> committed w p s' out -> effect w (snd out).
Proof.
  intros Hl Ht (L & F & msg & _ & [[_ Hs] | (_ & Hp & _)]).
  - split; [exact L | now left].
  - split; [exact L |]. right. exists p. split; [exact F |]. right. exists s'. eauto 6.
Qed.

Lemma effect_finished (cleanup : bool) (w : world) (p : path) (f : string) (s s' : state)
    (out : result string * world) :
  loaded f w p s -> transition s s' -> finished cleanup w p s' out -> effect w (snd out).
Proof.
  intros Hl Ht (L & F & [(msg & _ & _ & Hs) | (_ & Hc)]).
  - split; [exact L | now left].
  - split; [exact L |]. right. exists p. split; [exact F |].
    destruct cleanup.
    + destruct Hc as [(_ & _ & Hp) | [(_ & _ & Hn) | (_ & _ & Hp)]];
        [right; exists s'; eauto 6 | now left | right; exists s'; eauto 6].
    + destruct Hc as (msg & _ & _ & Hp). right. exists s'. eauto 6.
Qed.

Lemma update_plan_effect (n : Z) (st note f : string) (w : world) :
  effect w (snd (update_plan n st note f w)).
Proof.
  destruct (Z.lt_ge_cases n 1) as [Hlow | Hlow].
  { apply effect_untouched. apply (update_plan_rejected n st note f w). now left. }
  destruct (str_in st VALID_STATUSES) eqn:Hv.
  2:{ apply effect_untouched. apply (update_plan_rejected n st note f w). right. now left. }
  destruct (read_cases f w) as [(p & s & Hl) | [[e He] | (op & c & err & He)]].
  - destruct (Z.lt_ge_cases (Z.of_nat (List.length (steps s))) n) as [Hn | Hn].
    + apply effect_untouched. apply (update_plan_rejected n st note f w). right. right. eauto.
    + destruct (update_plan_loaded n st note f w p s Hl (conj Hlow Hn) Hv) as [t Hc].
      eapply effect_committed; [exact Hl | | exact Hc]. now constructor.
  - unfold update_plan. replace (n <? 1) with false by (symmetry; apply Z.ltb_ge; lia).
    rewrite Hv. cbn [negb]. rewrite (bind_raise _ _ _ _ He). cbn [snd].
    apply effect_untouched, loaded_untouched.
  - unfold update_plan. replace (n <? 1) with false by (symmetry; apply Z.ltb_ge; lia).
    rewrite Hv. cbn [negb]. rewrite (bind_ok _ _ _ _ He).
    destruct op; apply effect_untouched, loaded_untouched.
Qed.

Lemma set_subgoals_effect (l : list string) (f : string) (replace : bool) (w : world) :
  effect w (snd (set_subgoals l f replace w)).
Proof.
  destruct (_normalize_text_items l) as [| x r] eqn:Hn.
  { unfold set_subgoals. rewrite Hn. apply effect_untouched, untouched_refl. }
  destruct (read_cases f w) as [(p & s & Hl) | [[e He] | (op & c & err & He)]].
  - assert (Hne : _normalize_text_items l <> []) by (rewrite Hn; discriminate).
    destruct (set_subgoals_loaded l f replace w p s Hl Hne) as [t Hc].
    eapply effect_committed; [exact Hl | | exact Hc]. constructor.
  - unfold set_subgoals. rewrite Hn, (bind_raise _ _ _ _ He). cbn [snd].
    apply effect_untouched, loaded_untouched.
  - unfold set_subgoals. rewrite Hn, (bind_ok _ _ _ _ He).
    destruct op; apply effect_untouched, loaded_untouched.
Qed.

Lemma track_progress_effect (message : string) (percent : option Z) (f : string)
    (complete_plan cleanup : bool) (w : world) :
  effect w (snd (track_progress message percent f complete_plan cleanup w)).
Proof.
  destruct (Text.nonempty (Text.strip message)) eqn:Hm.
  2:{ unfold track_progress. rewrite Hm. apply effect_untouched, untouched_refl. }
  destruct (match percent with Some p => (p <? 0) || (p >? 100) | None => false end) eqn:Hp.
  { unfold track_progress. rewrite Hm, Hp. apply effect_untouched, untouched_refl. }
  destruct (read_cases f w) as [(p & s & Hl) | [[e He] | (op & c & err & He)]].
  - assert (Hr : percent_in_range percent).
    { destruct percent as [q |]; [| exact I]. cbn. apply orb_false_iff in Hp as [H1 H2].
      apply Z.ltb_ge in H1. rewrite Z.gtb_ltb in H2. apply Z.ltb_ge in H2. lia. }
    destruct (track_progress_loaded message percent f complete_plan cleanup w p s Hl Hm Hr)
      as [t Hc].
    eapply effect_finished; [exact Hl | | exact Hc]. constructor.
  - unfold track_progress. rewrite Hm, Hp. cbn [negb].
    rewrite (bind_raise _ _ _ _ He). apply effect_untouched, loaded_untouched.
  - unfold track_progress. rewrite Hm, Hp. cbn [negb].
    rewrite (bind_ok _ _ _ _ He).
    destruct op; apply effect_untouched, loaded_untouched.
Qed.

Lemma reflect_on_plan_effect (summary : string) (risks next_actions : option (list string))
    (f : string) (finalize cleanup : bool) (w : world) :
  effect w (snd (reflect_on_plan summary risks next_actions f finalize cleanup w)).
Proof.
  destruct (Text.nonempty (Text.strip summary)) eqn:Hm.
  2:{ unfold reflect_on_plan. rewrite Hm. apply effect_untouched, untouched_refl. }
  destruct (read_cases f w) as [(p & s & Hl) | [[e He] | (op & c & err & He)]].
  - destruct (reflect_on_plan_loaded summary risks next_actions f finalize cleanup w p s Hl Hm)
      as [t Hc].
    eapply effect_finished; [exact Hl | | exact Hc]. constructor.
  - unfold reflect_on_plan. rewrite Hm. cbn [negb].
    rewrite (bind_raise _ _ _ _ He). apply effect_untouched, loaded_untouched.
  - unfold reflect_on_plan. rewrite Hm. cbn [negb].
    rewrite (bind_ok _ _ _ _ He).
    destruct op; apply effect_untouched, loaded_untouched.
Qed.

Lemma quiet_path_exists (p : path) : quiet (path_exists p).
Proof. unfold path_exists. apply quiet_bind; [apply quiet_io_stat | intros; apply quiet_ret]. Qed.

Lemma quiet_path_is_dir (p : path) : quiet (path_is_dir p).
Proof. unfold path_is_dir. apply quiet_bind; [apply quiet_io_stat | intros; apply quiet_ret]. Qed.

Lemma resolve_cases (f : string) (w : world) :
  (attempt value_error (_resolve_workspace_path f) w = (Ok (inr (w_resolve w f)), w)
   /\ is_Some (relative_to (w_root w) (w_resolve w f)))
  \/ exists err, attempt value_error (_resolve_workspace_path f) w = (Ok (inl err), w).
Proof.
  unfold attempt, _resolve_workspace_path.
  destruct (relative_to (w_root w) (w_resolve w f)) eqn:E; cbn; eauto.
Qed.

Lemma path_exists_ticks (p : path) (w : world) :
  w_ticks (snd (path_exists p w)) = w_ticks w.
Proof. reflexivity. Qed.

Lemma path_is_dir_ticks (p : path) (w : world) :
  w_ticks (snd (path_is_dir p w)) = w_ticks w.
Proof. reflexivity. Qed.

(** [create_plan]: an error and the files as they were, or the new plan
    written, with the time read first from the clock. *)
Lemma create_plan_spec_at (text : string) (given_steps : option (list string))
    (f : string) (overwrite : bool) (w : world) :
  let out := create_plan text given_steps f overwrite w in
  later w (snd out)
  /\ exists msg, fst out = Ok msg
     /\ ((Text.startswith "Error:" msg = true /\ same_files w (snd out))
         \/ (Text.startswith "Error:" msg = false
             /\ Text.nonempty (Text.strip text) = true
             /\ is_Some (relative_to (w_root w) (w_resolve w f))
             /\ let s' := create_plan_state text given_steps (w_clock w (w_ticks w)) in
                same_files_but (w_resolve w f) w (snd out)
                /\ persisted (snd out) (w_resolve w f) s'
                /\ wrote w (snd out) (w_resolve w f) (_serialize_markdown s')
                /\ exists rel,
                     msg = "Created plan " +:+ rel +:+ " with "
                           +:+ Text.of_Z (Z.of_nat (List.length (steps s')))
                           +:+ " step(s)")).
Proof.
  intros out. assert (E : out = create_plan text given_steps f overwrite w) by reflexivity.
  clearbody out. unfold create_plan in E.
  destruct (Text.nonempty (Text.strip text)) eqn:Hne; cbn [negb] in E.
  2:{ subst out. split; [apply later_refl |]. eexists. split; [reflexivity |]. left.
      split; [reflexivity | apply same_files_refl]. }
  set (given := _normalize_text_items _) in E.
  set (normalized := match given with [] => decompose_task _ 6 | _ => given end) in E.
  lazymatch type of E with
  | context [match ?e with Some msg => ret msg | None => _ end] =>
      destruct e as [early |] eqn:Hearly
  end.
  { assert (He : Text.startswith "Error:" early = true).
    { destruct given; [| discriminate]. destruct normalized as [| first r]; [discriminate |].
      destruct (Text.startswith "Error:" first) eqn:E'; [| discriminate].
      now injection Hearly as <-. }
    subst out. split; [apply later_refl |]. exists early. split; [reflexivity |]. left.
    split; [exact He | apply same_files_refl]. }
  clear Hearly. unfold bind at 1 in E.
  destruct (resolve_cases f w) as [[Hr Hin] | [err Hr]]; rewrite Hr in E.
  2:{ subst out. split; [apply later_refl |]. eexists. split; [reflexivity |]. left.
      split; [reflexivity | apply same_files_refl]. }
  set (p := w_resolve w f) in *.
  unfold bind at 1 in E. pose proof (quiet_path_exists p w) as Q1.
  destruct (path_exists p w) as [[found | e] w1] eqn:E1; cbn [snd] in Q1.
  2:{ exfalso. revert E1. unfold path_exists, bind, io_stat. now destruct (w_nodes w !! p). }
  destruct (found && negb overwrite).
  { subst out. split; [now apply untouched_later |]. eexists. split; [reflexivity |]. left.
    split; [reflexivity | now apply untouched_same_files]. }
  unfold bind at 1 in E. pose proof (quiet_path_exists p w1) as Q2.
  destruct (path_exists p w1) as [[found' | e] w2] eqn:E2; cbn [snd] in Q2.
  2:{ exfalso. revert E2. unfold path_exists, bind, io_stat. now destruct (w_nodes w1 !! p). }
  unfold bind at 1 in E.
  assert (Q3 : untouched w2 (snd ((if found' then path_is_dir p else ret false) w2))).
  { destruct found'; [apply quiet_path_is_dir | apply quiet_ret]. }
  destruct ((if found' then path_is_dir p else ret false) w2) as [[is_dir | e] w3] eqn:E3;
    cbn [snd] in Q3.
  2:{ exfalso. revert E3. destruct found'; [| discriminate].
      unfold path_is_dir, bind, io_stat. now destruct (w_nodes w2 !! p) as [[] |]. }
  assert (Q : untouched w w3)
    by (eapply untouched_trans; [eapply untouched_trans |]; eassumption).
  assert (T : w_clock w3 (w_ticks w3) = w_clock w (w_ticks w)).
  { destruct Q as (_ & _ & -> & _). f_equal.
    pose proof (path_exists_ticks p w) as T1. rewrite E1 in T1.
    pose proof (path_exists_ticks p w1) as T2. rewrite E2 in T2.
    assert (T3 : w_ticks w3 = w_ticks w2).
    { destruct found'.
      - pose proof (path_is_dir_ticks p w2) as T3. now rewrite E3 in T3.
      - now injection E3 as _ <-. }
    cbn [snd] in T1, T2. congruence. }
  destruct is_dir.
  { subst out. split; [now apply untouched_later |]. eexists. split; [reflexivity |]. left.
    split; [reflexivity | now apply untouched_same_files]. }
  set (mk := fun t : string =>
               mk_state (Text.strip text) "active" t t (Some (PInt 0))
                 (set_first_status "in_progress" (_build_plan_items normalized "pending"))
                 [] [mk_progress t "Plan created" (Some (PInt 0))] []).
  destruct (commit_spec w w3 p mk
              (fun s => rel <- _to_workspace_relative p ;;
                        ret ("Created plan " +:+ rel +:+ " with "
                             +:+ Text.of_Z (Z.of_nat (List.length (steps s)))
                             +:+ " step(s)")) Q Hin)
    as [(msg & Hm & He & L & F) | (w4 & Ho & L & F & Hp & Hw)].
  - subst out. split; [exact L |]. exists msg. split; [exact Hm |]. left. now split.
  - cbv zeta in Ho. unfold mk in Ho at 1 2. cbv beta in Ho.
    cbv zeta in E. rewrite Ho in E.
    assert (Hin4 : is_Some (relative_to (w_root w4) p))
      by (rewrite (later_root _ _ L); exact Hin).
    destruct (relative_ok p w4 Hin4) as [rel Hrel]. unfold bind in E. rewrite Hrel in E.
    subst out. cbn [fst snd ret].
    split; [exact L |]. eexists. split; [reflexivity |]. right. split; [reflexivity |].
    split; [reflexivity |]. split; [exact Hin |]. cbv zeta.
    unfold create_plan_state, planned_steps. fold given. fold normalized.
    rewrite <- T. fold (mk (w_clock w3 (w_ticks w3))).
    split; [exact F |]. split; [exact Hp |]. split; [exact Hw |]. now exists rel.
Qed.

(** [create_plan]: an error and the files as they were, or a new plan
    written. *)
Lemma create_plan_spec (text : string) (given_steps : option (list string))
    (f : string) (overwrite : bool) (w : world) :
  let out := create_plan text given_steps f overwrite w in
  later w (snd out)
  /\ exists msg, fst out = Ok msg
     /\ ((Text.startswith "Error:" msg = true /\ same_files w (snd out))
         \/ (Text.startswith "Error:" msg = false
             /\ exists s', initial s' /\ task s' = Text.strip text
                  /\ same_files_but (w_resolve w f) w (snd out)
                  /\ persisted (snd out) (w_resolve w f) s'
                  /\ wrote w (snd out) (w_resolve w f) (_serialize_markdown s'))).
Proof.
  intros out.
  destruct (create_plan_spec_at text given_steps f overwrite w)
    as (L & msg & Hm & [He | (He & _ & _ & F & Hp & Hw & _)]).
  - split; [exact L |]. exists msg. split; [exact Hm | now left].
  - split; [exact L |]. exists msg. split; [exact Hm |]. right. split; [exact He |].
    exists (create_plan_state text given_steps (w_clock w (w_ticks w))).
    split; [unfold initial, create_plan_state; eauto |].
    split; [reflexivity |]. now split.
Qed.

Lemma create_plan_effect (text : string) (given_steps : option (list string))
    (f : string) (overwrite : bool) (w : world) :
  effect w (snd (create_plan text given_steps f overwrite w)).
Proof.
  destruct (create_plan_spec text given_steps f overwrite w)
    as (L & msg & _ & [[_ F] | (_ & s' & Hi & _ & F & Hp & _)]).
  - split; [exact L | now left].
  - split; [exact L |]. right. exists (w_resolve w f). split; [exact F |].
    right. exists s'. split; [exact Hp | now left].
Qed.

Lemma call_effect (c : call) (w : world) : effect w (snd (run_call c w)).
Proof.
  destruct c; cbn [run_call].
  - apply create_plan_effect.
  - apply update_plan_effect.
  - apply set_subgoals_effect.
  - apply track_progress_effect.
  - apply reflect_on_plan_effect.
Qed.

(** ** The invariant of a plan document *)

(** What loads from a sound document is sound. *)
Lemma loaded_sound (f : string) (w : world) (p : path) (s : state) :
  sound_at w p -> loaded f w p s -> sound s.
Proof.
  intros Hat Hl. pose proof (read_existing_spec f w) as H. unfold loaded in Hl.
  rewrite Hl in H. destruct H as (_ & _ & _ & content & w1 & w2 & Hn & _ & Hload).
  destruct (Hat content Hn) as (s0 & -> & Hs0).
  destruct (reload_spec s0 w1) as [[err Hbad] | Hgood].
  - rewrite Hload in Hbad. discriminate.
  - rewrite Hgood in Hload. eapply reload_sound; eassumption.
Qed.

Lemma effect_sound_at (w w' : world) (p : path) :
  effect w w' -> sound_at w p -> sound_at w' p.
Proof.
  intros (_ & [F | (q & F & Hq)]) Hat content Hn.
  - apply Hat. now apply F.
  - destruct (decide (p = q)) as [-> | Hne]; [| apply Hat; now apply (F p content)].
    destruct Hq as [Hq | (s' & Hp & Hs')]; [congruence |].
    unfold persisted in Hp. rewrite Hp in Hn. injection Hn as <-.
    exists s'. split; [reflexivity |].
    destruct Hs' as [Hi | (f & s & Hl & Ht)]; [now apply initial_sound |].
    eapply transition_sound; [exact Ht |]. eapply loaded_sound; eassumption.
Qed.

Lemma run_calls_later (cs : list call) (w : world) : later w (run_calls cs w).
Proof.
  revert w. induction cs as [| c cs IH]; intros w; [apply later_refl |].
  cbn [run_calls]. eapply later_trans; [apply call_effect | apply IH].
Qed.

(** Every sequence of calls keeps a sound document sound. *)
Lemma run_calls_sound_at (cs : list call) (w : world) (p : path) :
  sound_at w p -> sound_at (run_calls cs w) p.
Proof.
  revert w. induction cs as [| c cs IH]; intros w H; [exact H |].
  cbn [run_calls]. apply IH. eapply effect_sound_at; [apply call_effect | exact H].
Qed.

Lemma persisted_sound_at (w : world) (p : path) (s : state) :
  persisted w p s -> sound s -> sound_at w p.
Proof.
  intros Hp Hs content Hn. unfold persisted in Hp. rewrite Hp in Hn.
  injection Hn as <-. eauto.
Qed.

Lemma loads_as_loaded (f : string) (w : world) (s : state) :
  loads_as f w s <-> loaded f w (w_resolve w f) s.
Proof.
  unfold loads_as, loaded. split; [| eauto]. intros [p H].
  pose proof (read_existing_spec f w) as Hs. rewrite H in Hs.
  destruct Hs as (_ & -> & _). exact H.
Qed.




(** ** [_normalize_text_items] and [decompose_task] *)

Lemma str_in_In (x : string) (l : list string) : str_in x l = true <-> In x l.
Proof.
  unfold str_in. rewrite existsb_exists. split.
  - intros (y & Hy & E). apply String.eqb_eq in E. now subst.
  - intros H. exists x. split; [exact H | apply String.eqb_refl].
Qed.

Lemma normalize_loop_spec (seen l : list string) :
  Forall (fun x => Text.nonempty x = true) (normalize_loop seen l)
  /\ NoDup (normalize_loop seen l)
  /\ forall x, In x (normalize_loop seen l) -> str_in x seen = false.
Proof.
  revert seen. induction l as [| raw rest IH]; intros seen; cbn [normalize_loop].
  { split; [constructor |]. split; [constructor | intros x []]. }
  cbv zeta.
  destruct (Text.nonempty (Text.strip raw)) eqn:Hne; cbn [negb orb]; [| apply IH].
  destruct (str_in (Text.strip raw) seen) eqn:Hin; [apply IH |].
  destruct (IH (Text.strip raw :: seen)) as (H1 & H2 & H3).
  split; [constructor; assumption |]. split.
  - constructor; [| exact H2]. rewrite list_elem_of_In. intros Hx. specialize (H3 _ Hx).
    unfold str_in in H3. cbn [existsb] in H3. now rewrite String.eqb_refl in H3.
  - intros x [<- | Hx]; [exact Hin |]. specialize (H3 _ Hx).
    unfold str_in in *. cbn [existsb] in H3. now apply orb_false_iff in H3.
Qed.

Lemma normalize_spec (l : list string) :
  Forall (fun x => Text.nonempty x = true) (_normalize_text_items l)
  /\ NoDup (_normalize_text_items l).
Proof. destruct (normalize_loop_spec [] l) as (H1 & H2 & _). now split. Qed.

Lemma firstn_spec (k : nat) (l : list string) :
  Forall (fun x => Text.nonempty x = true) l -> NoDup l ->
  Forall (fun x => Text.nonempty x = true) (List.firstn k l)
  /\ NoDup (List.firstn k l)
  /\ List.length (List.firstn k l) = Nat.min k (List.length l).
Proof.
  intros H1 H2. split; [| split].
  - rewrite <- (List.firstn_skipn k l) in H1. now apply List.Forall_app in H1 as [H1 _].
  - rewrite <- (List.firstn_skipn k l) in H2. now apply NoDup_app in H2 as (H2 & _).
  - apply List.length_firstn.
Qed.

Lemma fallback_spec (normalized : string) :
  Forall (fun x => Text.nonempty x = true) (fallback_steps normalized)
  /\ NoDup (fallback_steps normalized)
  /\ Forall (fun x => Text.startswith "Error:" x = false) (fallback_steps normalized).
Proof.
  unfold fallback_steps. split; [repeat constructor |]. split.
  - constructor.
    + rewrite list_elem_of_In. cbn [In]. intros [H | [H | [H | [H | []]]]]; discriminate.
    + apply NoDup_literal. reflexivity.
  - repeat constructor.
Qed.

Lemma decompose_task_eq (text : string) (max_steps : Z) :
  0 < max_steps ->
  let normalized := Text.strip (Text.join " " (Text.split text)) in
  Text.nonempty normalized = true ->
  decompose_task text max_steps
  = List.firstn (Z.to_nat max_steps)
      (if 2 <=? Z.of_nat (List.length (fragments normalized))
       then fragments normalized else fallback_steps normalized).
Proof.
  intros Hm normalized Hn. unfold decompose_task.
  replace (max_steps <=? 0) with false by (symmetry; apply Z.leb_gt; lia).
  fold normalized. rewrite Hn. cbn [negb]. fold (fragments normalized).
  now destruct (2 <=? Z.of_nat (List.length (fragments normalized))).
Qed.

(** ** Percentages *)

Lemma recompute_percent (s : state) :
  percent_complete (_recompute_percent_from_steps s) = Some (PInt (step_ratio (steps s))).
Proof. unfold _recompute_percent_from_steps, step_ratio. now destruct (steps s). Qed.

Lemma update_plan_state_percent (n : Z) (st note t : string) (s : state) :
  percent_complete (update_plan_state n st note t s)
  = Some (PInt (step_ratio (steps (update_plan_state n st note t s)))).
Proof.
  rewrite update_plan_state_steps. unfold update_plan_state. rewrite recompute_percent.
  fold (updated_steps n st (steps s)).
  now destruct (Text.nonempty (Text.strip note)).
Qed.

Lemma completed_count_range (l : list item) :
  0 <= completed_count l <= Z.of_nat (List.length l).
Proof.
  unfold completed_count. pose proof (List.filter_length_le is_completed l). lia.
Qed.

Lemma completed_count_full (l : list item) :
  completed_count l = Z.of_nat (List.length l) -> forallb is_completed l = true.
Proof.
  unfold completed_count. intros H. apply Nat2Z.inj in H.
  induction l as [| x l IH]; [reflexivity |].
  cbn [List.filter forallb List.length] in *.
  pose proof (List.filter_length_le is_completed l).
  destruct (is_completed x); cbn [List.length andb] in *; [apply IH |]; lia.
Qed.

(** ** Calls that succeed had valid arguments *)

Lemma track_progress_valid (message : string) (percent : option Z) (f : string)
    (complete_plan cleanup : bool) (w : world) :
  succeeded (track_progress message percent f complete_plan cleanup w) ->
  Text.nonempty (Text.strip message) = true /\ percent_in_range percent.
Proof.
  intros (msg & Hm & He). unfold track_progress in Hm.
  destruct (Text.nonempty (Text.strip message)); cbn [negb] in Hm.
  2:{ injection Hm as <-. discriminate. }
  split; [reflexivity |].
  destruct percent as [q |]; [| exact I]. cbn.
  destruct ((q <? 0) || (q >? 100)) eqn:E.
  - injection Hm as <-. discriminate.
  - apply orb_false_iff in E as [H1 H2]. apply Z.ltb_ge in H1.
    rewrite Z.gtb_ltb in H2. apply Z.ltb_ge in H2. lia.
Qed.

Lemma reflect_on_plan_valid (summary : string) (risks next_actions : option (list string))
    (f : string) (finalize cleanup : bool) (w : world) :
  succeeded (reflect_on_plan summary risks next_actions f finalize cleanup w) ->
  Text.nonempty (Text.strip summary) = true.
Proof.
  intros (msg & Hm & He). unfold reflect_on_plan in Hm.
  destruct (Text.nonempty (Text.strip summary)); [reflexivity |].
  injection Hm as <-. discriminate.
Qed.

(** ** Cleanup *)

(** A call that succeeded with cleanup requested removed the document or left
    the state it wrote. *)
Lemma finished_succeeded (cleanup : bool) (w : world) (p : path) (s' : state)
    (out : result string * world) :
  finished cleanup w p s' out -> succeeded out ->
  wrote w (snd out) p (_serialize_markdown s')
  /\ (w_nodes (snd out) !! p = None \/ persisted (snd out) p s')
  /\ (cleanup = false -> persisted (snd out) p s').
Proof.
  intros (_ & _ & [(msg & Hm & He & _) | (Hw & Hc)]) Hs.
  { exfalso. eapply succeeded_not_error; eassumption. }
  split; [exact Hw |]. destruct cleanup.
  - split; [| discriminate].
    destruct Hc as [(_ & H2 & _) | [(_ & _ & H3) | (_ & _ & H3)]]; [| now left | now right].
    exfalso. eapply succeeded_not_error; [exact Hs | exact H2 | reflexivity].
  - destruct Hc as (msg & _ & _ & Hp). split; [now right | intros _; exact Hp].
Qed.

(** ** Binary64 arithmetic: how the operations round *)

Lemma digits2_size (p : positive) : digits2_pos p = Pos.size p.
Proof. induction p as [p IH | p IH |]; cbn; now rewrite ?IH. Qed.

(** A positive number has [d] binary digits when it lies between 2^(d-1)
    and 2^d. *)
Lemma Zdigits2_bounds (m : Z) :
  0 < m -> 2 ^ (Zdigits2 m - 1) <= m < 2 ^ Zdigits2 m.
Proof.
  destruct m as [| p | p]; try lia. intros _. cbn [Zdigits2]. rewrite digits2_size.
  pose proof (Pos.size_gt p) as Hgt. pose proof (Pos.size_le p) as Hle.
  assert (E : Z.pos (2 ^ Pos.size p) = 2 ^ Z.pos (Pos.size p)) by apply Pos2Z.inj_pow.
  assert (Hgt' : Z.pos p < Z.pos (2 ^ Pos.size p)) by exact Hgt.
  assert (Hle' : Z.pos (2 ^ Pos.size p) <= Z.pos (p~0)) by exact Hle.
  rewrite E in Hgt', Hle'. split; [| exact Hgt'].
  replace (2 ^ Z.pos (Pos.size p)) with (2 * 2 ^ (Z.pos (Pos.size p) - 1)) in Hle'
    by (rewrite <- Z.pow_succ_r by lia; f_equal; lia).
  lia.
Qed.

Lemma Zdigits2_unique (m d : Z) :
  2 ^ (d - 1) <= m < 2 ^ d -> 0 < d -> Zdigits2 m = d.
Proof.
  intros [Hlo Hhi] Hd.
  assert (Hm : 0 < m) by (pose proof (Z.pow_pos_nonneg 2 (d - 1)); lia).
  pose proof (Zdigits2_bounds m Hm) as [Hlo' Hhi'].
  assert (Hpos : 0 < Zdigits2 m) by (destruct m; cbn; lia).
  destruct (Z.lt_trichotomy (Zdigits2 m) d) as [Hlt | [Heq | Hgt]]; [| exact Heq |].
  - assert (2 ^ Zdigits2 m <= 2 ^ (d - 1)) by (apply Z.pow_le_mono_r; lia). lia.
  - assert (2 ^ d <= 2 ^ (Zdigits2 m - 1)) by (apply Z.pow_le_mono_r; lia). lia.
Qed.

Lemma shr_1_m (mrs : shr_record) :
  0 <= shr_m mrs -> shr_m (shr_1 mrs) = shr_m mrs / 2 /\ 0 <= shr_m (shr_1 mrs).
Proof.
  destruct mrs as [m r s]. cbn [shr_m]. intros Hm.
  destruct m as [| [p | p |] | p]; cbn [shr_1 shr_m]; try lia.
  - split; [reflexivity | lia].
  - split; [| lia]. rewrite Pos2Z.inj_xI. apply Z.div_unique with 1; lia.
  - split; [| lia]. rewrite Pos2Z.inj_xO. apply Z.div_unique with 0; lia.
  - split; [reflexivity | lia].
Qed.

Lemma pow2_xI (p : positive) : 2 ^ Z.pos p~1 = 2 * (2 ^ Z.pos p * 2 ^ Z.pos p).
Proof.
  replace (Z.pos p~1) with (Z.pos p + Z.pos p + 1) by lia.
  rewrite !Z.pow_add_r by lia. rewrite Z.pow_1_r. ring.
Qed.

Lemma pow2_xO (p : positive) : 2 ^ Z.pos p~0 = 2 ^ Z.pos p * 2 ^ Z.pos p.
Proof.
  replace (Z.pos p~0) with (Z.pos p + Z.pos p) by lia.
  rewrite Z.pow_add_r; lia.
Qed.

Lemma shr_iter_m (p : positive) (mrs : shr_record) :
  0 <= shr_m mrs ->
  shr_m (SpecFloat.iter_pos shr_1 p mrs) = shr_m mrs / 2 ^ Z.pos p
  /\ 0 <= shr_m (SpecFloat.iter_pos shr_1 p mrs).
Proof.
  revert mrs. induction p as [p IH | p IH |]; intros mrs Hm; cbn [SpecFloat.iter_pos].
  - destruct (shr_1_m mrs Hm) as [E1 P1].
    destruct (IH _ P1) as [E2 P2]. destruct (IH _ P2) as [E3 P3].
    split; [| exact P3]. rewrite E3, E2, E1, pow2_xI.
    assert (0 < 2 ^ Z.pos p) by (apply Z.pow_pos_nonneg; lia).
    rewrite !Z.div_div by lia. reflexivity.
  - destruct (IH _ Hm) as [E2 P2]. destruct (IH _ P2) as [E3 P3].
    split; [| exact P3]. rewrite E3, E2, pow2_xO.
    assert (0 < 2 ^ Z.pos p) by (apply Z.pow_pos_nonneg; lia).
    rewrite !Z.div_div by lia. reflexivity.
  - destruct (shr_1_m mrs Hm) as [E1 P1]. split; [| exact P1].
    rewrite E1. reflexivity.
Qed.

(** Shifting right by [n] bits truncates. *)
Lemma shr_m_spec (mrs : shr_record) (e n : Z) :
  0 <= shr_m mrs -> 0 <= n ->
  shr_m (fst (shr mrs e n)) = shr_m mrs / 2 ^ n /\ snd (shr mrs e n) = e + n.
Proof.
  intros Hm Hn. destruct n as [| p | p]; cbn [shr fst snd]; try lia.
  - rewrite Z.div_1_r. split; [reflexivity | lia].
  - split; [apply shr_iter_m; exact Hm | reflexivity].
Qed.

Lemma round_nearest_even_cases (m : Z) (l : location) :
  round_nearest_even m l = m \/ round_nearest_even m l = m + 1.
Proof. destruct l as [| []]; cbn; try destruct (Z.even m); auto. Qed.

Lemma fexp_normal (z : Z) : -1021 <= z -> fexp 53 1024 z = z - 53.
Proof. intros H. unfold fexp, emin. lia. Qed.

Lemma shr_fexp_spec (m e : Z) (l : location) :
  0 < m -> 53 <= Zdigits2 m -> -1074 <= e + (Zdigits2 m - 53) ->
  shr_m (fst (shr_fexp 53 1024 m e l)) = m / 2 ^ (Zdigits2 m - 53)
  /\ snd (shr_fexp 53 1024 m e l) = e + (Zdigits2 m - 53).
Proof.
  intros Hm Hd He. unfold shr_fexp. rewrite fexp_normal by lia.
  replace (Zdigits2 m + e - 53 - e) with (Zdigits2 m - 53) by lia.
  assert (E : shr_m (shr_record_of_loc m l) = m) by (destruct l as [| []]; reflexivity).
  destruct (shr_m_spec (shr_record_of_loc m l) e (Zdigits2 m - 53)) as [H1 H2];
    [rewrite E; lia | lia |].
  rewrite E in H1. split; assumption.
Qed.

(** The mantissa kept of a number of [53 + n] digits has 53. *)
Lemma truncated_bounds (m n : Z) :
  0 <= n -> 2 ^ (52 + n) <= m < 2 ^ (53 + n) -> 2 ^ 52 <= m / 2 ^ n < 2 ^ 53.
Proof.
  intros Hn [Hlo Hhi]. rewrite !Z.pow_add_r in * by lia.
  assert (0 < 2 ^ n) by (apply Z.pow_pos_nonneg; lia). split.
  - apply Z.div_le_lower_bound; lia.
  - apply Z.div_lt_upper_bound; lia.
Qed.

(** What [binary_round_aux] returns for a positive number of at least 53
    digits, away from underflow and overflow: the truncated mantissa or the
    next one, renormalized. *)
Lemma round_aux_spec (mx ex : Z) (lx : location) :
  0 < mx -> 53 <= Zdigits2 mx ->
  -1074 <= ex + (Zdigits2 mx - 53) -> ex + (Zdigits2 mx - 53) + 1 <= 971 ->
  let n := Zdigits2 mx - 53 in
  let T := mx / 2 ^ n in
  exists m e,
    binary_round_aux 53 1024 false mx ex lx = S754_finite false m e
    /\ 2 ^ 52 <= Z.pos m < 2 ^ 53
    /\ ((e = ex + n /\ (Z.pos m = T \/ Z.pos m = T + 1))
        \/ (e = ex + n + 1 /\ Z.pos m = 2 ^ 52 /\ T + 1 = 2 ^ 53))
    /\ (lx = loc_Exact -> n = 0 -> Z.pos m = mx /\ e = ex).
Proof.
  intros Hm Hd Hlo Hhi n T.
  pose proof (Zdigits2_bounds mx Hm) as Hb.
  assert (HT : 2 ^ 52 <= T < 2 ^ 53).
  { apply truncated_bounds; [unfold n; lia |].
    replace (52 + n) with (Zdigits2 mx - 1) by (unfold n; lia).
    replace (53 + n) with (Zdigits2 mx) by (unfold n; lia). exact Hb. }
  unfold binary_round_aux.
  destruct (shr_fexp_spec mx ex lx Hm Hd Hlo) as [E1 E2].
  destruct (shr_fexp 53 1024 mx ex lx) as [mrs' e'] eqn:Hshr. cbn [fst snd] in E1, E2.
  fold n in E1, E2. fold T in E1.
  set (M := round_nearest_even (shr_m mrs') (loc_of_shr_record mrs')).
  assert (HM : M = T \/ M = T + 1)
    by (unfold M; rewrite E1; apply round_nearest_even_cases).
  assert (Hexact : lx = loc_Exact -> n = 0 -> M = mx /\ e' = ex).
  { intros -> Hn. unfold shr_fexp in Hshr. rewrite fexp_normal in Hshr by lia.
    replace (Zdigits2 mx + ex - 53 - ex) with 0 in Hshr by (unfold n in Hn; lia).
    cbn in Hshr. injection Hshr as <- <-. now cbn. }
  assert (H52 : 2 ^ 52 = 4503599627370496) by reflexivity.
  assert (H53 : 2 ^ 53 = 9007199254740992) by reflexivity.
  destruct (Z.eq_dec M (2 ^ 53)) as [Htop | Htop].
  - assert (Hd' : Zdigits2 M = 54) by (rewrite Htop; reflexivity).
    destruct (shr_fexp_spec M e' loc_Exact) as [F1 F2]; [lia | lia | lia |].
    destruct (shr_fexp 53 1024 M e' loc_Exact) as [mrs'' e''].
    cbn [fst snd] in F1, F2. rewrite Hd', Htop in F1. rewrite Hd' in F2.
    change (2 ^ 53 / 2 ^ (54 - 53)) with (2 ^ 52) in F1. rewrite F1.
    change (2 ^ 52) with (Z.pos 4503599627370496).
    replace (e'' <=? 1024 - 53) with true by (symmetry; apply Z.leb_le; lia).
    eexists _, _. split; [reflexivity |]. split; [lia |]. split.
    + right. split; [lia |]. split; [reflexivity | lia].
    + intros Hl Hn. destruct (Hexact Hl Hn) as [EM _]. exfalso.
      assert (T = mx) by (unfold T; rewrite Hn, Z.pow_0_r, Z.div_1_r; reflexivity).
      lia.
  - assert (HMb : 2 ^ 52 <= M < 2 ^ 53) by lia.
    assert (Hd' : Zdigits2 M = 53) by (apply Zdigits2_unique; [exact HMb | lia]).
    destruct (shr_fexp_spec M e' loc_Exact) as [F1 F2]; [lia | lia | lia |].
    destruct (shr_fexp 53 1024 M e' loc_Exact) as [mrs'' e''].
    cbn [fst snd] in F1, F2. rewrite Hd' in F1, F2.
    change (2 ^ (53 - 53)) with 1 in F1. rewrite Z.div_1_r in F1. rewrite F1.
    destruct M as [| pm | pm]; try lia.
    replace (e'' <=? 1024 - 53) with true by (symmetry; apply Z.leb_le; lia).
    exists pm, e''. split; [reflexivity |]. split; [exact HMb |]. split.
    + left. split; [lia | exact HM].
    + intros Hl Hn. destruct (Hexact Hl Hn) as [EM Ee]. split; [exact EM | lia].
Qed.

Lemma two_power_pos (e : Z) : (0 < 2 ^ e)%Q.
Proof. apply Qpower_0_lt. reflexivity. Qed.

Lemma F2Q_shift (m e k : Z) : 0 <= k -> (F2Q (m * 2 ^ k) e == F2Q m (e + k))%Q.
Proof.
  intros Hk. unfold F2Q. rewrite inject_Z_mult, Zpower_Qpower by exact Hk.
  rewrite Qpower_plus by discriminate. change (inject_Z 2) with 2%Q. ring.
Qed.

Lemma F2Q_mult (m1 e1 m2 e2 : Z) :
  (F2Q m1 e1 * F2Q m2 e2 == F2Q (m1 * m2) (e1 + e2))%Q.
Proof.
  unfold F2Q. rewrite inject_Z_mult, Qpower_plus by discriminate. ring.
Qed.

Lemma F2Q_le (m1 m2 e : Z) : m1 <= m2 -> (F2Q m1 e <= F2Q m2 e)%Q.
Proof.
  intros H. unfold F2Q. apply Qmult_le_compat_r.
  - now rewrite <- Zle_Qle.
  - apply Qlt_le_weak, two_power_pos.
Qed.

Lemma F2Q_lt (m1 m2 e : Z) : m1 < m2 -> (F2Q m1 e < F2Q m2 e)%Q.
Proof.
  intros H. unfold F2Q. apply Qmult_lt_compat_r.
  - apply two_power_pos.
  - now rewrite <- Zlt_Qlt.
Qed.

Lemma F2Q_0 (m : Z) : (F2Q m 0 == inject_Z m)%Q.
Proof. unfold F2Q. change (2 ^ 0)%Q with 1%Q. ring. Qed.

Lemma F2Q_pos (m e : Z) : 0 < m -> (0 < F2Q m e)%Q.
Proof.
  intros H. unfold F2Q. apply Qmult_lt_0_compat; [| apply two_power_pos].
  change 0%Q with (inject_Z 0). now rewrite <- Zlt_Qlt.
Qed.

(** [binary_round_aux] on a number between [mx * 2^ex] and the next: the
    result is within a relative [EPS] of it. *)
Lemma round_aux_error (mx ex : Z) (lx : location) (y : Q) :
  0 < mx -> 53 <= Zdigits2 mx ->
  -1074 <= ex + (Zdigits2 mx - 53) -> ex + (Zdigits2 mx - 53) + 1 <= 971 ->
  (F2Q mx ex <= y)%Q -> (y < F2Q (mx + 1) ex)%Q ->
  exists m e,
    binary_round_aux 53 1024 false mx ex lx = S754_finite false m e
    /\ 2 ^ 52 <= Z.pos m < 2 ^ 53
    /\ ex + (Zdigits2 mx - 53) <= e <= ex + (Zdigits2 mx - 53) + 1
    /\ (y * (1 - EPS) <= F2Q (Z.pos m) e)%Q
    /\ (F2Q (Z.pos m) e <= y * (1 + EPS))%Q.
Proof.
  intros Hm Hd Hlo Hhi Hy1 Hy2.
  destruct (round_aux_spec mx ex lx Hm Hd Hlo Hhi) as (m & e & Hr & Hb & Hcase & _).
  cbv zeta in Hcase. set (n := Zdigits2 mx - 53) in *. set (T := mx / 2 ^ n) in *.
  exists m, e. split; [exact Hr |]. split; [exact Hb |].
  assert (Hn : 0 <= n) by (unfold n; lia).
  assert (Hpow : 0 < 2 ^ n) by (apply Z.pow_pos_nonneg; lia).
  assert (HT1 : T * 2 ^ n <= mx)
    by (unfold T; rewrite Z.mul_comm; apply Z.mul_div_le; lia).
  assert (HT2 : mx + 1 <= (T + 1) * 2 ^ n).
  { unfold T. pose proof (Z.mod_pos_bound mx (2 ^ n) Hpow).
    pose proof (Z.div_mod mx (2 ^ n)). lia. }
  pose proof (Zdigits2_bounds mx Hm) as Hbm.
  assert (HTb : 2 ^ 52 <= T).
  { apply truncated_bounds; [exact Hn |].
    replace (52 + n) with (Zdigits2 mx - 1) by (unfold n; lia).
    replace (53 + n) with (Zdigits2 mx) by (unfold n; lia). exact Hbm. }
  set (u := (2 ^ (ex + n))%Q).
  assert (Hu : (0 < u)%Q) by apply two_power_pos.
  assert (Ha1 : (F2Q T (ex + n) <= y)%Q).
  { rewrite <- F2Q_shift by exact Hn. eapply Qle_trans; [apply F2Q_le; exact HT1 | exact Hy1]. }
  assert (Ha2 : (y < F2Q (T + 1) (ex + n))%Q).
  { rewrite <- F2Q_shift by exact Hn. eapply Qlt_le_trans; [exact Hy2 | apply F2Q_le; exact HT2]. }
  assert (Ha3 : (F2Q (2 ^ 52) (ex + n) <= F2Q T (ex + n))%Q) by (apply F2Q_le; exact HTb).
  assert (Hsucc : (F2Q (T + 1) (ex + n) == F2Q T (ex + n) + u)%Q).
  { unfold F2Q, u. rewrite inject_Z_plus. change (inject_Z 1) with 1%Q. ring. }
  assert (H52 : (F2Q (2 ^ 52) (ex + n) == 4503599627370496 * u)%Q).
  { unfold F2Q, u. change (inject_Z (2 ^ 52)) with 4503599627370496%Q. reflexivity. }
  assert (Hv : (F2Q (Z.pos m) e == F2Q T (ex + n))%Q
               \/ (F2Q (Z.pos m) e == F2Q T (ex + n) + u)%Q).
  { destruct Hcase as [(-> & [-> | ->]) | (-> & -> & Htop)].
    - now left.
    - right. exact Hsucc.
    - right. rewrite <- Hsucc, Htop.
      change (2 ^ 53) with (2 ^ 52 * 2 ^ 1). rewrite F2Q_shift by lia.
      reflexivity. }
  split; [destruct Hcase as [(-> & _) | (-> & _)]; lia |].
  unfold EPS. rewrite Hsucc in Ha2. rewrite H52 in Ha3.
  destruct Hv as [-> | ->]; split; lra.
Qed.

Lemma iter_xO (p k : positive) : Z.pos (Pos.iter xO p k) = Z.pos p * 2 ^ Z.pos k.
Proof.
  induction k as [| k IH] using Pos.peano_ind.
  - cbn. lia.
  - rewrite Pos.iter_succ, Pos2Z.inj_xO, IH, Pos2Z.inj_succ, Z.pow_succ_r by lia. ring.
Qed.

(** [float(c)] for a positive integer below 2^53 is [c]. *)
Lemma of_int_spec (c : Z) :
  1 <= c < 2 ^ 53 ->
  exists m e,
    Float.of_int c = S754_finite false m e
    /\ 2 ^ 52 <= Z.pos m < 2 ^ 53
    /\ -52 <= e <= 0
    /\ (F2Q (Z.pos m) e == inject_Z c)%Q.
Proof.
  intros [Hlo Hhi]. destruct c as [| p | p]; try lia.
  unfold Float.of_int, Float.prec, Float.emax, binary_normalize, binary_round.
  pose proof (Zdigits2_bounds (Z.pos p) eq_refl) as Hb. cbn [Zdigits2] in Hb.
  set (d := Z.pos (digits2_pos p)) in *.
  assert (Hd : 1 <= d <= 53).
  { split; [unfold d; lia |].
    destruct (Z.le_gt_cases d 53) as [H | H]; [exact H | exfalso].
    assert (2 ^ 53 <= 2 ^ (d - 1)) by (apply Z.pow_le_mono_r; lia). lia. }
  rewrite Z.add_0_r, fexp_normal by lia. unfold shl_align. rewrite Z.sub_0_r.
  assert (Hround : forall mz ez, 2 ^ 52 <= Z.pos mz < 2 ^ 53 -> -52 <= ez <= 0 ->
            binary_round_aux 53 1024 false (Z.pos mz) ez loc_Exact
            = S754_finite false mz ez).
  { intros mz ez Hmz Hez.
    assert (Hdz : Zdigits2 (Z.pos mz) = 53) by (apply Zdigits2_unique; [exact Hmz | lia]).
    destruct (round_aux_spec (Z.pos mz) ez loc_Exact) as (m & e & Hr & _ & _ & Hex);
      [lia | lia | lia | lia |].
    destruct (Hex eq_refl) as [Em Ee]; [lia |]. injection Em as ->. now subst e. }
  destruct (d - 53) as [| k | k] eqn:Hk; try lia.
  - exists p, 0. rewrite Hround by (replace d with 53 in Hb by lia; cbn in Hb |- *; lia).
    split; [reflexivity |]. replace d with 53 in Hb by lia.
    split; [cbn in Hb |- *; lia |]. split; [lia | apply F2Q_0].
  - assert (Ek : Z.pos k = 53 - d) by lia.
    assert (Hmz : 2 ^ 52 <= Z.pos (Pos.iter xO p k) < 2 ^ 53).
    { rewrite iter_xO, Ek.
      replace (2 ^ 52) with (2 ^ (d - 1) * 2 ^ (53 - d))
        by (rewrite <- Z.pow_add_r by lia; f_equal; lia).
      replace (2 ^ 53) with (2 ^ d * 2 ^ (53 - d))
        by (rewrite <- Z.pow_add_r by lia; f_equal; lia).
      assert (0 < 2 ^ (53 - d)) by (apply Z.pow_pos_nonneg; lia). nia. }
    exists (Pos.iter xO p k), (Z.neg k). rewrite Hround by (exact Hmz || lia).
    split; [reflexivity |]. split; [exact Hmz |]. split; [lia |].
    rewrite iter_xO, F2Q_shift by lia.
    replace (Z.neg k + Z.pos k) with 0 by lia. apply F2Q_0.
Qed.

Lemma of_int_100 : Float.of_int 100 = S754_finite false 7036874417766400 (-46).
Proof. reflexivity. Qed.

(** The quotient of two binary64 numbers of moderate exponents is within a
    relative [EPS] of the exact one. *)
Lemma div_error (m1 m2 : positive) (e1 e2 : Z) :
  2 ^ 52 <= Z.pos m1 < 2 ^ 53 -> 2 ^ 52 <= Z.pos m2 < 2 ^ 53 ->
  -60 <= e1 <= 60 -> -60 <= e2 <= 60 ->
  let y := (F2Q (Z.pos m1) e1 / F2Q (Z.pos m2) e2)%Q in
  exists m e,
    SFdiv 53 1024 (S754_finite false m1 e1) (S754_finite false m2 e2)
    = S754_finite false m e
    /\ 2 ^ 52 <= Z.pos m < 2 ^ 53
    /\ e1 - e2 - 53 <= e <= e1 - e2 - 51
    /\ (y * (1 - EPS) <= F2Q (Z.pos m) e)%Q
    /\ (F2Q (Z.pos m) e <= y * (1 + EPS))%Q.
Proof.
  intros H1 H2 He1 He2 y.
  assert (Hd1 : Zdigits2 (Z.pos m1) = 53) by (apply Zdigits2_unique; [exact H1 | lia]).
  assert (Hd2 : Zdigits2 (Z.pos m2) = 53) by (apply Zdigits2_unique; [exact H2 | lia]).
  unfold SFdiv, SFdiv_core_binary. rewrite Hd1, Hd2.
  rewrite fexp_normal by lia.
  replace (Z.min (53 + e1 - (53 + e2) - 53) (e1 - e2)) with (e1 - e2 - 53) by lia.
  replace (e1 - e2 - (e1 - e2 - 53)) with 53 by lia.
  rewrite Z.shiftl_mul_pow2 by lia.
  pose proof (Z.div_eucl_eq (Z.pos m1 * 2 ^ 53) (Z.pos m2)) as Hdiv.
  pose proof (Z.mod_pos_bound (Z.pos m1 * 2 ^ 53) (Z.pos m2)) as Hmod.
  unfold Z.modulo in Hmod.
  destruct (Z.div_eucl (Z.pos m1 * 2 ^ 53) (Z.pos m2)) as [q r].
  specialize (Hdiv ltac:(lia)). specialize (Hmod ltac:(lia)). cbn [xorb].
  assert (H52 : 2 ^ 52 = 4503599627370496) by reflexivity.
  assert (H53 : 2 ^ 53 = 9007199254740992) by reflexivity.
  assert (Hq : 2 ^ 52 <= q < 2 ^ 54).
  { change (2 ^ 54) with 18014398509481984. split; nia. }
  assert (Hdq : 53 <= Zdigits2 q <= 54).
  { pose proof (Zdigits2_bounds q ltac:(lia)) as Hbq. split.
    - destruct (Z.le_gt_cases 53 (Zdigits2 q)) as [H | H]; [exact H | exfalso].
      assert (2 ^ Zdigits2 q <= 2 ^ 52) by (apply Z.pow_le_mono_r; lia). lia.
    - destruct (Z.le_gt_cases (Zdigits2 q) 54) as [H | H]; [exact H | exfalso].
      assert (2 ^ 54 <= 2 ^ (Zdigits2 q - 1)) by (apply Z.pow_le_mono_r; lia). lia. }
  assert (Hpos2 : (0 < F2Q (Z.pos m2) e2)%Q) by (apply F2Q_pos; lia).
  assert (Hnum : (F2Q (Z.pos m1) e1 == F2Q (Z.pos m1 * 2 ^ 53) (e1 - 53))%Q).
  { rewrite F2Q_shift by lia. now replace (e1 - 53 + 53) with e1 by lia. }
  destruct (round_aux_error q (e1 - e2 - 53) (new_location (Z.pos m2) r) y)
    as (m & e & Hr & Hb & He & Hlo & Hhi); try lia.
  - unfold y. apply Qle_shift_div_l; [exact Hpos2 |].
    rewrite F2Q_mult, Hnum. replace (e1 - e2 - 53 + e2) with (e1 - 53) by lia.
    apply F2Q_le. lia.
  - unfold y. apply Qlt_shift_div_r; [exact Hpos2 |].
    rewrite F2Q_mult, Hnum. replace (e1 - e2 - 53 + e2) with (e1 - 53) by lia.
    apply F2Q_lt. lia.
  - exists m, e. split; [exact Hr |]. split; [exact Hb |]. split; [lia |]. now split.
Qed.

(** The product of two binary64 numbers of moderate exponents is within a
    relative [EPS] of the exact one. *)
Lemma mul_error (m1 m2 : positive) (e1 e2 : Z) :
  2 ^ 52 <= Z.pos m1 < 2 ^ 53 -> 2 ^ 52 <= Z.pos m2 < 2 ^ 53 ->
  -200 <= e1 <= 200 -> -200 <= e2 <= 200 ->
  let y := (F2Q (Z.pos m1) e1 * F2Q (Z.pos m2) e2)%Q in
  exists m e,
    SFmul 53 1024 (S754_finite false m1 e1) (S754_finite false m2 e2)
    = S754_finite false m e
    /\ 2 ^ 52 <= Z.pos m < 2 ^ 53
    /\ e1 + e2 + 52 <= e <= e1 + e2 + 54
    /\ (y * (1 - EPS) <= F2Q (Z.pos m) e)%Q
    /\ (F2Q (Z.pos m) e <= y * (1 + EPS))%Q.
Proof.
  intros H1 H2 He1 He2 y. unfold SFmul. cbn [xorb].
  assert (H52 : 2 ^ 52 = 4503599627370496) by reflexivity.
  assert (H53 : 2 ^ 53 = 9007199254740992) by reflexivity.
  assert (Hp : 2 ^ 104 <= Z.pos (m1 * m2) < 2 ^ 106).
  { rewrite Pos2Z.inj_mul.
    change (2 ^ 104) with (4503599627370496 * 4503599627370496).
    change (2 ^ 106) with (9007199254740992 * 9007199254740992). nia. }
  assert (Hdp : 105 <= Zdigits2 (Z.pos (m1 * m2)) <= 106).
  { pose proof (Zdigits2_bounds (Z.pos (m1 * m2)) eq_refl) as Hbq. split.
    - destruct (Z.le_gt_cases 105 (Zdigits2 (Z.pos (m1 * m2)))) as [H | H];
        [exact H | exfalso].
      assert (2 ^ Zdigits2 (Z.pos (m1 * m2)) <= 2 ^ 104) by (apply Z.pow_le_mono_r; lia).
      lia.
    - destruct (Z.le_gt_cases (Zdigits2 (Z.pos (m1 * m2))) 106) as [H | H];
        [exact H | exfalso].
      assert (2 ^ 106 <= 2 ^ (Zdigits2 (Z.pos (m1 * m2)) - 1))
        by (apply Z.pow_le_mono_r; lia).
      lia. }
  destruct (round_aux_error (Z.pos (m1 * m2)) (e1 + e2) loc_Exact y)
    as (m & e & Hr & Hb & He & Hlo & Hhi); try lia.
  - unfold y. rewrite F2Q_mult, Pos2Z.inj_mul. apply Qle_refl.
  - unfold y. rewrite F2Q_mult, Pos2Z.inj_mul. apply F2Q_lt. lia.
  - exists m, e. split; [exact Hr |]. split; [exact Hb |]. split; [lia |]. now split.
Qed.

Lemma F2Q_unshift (m e : Z) : e <= 0 -> (F2Q m e * inject_Z (2 ^ (- e)) == inject_Z m)%Q.
Proof.
  intros He. rewrite <- (F2Q_0 (2 ^ (- e))), F2Q_mult, F2Q_shift by lia.
  replace (e + 0 + - e) with 0 by lia. apply F2Q_0.
Qed.

(** [round] returns an integer at most one half away. *)
Lemma round_half_even_error (m e : Z) :
  0 < m ->
  (inject_Z (Float.round_half_even m e) - (1 # 2) <= F2Q m e)%Q
  /\ (F2Q m e <= inject_Z (Float.round_half_even m e) + (1 # 2))%Q.
Proof.
  intros Hm. unfold Float.round_half_even.
  destruct (0 <=? e) eqn:He.
  - apply Z.leb_le in He.
    assert (E : (F2Q m e == inject_Z (m * 2 ^ e))%Q).
    { rewrite <- F2Q_0, F2Q_shift by exact He. now rewrite Z.add_0_l. }
    rewrite E. split; lra.
  - apply Z.leb_gt in He. cbv zeta.
    set (d := 2 ^ (- e)).
    assert (Hd : 0 < d) by (apply Z.pow_pos_nonneg; lia).
    pose proof (Z.div_mod m d ltac:(lia)) as Hdiv.
    pose proof (Z.mod_pos_bound m d Hd) as Hmod.
    set (q := m / d) in *. set (r := m mod d) in *.
    pose proof (F2Q_unshift m e ltac:(lia)) as Hx. fold d in Hx.
    set (x := F2Q m e) in *.
    assert (HD : (0 < inject_Z d)%Q)
      by (change 0%Q with (inject_Z 0); now rewrite <- Zlt_Qlt).
    assert (HM : (inject_Z m == inject_Z d * inject_Z q + inject_Z r)%Q)
      by (rewrite <- inject_Z_mult, <- inject_Z_plus; now rewrite <- Hdiv).
    assert (Hr0 : (0 <= inject_Z r)%Q)
      by (change 0%Q with (inject_Z 0); rewrite <- Zle_Qle; lia).
    assert (Hrd : (inject_Z r < inject_Z d)%Q) by (rewrite <- Zlt_Qlt; lia).
    assert (Hcmp : forall k : Z, (inject_Z (2 * r) == 2 * inject_Z r)%Q)
      by (intros _; rewrite inject_Z_mult; reflexivity).
    assert (Hlow : 2 * r <= d ->
                   (inject_Z q - (1 # 2) <= x)%Q /\ (x <= inject_Z q + (1 # 2))%Q).
    { intros H. assert (H' : (2 * inject_Z r <= inject_Z d)%Q)
        by (rewrite <- (Hcmp 0), <- Zle_Qle; exact H).
      split; nra. }
    assert (Hhigh : d <= 2 * r ->
                    (inject_Z (q + 1) - (1 # 2) <= x)%Q
                    /\ (x <= inject_Z (q + 1) + (1 # 2))%Q).
    { intros H. assert (H' : (inject_Z d <= 2 * inject_Z r)%Q)
        by (rewrite <- (Hcmp 0), <- Zle_Qle; exact H).
      rewrite inject_Z_plus. change (inject_Z 1) with 1%Q. split; nra. }
    destruct (Z.compare_spec (2 * r) d) as [Heq | Hlt | Hgt].
    + destruct (Z.even q); [apply Hlow | apply Hhigh]; lia.
    + apply Hlow. lia.
    + apply Hhigh. lia.
Qed.

Lemma scale_le (x y t : Q) : (0 < t)%Q -> (x <= y)%Q -> (x * t <= y * t)%Q.
Proof. intros Ht H. apply Qmult_le_compat_r; [exact H | now apply Qlt_le_weak]. Qed.

Lemma Qle_by (a b a' b' : Q) : (a' <= b')%Q -> (a == a')%Q -> (b' == b)%Q -> (a <= b)%Q.
Proof. intros H -> <-. exact H. Qed.

(** The arithmetic of the two roundings and of [round], scaled by the number
    of steps. *)
Lemma percent_bound (yT vT rT pT C T : Q) :
  (yT == C)%Q ->
  (yT * (1 - EPS) <= vT)%Q -> (vT <= yT * (1 + EPS))%Q ->
  (100 * vT * (1 - EPS) <= rT)%Q -> (rT <= 100 * vT * (1 + EPS))%Q ->
  (pT - T * (1 # 2) <= rT)%Q -> (rT <= pT + T * (1 # 2))%Q ->
  (0 < C)%Q -> (C <= T)%Q -> (T <= 8796093022208)%Q ->
  (2 * pT - 200 * C < T + 1)%Q /\ (200 * C - 2 * pT < T + 1)%Q.
Proof. unfold EPS. intros. split; lra. Qed.

(** The percentage stored for [c] completed steps of [t], with [t] below
    2^43, is an integer nearest to [100 * c / t]. *)
Lemma ratio_percent_nearest (c t : Z) :
  1 <= t < 2 ^ 43 -> 0 <= c <= t ->
  nearest_percent c t (ratio_percent c t) = true.
Proof.
  intros Ht Hc. unfold nearest_percent. apply Z.leb_le.
  assert (H43 : 2 ^ 43 = 8796093022208) by reflexivity.
  assert (H53 : 2 ^ 53 = 9007199254740992) by reflexivity.
  destruct (of_int_spec t ltac:(lia)) as (mt & et & Et & Bt & Xt & Vt).
  unfold ratio_percent, Float.truediv, Float.mul, Float.prec, Float.emax.
  destruct (Z.eq_dec c 0) as [-> | Hc0].
  { rewrite Et, of_int_100. cbn. lia. }
  destruct (of_int_spec c ltac:(lia)) as (mc & ec & Ec & Bc & Xc & Vc).
  rewrite Ec, Et.
  destruct (div_error mc mt ec et Bc Bt ltac:(lia) ltac:(lia))
    as (m1 & e1 & E1 & B1 & X1 & L1 & U1).
  rewrite E1, of_int_100.
  destruct (mul_error m1 7036874417766400 e1 (-46) B1 ltac:(cbn; lia) ltac:(lia) ltac:(lia))
    as (m3 & e3 & E3 & B3 & X3 & L3 & U3).
  rewrite E3. cbn [Float.round].
  destruct (round_half_even_error (Z.pos m3) e3 eq_refl) as [Lp Up].
  set (p := Float.round_half_even (Z.pos m3) e3) in *.
  set (r := F2Q (Z.pos m3) e3) in *. set (v := F2Q (Z.pos m1) e1) in *.
  assert (H100 : (F2Q (Z.pos 7036874417766400) (-46) == 100)%Q) by reflexivity.
  rewrite H100 in L3, U3. rewrite Vc, Vt in L1, U1.
  set (C := inject_Z c) in *. set (T := inject_Z t) in *.
  assert (HT : (0 < T)%Q)
    by (unfold T; change 0%Q with (inject_Z 0); rewrite <- Zlt_Qlt; lia).
  assert (HC : (0 < C)%Q)
    by (unfold C; change 0%Q with (inject_Z 0); rewrite <- Zlt_Qlt; lia).
  assert (HCT : (C <= T)%Q) by (unfold C, T; rewrite <- Zle_Qle; lia).
  assert (HTb : (T <= 8796093022208)%Q).
  { unfold T. change 8796093022208%Q with (inject_Z 8796093022208).
    rewrite <- Zle_Qle. lia. }
  assert (Hy : (C / T * T == C)%Q) by (field; lra).
  set (y := (C / T)%Q) in *.
  pose proof (scale_le _ _ T HT L1) as L1'. pose proof (scale_le _ _ T HT U1) as U1'.
  pose proof (scale_le _ _ T HT L3) as L3'. pose proof (scale_le _ _ T HT U3) as U3'.
  pose proof (scale_le _ _ T HT Lp) as Lp'. pose proof (scale_le _ _ T HT Up) as Up'.
  destruct (percent_bound (y * T) (v * T) (r * T) (inject_Z p * T) C T) as [Hup Hdn];
    try assumption.
  - eapply Qle_by; [exact L1' | |]; ring.
  - eapply Qle_by; [exact U1' | |]; ring.
  - eapply Qle_by; [exact L3' | |]; ring.
  - eapply Qle_by; [exact U3' | |]; ring.
  - eapply Qle_by; [exact Lp' | |]; ring.
  - eapply Qle_by; [exact Up' | |]; ring.
  - set (g := (inject_Z p * T)%Q) in *.
    assert (Eg : (g == inject_Z (p * t))%Q) by (unfold g, T; now rewrite inject_Z_mult).
    assert (Zup : 2 * (p * t) - 200 * c < t + 1).
    { rewrite Zlt_Qlt. unfold Z.sub.
      rewrite !inject_Z_plus, inject_Z_opp, !inject_Z_mult, <- Eg. fold C T.
      change (inject_Z 2) with 2%Q. change (inject_Z 200) with 200%Q.
      change (inject_Z 1) with 1%Q. lra. }
    assert (Zdn : 200 * c - 2 * (p * t) < t + 1).
    { rewrite Zlt_Qlt. unfold Z.sub.
      rewrite !inject_Z_plus, inject_Z_opp, !inject_Z_mult, <- Eg. fold C T.
      change (inject_Z 2) with 2%Q. change (inject_Z 200) with 200%Q.
      change (inject_Z 1) with 1%Q. lra. }
  lia.
Qed.

(** With every step completed the percentage is 100. *)
Lemma ratio_percent_full (t : Z) : 1 <= t < 2 ^ 43 -> ratio_percent t t = 100.
Proof.
  intros Ht. pose proof (ratio_percent_nearest t t Ht ltac:(lia)) as H.
  unfold nearest_percent in H. apply Z.leb_le in H. nia.
Qed.

(** ** What the coercer returns when it returns *)

Lemma coerce_item_nonempty (raw : json) (x : string * string) :
  coerce_item raw = Some x -> Text.nonempty (fst x) = true.
Proof.
  unfold coerce_item.
  destruct (match raw with JDict d => _ | _ => _ end) as [description st].
  destruct (Text.nonempty description) eqn:E; cbn [negb]; [| discriminate].
  intros H. injection H as <-. exact E.
Qed.

Lemma coerce_item_list_valid_items (raw : option json) : valid_items (_coerce_item_list raw).
Proof.
  unfold _coerce_item_list. destruct raw as [[| | | | | raws |] |]; try (intros i it; discriminate).
  intros i it Hi. rewrite list_lookup_fmap, enumerate_lookup in Hi.
  destruct (omap coerce_item raws !! i) as [x |] eqn:Hx; [| discriminate].
  cbn in Hi. injection Hi as <-. cbn [item_description item_status item_id fst snd].
  apply list_elem_of_lookup_2, list_elem_of_omap in Hx as (raw & _ & Hraw).
  split; [eapply coerce_item_nonempty; eassumption |].
  split; [eapply coerce_item_valid; eassumption | lia].
Qed.

(** A loop that appends what each turn returns: what holds of every turn
    holds of the whole. *)
Lemma for_each_spec {A B : Type} (f : A -> M (list B)) (P : B -> Prop) (Q : exn -> Prop)
    (l : list A) (w : world) :
  (forall x w, match fst (f x w) with Ok ys => Forall P ys | Raise e => Q e end) ->
  match fst (for_each f l w) with Ok ys => Forall P ys | Raise e => Q e end.
Proof.
  intros Hf. revert w. induction l as [| x l IH]; intros w; cbn [for_each].
  { constructor. }
  unfold bind at 1. specialize (Hf x w). destruct (f x w) as [[ys | e] w1]; [| exact Hf].
  unfold bind at 1. specialize (IH w1).
  destruct (for_each f l w1) as [[zs | e] w2]; [| exact IH].
  cbn in *. apply Forall_app. now split.
Qed.

Lemma or_now_returns (text : string) (w : world) : exists t, fst (or_now text w) = Ok t.
Proof. unfold or_now. destruct (Text.nonempty text); cbn; eauto. Qed.

Lemma coerce_progress_spec (raw : option json) (w : world) :
  match fst (_coerce_progress raw w) with
  | Ok l => Forall (fun e => Text.nonempty (pe_message e) = true) l
  | Raise _ => False
  end.
Proof.
  unfold _coerce_progress. destruct raw as [[| | | | | entries |] |]; try (cbn; constructor).
  apply for_each_spec. intros entry w'. unfold coerce_progress_entry.
  destruct entry as [| | | | | | d]; try (cbn; constructor).
  unfold bind. destruct (or_now_returns (Text.strip (Py.str (Py.get_or d "timestamp" (JStr "")))) w')
    as [t Ht].
  destruct (or_now _ w') as [r w1]. cbn [fst] in Ht. subst r.
  destruct (Text.nonempty (Text.strip (Py.str (Py.get_or d "message" (JStr ""))))) eqn:E;
    cbn [negb ret fst]; repeat constructor. exact E.
Qed.

Lemma coerce_reflections_spec (raw : option json) (w : world) :
  match fst (_coerce_reflections raw w) with
  | Ok l => Forall (fun r => Text.nonempty (rf_summary r) = true) l
  | Raise e => exists msg, e = TypeError msg
  end.
Proof.
  unfold _coerce_reflections. destruct raw as [[| | | | | entries |] |]; try (cbn; constructor).
  apply for_each_spec. intros entry w'. unfold coerce_reflection.
  destruct entry as [| | | | | | d]; try (cbn; constructor).
  unfold bind. destruct (or_now_returns (Text.strip (Py.str (Py.get_or d "timestamp" (JStr "")))) w')
    as [t Ht].
  destruct (or_now _ w') as [r w1]. cbn [fst] in Ht. subst r.
  destruct (Text.nonempty (Text.strip (Py.str (Py.get_or d "summary" (JStr ""))))) eqn:E;
    cbn [negb]; [| cbn; constructor].
  assert (Hn : forall v, match _normalize_text_items_json v with
                         | inl e => exists msg, e = TypeError msg
                         | inr _ => True
                         end).
  { intros [v |]; cbn; [| exact I]. destruct (Py.truthy v); cbn; [| exact I].
    destruct v; cbn; eauto. }
  pose proof (Hn (Py.get d "risks")) as H1. pose proof (Hn (Py.get d "next_actions")) as H2.
  destruct (_normalize_text_items_json (Py.get d "risks")) as [e | risks]; [exact H1 |].
  destruct (_normalize_text_items_json (Py.get d "next_actions")) as [e | next]; [exact H2 |].
  cbn. repeat constructor. exact E.
Qed.

Lemma coerce_percent_valid (raw : option json) : valid_percent (coerce_percent raw).
Proof.
  unfold coerce_percent. destruct (Py.as_int raw) as [p |]; [| exact I].
  destruct ((pyint_value p <? 0) || (pyint_value p >? 100)) eqn:E; [exact I |].
  apply orb_false_iff in E as [H1 H2]. apply Z.ltb_ge in H1.
  rewrite Z.gtb_ltb in H2. apply Z.ltb_ge in H2. cbn. lia.
Qed.

(** The coercer returns a structurally valid state, or raises the
    [TypeError] of a loop over what cannot be iterated. *)
Lemma coerce_state_valid_or_raises (d : list (string * json)) (w : world) :
  match fst (_coerce_state d w) with
  | Ok s => structurally_valid s
  | Raise e => exists msg, e = TypeError msg
  end.
Proof.
  destruct (_coerce_state d w) as [[s | e] w'] eqn:H; cbn [fst].
  - pose proof (coerce_state_tidy _ _ _ _ H) as [Hst _].
    pose proof (coerce_state_fields _ _ _ _ H) as (_ & Hsteps & Hsub & Hpc).
    split; [exact Hst |]. split; [rewrite Hpc; apply coerce_percent_valid |].
    split; [rewrite Hsteps; apply coerce_item_list_valid_items |].
    split; [rewrite Hsub; apply coerce_item_list_valid_items |].
    revert H. unfold _coerce_state, bind.
    destruct (or_now _ w) as [[c | e] w1]; [| discriminate].
    pose proof (coerce_progress_spec (Py.get d "progress_log") w1) as Hp.
    destruct (_coerce_progress _ w1) as [[pl | e] w2]; [| discriminate].
    pose proof (coerce_reflections_spec (Py.get d "reflections") w2) as Hr.
    destruct (_coerce_reflections _ w2) as [[rl | e] w3]; [| discriminate].
    unfold ret. intros [= <- <-]. cbn [progress_log reflections fst] in *. now split.
  - revert H. unfold _coerce_state, bind.
    destruct (or_now_returns (Text.strip (Py.str (Py.get_or d "created_at" (JStr "")))) w)
      as [t Ht].
    destruct (or_now _ w) as [r w1]. cbn [fst] in Ht. subst r.
    pose proof (coerce_progress_spec (Py.get d "progress_log") w1) as Hp.
    destruct (_coerce_progress _ w1) as [[pl | e0] w2]; [| contradiction].
    pose proof (coerce_reflections_spec (Py.get d "reflections") w2) as Hr.
    destruct (_coerce_reflections _ w2) as [[rl | e0] w3]; [discriminate |].
    intros [= <- <-]. exact Hr.
Qed.

(** ** States the coercer leaves as they are *)

Lemma rstrip_by_cons (p : ascii -> bool) (c : ascii) (r : string) :
  Text.rstrip_by p (String c r)
  = match Text.rstrip_by p r with
    | EmptyString => if p c then EmptyString else String c EmptyString
    | String c' r' => String c (String c' r')
    end.
Proof. reflexivity. Qed.

Lemma rstrip_by_idem (p : ascii -> bool) (s : string) :
  Text.rstrip_by p (Text.rstrip_by p s) = Text.rstrip_by p s.
Proof.
  induction s as [| c r IH]; [reflexivity |]. rewrite rstrip_by_cons.
  destruct (Text.rstrip_by p r) as [| c' r'] eqn:E.
  - destruct (p c) eqn:Hc; [reflexivity |]. rewrite rstrip_by_cons. cbn. now rewrite Hc.
  - rewrite rstrip_by_cons, IH. reflexivity.
Qed.

Lemma rstrip_by_head (p : ascii -> bool) (c : ascii) (r : string) :
  p c = false -> exists r', Text.rstrip_by p (String c r) = String c r'.
Proof.
  intros Hc. cbn [Text.rstrip_by]. destruct (Text.rstrip_by p r); [rewrite Hc |]; eauto.
Qed.

Lemma lstrip_by_cases (p : ascii -> bool) (s : string) :
  Text.lstrip_by p s = EmptyString
  \/ exists c r, Text.lstrip_by p s = String c r /\ p c = false.
Proof.
  induction s as [| c r IH]; [now left |]. cbn [Text.lstrip_by].
  destruct (p c) eqn:Hc; [exact IH | right; eauto].
Qed.

Lemma strip_by_idem (p : ascii -> bool) (s : string) :
  Text.strip_by p (Text.strip_by p s) = Text.strip_by p s.
Proof.
  unfold Text.strip_by.
  destruct (lstrip_by_cases p s) as [-> | (c & r & -> & Hc)]; [reflexivity |].
  destruct (rstrip_by_head p c r Hc) as [r' E]. rewrite E.
  cbn [Text.lstrip_by]. rewrite Hc, <- E. apply rstrip_by_idem.
Qed.

Lemma strip_idem (s : string) : Text.strip (Text.strip s) = Text.strip s.
Proof. apply strip_by_idem. Qed.

Lemma strip_solid (s : string) : Text.nonempty (Text.strip s) = true -> solid (Text.strip s).
Proof. intros H. split; [apply strip_idem | exact H]. Qed.

Lemma normalize_loop_solid (seen l : list string) : Forall solid (normalize_loop seen l).
Proof.
  revert seen. induction l as [| raw rest IH]; intros seen; cbn [normalize_loop].
  { constructor. }
  cbv zeta. destruct (Text.nonempty (Text.strip raw)) eqn:Hne; cbn [negb orb]; [| apply IH].
  destruct (str_in (Text.strip raw) seen); [apply IH |].
  constructor; [now apply strip_solid | apply IH].
Qed.

Lemma normalize_normalized (l : list string) : normalized (_normalize_text_items l).
Proof. split; [apply normalize_loop_solid | apply normalize_spec]. Qed.

Lemma normalize_loop_fixed (seen l : list string) :
  Forall solid l -> NoDup l -> (forall x, In x l -> str_in x seen = false) ->
  normalize_loop seen l = l.
Proof.
  revert seen. induction l as [| x l IH]; intros seen Hs Hn Hd; [reflexivity |].
  inversion Hs as [| ? ? [Hx1 Hx2] Hs']; subst. apply NoDup_cons in Hn as [Hx Hn].
  cbn [normalize_loop]. cbv zeta. rewrite Hx1, Hx2, (Hd x (or_introl eq_refl)).
  cbn [negb orb]. f_equal. apply IH; [exact Hs' | exact Hn |].
  intros y Hy. unfold str_in. cbn [existsb]. apply orb_false_iff. split.
  - apply String.eqb_neq. intros ->. apply Hx. now apply list_elem_of_In.
  - apply Hd. now right.
Qed.

Lemma normalize_fixed (l : list string) : normalized l -> _normalize_text_items l = l.
Proof. intros [Hs Hn]. apply normalize_loop_fixed; [exact Hs | exact Hn | reflexivity]. Qed.

Lemma or_now_solid (x : string) (w : world) : solid x -> or_now (Text.strip x) w = (Ok x, w).
Proof. intros [H1 H2]. unfold or_now. now rewrite H1, H2. Qed.

Lemma coerce_item_wf (it : item) :
  wf_item it -> coerce_item (item_sorted it) = Some (item_description it, item_status it).
Proof.
  intros [[H1 H2] Hv]. rewrite coerce_item_sorted by exact Hv. now rewrite H1, H2.
Qed.

Lemma renumbered (start : Z) (l : list item) :
  List.map item_id l = List.map fst (Py.enumerate start l) ->
  List.map (fun it : Z * (string * string) => mk_item (fst it) (fst (snd it)) (snd (snd it)))
    (Py.enumerate start (List.map (fun it => (item_description it, item_status it)) l))
  = l.
Proof.
  revert start. induction l as [| [i d st] l IH]; intros start H; [reflexivity |].
  cbn [List.map Py.enumerate fst snd item_id item_description item_status] in *.
  injection H as Hi Hl. subst i. f_equal. now apply IH.
Qed.

(** The coercer of the lists leaves well-formed items as they are. *)
Lemma coerce_items_wf (l : list item) :
  wf_items l -> _coerce_item_list (Some (JList (List.map item_sorted l))) = l.
Proof.
  intros [Hw Hid]. unfold _coerce_item_list.
  replace (omap coerce_item (List.map item_sorted l))
    with (List.map (fun it => (item_description it, item_status it)) l).
  - now apply renumbered.
  - clear Hid. induction l as [| it l IH]; [reflexivity |].
    inversion Hw; subst. cbn [List.map]. rewrite omap_cons, coerce_item_wf by assumption.
    f_equal. now apply IH.
Qed.

Lemma as_int_pyint (p : option pyint) : Py.as_int (Some (pyint_json p)) = p.
Proof. destruct p as [[n | b] |]; reflexivity. Qed.

Lemma coerce_percent_wf (p : option pyint) :
  valid_percent p -> coerce_percent (Some (pyint_json p)) = p.
Proof.
  intros H. unfold coerce_percent. rewrite as_int_pyint. destruct p as [v |]; [| reflexivity].
  cbn in H. replace (pyint_value v <? 0) with false by (symmetry; apply Z.ltb_ge; lia).
  replace (pyint_value v >? 100) with false
    by (symmetry; rewrite Z.gtb_ltb; apply Z.ltb_ge; lia).
  reflexivity.
Qed.

Lemma coerce_progress_entry_wf (e : progress_entry) (w : world) :
  wf_progress e -> coerce_progress_entry (progress_sorted e) w = (Ok [e], w).
Proof.
  destruct e as [t m p]. intros [Ht [Hm1 Hm2]].
  unfold coerce_progress_entry, progress_sorted.
  cbn [pe_timestamp pe_message pe_percent_complete] in *.
  change (Py.get_or _ "message" _) with (JStr m).
  change (Py.get_or _ "timestamp" _) with (JStr t).
  change (Py.get _ "percent_complete") with (Some (pyint_json p)).
  cbn [Py.str]. unfold bind. rewrite (or_now_solid t w Ht), Hm1, Hm2, as_int_pyint.
  reflexivity.
Qed.

Lemma coerce_progress_wf (l : list progress_entry) (w : world) :
  Forall wf_progress l ->
  _coerce_progress (Some (JList (List.map progress_sorted l))) w = (Ok l, w).
Proof.
  intros H. unfold _coerce_progress. induction H as [| e l He Hl IH]; [reflexivity |].
  cbn [List.map for_each]. unfold bind at 1. rewrite (coerce_progress_entry_wf e w He).
  unfold bind at 1. rewrite IH. reflexivity.
Qed.

Lemma str_of_strings (l : list string) : List.map Py.str (List.map JStr l) = l.
Proof. induction l as [| x l IH]; [reflexivity |]. cbn. now rewrite IH. Qed.

Lemma normalize_json_wf (l : list string) :
  normalized l -> _normalize_text_items_json (Some (JList (List.map JStr l))) = inr l.
Proof.
  intros H. unfold _normalize_text_items_json. destruct l as [| x l]; [reflexivity |].
  cbn [List.map Py.truthy negb Py.iter].
  rewrite str_of_strings. cbn [Py.str]. now rewrite (normalize_fixed _ H).
Qed.

Lemma coerce_reflection_wf (r : reflection) (w : world) :
  wf_reflection r -> coerce_reflection (reflection_sorted r) w = (Ok [r], w).
Proof.
  destruct r as [t m risks next]. intros (Ht & [Hm1 Hm2] & Hr & Hn).
  unfold coerce_reflection, reflection_sorted.
  cbn [rf_timestamp rf_summary rf_risks rf_next_actions] in *.
  change (Py.get_or _ "summary" _) with (JStr m).
  change (Py.get_or _ "timestamp" _) with (JStr t).
  change (Py.get _ "risks") with (Some (JList (List.map JStr risks))).
  change (Py.get _ "next_actions") with (Some (JList (List.map JStr next))).
  cbn [Py.str]. unfold bind at 1. rewrite (or_now_solid t w Ht), Hm1, Hm2.
  cbn [negb]. rewrite (normalize_json_wf _ Hr), (normalize_json_wf _ Hn).
  reflexivity.
Qed.

Lemma coerce_reflections_wf (l : list reflection) (w : world) :
  Forall wf_reflection l ->
  _coerce_reflections (Some (JList (List.map reflection_sorted l))) w = (Ok l, w).
Proof.
  intros H. unfold _coerce_reflections. induction H as [| r l Hr Hl IH]; [reflexivity |].
  cbn [List.map for_each]. unfold bind at 1. rewrite (coerce_reflection_wf r w Hr).
  unfold bind at 1. rewrite IH. reflexivity.
Qed.

(** The coercer leaves a well-formed state as it is, and does not read the
    clock. *)
Lemma coerce_state_wf (s : state) (w : world) :
  wf_state s -> _coerce_state (sorted_entries s) w = (Ok s, w).
Proof.
  intros (Htask & Hst & Hc & Hu & Hp & Hsteps & Hsub & Hpl & Hrl).
  unfold _coerce_state.
  change (Py.get_or (sorted_entries s) "created_at" (JStr "")) with (JStr (created_at s)).
  change (Py.get_or (sorted_entries s) "updated_at" (JStr "")) with (JStr (updated_at s)).
  change (Py.get_or (sorted_entries s) "status" (JStr "active")) with (JStr (status s)).
  change (Py.get_or (sorted_entries s) "task" (JStr "")) with (JStr (task s)).
  change (Py.get (sorted_entries s) "percent_complete")
    with (Some (pyint_json (percent_complete s))).
  change (Py.get (sorted_entries s) "steps")
    with (Some (JList (List.map item_sorted (steps s)))).
  change (Py.get (sorted_entries s) "subgoals")
    with (Some (JList (List.map item_sorted (subgoals s)))).
  change (Py.get (sorted_entries s) "progress_log")
    with (Some (JList (List.map progress_sorted (progress_log s)))).
  change (Py.get (sorted_entries s) "reflections")
    with (Some (JList (List.map reflection_sorted (reflections s)))).
  cbn [Py.str]. unfold bind at 1. rewrite (or_now_solid _ w Hc).
  unfold bind at 1. rewrite (coerce_progress_wf _ w Hpl).
  unfold bind at 1. rewrite (coerce_reflections_wf _ w Hrl).
  destruct Hu as [Hu1 Hu2]. destruct (plan_status_strip _ Hst) as [Hs1 Hs2].
  cbv zeta. rewrite Hu1, Hu2, Hs1, Hs2, Hst, Htask, (coerce_percent_wf _ Hp).
  rewrite (coerce_items_wf _ Hsteps), (coerce_items_wf _ Hsub).
  destruct s. reflexivity.
Qed.

(** ** What the coercer returns is well formed *)

Lemma clock_ok_untouched (w w' : world) : untouched w w' -> clock_ok w -> clock_ok w'.
Proof. intros (_ & _ & Hc & _) H n. rewrite Hc. apply H. Qed.

Lemma or_now_output (x : string) (w : world) :
  clock_ok w ->
  exists t, fst (or_now (Text.strip x) w) = Ok t /\ solid t
            /\ clock_ok (snd (or_now (Text.strip x) w)).
Proof.
  intros H. pose proof (quiet_or_now (Text.strip x) w) as Hq.
  unfold or_now in *. destruct (Text.nonempty (Text.strip x)) eqn:E.
  - exists (Text.strip x). split; [reflexivity |]. split; [now apply strip_solid | exact H].
  - exists (w_clock w (w_ticks w)). split; [reflexivity |]. split; [apply H |].
    eapply clock_ok_untouched; eassumption.
Qed.

Lemma coerce_item_solid (raw : json) (x : string * string) :
  coerce_item raw = Some x -> solid (fst x).
Proof.
  unfold coerce_item.
  assert (H : forall description st,
            (if negb (Text.nonempty (Text.strip description)) then None
             else Some (Text.strip description,
                        if str_in st VALID_STATUSES then st else "pending")) = Some x ->
            solid (fst x)).
  { intros description st. destruct (Text.nonempty (Text.strip description)) eqn:E;
      cbn [negb]; [| discriminate].
    intros H. injection H as <-. now apply strip_solid. }
  destruct raw; apply H.
Qed.

Lemma enumerated_ids (start : Z) (xs : list (string * string)) :
  let l := List.map (fun it : Z * (string * string) =>
                       mk_item (fst it) (fst (snd it)) (snd (snd it)))
                    (Py.enumerate start xs) in
  List.map item_id l = List.map fst (Py.enumerate start l).
Proof.
  revert start. induction xs as [| x xs IH]; intros start; [reflexivity |].
  cbn [Py.enumerate List.map fst snd item_id]. f_equal. apply IH.
Qed.

Lemma coerce_item_list_wf (raw : option json) : wf_items (_coerce_item_list raw).
Proof.
  unfold _coerce_item_list.
  destruct raw as [[| | | | | raws |] |]; try (split; [constructor | reflexivity]).
  split; [| apply enumerated_ids].
  apply Forall_forall. intros it Hin. apply list_elem_of_In, in_map_iff in Hin as ([i x] & <- & Hin).
  assert (Hx : In x (omap coerce_item raws)).
  { clear - Hin. revert Hin. generalize 1. generalize (omap coerce_item raws) as l.
    induction l as [| y l IH]; intros start; cbn [Py.enumerate]; [tauto |].
    intros [[= _ ->] | H]; [now left | right; eapply IH; eassumption]. }
  apply list_elem_of_In, list_elem_of_omap in Hx as (raw & _ & Hraw).
  split; cbn [item_description item_status fst snd].
  - eapply coerce_item_solid; eassumption.
  - eapply coerce_item_valid; eassumption.
Qed.

(** A loop that appends what each turn returns, under an invariant of the
    world. *)
Lemma for_each_inv {A B : Type} (f : A -> M (list B)) (P : B -> Prop)
    (Inv : world -> Prop) (l : list A) (w : world) :
  (forall x w, Inv w ->
     Inv (snd (f x w))
     /\ match fst (f x w) with Ok ys => Forall P ys | Raise _ => True end) ->
  Inv w ->
  Inv (snd (for_each f l w))
  /\ match fst (for_each f l w) with Ok ys => Forall P ys | Raise _ => True end.
Proof.
  intros Hf. revert w. induction l as [| x l IH]; intros w Hw; cbn [for_each].
  { split; [exact Hw | constructor]. }
  unfold bind. destruct (Hf x w Hw) as [H1 H2].
  destruct (f x w) as [[ys | e] w1]; cbn [fst snd] in H1, H2 |- *;
    [| split; [exact H1 | exact I]].
  destruct (IH w1 H1) as [H3 H4].
  destruct (for_each f l w1) as [[zs | e] w2]; cbn [fst snd] in H3, H4 |- *;
    [| split; [exact H3 | exact I]].
  split; [exact H3 |]. cbn [fst ret]. apply Forall_app. now split.
Qed.

Lemma coerce_progress_output (raw : option json) (w : world) :
  clock_ok w ->
  clock_ok (snd (_coerce_progress raw w))
  /\ match fst (_coerce_progress raw w) with
     | Ok l => Forall wf_progress l
     | Raise _ => True
     end.
Proof.
  intros Hw. unfold _coerce_progress.
  destruct raw as [[| | | | | entries |] |]; try (split; [exact Hw | constructor]).
  apply for_each_inv; [| exact Hw]. clear w Hw. intros entry w Hw.
  unfold coerce_progress_entry.
  destruct entry as [| | | | | | d]; try (split; [exact Hw | constructor]).
  unfold bind.
  destruct (or_now_output (Py.str (Py.get_or d "timestamp" (JStr ""))) w Hw)
    as (t & Ht & Hst & Hw1).
  destruct (or_now _ w) as [r w1]. cbn [fst snd] in *. subst r.
  destruct (Text.nonempty (Text.strip (Py.str (Py.get_or d "message" (JStr ""))))) eqn:E;
    cbn [negb ret fst snd]; (split; [exact Hw1 |]); [| constructor].
  constructor; [| constructor]. split; [exact Hst | now apply strip_solid].
Qed.

Lemma normalize_json_output (v : option json) (l : list string) :
  _normalize_text_items_json v = inr l -> normalized l.
Proof.
  unfold _normalize_text_items_json. destruct v as [v |].
  2:{ intros [= <-]. split; constructor. }
  destruct (Py.truthy v); cbn [negb].
  2:{ intros [= <-]. split; constructor. }
  destruct (Py.iter v) as [e | raws]; [discriminate |].
  intros [= <-]. apply normalize_normalized.
Qed.

Lemma coerce_reflections_output (raw : option json) (w : world) :
  clock_ok w ->
  clock_ok (snd (_coerce_reflections raw w))
  /\ match fst (_coerce_reflections raw w) with
     | Ok l => Forall wf_reflection l
     | Raise _ => True
     end.
Proof.
  intros Hw. unfold _coerce_reflections.
  destruct raw as [[| | | | | entries |] |]; try (split; [exact Hw | constructor]).
  apply for_each_inv; [| exact Hw]. clear w Hw. intros entry w Hw.
  unfold coerce_reflection.
  destruct entry as [| | | | | | d]; try (split; [exact Hw | constructor]).
  unfold bind.
  destruct (or_now_output (Py.str (Py.get_or d "timestamp" (JStr ""))) w Hw)
    as (t & Ht & Hst & Hw1).
  destruct (or_now _ w) as [r w1]. cbn [fst snd] in *. subst r.
  destruct (Text.nonempty (Text.strip (Py.str (Py.get_or d "summary" (JStr ""))))) eqn:E;
    cbn [negb ret fst snd]; [| split; [exact Hw1 | constructor]].
  pose proof (normalize_json_output (Py.get d "risks")) as H1.
  pose proof (normalize_json_output (Py.get d "next_actions")) as H2.
  destruct (_normalize_text_items_json (Py.get d "risks")) as [e | risks];
    cbn [lift raise ret fst snd]; [split; [exact Hw1 | exact I] |].
  destruct (_normalize_text_items_json (Py.get d "next_actions")) as [e | next];
    cbn [lift raise ret fst snd]; [split; [exact Hw1 | exact I] |].
  split; [exact Hw1 |]. constructor; [| constructor].
  split; [exact Hst |]. split; [now apply strip_solid |]. split; [now apply H1 | now apply H2].
Qed.

(** Under a proper clock the coercer returns well-formed states. *)
Lemma coerce_state_output_wf (d : list (string * json)) (w w' : world) (s : state) :
  clock_ok w -> _coerce_state d w = (Ok s, w') -> wf_state s.
Proof.
  intros Hw H.
  pose proof (coerce_state_tidy _ _ _ _ H) as [Hst _].
  pose proof (coerce_state_fields _ _ _ _ H) as (_ & Hsteps & Hsub & Hpc).
  revert H. unfold _coerce_state, bind.
  destruct (or_now_output (Py.str (Py.get_or d "created_at" (JStr ""))) w Hw)
    as (t & Ht & Hsolid & Hw1).
  destruct (or_now _ w) as [r w1]. cbn [fst snd] in *. subst r.
  destruct (coerce_progress_output (Py.get d "progress_log") w1 Hw1) as [Hw2 Hp].
  destruct (_coerce_progress _ w1) as [[pl | e] w2]; [| discriminate]. cbn [fst snd] in *.
  destruct (coerce_reflections_output (Py.get d "reflections") w2 Hw2) as [_ Hr].
  destruct (_coerce_reflections _ w2) as [[rl | e] w3]; [| discriminate]. cbn [fst] in *.
  unfold ret. intros [= <- <-].
  cbn [task status created_at updated_at percent_complete steps subgoals progress_log
       reflections] in *.
  split; [apply strip_idem |]. split; [exact Hst |]. split; [exact Hsolid |].
  split.
  { destruct (Text.nonempty (Text.strip (Py.str (Py.get_or d "updated_at" (JStr ""))))) eqn:E;
      [now apply strip_solid | exact Hsolid]. }
  split; [apply coerce_percent_valid |].
  split; [apply coerce_item_list_wf |]. split; [apply coerce_item_list_wf |]. now split.
Qed.

(** The round trip of a state the coercer returned: the same state and the
    world as it was, unless the decoder is given other than the state
    block. *)
Lemma reload_wf (s : state) (w : world) :
  wf_state s ->
  _load_state_from_markdown (_serialize_markdown s) w = (Ok s, w)
  \/ exists err,
       fst (_load_state_from_markdown (_serialize_markdown s) w)
       = Raise (ValueError ("Plan file contains invalid JSON state: " +:+ err)).
Proof.
  intros Hs. destruct (reload_spec s w) as [Hbad | Hgood]; [now right | left].
  rewrite Hgood. now apply coerce_state_wf.
Qed.

(** ** The pattern on a document whose prose does not quote the marker *)

(** A literal without ["<"] matched where a text is followed by ["<"] lies
    within the text. *)
Lemma drop_prefix_within (t a r rest : string) :
  no_lt t = true ->
  Pattern.drop_prefix t (a +:+ String "<" r) = Some rest ->
  String.prefix t a = true.
Proof.
  revert a. induction t as [| c t IH]; intros a Ht H.
  - now destruct a.
  - unfold no_lt in Ht. simpl in Ht. apply andb_true_iff in Ht as [Hc Ht].
    destruct a as [| b a].
    + simpl in H. destruct (Ascii.eqb_spec c "<") as [-> |]; [discriminate Hc | discriminate].
    + rewrite sapp_cons in H. simpl in H.
      destruct (Ascii.eqb_spec c b) as [-> |]; [| discriminate].
      simpl. destruct (ascii_dec b b); [| congruence].
      now apply (IH a).
Qed.

(** Where the marker does not start within the prose, the pattern does not
    match before the block. *)
Lemma match_here_clean (c : ascii) (a body : string) :
  String.prefix STATE_START (String c a) = false ->
  Pattern.match_here (String c a +:+ state_block body) = None.
Proof.
  intros Hp. unfold Pattern.match_here.
  assert (Hblock : exists r, state_block body = String "<" r) by (eexists; reflexivity).
  destruct Hblock as [r Hr]. rewrite Hr, sapp_cons.
  change STATE_START with (String "<" "!-- PLAN_STATE_JSON_START -->") at 1.
  rewrite drop_prefix_cons.
  destruct (Ascii.eqb_spec "<" c) as [<- |]; [| reflexivity].
  destruct (Pattern.drop_prefix "!-- PLAN_STATE_JSON_START -->" (a +:+ String "<" r))
    as [r1 |] eqn:H1; [| reflexivity].
  apply drop_prefix_within in H1; [| reflexivity].
  change STATE_START with (String "<" "!-- PLAN_STATE_JSON_START -->") in Hp.
  simpl in Hp. simpl in H1. rewrite H1 in Hp. discriminate.
Qed.

Lemma search_clean (p x : string) :
  Text.contains STATE_START p = false ->
  let body := String "{" (x +:+ "}") in
  Pattern.search (p +:+ state_block body) = Some body.
Proof.
  intros Hp body. induction p as [| c p IH].
  - change ("" +:+ state_block body) with (state_block body).
    assert (Hm := match_here_block x). fold body in Hm.
    destruct (state_block body) eqn:E; cbn [Pattern.search]; rewrite Hm; reflexivity.
  - cbn [Text.contains] in Hp. apply orb_false_iff in Hp as [Hh Ht].
    rewrite sapp_cons. cbn [Pattern.search]. rewrite <- sapp_cons.
    rewrite match_here_clean by exact Hh. now apply IH.
Qed.

Lemma prefix_snoc (n x : string) (c : ascii) :
  String.prefix n (x +:+ String c "") = true ->
  String.prefix n x = true \/ n = x +:+ String c "".
Proof.
  revert x. induction n as [| a n IH]; intros x H.
  - left. now destruct x.
  - destruct x as [| b x].
    + simpl in H. destruct (ascii_dec a c) as [-> |]; [| discriminate].
      destruct n; [now right | discriminate].
    + rewrite sapp_cons in H. simpl in H. simpl.
      destruct (ascii_dec a b) as [-> |]; [| discriminate].
      destruct (IH x H) as [Hp | ->]; [now left | right; reflexivity].
Qed.

Lemma last_char_snoc (d : option ascii) (x : string) (c : ascii) :
  Text.last_char d (x +:+ String c "") = Some c.
Proof.
  revert d. induction x as [| b x IH]; intros d; [reflexivity |].
  rewrite sapp_cons. simpl. apply IH.
Qed.

(** The marker does not end in a line feed: a line feed after a text adds no
    occurrence of it. *)
Lemma contains_marker_line (a : string) :
  Text.contains STATE_START a = false ->
  Text.contains STATE_START (a +:+ NL) = false.
Proof.
  intros H. induction a as [| b a IH]; [reflexivity |].
  cbn [Text.contains] in H. apply orb_false_iff in H as [Hh Ht].
  rewrite sapp_cons. cbn [Text.contains]. rewrite (IH Ht), orb_false_r.
  destruct (String.prefix STATE_START (String b (a +:+ NL))) eqn:E; [| reflexivity].
  rewrite <- sapp_cons in E. apply prefix_snoc in E as [E | E]; [congruence |].
  apply (f_equal (Text.last_char None)) in E.
  rewrite last_char_snoc in E. discriminate E.
Qed.

(** Loading a document that ends in the block of [s], whatever stands before
    it, as long as the marker does not: the coercion of the state itself. *)
Lemma load_block (prose : string) (s : state) (w : world) :
  Text.contains STATE_START prose = false ->
  _load_state_from_markdown (prose +:+ state_block (Json.dumps (state_json s))) w
  = _coerce_state (sorted_entries s) w.
Proof.
  intros Hp. destruct (dumps_state_shape s) as [x Hx].
  unfold _load_state_from_markdown. rewrite Hx, (search_clean prose x Hp), <- Hx.
  unfold Json.dumps. rewrite sort_keys_state, loads_render by apply plain_sorted.
  reflexivity.
Qed.

Lemma load_block_wf (prose : string) (s : state) (w : world) :
  wf_state s ->
  Text.contains STATE_START prose = false ->
  _load_state_from_markdown (prose +:+ state_block (Json.dumps (state_json s))) w
  = (Ok s, w).
Proof. intros Hs Hp. rewrite load_block by exact Hp. now apply coerce_state_wf. Qed.

Lemma reload_clean (s : state) (w : world) :
  wf_state s ->
  Text.contains STATE_START (Text.join NL (prose_lines s)) = false ->
  _load_state_from_markdown (_serialize_markdown s) w = (Ok s, w).
Proof.
  intros Hs Hp. rewrite serialize_split. apply load_block_wf; [exact Hs |].
  now apply contains_marker_line.
Qed.

(** ** What [_normalize_text_items] keeps *)

Lemma str_in_cons (x y : string) (l : list string) :
  str_in x (y :: l) = String.eqb x y || str_in x l.
Proof. reflexivity. Qed.

Lemma normalize_loop_In (seen l : list string) (x : string) :
  In x (normalize_loop seen l)
  <-> Text.nonempty x = true /\ In x (List.map Text.strip l) /\ str_in x seen = false.
Proof.
  revert seen. induction l as [| raw l IH]; intros seen; simpl.
  - tauto.
  - destruct (Text.nonempty (Text.strip raw)) eqn:Hn; simpl.
    + destruct (str_in (Text.strip raw) seen) eqn:Hs.
      * rewrite IH. split.
        -- intros (H1 & H2 & H3). auto.
        -- intros (H1 & [H2 | H2] & H3); [subst x; congruence | auto].
      * simpl. rewrite IH, str_in_cons. split.
        -- intros [<- | (H1 & H2 & H3)]; [auto |].
           apply orb_false_iff in H3 as [_ H3]. auto.
        -- intros (H1 & [H2 | H2] & H3); [now left |].
           destruct (String.eqb_spec x (Text.strip raw)) as [-> | Hne]; [now left |].
           right. auto.
    + rewrite IH. split.
      * intros (H1 & H2 & H3). auto.
      * intros (H1 & [H2 | H2] & H3); [subst x; congruence | auto].
Qed.

Lemma normalize_loop_sublist (seen l : list string) :
  sublist (normalize_loop seen l) (List.map Text.strip l).
Proof.
  revert seen. induction l as [| raw l IH]; intros seen; simpl; [constructor |].
  destruct (negb (Text.nonempty (Text.strip raw)) || str_in (Text.strip raw) seen).
  - apply sublist_cons. apply IH.
  - apply sublist_skip. apply IH.
Qed.

(** ** What the operations raise, of the exceptions modelled *)

Lemma load_raises (content : string) (w : world) (e : exn) :
  fst (_load_state_from_markdown content w) = Raise e ->
  (exists msg, e = ValueError msg) \/ (exists msg, e = TypeError msg).
Proof.
  unfold _load_state_from_markdown.
  destruct (Pattern.search content) as [g |]; [| intros [= <-]; eauto].
  destruct (Decode.loads g) as [[| | | | | | d] |]; try (intros [= <-]; eauto).
  intros H. right. pose proof (coerce_state_valid_or_raises d w) as Hc.
  rewrite H in Hc. exact Hc.
Qed.

(** What [_read_existing_state] answers: the path and the state with no error
    text, or an error text and no state, the path missing when it left the
    workspace; of the exceptions modelled, the only one it lets through is
    the coercer's. *)
Lemma read_existing_outcomes (f : string) (w : world) :
  match fst (_read_existing_state f w) with
  | Ok (op, Some s, err) =>
      err = EmptyString /\ op = Some (w_resolve w f)
      /\ exists content, w_nodes w !! w_resolve w f = Some (File content)
  | Ok (op, None, err) =>
      Text.startswith "Error:" err = true
      /\ (op = None <-> relative_to (w_root w) (w_resolve w f) = None)
      /\ (op = Some (w_resolve w f) \/ op = None)
  | Raise e => exists msg, e = TypeError msg
  end.
Proof.
  unfold _read_existing_state, bind, attempt, _resolve_workspace_path, path_exists,
    path_is_file, read_text, io_call, io_stat, bind, ret.
  destruct (relative_to (w_root w) (w_resolve w f)) as [rel |] eqn:Hrel;
    cbn -[_load_state_from_markdown]; [| split; [reflexivity | split; [tauto | now right]]].
  destruct (w_nodes w !! w_resolve w f) as [[content |] |] eqn:Hnode;
    cbn -[_load_state_from_markdown];
    try (split; [reflexivity | split; [split; discriminate | now left]]).
  rewrite Hnode. cbn -[_load_state_from_markdown].
  destruct (w_oserror w _); cbn -[_load_state_from_markdown];
    [split; [reflexivity | split; [split; discriminate | now left]] |].
  rewrite Hnode. cbn -[_load_state_from_markdown].
  match goal with |- context [_load_state_from_markdown content ?w1] =>
    set (w1' := w1);
    pose proof (load_raises content w1') as Hr;
    destruct (_load_state_from_markdown content w1') as [[s | e] w2] eqn:Hload end;
    cbn -[_load_state_from_markdown].
  - split; [reflexivity |]. split; [reflexivity |]. eauto.
  - destruct (Hr e eq_refl) as [[msg ->] | [msg ->]]; cbn.
    + split; [reflexivity | split; [split; discriminate | now left]].
    + eauto.
  - rewrite Hnode. cbn. split; [reflexivity | split; [split; discriminate | now left]].
Qed.

Lemma read_raises (f : string) (w : world) (e : exn) :
  fst (_read_existing_state f w) = Raise e -> exists msg, e = TypeError msg.
Proof.
  intros H. pose proof (read_existing_outcomes f w) as Ho. now rewrite H in Ho.
Qed.

(** ** The steps of a new plan *)

Lemma length_lstrip_by (p : ascii -> bool) (s : string) :
  (String.length (Text.lstrip_by p s) <= String.length s)%nat.
Proof.
  induction s as [| c r IH]; simpl; [lia |]. destruct (p c); simpl; lia.
Qed.

Lemma length_rstrip_by (p : ascii -> bool) (s : string) :
  (String.length (Text.rstrip_by p s) <= String.length s)%nat.
Proof.
  induction s as [| c r IH]; [simpl; lia |].
  rewrite rstrip_by_cons. destruct (Text.rstrip_by p r); [destruct (p c) |]; simpl in *; lia.
Qed.

(** A text that [strip] leaves as it is and that is not empty neither starts
    nor ends with whitespace. *)
Lemma solid_ends (x : string) :
  solid x ->
  Text.rstrip_by Text.isspace x = x
  /\ exists c r, x = String c r /\ Text.isspace c = false.
Proof.
  intros [Hs Hn]. destruct x as [| c r]; [discriminate |].
  unfold Text.strip, Text.strip_by in Hs. cbn [Text.lstrip_by] in Hs.
  destruct (Text.isspace c) eqn:Hc.
  - exfalso. apply (f_equal String.length) in Hs.
    pose proof (length_rstrip_by Text.isspace (Text.lstrip_by Text.isspace r)).
    pose proof (length_lstrip_by Text.isspace r). simpl in Hs. lia.
  - split; [exact Hs | eauto].
Qed.

Lemma rstrip_by_app (p : ascii -> bool) (a b : string) :
  Text.rstrip_by p b = b -> Text.nonempty b = true ->
  Text.rstrip_by p (a +:+ b) = a +:+ b.
Proof.
  intros Hb Hn. induction a as [| c a IH]; [exact Hb |].
  rewrite sapp_cons, rstrip_by_cons, IH.
  destruct (a +:+ b) eqn:E; [| reflexivity].
  destruct a; [| discriminate]. simpl in E. subst b. discriminate.
Qed.

Lemma solid_app (c : ascii) (a b : string) :
  Text.isspace c = false -> solid b -> solid (String c a +:+ b).
Proof.
  intros Hc Hb. destruct (solid_ends b Hb) as [Hr _]. destruct Hb as [_ Hn].
  split; [| reflexivity].
  unfold Text.strip, Text.strip_by. rewrite sapp_cons. cbn [Text.lstrip_by]. rewrite Hc.
  rewrite <- sapp_cons. now apply rstrip_by_app.
Qed.

Lemma fallback_solid (normalized : string) :
  solid normalized -> Forall solid (fallback_steps normalized).
Proof.
  intros H. unfold fallback_steps. constructor.
  - now apply solid_app.
  - repeat constructor.
Qed.

Lemma normalized_firstn (k : nat) (l : list string) :
  normalized l -> normalized (List.firstn k l).
Proof.
  intros [H1 H2]. split.
  - rewrite <- (List.firstn_skipn k l) in H1. now apply List.Forall_app in H1 as [H1 _].
  - rewrite <- (List.firstn_skipn k l) in H2. now apply NoDup_app in H2 as (H2 & _).
Qed.

Lemma normalized_singleton (x : string) : solid x -> normalized [x].
Proof.
  intros H. split; [now constructor |]. constructor; [| constructor].
  rewrite list_elem_of_In. intros [].
Qed.

(** Whatever [decompose_task] returns, its error messages included, is a
    list of distinct texts that are not empty and that [strip] leaves as they
    are; and it is never the empty list when [max_steps] is positive. *)
Lemma decompose_task_normalized (text : string) (max_steps : Z) :
  normalized (decompose_task text max_steps).
Proof.
  destruct (Z.leb_spec max_steps 0) as [Hm | Hm].
  { unfold decompose_task. replace (max_steps <=? 0) with true by (symmetry; now apply Z.leb_le).
    apply normalized_singleton. split; reflexivity. }
  destruct (Text.nonempty (Text.strip (Text.join " " (Text.split text)))) eqn:Hn.
  - rewrite decompose_task_eq by assumption.
    apply normalized_firstn.
    destruct (2 <=? Z.of_nat (List.length (fragments _))).
    + apply normalize_normalized.
    + split; [apply fallback_solid, strip_solid, Hn | apply fallback_spec].
  - unfold decompose_task. replace (max_steps <=? 0) with false by (symmetry; now apply Z.leb_gt).
    rewrite Hn. apply normalized_singleton. split; reflexivity.
Qed.

Lemma decompose_task_nonempty (text : string) (max_steps : Z) :
  decompose_task text max_steps <> [].
Proof.
  destruct (Z.leb_spec max_steps 0) as [Hm | Hm].
  { unfold decompose_task. replace (max_steps <=? 0) with true by (symmetry; now apply Z.leb_le).
    discriminate. }
  destruct (Text.nonempty (Text.strip (Text.join " " (Text.split text)))) eqn:Hn.
  - rewrite decompose_task_eq by assumption.
    destruct (Z.to_nat max_steps) as [| k] eqn:Hk; [lia |].
    destruct (2 <=? Z.of_nat (List.length (fragments _))) eqn:H2.
    + apply Z.leb_le in H2. destruct (fragments _); [simpl in H2; lia | discriminate].
    + discriminate.
  - unfold decompose_task. replace (max_steps <=? 0) with false by (symmetry; now apply Z.leb_gt).
    rewrite Hn. discriminate.
Qed.

Lemma planned_steps_normalized (task_text : string) (given_steps : option (list string)) :
  normalized (planned_steps task_text given_steps)
  /\ planned_steps task_text given_steps <> [].
Proof.
  unfold planned_steps.
  pose proof (normalize_normalized (match given_steps with Some l => l | None => [] end)) as Hg.
  destruct (_normalize_text_items _) as [| x r].
  - split; [apply decompose_task_normalized | apply decompose_task_nonempty].
  - split; [exact Hg | discriminate].
Qed.

(** ** A call, whichever it is *)

Lemma committed_succeeded (w : world) (p : path) (s' : state)
    (out : result string * world) :
  committed w p s' out -> succeeded out ->
  later w (snd out) /\ same_files_but p w (snd out)
  /\ wrote w (snd out) p (_serialize_markdown s') /\ persisted (snd out) p s'.
Proof.
  intros (L & F & msg & Hm & [[He _] | (_ & Hp & Hw)]) Hs.
  - exfalso. eapply succeeded_not_error; eassumption.
  - auto.
Qed.

Lemma set_subgoals_valid (l : list string) (f : string) (replace : bool) (w : world) :
  succeeded (set_subgoals l f replace w) -> _normalize_text_items l <> [].
Proof.
  intros (msg & Hm & He) Hn. unfold set_subgoals in Hm. rewrite Hn in Hm.
  injection Hm as <-. discriminate.
Qed.

(** A call that succeeded passed its checks and wrote the state it computed
    from the plan it loaded, at the path its plan file resolves to, inside
    the workspace; the document is that state's, unless the cleanup removed
    it. *)
Lemma call_succeeded (c : call) (w : world) (s : state) :
  (creates c = false -> loads_as (plan_file_of c) w s) ->
  succeeded (run_call c w) ->
  let out := run_call c w in
  let p := w_resolve w (plan_file_of c) in
  let s' := call_state c (call_stamp c w) s in
  accepted c s
  /\ is_Some (relative_to (w_root w) p)
  /\ later w (snd out) /\ same_files_but p w (snd out)
  /\ wrote w (snd out) p (_serialize_markdown s')
  /\ (w_nodes (snd out) !! p = None \/ persisted (snd out) p s')
  /\ (cleanup_of c = false -> persisted (snd out) p s').
Proof.
  intros Hl Hs.
  destruct c as [text given f o | n st note f | l f r | m q f cp cl | sm rk na f fin cl];
    cbn [run_call plan_file_of call_state call_stamp creates accepted cleanup_of] in *.
  - destruct (create_plan_spec_at text given f o w)
      as (L & msg & Hm & [[He _] | (He & Hne & Hin & F & Hp & Hw & _)]).
    { exfalso. eapply succeeded_not_error; eassumption. }
    cbv zeta. auto 10.
  - specialize (Hl eq_refl). apply loads_as_loaded in Hl.
    destruct (update_plan_succeeded n st note f w _ s Hl Hs) as (Hn & Hv & _).
    destruct (committed_succeeded _ _ _ _ (update_plan_loaded_at n st note f w _ s Hl Hn Hv) Hs)
      as (L & F & Hw & Hp).
    cbv zeta. pose proof (loaded_inside _ _ _ _ Hl). auto 10.
  - specialize (Hl eq_refl). apply loads_as_loaded in Hl.
    pose proof (set_subgoals_valid l f r w Hs) as Hn.
    destruct (committed_succeeded _ _ _ _ (set_subgoals_loaded_at l f r w _ s Hl Hn) Hs)
      as (L & F & Hw & Hp).
    cbv zeta. pose proof (loaded_inside _ _ _ _ Hl). auto 10.
  - specialize (Hl eq_refl). apply loads_as_loaded in Hl.
    destruct (track_progress_valid m q f cp cl w Hs) as [Hm Hq].
    pose proof (track_progress_loaded_at m q f cp cl w _ s Hl Hm Hq) as Hf.
    destruct (finished_succeeded _ _ _ _ _ Hf Hs) as (Hw & Hp & Hc).
    destruct Hf as (L & F & _).
    cbv zeta. pose proof (loaded_inside _ _ _ _ Hl). auto 10.
  - specialize (Hl eq_refl). apply loads_as_loaded in Hl.
    pose proof (reflect_on_plan_valid sm rk na f fin cl w Hs) as Hm.
    pose proof (reflect_on_plan_loaded_at sm rk na f fin cl w _ s Hl Hm) as Hf.
    destruct (finished_succeeded _ _ _ _ _ Hf Hs) as (Hw & Hp & Hc).
    destruct Hf as (L & F & _).
    cbv zeta. pose proof (loaded_inside _ _ _ _ Hl). auto 10.
Qed.

(** ** The fields of the state a call writes *)

Lemma update_plan_state_fields (n : Z) (st note t : string) (s : state) :
  let s' := update_plan_state n st note t s in
  task s' = task s /\ created_at s' = created_at s /\ updated_at s' = t
  /\ subgoals s' = subgoals s /\ reflections s' = reflections s
  /\ progress_log s'
     = progress_log s
       ++ (if Text.nonempty (Text.strip note)
           then [mk_progress t (Text.strip note) None] else [])
  /\ steps s' = updated_steps n st (steps s)
  /\ status s' = (if all_completed (updated_steps n st (steps s)) then "completed" else "active")
  /\ percent_complete s' = Some (PInt (step_ratio (updated_steps n st (steps s)))).
Proof.
  cbv zeta. unfold update_plan_state, _recompute_percent_from_steps, updated_steps, step_ratio.
  destruct (Text.nonempty (Text.strip note));
    cbn [steps with_steps with_progress_log with_status with_updated_at with_percent
         task created_at updated_at subgoals reflections progress_log status percent_complete];
    destruct (alter _ _ _);
    cbn [steps with_steps with_progress_log with_status with_updated_at with_percent
         task created_at updated_at subgoals reflections progress_log status percent_complete];
    rewrite ?app_nil_r; repeat split.
Qed.

Lemma set_subgoals_state_fields (l : list string) (replace : bool) (t : string) (s : state) :
  let s' := set_subgoals_state l replace t s in
  task s' = task s /\ status s' = status s /\ created_at s' = created_at s
  /\ updated_at s' = t /\ percent_complete s' = percent_complete s
  /\ steps s' = steps s /\ progress_log s' = progress_log s
  /\ reflections s' = reflections s
  /\ subgoals s'
     = merged_subgoals
         (if replace then l
          else _normalize_text_items (List.map item_description (subgoals s) ++ l))
         (subgoals s).
Proof. cbv zeta. unfold set_subgoals_state, merged_subgoals. repeat split. Qed.

Lemma force_complete_fields (s : state) :
  let s' := force_complete s in
  task s' = task s /\ status s' = "completed" /\ created_at s' = created_at s
  /\ updated_at s' = updated_at s /\ percent_complete s' = Some (PInt 100)
  /\ steps s' = _mark_all_completed (steps s)
  /\ subgoals s' = _mark_all_completed (subgoals s)
  /\ progress_log s' = progress_log s /\ reflections s' = reflections s.
Proof. cbv zeta. unfold force_complete. repeat split. Qed.

Lemma track_progress_state_fields (note : string) (percent : option Z)
    (complete_plan : bool) (t : string) (s : state) :
  let s' := track_progress_state note percent complete_plan t s in
  task s' = task s /\ created_at s' = created_at s /\ updated_at s' = t
  /\ reflections s' = reflections s
  /\ progress_log s' = progress_log s ++ [mk_progress t note (option_map PInt percent)]
  /\ (if forced percent complete_plan
      then steps s' = _mark_all_completed (steps s)
           /\ subgoals s' = _mark_all_completed (subgoals s)
           /\ status s' = "completed" /\ percent_complete s' = Some (PInt 100)
      else steps s' = steps s /\ subgoals s' = subgoals s
           /\ status s' = (if all_completed (steps s) then "completed" else "active")
           /\ percent_complete s'
              = match percent with
                | Some p => Some (PInt p)
                | None => Some (PInt (step_ratio (steps s)))
                end).
Proof.
  cbv zeta. unfold track_progress_state, forced.
  destruct (complete_plan || _); destruct percent as [q |];
    unfold force_complete, _recompute_percent_from_steps, step_ratio;
    cbn [steps with_steps with_subgoals with_progress_log with_status with_updated_at
         with_percent task created_at updated_at subgoals reflections progress_log
         status percent_complete option_map];
    try (destruct (steps s) eqn:E);
    cbn [steps with_steps with_subgoals with_progress_log with_status with_updated_at
         with_percent task created_at updated_at subgoals reflections progress_log
         status percent_complete option_map];
    rewrite ?E; repeat split.
Qed.

Lemma reflect_on_plan_state_fields (summary : string) (risks next_actions : list string)
    (finalize : bool) (t : string) (s : state) :
  let s' := reflect_on_plan_state summary risks next_actions finalize t s in
  task s' = task s /\ created_at s' = created_at s /\ updated_at s' = t
  /\ progress_log s' = progress_log s
  /\ reflections s'
     = reflections s
       ++ [mk_reflection t summary (_normalize_text_items risks)
             (_normalize_text_items next_actions)]
  /\ (if finalize
      then steps s' = _mark_all_completed (steps s)
           /\ subgoals s' = _mark_all_completed (subgoals s)
           /\ status s' = "completed" /\ percent_complete s' = Some (PInt 100)
      else steps s' = steps s /\ subgoals s' = subgoals s /\ status s' = status s
           /\ percent_complete s' = Some (PInt (step_ratio (steps s)))).
Proof.
  cbv zeta. unfold reflect_on_plan_state.
  destruct finalize;
    unfold force_complete, _recompute_percent_from_steps, step_ratio;
    cbn [steps with_steps with_subgoals with_reflections with_status with_updated_at
         with_percent task created_at updated_at subgoals reflections progress_log
         status percent_complete];
    try (destruct (steps s) eqn:E);
    cbn [steps with_steps with_subgoals with_reflections with_status with_updated_at
         with_percent task created_at updated_at subgoals reflections progress_log
         status percent_complete];
    rewrite ?E; repeat split.
Qed.

(** ** Well-formed states stay well-formed *)

Lemma enumerate_fst {A B : Type} (start : Z) (l : list A) (l' : list B) :
  List.length l = List.length l' ->
  List.map fst (Py.enumerate start l) = List.map fst (Py.enumerate start l').
Proof.
  revert start l'. induction l as [| x l IH]; intros start [| y l'] H; try discriminate.
  - reflexivity.
  - cbn. f_equal. apply IH. now injection H.
Qed.

Lemma wf_items_restatus (l l' : list item) :
  wf_items l -> Forall2 restatus l l' -> wf_items l'.
Proof.
  intros [Hw Hi] H. split.
  - clear Hi. induction H as [| it it' l l' (_ & Hd & Hv) _ IH]; [constructor |].
    apply Forall_cons in Hw as [[Hs _] Hw]. constructor; [| now apply IH].
    split; [now rewrite Hd | exact Hv].
  - rewrite <- (enumerate_fst 1 l l') by (eapply Forall2_length; eassumption).
    rewrite <- Hi. clear Hi Hw.
    induction H as [| it it' l l' (Hid & _) _ IH]; [reflexivity |].
    cbn. now rewrite Hid, IH.
Qed.

Lemma restatus_refl (l : list item) : Forall wf_item l -> Forall2 restatus l l.
Proof.
  induction 1 as [| it l [_ Hv] _ IH]; constructor; [| exact IH]. now repeat split.
Qed.

Lemma restatus_trans (l1 l2 l3 : list item) :
  Forall2 restatus l1 l2 -> Forall2 restatus l2 l3 -> Forall2 restatus l1 l3.
Proof.
  intros H. revert l3. induction H as [| a b l1 l2 (Hi & Hd & _) _ IH]; intros l3 H3.
  - inversion H3. constructor.
  - inversion H3 as [| b' c l2' l3' (Hi' & Hd' & Hv') Hr]; subst.
    constructor; [| now apply IH]. repeat split; congruence.
Qed.

Lemma restatus_alter (st : string) (k : nat) (l : list item) :
  str_in st VALID_STATUSES = true -> Forall wf_item l ->
  Forall2 restatus l (alter (set_item_status st) k l).
Proof.
  intros Hst H. revert k. induction H as [| it l [_ Hv] Hl IH]; intros k; [constructor |].
  destruct k as [| k]; cbn.
  - constructor; [now repeat split | now apply restatus_refl].
  - constructor; [now repeat split | apply IH].
Qed.

Lemma restatus_demote (n start : Z) (l : list item) :
  Forall wf_item l -> Forall2 restatus l (List.map (demote n) (Py.enumerate start l)).
Proof.
  intros H. revert start. induction H as [| it l [_ Hv] _ IH]; intros start; [constructor |].
  cbn [Py.enumerate List.map]. constructor; [| apply IH].
  unfold demote. cbn [fst snd]. destruct (_ && _); now repeat split.
Qed.

Lemma restatus_marked (l : list item) : Forall2 restatus l (_mark_all_completed l).
Proof. induction l; constructor; [now repeat split | assumption]. Qed.

Lemma restatus_wf (l l' : list item) :
  Forall wf_item l -> Forall2 restatus l l' -> Forall wf_item l'.
Proof.
  intros Hw H. induction H as [| it it' l l' (_ & Hd & Hv) _ IH]; [constructor |].
  apply Forall_cons in Hw as [[Hs _] Hw]. constructor; [| now apply IH].
  split; [now rewrite Hd | exact Hv].
Qed.

Lemma restatus_updated (n : Z) (st : string) (l : list item) :
  str_in st VALID_STATUSES = true -> Forall wf_item l ->
  Forall2 restatus l (updated_steps n st l).
Proof.
  intros Hst H. unfold updated_steps. destruct (String.eqb st "in_progress").
  - rewrite demote_others_eq. eapply restatus_trans; [apply restatus_demote, H |].
    apply restatus_alter; [exact Hst |].
    eapply restatus_wf; [exact H | apply restatus_demote, H].
  - now apply restatus_alter.
Qed.

Lemma step_ratio_valid (l : list item) :
  Z.of_nat (List.length l) < 2 ^ 43 -> valid_percent (Some (PInt (step_ratio l))).
Proof.
  intros Hl. unfold step_ratio. destruct l as [| it r] eqn:E; [cbn; lia |]. rewrite <- E in *.
  assert (Ht : 1 <= Z.of_nat (List.length l)) by (subst l; cbn [List.length]; lia).
  pose proof (completed_count_range l) as Hc.
  pose proof (ratio_percent_nearest _ _ (conj Ht Hl) Hc) as Hn.
  unfold nearest_percent in Hn. apply Z.leb_le in Hn. cbn [valid_percent pyint_value].
  set (p := ratio_percent _ _) in *. nia.
Qed.

Lemma numbered_ids {A : Type} (f : Z * A -> item) (start : Z) (xs : list A) :
  (forall i x, item_id (f (i, x)) = i) ->
  List.map item_id (List.map f (Py.enumerate start xs))
  = List.map fst (Py.enumerate start (List.map f (Py.enumerate start xs))).
Proof.
  intros Hf.
  rewrite <- (enumerate_fst start xs) by now rewrite length_map, enumerate_length.
  revert start. induction xs as [| x xs IH]; intros start; [reflexivity |].
  cbn [Py.enumerate List.map fst]. now rewrite Hf, IH.
Qed.

Lemma merged_subgoals_wf (merged : list string) (current : list item) :
  Forall solid merged -> wf_items (merged_subgoals merged current).
Proof.
  intros H. unfold merged_subgoals. split; [| now apply numbered_ids].
  generalize 1 as start. induction H as [| x l Hx _ IH]; intros start; [constructor |].
  cbn [Py.enumerate List.map]. constructor; [| apply IH].
  split; cbn [item_description item_status]; [exact Hx |].
  destruct (str_in (status_by_description current x "pending") VALID_STATUSES) eqn:E;
    [exact E | reflexivity].
Qed.

Lemma wf_items_forall (l : list item) : wf_items l -> Forall wf_item l.
Proof. now intros [H _]. Qed.

(** [update_plan] keeps a well-formed state so, with fewer than 2^43
    steps. *)
Lemma update_plan_state_wf (n : Z) (st note t : string) (s : state) :
  wf_state s -> str_in st VALID_STATUSES = true -> solid t ->
  Z.of_nat (List.length (steps s)) < 2 ^ 43 ->
  wf_state (update_plan_state n st note t s).
Proof.
  intros (Ht & Hst & Hc & Hu & Hp & Hs & Hg & Hl & Hr) Hv Hsolid Hlen.
  destruct (update_plan_state_fields n st note t s)
    as (E1 & E2 & E3 & E4 & E5 & E6 & E7 & E8 & E9).
  pose proof (restatus_updated n st (steps s) Hv (wf_items_forall _ Hs)) as Hre.
  unfold wf_state. rewrite E1, E2, E3, E4, E5, E6, E7, E8, E9.
  split; [exact Ht |]. split; [now destruct (all_completed _) |].
  split; [exact Hc |]. split; [exact Hsolid |].
  split; [apply step_ratio_valid; now rewrite <- (Forall2_length _ _ _ Hre) |].
  split; [eapply wf_items_restatus; [exact Hs | exact Hre] |]. split; [exact Hg |].
  split; [| exact Hr].
  apply Forall_app. split; [exact Hl |].
  destruct (Text.nonempty (Text.strip note)) eqn:Hn; [| constructor].
  constructor; [| constructor]. split; [exact Hsolid | now apply strip_solid].
Qed.

Lemma set_subgoals_state_wf (l : list string) (replace : bool) (t : string) (s : state) :
  wf_state s -> solid t -> wf_state (set_subgoals_state (_normalize_text_items l) replace t s).
Proof.
  intros (Ht & Hst & Hc & Hu & Hp & Hs & Hg & Hl & Hr) Hsolid.
  destruct (set_subgoals_state_fields (_normalize_text_items l) replace t s)
    as (E1 & E2 & E3 & E4 & E5 & E6 & E7 & E8 & E9).
  unfold wf_state. rewrite E1, E2, E3, E4, E5, E6, E7, E8, E9.
  repeat (split; [assumption |]). split; [| split; assumption].
  apply merged_subgoals_wf. destruct replace; apply normalize_normalized.
Qed.

Lemma track_progress_state_wf (message : string) (percent : option Z)
    (complete_plan : bool) (t : string) (s : state) :
  wf_state s -> Text.nonempty (Text.strip message) = true -> percent_in_range percent ->
  solid t -> Z.of_nat (List.length (steps s)) < 2 ^ 43 ->
  wf_state (track_progress_state (Text.strip message) percent complete_plan t s).
Proof.
  intros (Ht & Hst & Hc & Hu & Hp & Hs & Hg & Hl & Hr) Hm Hq Hsolid Hlen.
  destruct (track_progress_state_fields (Text.strip message) percent complete_plan t s)
    as (E1 & E2 & E3 & E4 & E5 & E6).
  assert (Hlog : Forall wf_progress
                   (progress_log s
                    ++ [mk_progress t (Text.strip message) (option_map PInt percent)])).
  { apply Forall_app. split; [exact Hl |]. constructor; [| constructor].
    split; [exact Hsolid | now apply strip_solid]. }
  unfold wf_state. rewrite E1, E2, E3, E4, E5.
  destruct (forced percent complete_plan).
  - destruct E6 as (F1 & F2 & F3 & F4). rewrite F1, F2, F3, F4.
    split; [exact Ht |]. split; [reflexivity |]. split; [exact Hc |].
    split; [exact Hsolid |]. split; [cbn; lia |].
    split; [eapply wf_items_restatus; [exact Hs | apply restatus_marked] |].
    split; [eapply wf_items_restatus; [exact Hg | apply restatus_marked] |].
    split; assumption.
  - destruct E6 as (F1 & F2 & F3 & F4). rewrite F1, F2, F3, F4.
    split; [exact Ht |]. split; [now destruct (all_completed _) |]. split; [exact Hc |].
    split; [exact Hsolid |].
    split; [destruct percent as [q |]; [exact Hq | now apply step_ratio_valid] |].
    repeat (split; [assumption |]). assumption.
Qed.

Lemma reflect_on_plan_state_wf (summary : string) (risks next_actions : list string)
    (finalize : bool) (t : string) (s : state) :
  wf_state s -> Text.nonempty (Text.strip summary) = true ->
  solid t -> Z.of_nat (List.length (steps s)) < 2 ^ 43 ->
  wf_state (reflect_on_plan_state (Text.strip summary) risks next_actions finalize t s).
Proof.
  intros (Ht & Hst & Hc & Hu & Hp & Hs & Hg & Hl & Hr) Hm Hsolid Hlen.
  destruct (reflect_on_plan_state_fields (Text.strip summary) risks next_actions finalize t s)
    as (E1 & E2 & E3 & E4 & E5 & E6).
  assert (Href : Forall wf_reflection
                   (reflections s
                    ++ [mk_reflection t (Text.strip summary) (_normalize_text_items risks)
                          (_normalize_text_items next_actions)])).
  { apply Forall_app. split; [exact Hr |]. constructor; [| constructor].
    split; [exact Hsolid |]. split; [now apply strip_solid |].
    split; apply normalize_normalized. }
  unfold wf_state. rewrite E1, E2, E3, E4, E5.
  destruct finalize; destruct E6 as (F1 & F2 & F3 & F4); rewrite F1, F2, F3, F4.
  - split; [exact Ht |]. split; [reflexivity |]. split; [exact Hc |].
    split; [exact Hsolid |]. split; [cbn; lia |].
    split; [eapply wf_items_restatus; [exact Hs | apply restatus_marked] |].
    split; [eapply wf_items_restatus; [exact Hg | apply restatus_marked] |].
    split; assumption.
  - split; [exact Ht |]. split; [exact Hst |]. split; [exact Hc |].
    split; [exact Hsolid |]. split; [now apply step_ratio_valid |].
    repeat (split; [assumption |]). assumption.
Qed.

Lemma built_items_wf (l : list string) :
  Forall solid l -> wf_items (set_first_status "in_progress" (_build_plan_items l "pending")).
Proof.
  intros H.
  assert (Hb : wf_items (_build_plan_items l "pending")).
  { unfold _build_plan_items. split; [| now apply numbered_ids].
    generalize 1 as start. induction H as [| x r Hx _ IH]; intros start; [constructor |].
    cbn [Py.enumerate List.map]. constructor; [| apply IH]. now split. }
  eapply wf_items_restatus; [exact Hb |].
  destruct (_build_plan_items l "pending") as [| it r] eqn:E; [constructor |].
  cbn [set_first_status]. destruct Hb as [Hb _]. apply Forall_cons in Hb as [[_ Hv] Hb].
  constructor; [now repeat split | now apply restatus_refl].
Qed.

Lemma create_plan_state_wf (text : string) (given_steps : option (list string)) (t : string) :
  solid t -> wf_state (create_plan_state text given_steps t).
Proof.
  intros Hsolid. unfold create_plan_state, wf_state.
  cbn [task status created_at updated_at percent_complete steps subgoals progress_log
       reflections].
  split; [apply strip_idem |]. split; [reflexivity |]. split; [exact Hsolid |].
  split; [exact Hsolid |]. split; [cbn; lia |].
  split; [apply built_items_wf, planned_steps_normalized |].
  split; [split; [constructor | reflexivity] |].
  split; [| constructor]. constructor; [| constructor]. split; [exact Hsolid |].
  split; reflexivity.
Qed.

(** What a call writes is well-formed, when what it loaded was and the clock
    gave a proper time. *)
Lemma call_state_wf (c : call) (t : string) (s : state) :
  (creates c = false -> wf_state s /\ Z.of_nat (List.length (steps s)) < 2 ^ 43) ->
  accepted c s -> solid t -> wf_state (call_state c t s).
Proof.
  intros Hs Ha Ht.
  destruct c as [text given f o | n st note f | l f r | m q f cp cl | sm rk na f fin cl];
    cbn [call_state creates accepted] in *.
  - now apply create_plan_state_wf.
  - destruct (Hs eq_refl) as [Hw Hl]. destruct Ha as [_ Hv]. now apply update_plan_state_wf.
  - destruct (Hs eq_refl) as [Hw Hl]. now apply set_subgoals_state_wf.
  - destruct (Hs eq_refl) as [Hw Hl]. destruct Ha as [Hm Hq]. now apply track_progress_state_wf.
  - destruct (Hs eq_refl) as [Hw Hl]. now apply reflect_on_plan_state_wf.
Qed.

(** ** The ways a call can end *)

Lemma refused_error (c : call) (w : world) (out : result string * world) (msg : string) :
  untouched w (snd out) -> fst out = Ok msg -> Text.startswith "Error:" msg = true ->
  refused c w out.
Proof. intros Hu Hm He. split; [exact Hu |]. left. eauto. Qed.

Lemma committed_cases (c : call) (w : world) (s : state) (out : result string * world) :
  cleanup_of c = false -> accepted c s ->
  is_Some (relative_to (w_root w) (w_resolve w (plan_file_of c))) ->
  committed w (w_resolve w (plan_file_of c)) (call_state c (call_stamp c w) s) out ->
  (write_refused w out /\ later w (snd out)) \/ written c w s out.
Proof.
  intros Hc Ha Hin (L & F & msg & Hm & [[He Hs] | (He & Hp & Hw)]).
  - left. split; [exists msg; auto | exact L].
  - right. unfold written. rewrite Hc. cbv zeta. eauto 10.
Qed.

Lemma finished_cases (c : call) (w : world) (s : state) (out : result string * world) :
  accepted c s ->
  is_Some (relative_to (w_root w) (w_resolve w (plan_file_of c))) ->
  finished (cleanup_of c) w (w_resolve w (plan_file_of c))
           (call_state c (call_stamp c w) s) out ->
  (write_refused w out /\ later w (snd out)) \/ written c w s out.
Proof.
  intros Ha Hin (L & F & [Hr | (Hw & Hc)]).
  - left. now split.
  - right. unfold written. cbv zeta. auto 10.
Qed.

(** The three ways a call can end: refused before it wrote, refused its
    write, or the new state written. *)
Lemma call_cases (c : call) (w : world) :
  let out := run_call c w in
  refused c w out
  \/ (write_refused w out /\ later w (snd out))
  \/ exists s, (creates c = false -> loads_as (plan_file_of c) w s) /\ written c w s out.
Proof.
  destruct c as [text given f o | n st note f | l f r | m q f cp cl | sm rk na f fin cl];
    cbn [run_call].
  - destruct (create_plan_spec_at text given f o w)
      as (L & msg & Hm & [[He Hs] | (He & Hne & Hin & F & Hp & Hw & _)]).
    + right; left. split; [exists msg; auto | exact L].
    + right; right. exists (create_plan_state text given ""). split; [discriminate |].
      unfold written. cbn [cleanup_of call_state call_stamp creates plan_file_of accepted].
      eauto 10.
  - destruct (Z.lt_ge_cases n 1) as [Hlow | Hlow].
    { left. destruct (update_plan_rejected n st note f w (or_introl Hlow))
        as ((msg & Hm & He) & Hu & _). eapply refused_error; eassumption. }
    destruct (str_in st VALID_STATUSES) eqn:Hv.
    2:{ left. destruct (update_plan_rejected n st note f w (or_intror (or_introl Hv)))
          as ((msg & Hm & He) & Hu & _). eapply refused_error; eassumption. }
    destruct (read_cases f w) as [(p & s & Hl) | [[e He] | (op & c & err & He)]].
    + destruct (Z.lt_ge_cases (Z.of_nat (List.length (steps s))) n) as [Hn | Hn].
      * left.
        destruct (update_plan_rejected n st note f w
                    (or_intror (or_intror (ex_intro _ p (ex_intro _ s (conj Hl Hn))))))
          as ((msg & Hm & He) & Hu & _). eapply refused_error; eassumption.
      * right.
        assert (Hl2 : loaded f w (w_resolve w f) s) by (apply loads_as_loaded; exists p; exact Hl).
        pose proof (update_plan_loaded_at n st note f w _ s Hl2 (conj Hlow Hn) Hv) as Hc.
        destruct (committed_cases (UpdatePlan n st note f) w s _ eq_refl
                    (conj (conj Hlow Hn) Hv) (loaded_inside _ _ _ _ Hl2) Hc) as [H | H];
          [now left | right; exists s; split; [intros _; exists p; exact Hl | exact H]].
    + left. destruct (read_raises f w e He) as [msg ->].
      unfold update_plan. replace (n <? 1) with false by (symmetry; apply Z.ltb_ge; lia).
      rewrite Hv. cbn [negb]. rewrite (bind_raise _ _ _ _ He).
      split; [apply loaded_untouched |]. right. split; [reflexivity |]. eauto.
    + left. pose proof (read_existing_spec f w) as Hs. rewrite He in Hs.
      assert (Herr : Text.startswith "Error:" (String c err) = true) by (now destruct op).
      unfold update_plan. replace (n <? 1) with false by (symmetry; apply Z.ltb_ge; lia).
      rewrite Hv. cbn [negb]. rewrite (bind_ok _ _ _ _ He).
      eapply refused_error; [| | exact Herr]; destruct op; try reflexivity;
        apply loaded_untouched.
  - destruct (_normalize_text_items l) as [| x xs] eqn:Hn.
    { left. unfold set_subgoals. rewrite Hn.
      eapply refused_error; [apply untouched_refl | reflexivity | reflexivity]. }
    assert (Hne : _normalize_text_items l <> []) by (rewrite Hn; discriminate).
    destruct (read_cases f w) as [(p & s & Hl) | [[e He] | (op & c & err & He)]].
    + right.
      assert (Hl2 : loaded f w (w_resolve w f) s) by (apply loads_as_loaded; exists p; exact Hl).
      pose proof (set_subgoals_loaded_at l f r w _ s Hl2 Hne) as Hc.
      destruct (committed_cases (SetSubgoals l f r) w s _ eq_refl Hne
                  (loaded_inside _ _ _ _ Hl2) Hc) as [H | H];
        [now left | right; exists s; split; [intros _; exists p; exact Hl | exact H]].
    + left. destruct (read_raises f w e He) as [msg ->].
      unfold set_subgoals. rewrite Hn, (bind_raise _ _ _ _ He).
      split; [apply loaded_untouched |]. right. split; [reflexivity |]. eauto.
    + left. pose proof (read_existing_spec f w) as Hs. rewrite He in Hs.
      assert (Herr : Text.startswith "Error:" (String c err) = true) by (now destruct op).
      unfold set_subgoals. rewrite Hn, (bind_ok _ _ _ _ He).
      eapply refused_error; [| | exact Herr]; destruct op; try reflexivity;
        apply loaded_untouched.
  - destruct (Text.nonempty (Text.strip m)) eqn:Hm.
    2:{ left. unfold track_progress. rewrite Hm.
        eapply refused_error; [apply untouched_refl | reflexivity | reflexivity]. }
    destruct (match q with Some p => (p <? 0) || (p >? 100) | None => false end) eqn:Hp.
    { left. unfold track_progress. rewrite Hm, Hp.
      eapply refused_error; [apply untouched_refl | reflexivity | reflexivity]. }
    assert (Hr : percent_in_range q).
    { destruct q as [q |]; [| exact I]. cbn. apply orb_false_iff in Hp as [H1 H2].
      apply Z.ltb_ge in H1. rewrite Z.gtb_ltb in H2. apply Z.ltb_ge in H2. lia. }
    destruct (read_cases f w) as [(p & s & Hl) | [[e He] | (op & c & err & He)]].
    + right.
      assert (Hl2 : loaded f w (w_resolve w f) s) by (apply loads_as_loaded; exists p; exact Hl).
      pose proof (track_progress_loaded_at m q f cp cl w _ s Hl2 Hm Hr) as Hc.
      destruct (finished_cases (TrackProgress m q f cp cl) w s _ (conj Hm Hr)
                  (loaded_inside _ _ _ _ Hl2) Hc) as [H | H];
        [now left | right; exists s; split; [intros _; exists p; exact Hl | exact H]].
    + left. destruct (read_raises f w e He) as [msg ->].
      unfold track_progress. rewrite Hm, Hp. cbn [negb]. rewrite (bind_raise _ _ _ _ He).
      split; [apply loaded_untouched |]. right. split; [reflexivity |]. eauto.
    + left. pose proof (read_existing_spec f w) as Hs. rewrite He in Hs.
      assert (Herr : Text.startswith "Error:" (String c err) = true) by (now destruct op).
      unfold track_progress. rewrite Hm, Hp. cbn [negb]. rewrite (bind_ok _ _ _ _ He).
      eapply refused_error; [| | exact Herr]; destruct op; try reflexivity;
        apply loaded_untouched.
  - destruct (Text.nonempty (Text.strip sm)) eqn:Hm.
    2:{ left. unfold reflect_on_plan. rewrite Hm.
        eapply refused_error; [apply untouched_refl | reflexivity | reflexivity]. }
    destruct (read_cases f w) as [(p & s & Hl) | [[e He] | (op & c & err & He)]].
    + right.
      assert (Hl2 : loaded f w (w_resolve w f) s) by (apply loads_as_loaded; exists p; exact Hl).
      pose proof (reflect_on_plan_loaded_at sm rk na f fin cl w _ s Hl2 Hm) as Hc.
      destruct (finished_cases (ReflectOnPlan sm rk na f fin cl) w s _ Hm
                  (loaded_inside _ _ _ _ Hl2) Hc) as [H | H];
        [now left | right; exists s; split; [intros _; exists p; exact Hl | exact H]].
    + left. destruct (read_raises f w e He) as [msg ->].
      unfold reflect_on_plan. rewrite Hm. cbn [negb]. rewrite (bind_raise _ _ _ _ He).
      split; [apply loaded_untouched |]. right. split; [reflexivity |]. eauto.
    + left. pose proof (read_existing_spec f w) as Hs. rewrite He in Hs.
      assert (Herr : Text.startswith "Error:" (String c err) = true) by (now destruct op).
      unfold reflect_on_plan. rewrite Hm. cbn [negb]. rewrite (bind_ok _ _ _ _ He).
      eapply refused_error; [| | exact Herr]; destruct op; try reflexivity;
        apply loaded_untouched.
Qed.

(** ** Loading what a call wrote *)

Lemma load_output_wf (content : string) (w w' : world) (s : state) :
  clock_ok w -> _load_state_from_markdown content w = (Ok s, w') -> wf_state s.
Proof.
  intros Hc. unfold _load_state_from_markdown.
  destruct (Pattern.search content) as [g |]; [| discriminate].
  destruct (Decode.loads g) as [[| | | | | | d] |]; try discriminate.
  now apply coerce_state_output_wf.
Qed.

Lemma clock_ok_later (w w' : world) : later w w' -> clock_ok w -> clock_ok w'.
Proof. intros (_ & _ & Hc & _) H n. rewrite Hc. apply H. Qed.

(** What loads under a proper clock is well-formed. *)
Lemma loads_as_wf (f : string) (w : world) (s : state) :
  clock_ok w -> loads_as f w s -> wf_state s.
Proof.
  intros Hc [p Hl]. pose proof (read_existing_spec f w) as H. rewrite Hl in H.
  destruct H as (_ & _ & _ & content & w1 & w2 & _ & L & Hload).
  eapply load_output_wf; [| exact Hload]. eapply clock_ok_later; eassumption.
Qed.

Lemma call_stamp_solid (c : call) (w : world) : clock_ok w -> solid (call_stamp c w).
Proof.
  intros Hc. unfold call_stamp, stamp. destruct (creates c); [apply Hc |].
  destruct (loaded_untouched (plan_file_of c) w) as (_ & _ & -> & _). apply Hc.
Qed.

(** The document of a well-formed state whose prose does not quote the
    marker loads as that state, when the read is not refused. *)
Lemma persisted_loads (f : string) (w : world) (s : state) :
  is_Some (relative_to (w_root w) (w_resolve w f)) ->
  persisted w (w_resolve w f) s ->
  wf_state s ->
  Text.contains STATE_START (Text.join NL (prose_lines s)) = false ->
  w_oserror w (S (S (List.length (w_trace w)))) = None ->
  loads_as f w s.
Proof.
  intros [rel Hrel] Hp Hw Hm Ho. exists (w_resolve w f). unfold persisted in Hp.
  unfold _read_existing_state, bind, attempt, _resolve_workspace_path, path_exists,
    path_is_file, read_text, io_call, io_stat, bind, ret.
  rewrite Hrel. cbn -[_load_state_from_markdown _serialize_markdown].
  rewrite Hp. cbn -[_load_state_from_markdown _serialize_markdown].
  rewrite Hp. cbn -[_load_state_from_markdown _serialize_markdown].
  rewrite Ho. cbn -[_load_state_from_markdown _serialize_markdown].
  rewrite Hp. cbn -[_load_state_from_markdown _serialize_markdown].
  rewrite reload_clean by assumption. reflexivity.
Qed.

(** ** The items of a checklist, one by one *)

Lemma wf_items_ids (l : list item) (i : nat) (it : item) :
  wf_items l -> l !! i = Some it -> item_id it = Z.of_nat i + 1.
Proof.
  intros [_ Hid] Hi.
  assert (H : List.map item_id l !! i = Some (item_id it))
    by (change (List.map item_id l) with (item_id <$> l); now rewrite list_lookup_fmap, Hi).
  rewrite Hid in H.
  change (List.map fst (Py.enumerate 1 l)) with (fst <$> Py.enumerate 1 l) in H.
  rewrite list_lookup_fmap, enumerate_lookup, Hi in H. cbn in H. injection H as H. lia.
Qed.

Lemma built_descriptions (l : list string) (st st0 : string) :
  List.map item_description (set_first_status st (_build_plan_items l st0)) = l.
Proof.
  unfold _build_plan_items.
  assert (H : forall start,
             List.map item_description
               (List.map (fun it : Z * string => mk_item (fst it) (snd it) st0)
                  (Py.enumerate start l)) = l).
  { induction l as [| x r IH]; intros start; [reflexivity |].
    cbn [Py.enumerate List.map fst snd item_description]. now rewrite IH. }
  specialize (H 1). destruct l as [| x r]; [reflexivity |].
  cbn [Py.enumerate List.map set_first_status] in *. exact H.
Qed.

Lemma built_statuses (l : list string) (start : Z) (st0 : string) :
  Forall (fun it => item_status it = st0)
    (List.map (fun it : Z * string => mk_item (fst it) (snd it) st0) (Py.enumerate start l)).
Proof.
  revert start. induction l as [| x r IH]; intros start; [constructor |].
  cbn [Py.enumerate List.map]. constructor; [reflexivity | apply IH].
Qed.

(** The step at [i] after [update_plan] set step [n] to [st]: that very step
    with the status [st]; another step as it was, or pending if it was in
    progress and [st] is "in_progress". *)
Lemma updated_steps_lookup (n : Z) (st : string) (l : list item) (i : nat) (it : item) :
  1 <= n <= Z.of_nat (List.length l) ->
  l !! i = Some it ->
  updated_steps n st l !! i
  = Some (mk_item (item_id it) (item_description it)
            (if Nat.eqb i (Z.to_nat (n - 1)) then st
             else if String.eqb st "in_progress" && is_in_progress it then "pending"
                  else item_status it)).
Proof.
  intros Hn Hi. unfold updated_steps.
  destruct (Nat.eqb_spec i (Z.to_nat (n - 1))) as [-> | Hne].
  - rewrite list_lookup_alter_eq.
    destruct (String.eqb st "in_progress").
    + rewrite demote_others_eq, list_lookup_fmap, enumerate_lookup, Hi. cbn.
      unfold demote. cbn [fst snd]. now destruct (_ && _).
    + now rewrite Hi.
  - rewrite list_lookup_alter_ne by congruence.
    destruct (String.eqb st "in_progress"); cbn [andb].
    + rewrite demote_others_eq, list_lookup_fmap, enumerate_lookup, Hi. cbn.
      unfold demote, is_in_progress. cbn [fst snd].
      replace (1 + Z.of_nat i =? n) with false by (symmetry; apply Z.eqb_neq; lia).
      cbn [negb andb]. destruct (String.eqb (item_status it) "in_progress");
        [reflexivity | now destruct it].
    + rewrite Hi. now destruct it.
Qed.

Lemma all_completed_nonempty (l : list item) :
  l <> [] -> all_completed l = forallb is_completed l.
Proof. destruct l; [congruence | reflexivity]. Qed.

Lemma untouched_stats (w : world) (evs : list io_event) :
  Forall (fun e => is_query e = true) evs ->
  untouched w (mk_world (w_root w) (w_resolve w) (w_nodes w) (w_clock w) (w_ticks w)
                        (w_oserror w) (w_json_error w) (evs ++ w_trace w)).
Proof. intros H. repeat split. exists evs. now split. Qed.

(** ** Subgoals merged by description *)

Lemma loads_as_items_wf (f : string) (w : world) (s : state) :
  loads_as f w s -> wf_items (steps s) /\ wf_items (subgoals s).
Proof.
  intros [p Hl]. pose proof (read_existing_spec f w) as H. rewrite Hl in H.
  destruct H as (_ & _ & _ & content & w1 & w2 & _ & _ & Hload).
  unfold _load_state_from_markdown in Hload.
  destruct (Pattern.search content) as [g |]; [| discriminate].
  destruct (Decode.loads g) as [[| | | | | | d] |]; try discriminate.
  destruct (coerce_state_fields d w1 w2 s Hload) as (_ & -> & -> & _).
  split; apply coerce_item_list_wf.
Qed.

Lemma status_by_description_absent (current : list item) (d dflt : string) :
  ~ In d (List.map item_description current) ->
  status_by_description current d dflt = dflt.
Proof.
  revert dflt. induction current as [| x r IH]; intros dflt H; [reflexivity |].
  cbn [status_by_description]. cbn [List.map In] in H.
  destruct (String.eqb_spec (item_description x) d) as [E | E]; [tauto |].
  apply IH. tauto.
Qed.

Lemma status_by_description_found (current : list item) (it : item) (dflt : string) :
  NoDup (List.map item_description current) -> In it current ->
  status_by_description current (item_description it) dflt = item_status it.
Proof.
  revert dflt. induction current as [| x r IH]; intros dflt Hnd Hin; [destruct Hin |].
  cbn [List.map] in Hnd. apply NoDup_cons in Hnd as [Hx Hnd]. rewrite list_elem_of_In in Hx.
  cbn [status_by_description]. destruct Hin as [-> | Hin].
  - rewrite String.eqb_refl. now apply status_by_description_absent.
  - now apply IH.
Qed.

Lemma merged_descriptions (merged : list string) (current : list item) :
  List.map item_description (merged_subgoals merged current) = merged.
Proof.
  unfold merged_subgoals. generalize 1 as start.
  induction merged as [| x r IH]; intros start; [reflexivity |].
  cbn [Py.enumerate List.map item_description]. now rewrite IH.
Qed.

Lemma merged_lookup (merged : list string) (current : list item) (i : nat) :
  merged_subgoals merged current !! i
  = (fun d =>
       mk_item (1 + Z.of_nat i) d
         (if str_in (status_by_description current d "pending") VALID_STATUSES
          then status_by_description current d "pending" else "pending"))
    <$> merged !! i.
Proof.
  unfold merged_subgoals.
  change (List.map ?f ?l) with (f <$> l).
  rewrite list_lookup_fmap, enumerate_lookup. now destruct (merged !! i).
Qed.

Lemma normalize_loop_app_fixed (seen a b : list string) :
  Forall solid a -> NoDup a -> (forall x, In x a -> str_in x seen = false) ->
  normalize_loop seen (a ++ b) = a ++ normalize_loop (rev a ++ seen) b.
Proof.
  intros Hs. revert seen. induction Hs as [| x a [Hx1 Hx2] _ IH]; intros seen Hnd Hseen;
    [reflexivity |].
  apply NoDup_cons in Hnd as [Hxa Hnd]. rewrite list_elem_of_In in Hxa.
  cbn [app normalize_loop]. rewrite Hx1, Hx2, (Hseen x (or_introl eq_refl)). cbn [negb orb].
  rewrite IH; [| exact Hnd |].
  - cbn [rev]. now rewrite <- app_assoc.
  - intros y Hy. rewrite str_in_cons. rewrite (Hseen y (or_intror Hy)), orb_false_r.
    apply String.eqb_neq. intros ->. contradiction.
Qed.

Lemma normalize_loop_filter (seen b : list string) :
  Forall solid b -> NoDup b ->
  normalize_loop seen b = List.filter (fun x => negb (str_in x seen)) b.
Proof.
  intros Hs. revert seen. induction Hs as [| x b [Hx1 Hx2] _ IH]; intros seen Hnd;
    [reflexivity |].
  apply NoDup_cons in Hnd as [Hxb Hnd]. rewrite list_elem_of_In in Hxb.
  cbn [normalize_loop List.filter]. rewrite Hx1, Hx2. cbn [negb orb].
  destruct (str_in x seen); cbn [negb]; [now apply IH |].
  f_equal. rewrite IH by exact Hnd. apply List.filter_ext_in. intros y Hy.
  rewrite str_in_cons. replace (String.eqb y x) with false; [reflexivity |].
  symmetry. apply String.eqb_neq. intros ->. contradiction.
Qed.

Lemma str_in_rev (x : string) (l : list string) : str_in x (rev l ++ []) = str_in x l.
Proof.
  rewrite app_nil_r. destruct (str_in x l) eqn:E.
  - apply str_in_In. apply str_in_In in E. now apply in_rev in E.
  - destruct (str_in x (rev l)) eqn:E'; [| reflexivity].
    apply str_in_In in E'. apply in_rev in E'. apply str_in_In in E'. congruence.
Qed.

(** Appending to distinct, normalized texts: they stay, and the new ones that
    are not among them follow. *)
Lemma normalize_appended (a b : list string) :
  normalized a -> normalized b ->
  _normalize_text_items (a ++ b)
  = a ++ List.filter (fun x => negb (str_in x a)) b.
Proof.
  intros [Ha1 Ha2] [Hb1 Hb2]. unfold _normalize_text_items.
  rewrite normalize_loop_app_fixed by (try assumption; reflexivity).
  rewrite normalize_loop_filter by assumption. f_equal.
  apply List.filter_ext. intros x. now rewrite str_in_rev.
Qed.

Lemma wf_items_descriptions (l : list item) :
  wf_items l -> Forall solid (List.map item_description l).
Proof.
  intros [H _]. induction H as [| it l [Hs _] _ IH]; constructor; assumption.
Qed.

(** Merging descriptions that are new after those of well-formed subgoals
    that are distinct: the subgoals as they were, then the new ones,
    pending. *)
Lemma merged_appended (current : list item) (added : list string) :
  wf_items current -> NoDup (List.map item_description current) ->
  (forall x, In x added -> ~ In x (List.map item_description current)) ->
  merged_subgoals (List.map item_description current ++ added) current
  = current
    ++ List.map (fun ix : Z * string => mk_item (fst ix) (snd ix) "pending")
         (Py.enumerate (1 + Z.of_nat (List.length current)) added).
Proof.
  intros Hwf Hnd Hnew. apply list_eq. intros i. rewrite merged_lookup.
  destruct (Nat.lt_ge_cases i (List.length current)) as [Hi | Hi].
  - rewrite lookup_app_l by now rewrite List.length_map.
    rewrite lookup_app_l by exact Hi.
    change (List.map item_description current) with (item_description <$> current).
    rewrite list_lookup_fmap.
    destruct (lookup_lt_is_Some_2 current i Hi) as [it Hit]. rewrite Hit.
    cbn [fmap option_fmap option_map]. f_equal.
    assert (Hin : In it current) by (apply list_elem_of_In; eapply list_elem_of_lookup_2; eassumption).
    rewrite (status_by_description_found current it "pending" Hnd Hin).
    destruct Hwf as [Hw Hid']. pose proof (wf_items_ids current i it (conj Hw Hid') Hit) as Hid.
    rewrite Forall_forall in Hw. destruct (Hw it) as [_ Hv]; [now apply list_elem_of_In |].
    rewrite Hv. destruct it as [n d st]. cbn in *. f_equal. lia.
  - rewrite lookup_app_r by now rewrite List.length_map.
    rewrite lookup_app_r by exact Hi. rewrite List.length_map.
    change (List.map ?f ?l) with (f <$> l).
    rewrite list_lookup_fmap, enumerate_lookup.
    destruct (added !! (i - List.length current)%nat) as [x |] eqn:Hx; [| reflexivity].
    cbn [fmap option_fmap option_map fst snd]. f_equal.
    assert (Hin : In x added) by (apply list_elem_of_In; eapply list_elem_of_lookup_2; eassumption).
    rewrite (status_by_description_absent current x "pending" (Hnew x Hin)).
    change (str_in "pending" VALID_STATUSES) with true. cbv iota. f_equal. lia.
Qed.

(** ** What every call keeps *)

Lemma restatus_maps (l l' : list item) :
  Forall2 restatus l l' ->
  List.map item_id l' = List.map item_id l
  /\ List.map item_description l' = List.map item_description l.
Proof.
  induction 1 as [| it it' l l' (Hi & Hd & _) _ [IH1 IH2]]; [now split |].
  cbn [List.map]. now rewrite Hi, Hd, IH1, IH2.
Qed.

(** The state a call other than [create_plan] writes keeps the task, the time
    of creation, the ids and descriptions of the steps, and what was logged
    and reflected, to which it adds at most one entry. *)
Lemma call_state_keeps (c : call) (t : string) (s : state) :
  creates c = false -> accepted c s -> wf_items (steps s) ->
  let s' := call_state c t s in
  task s' = task s /\ created_at s' = created_at s
  /\ (exists added, progress_log s' = progress_log s ++ added
                    /\ (List.length added <= 1)%nat)
  /\ (exists added, reflections s' = reflections s ++ added
                    /\ (List.length added <= 1)%nat)
  /\ List.map item_id (steps s') = List.map item_id (steps s)
  /\ List.map item_description (steps s') = List.map item_description (steps s).
Proof.
  intros Hc Ha Hwf.
  assert (Hnil : forall A (l : list A), exists added, l = l ++ added
                                                      /\ (List.length added <= 1)%nat)
    by (intros A l; exists []; split; [now rewrite app_nil_r | cbn; lia]).
  destruct c as [text given f o | n st note f | l f r | m q f cp cl | sm rk na f fin cl];
    cbn [call_state creates accepted] in *; [discriminate | | | |].
  - destruct (update_plan_state_fields n st note t s)
      as (E1 & E2 & _ & _ & E5 & E6 & E7 & _). destruct Ha as [_ Hv].
    destruct (restatus_maps _ _ (restatus_updated n st (steps s) Hv (wf_items_forall _ Hwf)))
      as [M1 M2].
    cbv zeta. rewrite E1, E2, E5, E6, E7. repeat split; try assumption; [| apply Hnil].
    eexists. split; [reflexivity |]. destruct (Text.nonempty _); cbn; lia.
  - destruct (set_subgoals_state_fields (_normalize_text_items l) r t s)
      as (E1 & _ & E3 & _ & _ & E6 & E7 & E8 & _).
    cbv zeta. rewrite E1, E3, E6, E7, E8. repeat split; apply Hnil.
  - destruct (track_progress_state_fields (Text.strip m) q cp t s)
      as (E1 & E2 & _ & E4 & E5 & E6).
    cbv zeta. rewrite E1, E2, E4, E5.
    split; [reflexivity |]. split; [reflexivity |].
    split; [eexists; split; [reflexivity | cbn; lia] |]. split; [apply Hnil |].
    destruct (forced q cp); destruct E6 as (-> & _); [| now split].
    apply restatus_maps, restatus_marked.
  - destruct (reflect_on_plan_state_fields (Text.strip sm)
                (match rk with Some l => l | None => [] end)
                (match na with Some l => l | None => [] end) fin t s)
      as (E1 & E2 & _ & E4 & E5 & E6).
    cbv zeta. rewrite E1, E2, E4, E5.
    split; [reflexivity |]. split; [reflexivity |]. split; [apply Hnil |].
    split; [eexists; split; [reflexivity | cbn; lia] |].
    destruct fin; destruct E6 as (-> & _); [| now split].
    apply restatus_maps, restatus_marked.
Qed.

(** ** The I/O calls a computation makes *)

Lemma made_refl (P : io_event -> Prop) (w : world) : made P w w.
Proof. exists []. split; [reflexivity | constructor]. Qed.

Lemma made_same (P : io_event -> Prop) (w w' : world) :
  w_trace w' = w_trace w -> made P w w'.
Proof. intros H. exists []. split; [exact H | constructor]. Qed.

Lemma made_trans (P : io_event -> Prop) (w1 w2 w3 : world) :
  made P w1 w2 -> made P w2 w3 -> made P w1 w3.
Proof.
  intros (e1 & T1 & F1) (e2 & T2 & F2). exists (e2 ++ e1). split.
  - rewrite T2, T1. now rewrite app_assoc.
  - apply Forall_app. now split.
Qed.

Lemma makes_ret {A : Type} (P : io_event -> Prop) (a : A) : makes P (ret a).
Proof. intros w. apply made_refl. Qed.

Lemma makes_raise {A : Type} (P : io_event -> Prop) (e : exn) : makes P (@raise A e).
Proof. intros w. apply made_refl. Qed.

Lemma makes_lift {A : Type} (P : io_event -> Prop) (r : exn + A) : makes P (lift r).
Proof. destruct r; [apply makes_raise | apply makes_ret]. Qed.

Lemma makes_bind {A B : Type} (P : io_event -> Prop) (m : M A) (k : A -> M B) :
  makes P m -> (forall a, makes P (k a)) -> makes P (bind m k).
Proof.
  intros Hm Hk w. unfold bind. specialize (Hm w).
  destruct (m w) as [[a | e] w1]; simpl in *.
  - eapply made_trans; [exact Hm | apply Hk].
  - exact Hm.
Qed.

Lemma makes_attempt {A : Type} (P : io_event -> Prop) (sel : exn -> option string)
    (m : M A) :
  makes P m -> makes P (attempt sel m).
Proof.
  intros Hm w. unfold attempt. specialize (Hm w).
  destruct (m w) as [[a | e] w1]; simpl in *; [exact Hm |].
  destruct (sel e); exact Hm.
Qed.

Lemma makes_catch {A : Type} (P : io_event -> Prop) (m : M A) (h : string -> M A) :
  makes P m -> (forall msg, makes P (h msg)) -> makes P (catch m (on_OSError h)).
Proof.
  intros Hm Hh w. unfold catch. specialize (Hm w).
  destruct (m w) as [[a | e] w1]; simpl in *; [exact Hm |].
  destruct e as [msg | msg | msg]; cbn [on_OSError]; try exact Hm.
  eapply made_trans; [exact Hm | apply Hh].
Qed.

Lemma makes_for_each {A B : Type} (P : io_event -> Prop) (f : A -> M (list B))
    (l : list A) :
  (forall a, makes P (f a)) -> makes P (for_each f l).
Proof.
  intros Hf. induction l as [| x rest IH]; simpl.
  - apply makes_ret.
  - apply makes_bind; [apply Hf |]. intros ys.
    apply makes_bind; [exact IH |]. intros zs. apply makes_ret.
Qed.

Lemma makes_now (P : io_event -> Prop) : makes P _now_utc_iso.
Proof. intros w. now apply made_same. Qed.

Lemma makes_or_now (P : io_event -> Prop) (text : string) : makes P (or_now text).
Proof. unfold or_now. destruct (Text.nonempty text); [apply makes_ret | apply makes_now]. Qed.

Lemma makes_resolve (P : io_event -> Prop) (f : string) :
  makes P (_resolve_workspace_path f).
Proof.
  intros w. unfold _resolve_workspace_path.
  destruct (relative_to (w_root w) (w_resolve w f)); apply made_refl.
Qed.

Lemma makes_relative (P : io_event -> Prop) (p : path) :
  makes P (_to_workspace_relative p).
Proof.
  intros w. unfold _to_workspace_relative.
  destruct (relative_to (w_root w) p) as [[| c rel] |]; apply made_refl.
Qed.

Lemma makes_coerce_state (P : io_event -> Prop) (d : list (string * json)) :
  makes P (_coerce_state d).
Proof.
  unfold _coerce_state.
  apply makes_bind; [apply makes_or_now |]. intros created.
  apply makes_bind.
  - unfold _coerce_progress.
    destruct (Py.get d "progress_log") as [[] |]; try apply makes_ret.
    apply makes_for_each. intros e. unfold coerce_progress_entry.
    destruct e; try apply makes_ret.
    apply makes_bind; [apply makes_or_now |]. intros t.
    destruct (negb _); apply makes_ret.
  - intros pl. apply makes_bind; [| intros; apply makes_ret].
    unfold _coerce_reflections.
    destruct (Py.get d "reflections") as [[] |]; try apply makes_ret.
    apply makes_for_each. intros e. unfold coerce_reflection.
    destruct e; try apply makes_ret.
    apply makes_bind; [apply makes_or_now |]. intros t.
    destruct (negb _); [apply makes_ret |].
    apply makes_bind; [apply makes_lift |]. intros r.
    apply makes_bind; [apply makes_lift |]. intros n. apply makes_ret.
Qed.

Lemma makes_load (P : io_event -> Prop) (content : string) :
  makes P (_load_state_from_markdown content).
Proof.
  unfold _load_state_from_markdown.
  destruct (Pattern.search content); [| apply makes_raise].
  destruct (Decode.loads s) as [[] |]; try apply makes_raise.
  - apply makes_coerce_state.
  - intros w. apply made_refl.
Qed.

Lemma makes_io_call (P : io_event -> Prop) (e : io_event) : P e -> makes P (io_call e).
Proof.
  intros He w. unfold io_call. exists [e].
  destruct (w_oserror w _); (split; [reflexivity | now constructor]).
Qed.

Lemma makes_io_stat (P : io_event -> Prop) (p : path) : P (ev_stat p) -> makes P (io_stat p).
Proof. intros He w. exists [ev_stat p]. split; [reflexivity | now constructor]. Qed.

Lemma makes_same {A : Type} (P : io_event -> Prop) (m : M A) :
  (forall w, w_trace (snd (m w)) = w_trace w) -> makes P m.
Proof. intros H w. apply made_same, H. Qed.

Lemma makes_path_exists (p : path) : makes (touches_only p) (path_exists p).
Proof.
  unfold path_exists. apply makes_bind; [now apply makes_io_stat | intros; apply makes_ret].
Qed.

Lemma makes_path_is_file (p : path) : makes (touches_only p) (path_is_file p).
Proof.
  unfold path_is_file. apply makes_bind; [now apply makes_io_stat | intros; apply makes_ret].
Qed.

Lemma makes_path_is_dir (p : path) : makes (touches_only p) (path_is_dir p).
Proof.
  unfold path_is_dir. apply makes_bind; [now apply makes_io_stat | intros; apply makes_ret].
Qed.

Lemma makes_read_text (p : path) : makes (touches_only p) (read_text p).
Proof.
  unfold read_text. apply makes_bind; [now apply makes_io_call |]. intros _.
  apply makes_same. intros w. now destruct (w_nodes w !! p) as [[] |].
Qed.

Lemma makes_mkdir_parents (p : path) : makes (touches_only p) (mkdir_parents (removelast p)).
Proof.
  unfold mkdir_parents. apply makes_bind; [now apply makes_io_call |]. intros _.
  apply makes_same. intros w. now destruct (existsb _ _).
Qed.

Lemma makes_write_text (p : path) (content : string) : makes (touches_only p) (write_text p content).
Proof.
  unfold write_text. apply makes_bind; [now apply makes_io_call |]. intros _.
  apply makes_same. intros w. now destruct (w_nodes w !! p) as [[] |].
Qed.

Lemma makes_unlink (p : path) : makes (touches_only p) (unlink_missing_ok p).
Proof.
  unfold unlink_missing_ok. apply makes_bind; [now apply makes_io_call |]. intros _.
  apply makes_same. intros w. now destruct (w_nodes w !! p) as [[] |].
Qed.

Lemma makes_write_state (p : path) (s : state) : makes (touches_only p) (_write_state p s).
Proof.
  unfold _write_state. apply makes_catch; [| intros; apply makes_ret].
  apply makes_bind; [apply makes_mkdir_parents |]. intros _.
  apply makes_bind; [apply makes_write_text |]. intros _.
  apply makes_bind; [apply makes_relative |]. intros rel. apply makes_ret.
Qed.

Lemma makes_cleanup (p : path) (cleanup : bool) (s : state) :
  makes (touches_only p) (_maybe_cleanup_plan_file p cleanup s).
Proof.
  unfold _maybe_cleanup_plan_file. destruct (negb cleanup); [apply makes_ret |].
  destruct (negb _); [apply makes_ret |].
  apply makes_catch.
  - apply makes_bind; [apply makes_unlink |]. intros _.
    apply makes_bind; [apply makes_relative |]. intros rel. apply makes_ret.
  - intros msg. apply makes_bind; [apply makes_relative |]. intros rel. apply makes_ret.
Qed.

(** The common middle of the operations, from the reading of the clock. *)
Lemma makes_commit (p : path) (mk : string -> state) (tail_ : state -> M string) :
  (forall s, makes (touches_only p) (tail_ s)) ->
  makes (touches_only p) (timestamp <- _now_utc_iso ;;
           write_result <- _write_state p (mk timestamp) ;;
           if Text.startswith "Error:" write_result then ret write_result
           else tail_ (mk timestamp)).
Proof.
  intros Ht. apply makes_bind; [apply makes_now |]. intros t.
  apply makes_bind; [apply makes_write_state |]. intros r.
  destruct (Text.startswith "Error:" r); [apply makes_ret | apply Ht].
Qed.

Lemma makes_finish (p : path) (cleanup : bool) (s : state) (report : string -> string) :
  makes (touches_only p) (cleanup_result <- _maybe_cleanup_plan_file p cleanup s ;;
           match cleanup_result with
           | Some (String c msg) => ret (String c msg)
           | _ => rel <- _to_workspace_relative p ;; ret (report rel)
           end).
Proof.
  apply makes_bind; [apply makes_cleanup |]. intros [[| c msg] |];
    try apply makes_ret;
    (apply makes_bind; [apply makes_relative | intros; apply makes_ret]).
Qed.

(** ** The I/O calls of an operation *)

Lemma read_makes (f : string) (w : world) :
  made (touches_only (w_resolve w f)) w (snd (_read_existing_state f w)).
Proof.
  unfold _read_existing_state. unfold bind at 1.
  destruct (resolve_cases f w) as [[Hr _] | [err Hr]]; rewrite Hr; [| apply made_refl].
  clear Hr. generalize (w_resolve w f) as p. intros p. revert w.
  change (makes (touches_only p)
    (found <- path_exists p ;;
     if negb found
     then ret (Some p, None, "Error: Plan file '" +:+ f +:+ "' not found")
     else
       is_file <- path_is_file p ;;
       if negb is_file
       then ret (Some p, None, "Error: '" +:+ f +:+ "' is not a file")
       else
         content <- attempt os_error (read_text p) ;;
         match content with
         | inl err =>
             ret (Some p, None, "Error: Unable to read '" +:+ f +:+ "': " +:+ err)
         | inr content =>
             loaded <- attempt value_error (_load_state_from_markdown content) ;;
             match loaded with
             | inl err => ret (Some p, None, "Error: " +:+ err)
             | inr s => ret (Some p, Some s, "")
             end
         end)).
  apply makes_bind; [apply makes_path_exists |]. intros found.
  destruct (negb found); [apply makes_ret |].
  apply makes_bind; [apply makes_path_is_file |]. intros is_file.
  destruct (negb is_file); [apply makes_ret |].
  apply makes_bind; [apply makes_attempt, makes_read_text |]. intros [err | content].
  { apply makes_ret. }
  apply makes_bind; [apply makes_attempt, makes_load |].
  intros [err | s]; apply makes_ret.
Qed.

(** What follows the loading of the plan in the four operations that load
    one. *)
Lemma after_read_makes (f : string) (k : option path * option state * string -> M string)
    (w : world) :
  (forall op os err,
     op = Some (w_resolve w f) \/ op = None ->
     makes (touches_only (w_resolve w f)) (k (op, os, err))) ->
  made (touches_only (w_resolve w f)) w (snd (bind (_read_existing_state f) k w)).
Proof.
  intros Hk. unfold bind.
  pose proof (read_makes f w) as Hr. pose proof (read_existing_outcomes f w) as Ho.
  destruct (_read_existing_state f w) as [[[[op os] err] | e] w1]; cbn [fst snd] in *;
    [| exact Hr].
  eapply made_trans; [exact Hr |]. apply Hk.
  destruct os; [destruct Ho as (_ & -> & _); now left | tauto].
Qed.

Lemma call_makes (c : call) (w : world) :
  made (touches_only (w_resolve w (plan_file_of c))) w (snd (run_call c w)).
Proof.
  destruct c as [text given f o | n st note f | l f r | m q f cp cl | sm rk na f fin cl];
    cbn [run_call plan_file_of].
  - unfold create_plan.
    destruct (negb (Text.nonempty (Text.strip text))); [apply made_refl |].
    cbv zeta.
    match goal with
    | |- context [match ?e with Some msg => ret msg | None => _ end] => destruct e
    end; [apply made_refl |].
    unfold bind at 1.
    destruct (resolve_cases f w) as [[Hr _] | [err Hr]]; rewrite Hr; [| apply made_refl].
    clear Hr. generalize (w_resolve w f) as p. intros p. revert w.
    match goal with
    | |- forall w, made _ w (snd (?m w)) => change (makes (touches_only p) m)
    end.
    apply makes_bind; [apply makes_path_exists |]. intros found.
    destruct (found && negb o); [apply makes_ret |].
    apply makes_bind; [apply makes_path_exists |]. intros found'.
    apply makes_bind; [destruct found'; [apply makes_path_is_dir | apply makes_ret] |].
    intros is_dir. destruct is_dir; [apply makes_ret |].
    apply makes_bind; [apply makes_now |]. intros t.
    apply makes_bind; [apply makes_write_state |]. intros res.
    destruct (Text.startswith "Error:" res); [apply makes_ret |].
    apply makes_bind; [apply makes_relative | intros; apply makes_ret].
  - unfold update_plan. destruct (n <? 1); [apply made_refl |].
    destruct (negb (str_in st VALID_STATUSES)); [apply made_refl |].
    apply after_read_makes. intros op os err Hop.
    destruct op as [pp |], os as [s0 |], err as [| c0 err]; try apply makes_ret.
    destruct Hop as [[= ->] | [=]].
    destruct (steps s0); [apply makes_ret |].
    destruct (n >? _); [apply makes_ret |].
    apply makes_bind; [apply makes_now |]. intros t.
    apply makes_bind; [apply makes_write_state |]. intros res.
    destruct (Text.startswith "Error:" res); [apply makes_ret |].
    apply makes_bind; [apply makes_relative | intros; apply makes_ret].
  - unfold set_subgoals. destruct (_normalize_text_items l); [apply made_refl |].
    apply after_read_makes. intros op os err Hop.
    destruct op as [pp |], os as [s0 |], err as [| c0 err]; try apply makes_ret.
    destruct Hop as [[= ->] | [=]].
    apply makes_bind; [apply makes_now |]. intros t.
    apply makes_bind; [apply makes_write_state |]. intros res.
    destruct (Text.startswith "Error:" res); [apply makes_ret |].
    apply makes_bind; [apply makes_relative | intros; apply makes_ret].
  - unfold track_progress. destruct (negb (Text.nonempty (Text.strip m))); [apply made_refl |].
    destruct (match q with Some p => _ | None => false end); [apply made_refl |].
    apply after_read_makes. intros op os err Hop.
    destruct op as [pp |], os as [s0 |], err as [| c0 err]; try apply makes_ret.
    destruct Hop as [[= ->] | [=]].
    apply makes_bind; [apply makes_now |]. intros t.
    apply makes_bind; [apply makes_write_state |]. intros res.
    destruct (Text.startswith "Error:" res); [apply makes_ret |].
    apply makes_bind; [apply makes_cleanup |]. intros [[| c msg] |];
      try apply makes_ret;
      (apply makes_bind; [apply makes_relative | intros; apply makes_ret]).
  - unfold reflect_on_plan.
    destruct (negb (Text.nonempty (Text.strip sm))); [apply made_refl |].
    apply after_read_makes. intros op os err Hop.
    destruct op as [pp |], os as [s0 |], err as [| c0 err]; try apply makes_ret.
    destruct Hop as [[= ->] | [=]].
    apply makes_bind; [apply makes_now |]. intros t.
    apply makes_bind; [apply makes_write_state |]. intros res.
    destruct (Text.startswith "Error:" res); [apply makes_ret |].
    apply makes_bind; [apply makes_cleanup |]. intros [[| c msg] |];
      try apply makes_ret;
      (apply makes_bind; [apply makes_relative | intros; apply makes_ret]).
Qed.

Lemma read_outside (f : string) (w : world) :
  relative_to (w_root w) (w_resolve w f) = None ->
  exists err, _read_existing_state f w = (Ok (None, None, String "E" err), w).
Proof.
  intros H. unfold _read_existing_state, bind, attempt, _resolve_workspace_path.
  rewrite H. cbn. eauto.
Qed.

(** A call whose plan file resolves outside the workspace makes no I/O call
    at all. *)
Lemma call_outside (c : call) (w : world) :
  relative_to (w_root w) (w_resolve w (plan_file_of c)) = None ->
  w_trace (snd (run_call c w)) = w_trace w.
Proof.
  intros H.
  destruct c as [text given f o | n st note f | l f r | m q f cp cl | sm rk na f fin cl];
    cbn [run_call plan_file_of] in *.
  - unfold create_plan.
    destruct (negb (Text.nonempty (Text.strip text))); [reflexivity |].
    cbv zeta.
    match goal with
    | |- context [match ?e with Some msg => ret msg | None => _ end] => destruct e
    end; [reflexivity |].
    unfold bind at 1, attempt, _resolve_workspace_path. now rewrite H.
  - unfold update_plan. destruct (n <? 1); [reflexivity |].
    destruct (negb (str_in st VALID_STATUSES)); [reflexivity |].
    unfold bind at 1. destruct (read_outside f w H) as [err ->]. reflexivity.
  - unfold set_subgoals. destruct (_normalize_text_items l); [reflexivity |].
    unfold bind at 1. destruct (read_outside f w H) as [err ->]. reflexivity.
  - unfold track_progress. destruct (negb (Text.nonempty (Text.strip m))); [reflexivity |].
    destruct (match q with Some p => _ | None => false end); [reflexivity |].
    unfold bind at 1. destruct (read_outside f w H) as [err ->]. reflexivity.
  - unfold reflect_on_plan.
    destruct (negb (Text.nonempty (Text.strip sm))); [reflexivity |].
    unfold bind at 1. destruct (read_outside f w H) as [err ->]. reflexivity.
Qed.

(** ** The coercer on the dicts the program keeps *)

Lemma omap_ext_map {A B C : Type} (f : B -> option C) (g g' : A -> B) (l : list A) :
  (forall x, f (g x) = f (g' x)) ->
  omap f (List.map g l) = omap f (List.map g' l).
Proof.
  intros H. induction l as [| x l IH]; [reflexivity |].
  cbn [List.map]. rewrite !omap_cons, H, IH. reflexivity.
Qed.

Lemma for_each_ext_map {A B C : Type} (f : B -> M (list C)) (g g' : A -> B) (l : list A) :
  (forall x, f (g x) = f (g' x)) ->
  for_each f (List.map g l) = for_each f (List.map g' l).
Proof.
  intros H. induction l as [| x l IH]; [reflexivity |].
  cbn [List.map for_each]. now rewrite H, IH.
Qed.

Lemma coerce_items_json (l : list item) :
  _coerce_item_list (Some (JList (List.map item_json l)))
  = _coerce_item_list (Some (JList (List.map item_sorted l))).
Proof.
  unfold _coerce_item_list.
  now rewrite (omap_ext_map coerce_item item_json item_sorted l) by reflexivity.
Qed.

(** The coercer does not depend on the order of the keys: it reads the dict
    a state is kept in as it reads the one [json.dumps] sorts. *)
Lemma coerce_state_entries (s : state) (w : world) :
  _coerce_state (state_entries s) w = _coerce_state (sorted_entries s) w.
Proof.
  unfold _coerce_state.
  change (Py.get_or (state_entries s) "created_at" (JStr "")) with (JStr (created_at s)).
  change (Py.get_or (state_entries s) "updated_at" (JStr "")) with (JStr (updated_at s)).
  change (Py.get_or (state_entries s) "status" (JStr "active")) with (JStr (status s)).
  change (Py.get_or (state_entries s) "task" (JStr "")) with (JStr (task s)).
  change (Py.get (state_entries s) "percent_complete")
    with (Some (pyint_json (percent_complete s))).
  change (Py.get (state_entries s) "steps")
    with (Some (JList (List.map item_json (steps s)))).
  change (Py.get (state_entries s) "subgoals")
    with (Some (JList (List.map item_json (subgoals s)))).
  change (Py.get (state_entries s) "progress_log")
    with (Some (JList (List.map progress_json (progress_log s)))).
  change (Py.get (state_entries s) "reflections")
    with (Some (JList (List.map reflection_json (reflections s)))).
  change (Py.get_or (sorted_entries s) "created_at" (JStr "")) with (JStr (created_at s)).
  change (Py.get_or (sorted_entries s) "updated_at" (JStr "")) with (JStr (updated_at s)).
  change (Py.get_or (sorted_entries s) "status" (JStr "active")) with (JStr (status s)).
  change (Py.get_or (sorted_entries s) "task" (JStr "")) with (JStr (task s)).
  change (Py.get (sorted_entries s) "percent_complete")
    with (Some (pyint_json (percent_complete s))).
  change (Py.get (sorted_entries s) "steps")
    with (Some (JList (List.map item_sorted (steps s)))).
  change (Py.get (sorted_entries s) "subgoals")
    with (Some (JList (List.map item_sorted (subgoals s)))).
  change (Py.get (sorted_entries s) "progress_log")
    with (Some (JList (List.map progress_sorted (progress_log s)))).
  change (Py.get (sorted_entries s) "reflections")
    with (Some (JList (List.map reflection_sorted (reflections s)))).
  rewrite !coerce_items_json. unfold _coerce_progress, _coerce_reflections.
  rewrite (for_each_ext_map coerce_progress_entry progress_json progress_sorted)
    by reflexivity.
  rewrite (for_each_ext_map coerce_reflection reflection_json reflection_sorted)
    by reflexivity.
  reflexivity.
Qed.

(** ** The percentage as the steps are completed *)

Lemma ratio_percent_monotone (c c' t : Z) :
  1 <= t < 2 ^ 43 -> 0 <= c <= c' -> c' <= t ->
  0 <= ratio_percent c t /\ ratio_percent c t <= ratio_percent c' t
  /\ ratio_percent c' t <= 100
  /\ (c < c' -> t < 100 -> ratio_percent c t < ratio_percent c' t).
Proof.
  intros Ht Hc Hc'.
  pose proof (ratio_percent_nearest c t Ht ltac:(lia)) as H1.
  pose proof (ratio_percent_nearest c' t Ht ltac:(lia)) as H2.
  unfold nearest_percent in H1, H2. apply Z.leb_le in H1, H2.
  destruct (Z.eq_dec c c') as [<- | Hne].
  - set (p := ratio_percent c t) in *. repeat split; try lia; nia.
  - set (p := ratio_percent c t) in *. set (p' := ratio_percent c' t) in *.
    assert (Hlt : c + 1 <= c') by lia.
    repeat split; nia.
Qed.

(** ** When the coercer raises *)

Lemma normalize_json_raises (v : option json) :
  (exists e, _normalize_text_items_json v = inl e) <-> truthy_scalar v = true.
Proof.
  unfold _normalize_text_items_json, truthy_scalar. destruct v as [x |].
  - destruct (Py.truthy x); cbn [negb andb].
    + destruct (Py.iter x) as [e | l]; split; eauto; try discriminate.
      intros [e H]. discriminate.
    + split; [intros [e H]; discriminate | discriminate].
  - split; [intros [e H]; discriminate | discriminate].
Qed.

Lemma coerce_reflection_raises (entry : json) (w : world) :
  (exists e, fst (coerce_reflection entry w) = Raise e) <-> unreadable_reflection entry.
Proof.
  unfold unreadable_reflection.
  destruct entry as [| b | n | r | s | l | d];
    try (split; [intros [e H]; discriminate | intros (d' & H & _); discriminate]).
  unfold coerce_reflection, bind.
  destruct (or_now_returns (Text.strip (Py.str (Py.get_or d "timestamp" (JStr "")))) w)
    as [t Ht].
  destruct (or_now _ w) as [r w1]. cbn [fst] in Ht. subst r.
  destruct (Text.nonempty (Text.strip (Py.str (Py.get_or d "summary" (JStr ""))))) eqn:Hs;
    cbn [negb].
  2:{ split; [intros [e H]; discriminate | intros (d' & [= <-] & H & _); congruence]. }
  pose proof (normalize_json_raises (Py.get d "risks")) as Hr.
  pose proof (normalize_json_raises (Py.get d "next_actions")) as Hn.
  destruct (_normalize_text_items_json (Py.get d "risks")) as [e1 | l1]; cbn [lift].
  - split; [| intros _; cbn; eauto].
    intros _. exists d. split; [reflexivity |]. split; [exact Hs |].
    left. apply Hr. eauto.
  - unfold ret at 1. cbn [raise].
    destruct (_normalize_text_items_json (Py.get d "next_actions")) as [e2 | l2]; cbn [lift].
    + split; [| intros _; cbn; eauto].
      intros _. exists d. split; [reflexivity |]. split; [exact Hs |].
      right. apply Hn. eauto.
    + split; [intros [e H]; discriminate |].
      intros (d' & [= <-] & _ & [H | H]).
      * apply Hr in H as [e H]. discriminate.
      * apply Hn in H as [e H]. discriminate.
Qed.

Lemma for_each_raises {A B : Type} (f : A -> M (list B)) (bad : A -> Prop)
    (l : list A) (w : world) :
  (forall x w, (exists e, fst (f x w) = Raise e) <-> bad x) ->
  (exists e, fst (for_each f l w) = Raise e) <-> exists x, In x l /\ bad x.
Proof.
  intros Hf. revert w. induction l as [| x l IH]; intros w.
  - cbn. split; [intros [e H]; discriminate | intros (x & [] & _)].
  - cbn [for_each]. unfold bind at 1. specialize (Hf x w).
    destruct (f x w) as [[ys | e] w1]; cbn [fst] in Hf.
    + unfold bind. specialize (IH w1).
      destruct (for_each f l w1) as [[zs | e] w2]; cbn [fst] in *.
      * split; [intros [e H]; discriminate |].
        intros (y & [<- | Hin] & Hy).
        -- apply Hf in Hy as [e H]. discriminate.
        -- destruct IH as [_ IH]. destruct IH as [e H]; [eauto | discriminate].
      * split; [| eauto]. intros _. destruct IH as [IH _].
        destruct (IH (ex_intro _ e eq_refl)) as (y & Hin & Hy). exists y. split; [now right | exact Hy].
    + split; [| eauto]. intros _. exists x. split; [now left |]. apply Hf. eauto.
Qed.

Lemma coerce_progress_returns (raw : option json) (w : world) :
  exists l, fst (_coerce_progress raw w) = Ok l.
Proof.
  pose proof (coerce_progress_spec raw w) as H.
  destruct (fst (_coerce_progress raw w)); [eauto | contradiction].
Qed.

(** ** What the operating system refuses *)

Lemma load_trace (content : string) (w : world) :
  w_trace (snd (_load_state_from_markdown content w)) = w_trace w.
Proof.
  destruct (makes_load (fun _ => False) content w) as (evs & T & F).
  destruct evs as [| e evs]; [exact T |]. inversion F; contradiction.
Qed.

(** The world in which an operation that loaded its plan goes on. *)
Lemma loaded_world (f : string) (w : world) (p : path) (s : state) :
  loaded f w p s ->
  let w1 := snd (_read_existing_state f w) in
  w_trace w1 = ev_read p :: ev_stat p :: ev_stat p :: w_trace w
  /\ w_nodes w1 = w_nodes w /\ w_oserror w1 = w_oserror w /\ w_root w1 = w_root w
  /\ exists content, w_nodes w !! p = Some (File content).
Proof.
  intros Hl w1.
  destruct (loaded_untouched f w) as (R & _ & _ & O & N & _). fold w1 in R, O, N.
  pose proof (read_existing_spec f w) as Hs. rewrite Hl in Hs.
  destruct Hs as (_ & -> & _ & content & _ & _ & Hn & _).
  split; [| split; [exact N |]; split; [exact O |]; split; [exact R |]; eauto].
  unfold w1. unfold loaded in Hl. revert Hl.
  unfold _read_existing_state, bind, attempt, _resolve_workspace_path, path_exists,
    path_is_file, read_text, io_call, io_stat, bind, ret.
  destruct (relative_to (w_root w) (w_resolve w f)) as [rel |];
    cbn -[_load_state_from_markdown]; [| discriminate].
  rewrite Hn. cbn -[_load_state_from_markdown].
  rewrite ?Hn. cbn -[_load_state_from_markdown].
  destruct (w_oserror w _); cbn -[_load_state_from_markdown]; [discriminate |].
  rewrite Hn. cbn -[_load_state_from_markdown].
  match goal with |- context [_load_state_from_markdown content ?w0] =>
    pose proof (load_trace content w0) as Ht;
    destruct (_load_state_from_markdown content w0) as [[s0 | e] w2] end;
    cbn -[_load_state_from_markdown] in *.
  - intros _. exact Ht.
  - destruct (value_error e); discriminate.
Qed.

Lemma not_above_itself (p : path) : p ∈ ancestors (removelast p) -> p = [].
Proof.
  assert (H : forall q a : path, a ∈ ancestors q -> (List.length a <= List.length q)%nat).
  { induction q as [| c q IH]; intros a Ha; cbn [ancestors] in Ha.
    - apply list_elem_of_singleton in Ha as ->. reflexivity.
    - apply elem_of_cons in Ha as [-> | Ha]; [cbn; lia |].
      apply list_elem_of_fmap in Ha as (b & -> & Hb). cbn. specialize (IH b Hb). lia. }
  intros Hin. apply H in Hin. destruct p as [| c p]; [reflexivity |].
  exfalso. assert (Hne : c :: p <> []) by discriminate.
  pose proof (app_removelast_last EmptyString Hne) as E.
  apply (f_equal (@List.length string)) in E. rewrite List.length_app in E.
  cbn [List.length] in *. lia.
Qed.

(** The write of a plan that is there, tied to what the operating system
    refuses. *)
Lemma write_state_tied (p : path) (s : state) (w : world) (c0 : string) :
  is_Some (relative_to (w_root w) p) ->
  w_nodes w !! p = Some (File c0) ->
  directory_clear w p = true ->
  let out := _write_state p s w in
  match refusal w 0 with
  | Some err => fst out = Ok (unable_to_write p err)
  | None =>
      match refusal w 1 with
      | Some err => fst out = Ok (unable_to_write p err)
      | None =>
          (exists rel, fst out = Ok ("Saved plan to " +:+ rel))
          /\ persisted (snd out) p s
          /\ w_trace (snd out)
             = ev_write p (_serialize_markdown s) :: ev_mkdir (removelast p) :: w_trace w
      end
  end.
Proof.
  intros Hin Hn Hclear. unfold refusal. rewrite Nat.add_0_r, Nat.add_1_r.
  unfold directory_clear in Hclear. apply negb_true_iff in Hclear.
  assert (Hp : p ∉ ancestors (removelast p)).
  { intros Habs. apply not_above_itself in Habs. subst p.
    cbn in Hclear. rewrite Hn in Hclear. discriminate. }
  unfold _write_state, catch, bind, mkdir_parents, write_text, bind, io_call.
  destruct (w_oserror w (List.length (w_trace w))) as [err |] eqn:E0;
    cbn -[_serialize_markdown _to_workspace_relative].
  { reflexivity. }
  rewrite Hclear. cbn -[_serialize_markdown _to_workspace_relative].
  destruct (w_oserror w (S (List.length (w_trace w)))) as [err |] eqn:E1;
    cbn -[_serialize_markdown _to_workspace_relative].
  { reflexivity. }
  rewrite lookup_made_dirs. destruct (decide (p ∈ ancestors (removelast p))); [contradiction |].
  rewrite Hn.
  match goal with |- context [_to_workspace_relative p ?w2] =>
    assert (Hin2 : is_Some (relative_to (w_root w2) p)) by exact Hin;
    destruct (relative_ok p w2 Hin2) as [rel Hrel]; rewrite Hrel end.
  cbn -[_serialize_markdown].
  split; [eauto |]. split; [apply lookup_insert_eq | reflexivity].
Qed.

(** The removal of a plan just written, tied to what the operating system
    refuses. *)
Lemma cleanup_tied (p : path) (s : state) (w : world) :
  is_Some (relative_to (w_root w) p) ->
  persisted w p s ->
  let out := _maybe_cleanup_plan_file p true s w in
  if negb (String.eqb (status s) "completed")
  then out = (Ok (Some "Error: cleanup_plan_file requires a completed plan"), w)
  else
    match refusal w 0 with
    | None =>
        (exists rel, fst out = Ok (Some ("Completed plan and removed " +:+ rel)))
        /\ w_nodes (snd out) !! p = None
    | Some err =>
        (exists rel,
            fst out = Ok (Some ("Warning: Plan completed but cleanup failed for '"
                                +:+ rel +:+ "': " +:+ err)))
        /\ persisted (snd out) p s
    end.
Proof.
  intros Hin Hp. unfold _maybe_cleanup_plan_file. cbn [negb].
  destruct (negb (String.eqb (status s) "completed")); [reflexivity |].
  unfold refusal. rewrite Nat.add_0_r.
  unfold catch, bind, unlink_missing_ok, bind, io_call.
  destruct (w_oserror w (List.length (w_trace w))) as [err |];
    cbn -[_to_workspace_relative].
  - match goal with |- context [_to_workspace_relative p ?w2] =>
      assert (Hin2 : is_Some (relative_to (w_root w2) p)) by exact Hin;
      destruct (relative_ok p w2 Hin2) as [rel Hrel]; rewrite Hrel end.
    cbn. split; [eauto | exact Hp].
  - unfold persisted in Hp. rewrite Hp.
    match goal with |- context [_to_workspace_relative p ?w2] =>
      assert (Hin2 : is_Some (relative_to (w_root w2) p)) by exact Hin;
      destruct (relative_ok p w2 Hin2) as [rel Hrel]; rewrite Hrel end.
    cbn. split; [eauto | apply lookup_delete_eq].
Qed.

(** The end of [track_progress] and [reflect_on_plan], the cleanup and then
    the message [report], tied to what the operating system refuses. *)
Lemma finish_tied (cleanup : bool) (w3 : world) (p : path) (s' : state)
    (report : string -> string) :
  is_Some (relative_to (w_root w3) p) ->
  persisted w3 p s' ->
  (forall rel, Text.startswith "Error:" (report rel) = false) ->
  let out :=
    (cleanup_result <- _maybe_cleanup_plan_file p cleanup s' ;;
     match cleanup_result with
     | Some (String c msg) => ret (String c msg)
     | _ => rel <- _to_workspace_relative p ;; ret (report rel)
     end) w3 in
  ending cleanup (refusal w3 0) p s' out /\ later w3 (snd out).
Proof.
  intros Hin Hp Hrep out.
  assert (E : out = out) by reflexivity. unfold out at 2 in E. clearbody out.
  unfold bind at 1 in E. destruct cleanup.
  - unfold ending.
    pose proof (cleanup_tied p s' w3 Hin Hp) as H.
    destruct (cleanup_spec p s' w3 Hin Hp) as (L & _ & _).
    destruct (_maybe_cleanup_plan_file p true s' w3) as [r w4]. cbn [fst snd] in *.
    destruct (negb (String.eqb (status s') "completed")).
    + injection H as -> ->. subst out. cbn. split; [| apply later_refl].
      split; [reflexivity | exact Hp].
    + destruct (refusal w3 0) as [err |]; destruct H as ([rel ->] & H2);
        subst out; (split; [| exact L]); (split; [exists rel; reflexivity | exact H2]).
  - unfold ending. unfold _maybe_cleanup_plan_file in E. cbn [negb] in E.
    unfold bind, ret in E.
    destruct (relative_ok p w3 Hin) as [rel Hrel]. rewrite Hrel in E. subst out.
    cbn [fst snd].
    split; [| apply later_refl]. split; [| exact Hp].
    eexists. split; [reflexivity | apply Hrep].
Qed.

(** The middle of an operation, the clock read and the new state written,
    tied to what the operating system refuses. *)
Lemma commit_tied (w1 : world) (p : path) (c0 : string) (mk : string -> state)
    (tail_ : state -> M string) :
  is_Some (relative_to (w_root w1) p) ->
  w_nodes w1 !! p = Some (File c0) ->
  directory_clear w1 p = true ->
  let s' := mk (w_clock w1 (w_ticks w1)) in
  let out :=
    (timestamp <- _now_utc_iso ;;
     write_result <- _write_state p (mk timestamp) ;;
     if Text.startswith "Error:" write_result then ret write_result
     else tail_ (mk timestamp)) w1 in
  match match refusal w1 0 with Some err => Some err | None => refusal w1 1 end with
  | Some err => fst out = Ok (unable_to_write p err)
  | None =>
      exists w3,
        out = tail_ s' w3 /\ persisted w3 p s'
        /\ w_trace w3
           = ev_write p (_serialize_markdown s') :: ev_mkdir (removelast p) :: w_trace w1
        /\ later w1 w3
  end.
Proof.
  intros Hin Hn Hclear s' out.
  assert (E : out = out) by reflexivity. unfold out at 2 in E. clearbody out.
  unfold bind at 1 in E. unfold _now_utc_iso in E. fold s' in E.
  set (w2 := mk_world _ _ _ _ _ _ _ _) in E.
  assert (Hq : untouched w1 w2) by apply (quiet_now w1).
  pose proof (write_state_tied p s' w2 c0 Hin Hn Hclear) as H.
  destruct (write_state_spec p s' w2 Hin) as (L & _).
  change (refusal w2 0) with (refusal w1 0) in H.
  change (refusal w2 1) with (refusal w1 1) in H.
  unfold bind in E.
  destruct (_write_state p s' w2) as [r w3]. cbn [fst snd] in *.
  destruct (refusal w1 0) as [err |].
  { subst r out. reflexivity. }
  destruct (refusal w1 1) as [err |].
  { subst r out. reflexivity. }
  destruct H as ([rel ->] & Hp & T). cbn -[Text.startswith] in E.
  change (Text.startswith "Error:" ("Saved plan to " +:+ rel)) with false in E.
  exists w3. split; [exact E |]. split; [exact Hp |]. split; [exact T |].
  eapply later_trans; [apply untouched_later; exact Hq | exact L].
Qed.

(** What an operation that has loaded its plan meets next. *)
Lemma loaded_refusals (f : string) (w : world) (p : path) (s : state) :
  loaded f w p s ->
  let w1 := snd (_read_existing_state f w) in
  match refusal w1 0 with Some err => Some err | None => refusal w1 1 end = write_refusal w
  /\ forall w3 e1 e2,
       later w1 w3 -> w_trace w3 = e1 :: e2 :: w_trace w1 ->
       refusal w3 0 = unlink_refusal w.
Proof.
  intros Hl w1. destruct (loaded_world f w p s Hl) as (T & _ & O & _). fold w1 in T, O.
  unfold write_refusal, unlink_refusal, refusal. rewrite T, O. cbn [List.length].
  replace (S (S (S (List.length (w_trace w)))) + 0)%nat
    with (List.length (w_trace w) + 3)%nat by lia.
  replace (S (S (S (List.length (w_trace w)))) + 1)%nat
    with (List.length (w_trace w) + 4)%nat by lia.
  split; [reflexivity |].
  intros w3 e1 e2 (_ & _ & _ & O3 & _) T3. rewrite T3, O3, ?T, ?O. cbn [List.length].
  f_equal. lia.
Qed.

Lemma wrote_since (w w3 w4 : world) (p : path) (content : string) (e : io_event)
    (evs : list io_event) :
  w_trace w3 = ev_write p content :: e :: evs ++ w_trace w ->
  later w3 w4 -> wrote w w4 p content.
Proof.
  intros T (_ & _ & _ & _ & evs' & T'). exists (evs' ++ ev_write p content :: e :: evs).
  split; [rewrite T', T, <- app_assoc; reflexivity |].
  apply in_or_app. right. now left.
Qed.

(** [track_progress] on a plan that loads, with arguments that pass
    validation: what it answers and leaves, tied to what the operating system
    refuses. *)
Lemma track_progress_tied (message : string) (percent : option Z) (f : string)
    (complete_plan cleanup : bool) (w : world) (s : state) :
  loads_as f w s ->
  Text.nonempty (Text.strip message) = true ->
  percent_in_range percent ->
  directory_clear w (w_resolve w f) = true ->
  let p := w_resolve w f in
  let out := track_progress message percent f complete_plan cleanup w in
  let s' := track_progress_state (Text.strip message) percent complete_plan (stamp f w) s in
  match write_refusal w with
  | Some err => fst out = Ok (unable_to_write p err)
  | None =>
      wrote w (snd out) p (_serialize_markdown s')
      /\ ending cleanup (unlink_refusal w) p s' out
  end.
Proof.
  intros Hl Hm Hr Hclear p out s'. apply loads_as_loaded in Hl. fold p in Hl, Hclear.
  pose proof (loaded_inside _ _ _ _ Hl) as Hin.
  destruct (loaded_world f w p s Hl) as (T & N & O & R & c0 & Hn).
  destruct (loaded_refusals f w p s Hl) as (Hw & Hu).
  assert (E : out = out) by reflexivity. unfold out at 2 in E. clearbody out.
  unfold s', stamp. unfold track_progress in E. rewrite Hm in E. cbn [negb] in E.
  replace (match percent with Some p0 => (p0 <? 0) || (p0 >? 100) | None => false end)
    with false in E.
  2:{ destruct percent as [q |]; [| reflexivity]. simpl in Hr. symmetry.
      apply orb_false_iff. split; [apply Z.ltb_ge; lia |].
      rewrite Z.gtb_ltb. apply Z.ltb_ge. lia. }
  unfold bind at 1 in E. unfold loaded in Hl.
  destruct (_read_existing_state f w) as [r w1]. cbn [fst snd] in *. subst r.
  set (report := fun (s' : state) (rel : string) =>
                   "Logged progress in " +:+ rel +:+ " (status=" +:+ status s'
                   +:+ ", progress=" +:+ percent_text (percent_complete s') +:+ "%)").
  assert (Hin1 : is_Some (relative_to (w_root w1) p)) by (rewrite R; exact Hin).
  assert (Hn1 : w_nodes w1 !! p = Some (File c0)) by (rewrite N; exact Hn).
  assert (Hc1 : directory_clear w1 p = true)
    by (unfold directory_clear in *; rewrite N; exact Hclear).
  pose proof (commit_tied w1 p c0
                (fun t => track_progress_state (Text.strip message) percent complete_plan t s)
                (fun s' =>
                   cleanup_result <- _maybe_cleanup_plan_file p cleanup s' ;;
                   match cleanup_result with
                   | Some (String c msg) => ret (String c msg)
                   | _ => rel <- _to_workspace_relative p ;; ret (report s' rel)
                   end) Hin1 Hn1 Hc1) as H.
  cbv zeta in H. unfold report in H. rewrite <- E in H. rewrite Hw in H.
  destruct (write_refusal w) as [err |]; [exact H |].
  destruct H as (w3 & Ho & Hp & T3 & L3).
  assert (Hin3 : is_Some (relative_to (w_root w3) p))
    by (rewrite (later_root _ _ L3); exact Hin1).
  destruct (finish_tied cleanup w3 p
              (track_progress_state (Text.strip message) percent complete_plan
                 (w_clock w1 (w_ticks w1)) s)
              (report (track_progress_state (Text.strip message) percent complete_plan
                         (w_clock w1 (w_ticks w1)) s))
              Hin3 Hp ltac:(intros rel; reflexivity))
    as (He & L4).
  unfold report in He, L4. rewrite <- Ho in He, L4.
  rewrite (Hu w3 _ _ L3 T3) in He.
  split; [| exact He].
  eapply (wrote_since w w3 (snd out) p _ _ [_; _; _]); [| exact L4].
  rewrite T3, T. reflexivity.
Qed.

(** [reflect_on_plan] on a plan that loads, with a summary that passes
    validation: what it answers and leaves, tied to what the operating system
    refuses. *)
Lemma reflect_on_plan_tied (summary : string) (risks next_actions : option (list string))
    (f : string) (finalize cleanup : bool) (w : world) (s : state) :
  loads_as f w s ->
  Text.nonempty (Text.strip summary) = true ->
  directory_clear w (w_resolve w f) = true ->
  let p := w_resolve w f in
  let out := reflect_on_plan summary risks next_actions f finalize cleanup w in
  let s' :=
    reflect_on_plan_state (Text.strip summary)
      (match risks with Some l => l | None => [] end)
      (match next_actions with Some l => l | None => [] end) finalize (stamp f w) s in
  match write_refusal w with
  | Some err => fst out = Ok (unable_to_write p err)
  | None =>
      wrote w (snd out) p (_serialize_markdown s')
      /\ ending cleanup (unlink_refusal w) p s' out
  end.
Proof.
  intros Hl Hm Hclear p out s'. apply loads_as_loaded in Hl. fold p in Hl, Hclear.
  pose proof (loaded_inside _ _ _ _ Hl) as Hin.
  destruct (loaded_world f w p s Hl) as (T & N & O & R & c0 & Hn).
  destruct (loaded_refusals f w p s Hl) as (Hw & Hu).
  assert (E : out = out) by reflexivity. unfold out at 2 in E. clearbody out.
  unfold s', stamp. unfold reflect_on_plan in E. rewrite Hm in E. cbn [negb] in E.
  unfold bind at 1 in E. unfold loaded in Hl.
  destruct (_read_existing_state f w) as [r w1]. cbn [fst snd] in *. subst r.
  set (report := fun (s' : state) (rel : string) =>
                   "Recorded reflection in " +:+ rel +:+ " (total reflections="
                   +:+ Text.of_Z (Z.of_nat (List.length (reflections s'))) +:+ ")").
  assert (Hin1 : is_Some (relative_to (w_root w1) p)) by (rewrite R; exact Hin).
  assert (Hn1 : w_nodes w1 !! p = Some (File c0)) by (rewrite N; exact Hn).
  assert (Hc1 : directory_clear w1 p = true)
    by (unfold directory_clear in *; rewrite N; exact Hclear).
  pose proof (commit_tied w1 p c0
                (fun t => reflect_on_plan_state (Text.strip summary)
                            (match risks with Some l => l | None => [] end)
                            (match next_actions with Some l => l | None => [] end)
                            finalize t s)
                (fun s' =>
                   cleanup_result <- _maybe_cleanup_plan_file p cleanup s' ;;
                   match cleanup_result with
                   | Some (String c msg) => ret (String c msg)
                   | _ => rel <- _to_workspace_relative p ;; ret (report s' rel)
                   end) Hin1 Hn1 Hc1) as H.
  cbv zeta in H. unfold report in H. rewrite <- E in H. rewrite Hw in H.
  destruct (write_refusal w) as [err |]; [exact H |].
  destruct H as (w3 & Ho & Hp & T3 & L3).
  assert (Hin3 : is_Some (relative_to (w_root w3) p))
    by (rewrite (later_root _ _ L3); exact Hin1).
  destruct (finish_tied cleanup w3 p
              (reflect_on_plan_state (Text.strip summary)
                 (match risks with Some l => l | None => [] end)
                 (match next_actions with Some l => l | None => [] end)
                 finalize (w_clock w1 (w_ticks w1)) s)
              (report (reflect_on_plan_state (Text.strip summary)
                         (match risks with Some l => l | None => [] end)
                         (match next_actions with Some l => l | None => [] end)
                         finalize (w_clock w1 (w_ticks w1)) s))
              Hin3 Hp ltac:(intros rel; reflexivity))
    as (He & L4).
  unfold report in He, L4. rewrite <- Ho in He, L4.
  rewrite (Hu w3 _ _ L3 T3) in He.
  split; [| exact He].
  eapply (wrote_since w w3 (snd out) p _ _ [_; _; _]); [| exact L4].
  rewrite T3, T. reflexivity.
Qed.

Lemma touches_changes (p : path) (e : io_event) : touches_only p e -> changes_only p e.
Proof. destruct e; cbn; auto. Qed.

Lemma marked_all_completed (l : list item) :
  forallb is_completed (_mark_all_completed l) = true.
Proof. now destruct (marked_completed l) as (_ & H & _). Qed.

(** What a call leaves of the status and of the subgoals of the plan it
    loaded. *)
Lemma call_state_completion (c : call) (t : string) (s : state) :
  creates c = false ->
  let s' := call_state c t s in
  match c with
  | UpdatePlan _ _ _ _ =>
      subgoals s' = subgoals s
      /\ status s' = (if all_completed (steps s') then "completed" else "active")
  | SetSubgoals _ _ _ => steps s' = steps s /\ status s' = status s
  | _ =>
      if completes c
      then status s' = "completed" /\ forallb is_completed (steps s') = true
           /\ forallb is_completed (subgoals s') = true
      else subgoals s' = subgoals s
  end.
Proof.
  intros Hc.
  destruct c as [text given f o | n st note f | l f r | m q f cp cl | sm rk na f fin cl];
    cbn [creates call_state completes] in *; try discriminate Hc.
  - destruct (update_plan_state_fields n st note t s)
      as (_ & _ & _ & Hsub & _ & _ & Hsteps & Hst & _).
    cbv zeta. rewrite Hsteps. now split.
  - destruct (set_subgoals_state_fields (_normalize_text_items l) r t s)
      as (_ & Hst & _ & _ & _ & Hsteps & _). now split.
  - destruct (track_progress_state_fields (Text.strip m) q cp t s)
      as (_ & _ & _ & _ & _ & Hf).
    cbv zeta. destruct (forced q cp).
    + destruct Hf as (-> & -> & -> & _). split; [reflexivity |].
      split; apply marked_all_completed.
    + now destruct Hf as (_ & -> & _).
  - destruct (reflect_on_plan_state_fields (Text.strip sm)
                (match rk with Some l => l | None => [] end)
                (match na with Some l => l | None => [] end) fin t s)
      as (_ & _ & _ & _ & _ & Hf).
    cbv zeta. destruct fin.
    + destruct Hf as (-> & -> & -> & _). split; [reflexivity |].
      split; apply marked_all_completed.
    + now destruct Hf as (_ & -> & _).
Qed.

(** A call whose plan file resolves outside the workspace leaves the world
    as it was. *)
Lemma call_outside_world (c : call) (w : world) :
  relative_to (w_root w) (w_resolve w (plan_file_of c)) = None ->
  snd (run_call c w) = w.
Proof.
  intros H.
  destruct c as [text given f o | n st note f | l f r | m q f cp cl | sm rk na f fin cl];
    cbn [run_call plan_file_of] in *.
  - unfold create_plan.
    destruct (negb (Text.nonempty (Text.strip text))); [reflexivity |].
    cbv zeta.
    match goal with
    | |- context [match ?e with Some msg => ret msg | None => _ end] => destruct e
    end; [reflexivity |].
    unfold bind at 1, attempt, _resolve_workspace_path. now rewrite H.
  - unfold update_plan. destruct (n <? 1); [reflexivity |].
    destruct (negb (str_in st VALID_STATUSES)); [reflexivity |].
    unfold bind at 1. destruct (read_outside f w H) as [err ->]. reflexivity.
  - unfold set_subgoals. destruct (_normalize_text_items l); [reflexivity |].
    unfold bind at 1. destruct (read_outside f w H) as [err ->]. reflexivity.
  - unfold track_progress. destruct (negb (Text.nonempty (Text.strip m))); [reflexivity |].
    destruct (match q with Some p => _ | None => false end); [reflexivity |].
    unfold bind at 1. destruct (read_outside f w H) as [err ->]. reflexivity.
  - unfold reflect_on_plan.
    destruct (negb (Text.nonempty (Text.strip sm))); [reflexivity |].
    unfold bind at 1. destruct (read_outside f w H) as [err ->]. reflexivity.
Qed.

(** ** Every call on a plan that loads, tied to what is refused *)





(** * The claims of the specification *)

(** ** Rejected step updates *)

(** C8. An [update_plan] call whose step number is below 1, or beyond the
    steps of the plan it loaded, or whose status is not one of the four,
    answers an error message and writes nothing: the file tree is the same
    and only queries were made; for a step number below 1 or an invalid status
    the world is not touched at all (no I/O, not even the clock). *)
Theorem update_plan_rejects_without_writing
    (step_number : Z) (new_status note plan_file : string) (w : world) :
  step_number < 1
  \/ str_in new_status VALID_STATUSES = false
  \/ (exists s, loads_as plan_file w s /\ Z.of_nat (List.length (steps s)) < step_number) ->
  let out := update_plan step_number new_status note plan_file w in
  (exists msg, fst out = Ok msg /\ Text.startswith "Error:" msg = true)
  /\ untouched w (snd out)
  /\ (step_number < 1 \/ str_in new_status VALID_STATUSES = false -> snd out = w).
Proof.
  intros H. apply update_plan_rejected.
  destruct H as [H | [H | (s & (p & Hl) & Hn)]]; eauto 6.
Qed.

Lemma planned_world_loads : loads_as "plan.md" planned_world planned_state.
Proof. exists ["ws"; "plan.md"]. vm_compute. reflexivity. Qed.

(** Step 5 of the plan of two steps. *)
Lemma update_plan_rejects_beyond_last_step :
  let out := update_plan 5 "completed" "" "plan.md" planned_world in
  (exists msg, fst out = Ok msg /\ Text.startswith "Error:" msg = true)
  /\ untouched planned_world (snd out)
  /\ (5 < 1 \/ str_in "completed" VALID_STATUSES = false -> snd out = planned_world).
Proof.
  apply (update_plan_rejects_without_writing 5 "completed" "" "plan.md" planned_world).
  right. right. exists planned_state. split; [apply planned_world_loads |].
  vm_compute. reflexivity.
Defined.

(** ** One step in progress *)



(** ** Completed plans *)

(** C1, as the code has it. In a world that refuses no I/O call, so that
    every write is whole, whatever calls follow a successful [create_plan], a
    plan that loads as completed has every step completed. Its subgoals need
    not be: of the calls that succeed on a plan, only [track_progress] and
    [reflect_on_plan] completing it by force write every step and every
    subgoal as completed; otherwise they write the subgoals as they loaded
    them, as does [update_plan], which writes the plan as completed when all
    its steps are; and [set_subgoals] writes the status it loaded. *)
Theorem completed_plan_has_completed_steps
    (text : string) (given_steps : option (list string)) (plan_file : string)
    (overwrite : bool) (w : world) (calls : list call) (s : state)
    (c : call) (w2 : world) (s2 : state) :
  (forall n, w_oserror w n = None) ->
  succeeded (create_plan text given_steps plan_file overwrite w) ->
  loads_as plan_file
    (run_calls calls (snd (create_plan text given_steps plan_file overwrite w))) s ->
  status s = "completed" ->
  creates c = false ->
  loads_as (plan_file_of c) w2 s2 ->
  succeeded (run_call c w2) ->
  forallb is_completed (steps s) = true
  /\ let s' := call_state c (call_stamp c w2) s2 in
     wrote w2 (snd (run_call c w2)) (w_resolve w2 (plan_file_of c)) (_serialize_markdown s')
     /\ match c with
        | UpdatePlan _ _ _ _ =>
            subgoals s' = subgoals s2
            /\ status s' = (if all_completed (steps s') then "completed" else "active")
        | SetSubgoals _ _ _ => steps s' = steps s2 /\ status s' = status s2
        | _ =>
            if completes c
            then status s' = "completed" /\ forallb is_completed (steps s') = true
                 /\ forallb is_completed (subgoals s') = true
            else subgoals s' = subgoals s2
        end.
Proof.
  intros _ Hc Hl Hst Hcr Hl2 Hs2. split.
  2:{ destruct (call_succeeded c w2 s2 (fun _ => Hl2) Hs2) as (_ & _ & _ & _ & Hw & _).
      cbv zeta. split; [exact Hw |]. now apply call_state_completion. }
  destruct (create_plan_spec text given_steps plan_file overwrite w)
    as (L & msg & Hm & [[He _] | (_ & s' & Hi & _ & _ & Hp & _)]).
  { exfalso. eapply succeeded_not_error; [exact Hc | exact Hm | exact He]. }
  set (w1 := snd (create_plan text given_steps plan_file overwrite w)) in *.
  apply loads_as_loaded in Hl.
  assert (Hr : w_resolve (run_calls calls w1) plan_file = w_resolve w plan_file).
  { destruct (run_calls_later calls w1) as (_ & -> & _). now destruct L as (_ & -> & _). }
  rewrite Hr in Hl.
  assert (Hat : sound_at w1 (w_resolve w plan_file))
    by (eapply persisted_sound_at; [exact Hp | now apply initial_sound]).
  apply (run_calls_sound_at calls) in Hat.
  destruct (loaded_sound _ _ _ _ Hat Hl) as (_ & Hall & _). now apply Hall.
Qed.

Lemma shipped_loads :
  loads_as "p.md" (run_calls shipping empty_workspace) shipped_state.
Proof. exists ["ws"; "p.md"]. vm_compute. reflexivity. Qed.

Lemma refined_world_loads : loads_as "p.md" refined_world refined_state.
Proof. exists ["ws"; "p.md"]. vm_compute. reflexivity. Qed.

(** The plan of one step, given a subgoal: its step completed by
    [update_plan], the subgoal stays pending in the completed plan; completed
    by force, the subgoal is completed too. *)
Lemma shipped_plan_has_completed_steps :
  (forallb is_completed (steps shipped_state) = true
   /\ let c := UpdatePlan 1 "completed" "" "p.md" in
      let s' := call_state c (call_stamp c refined_world) refined_state in
      wrote refined_world (snd (run_call c refined_world)) ["ws"; "p.md"]
            (_serialize_markdown s')
      /\ subgoals s' = [mk_item 1 "quality" "pending"]
      /\ status s' = "completed")
  /\ (forallb is_completed (steps shipped_state) = true
      /\ let c := TrackProgress "done" None "p.md" true false in
         let s' := call_state c (call_stamp c refined_world) refined_state in
         wrote refined_world (snd (run_call c refined_world)) ["ws"; "p.md"]
               (_serialize_markdown s')
         /\ status s' = "completed"
         /\ forallb is_completed (steps s') = true
         /\ forallb is_completed (subgoals s') = true).
Proof.
  split.
  - apply (completed_plan_has_completed_steps "Ship it" (Some ["only step"]) "p.md" false
             empty_workspace (List.tl shipping) shipped_state
             (UpdatePlan 1 "completed" "" "p.md") refined_world refined_state).
    + intros n. reflexivity.
    + exists "Created plan p.md with 1 step(s)". split; vm_compute; reflexivity.
    + exists ["ws"; "p.md"]. vm_compute. reflexivity.
    + reflexivity.
    + reflexivity.
    + apply refined_world_loads.
    + exists "Updated step 1 to 'completed' in p.md". split; vm_compute; reflexivity.
  - apply (completed_plan_has_completed_steps "Ship it" (Some ["only step"]) "p.md" false
             empty_workspace (List.tl shipping) shipped_state
             (TrackProgress "done" None "p.md" true false) refined_world refined_state).
    + intros n. reflexivity.
    + exists "Created plan p.md with 1 step(s)". split; vm_compute; reflexivity.
    + exists ["ws"; "p.md"]. vm_compute. reflexivity.
    + reflexivity.
    + reflexivity.
    + apply refined_world_loads.
    + exists "Logged progress in p.md (status=completed, progress=100%)".
      split; vm_compute; reflexivity.
Defined.

(** C1, as the specification states it, fails: three calls that all succeed
    leave a completed plan whose subgoal is pending. *)
Lemma completed_plan_with_pending_subgoal :
  answers shipping empty_workspace
  = [Some "Created plan p.md with 1 step(s)";
     Some "Set 1 subgoal(s) in p.md";
     Some "Updated step 1 to 'completed' in p.md"]
  /\ loads_as "p.md" (run_calls shipping empty_workspace) shipped_state
  /\ status shipped_state = "completed"
  /\ List.map item_status (subgoals shipped_state) = ["pending"].
Proof.
  split; [vm_compute; reflexivity |]. split; [apply shipped_loads |]. split; reflexivity.
Qed.

(** ** The round trip through the document *)

(** C2 fails in the code. The state the coercer returns for a task that
    quotes the opening of the state block does not survive the round trip:
    the pattern of [_load_state_from_markdown] finds its first match in the
    prose of the document, and what it captures is not JSON. Through the
    tools: the plan is created, and no later call can load it. *)
Theorem round_trip_fails_on_quoted_marker :
  fst (_coerce_state [("task", JStr marker_task)] empty_workspace) = Ok marker_state
  /\ (forall w,
        fst (_load_state_from_markdown (_serialize_markdown marker_state) w)
        = Raise (ValueError ("Plan file contains invalid JSON state: "
                             +:+ w_json_error w marker_capture)))
  /\ answers [CreatePlan marker_task (Some ["a"; "b"]) "p.md" false;
              UpdatePlan 1 "completed" "" "p.md"] empty_workspace
     = [Some "Created plan p.md with 2 step(s)";
        Some ("Error: Plan file contains invalid JSON state: "
              +:+ "Expecting property name enclosed in double quotes: "
              +:+ "line 2 column 1 (char 2)")]
  /\ Text.startswith (String "{" (String "010" "- Status: active")) marker_capture = true.
Proof.
  split; [vm_compute; reflexivity |]. split; [| split; vm_compute; reflexivity].
  intros w. unfold _load_state_from_markdown.
  replace (Pattern.search (_serialize_markdown marker_state)) with (Some marker_capture)
    by (vm_compute; reflexivity).
  replace (Decode.loads marker_capture) with (@None json) by (vm_compute; reflexivity).
  reflexivity.
Qed.

(** ** The state coercer *)

(** C5 fails in the code. A reflection whose [risks] is a number makes the
    coercer raise: [_normalize_text_items] iterates over whatever is truthy,
    where the coercers of the lists test for a list first. *)
Theorem coercer_raises_on_scalar_risks :
  fst (_coerce_state
         [("reflections", JList [JDict [("summary", JStr "s"); ("risks", JInt 1)]])]
         empty_workspace)
  = Raise (TypeError "'int' object is not iterable").
Proof. vm_compute. reflexivity. Qed.

(** ** Task decomposition *)

(** C7, as the code has it. For a task that is not blank and a positive
    [max_steps], [decompose_task] returns pairwise distinct non-empty strings,
    at most [max_steps] of them and at least two when [max_steps] allows it;
    they are the fallback plan, truncated, when the task has fewer than two
    fragments. *)
Theorem decompose_task_shape (text : string) (max_steps : Z) :
  0 < max_steps ->
  let normalized := Text.strip (Text.join " " (Text.split text)) in
  Text.nonempty normalized = true ->
  let result := decompose_task text max_steps in
  Z.min 2 max_steps <= Z.of_nat (List.length result) <= max_steps
  /\ Forall (fun x => Text.nonempty x = true) result
  /\ NoDup result
  /\ ((List.length (fragments normalized) < 2)%nat ->
      result = List.firstn (Z.to_nat max_steps) (fallback_steps normalized)
      /\ Forall (fun x => Text.startswith "Error:" x = false) result).
Proof.
  intros Hm normalized Hn result.
  pose proof (decompose_task_eq text max_steps Hm Hn) as E. fold normalized result in E.
  assert (F : Forall (fun x => Text.nonempty x = true) (fragments normalized)
              /\ NoDup (fragments normalized)) by apply normalize_spec.
  destruct F as [F1 F2].
  destruct (fallback_spec normalized) as (B1 & B2 & B3).
  destruct (2 <=? Z.of_nat (List.length (fragments normalized))) eqn:Hlen.
  - cbv iota in E. apply Z.leb_le in Hlen.
    destruct (firstn_spec (Z.to_nat max_steps) _ F1 F2) as (G1 & G2 & G3).
    rewrite <- E in G1, G2, G3.
    split; [rewrite G3; lia |]. split; [exact G1 |]. split; [exact G2 |]. lia.
  - cbv iota in E. apply Z.leb_gt in Hlen.
    destruct (firstn_spec (Z.to_nat max_steps) _ B1 B2) as (G1 & G2 & G3).
    rewrite <- E in G1, G2, G3.
    split; [rewrite G3; cbn [fallback_steps List.length]; lia |].
    split; [exact G1 |]. split; [exact G2 |]. intros _. split; [exact E |].
    rewrite E. rewrite <- (List.firstn_skipn (Z.to_nat max_steps) _) in B3.
    now apply List.Forall_app in B3 as [B3 _].
Qed.

(** The task of the specification's example, in at most four steps. *)
Lemma decompose_task_shape_example :
  let text := "Inspect code then implement plan tools then run tests" in
  let normalized := Text.strip (Text.join " " (Text.split text)) in
  let result := decompose_task text 4 in
  Z.min 2 4 <= Z.of_nat (List.length result) <= 4
  /\ Forall (fun x => Text.nonempty x = true) result
  /\ NoDup result
  /\ ((List.length (fragments normalized) < 2)%nat ->
      result = List.firstn (Z.to_nat 4) (fallback_steps normalized)
      /\ Forall (fun x => Text.startswith "Error:" x = false) result).
Proof.
  apply (decompose_task_shape "Inspect code then implement plan tools then run tests" 4).
  - lia.
  - vm_compute. reflexivity.
Defined.

(** C7, as the specification states it, fails: with [max_steps] 1 a single
    string is returned, and a fragment of the task may start with "Error:",
    which [create_plan] then answers as if it were an error. *)
Lemma decompose_task_one_step_and_error_prefix :
  decompose_task "a then b" 1 = ["a"]
  /\ decompose_task "Error: x then y" 6 = ["Error: x"; "y"]
  /\ answer (create_plan "Error: x then y" None "plan.md" false empty_workspace)
     = Some "Error: x".
Proof. repeat split; vm_compute; reflexivity. Qed.
(** ** Cleanup of a completed plan *)

(** C6. A [track_progress] or a [reflect_on_plan] call with cleanup requested,
    on a plan that loads, with arguments that pass validation and a write
    that the operating system does not refuse, writes the new state and then
    ends in exactly one way, decided by that state and by whether the removal
    is refused: the state is not completed, an error is answered and the
    document stays, with the state written; the state is completed and the
    removal goes through, and the document is gone; or the state is completed
    and the removal is refused, a warning with the refusal is answered, not
    an error, and the document stays, with the completed state. *)
Theorem cleanup_outcomes (c : call) (w : world) (s : state) :
  cleanup_of c = true ->
  loads_as (plan_file_of c) w s ->
  accepted c s ->
  directory_clear w (w_resolve w (plan_file_of c)) = true ->
  write_refusal w = None ->
  let p := w_resolve w (plan_file_of c) in
  let out := run_call c w in
  let s' := call_state c (call_stamp c w) s in
  wrote w (snd out) p (_serialize_markdown s')
  /\ if negb (String.eqb (status s') "completed")
     then fst out = Ok "Error: cleanup_plan_file requires a completed plan"
          /\ persisted (snd out) p s'
     else
       match unlink_refusal w with
       | None =>
           (exists rel, fst out = Ok ("Completed plan and removed " +:+ rel))
           /\ w_nodes (snd out) !! p = None
       | Some err =>
           (exists rel,
               fst out = Ok ("Warning: Plan completed but cleanup failed for '"
                             +:+ rel +:+ "': " +:+ err))
           /\ persisted (snd out) p s'
       end.
Proof.
  intros Hc Hl Ha Hclear Hw.
  destruct c as [text given f o | n st note f | l f r | m q f cp cl | sm rk na f fin cl];
    cbn [cleanup_of] in Hc; try discriminate Hc; subst cl;
    cbn [plan_file_of accepted run_call call_state call_stamp creates] in *.
  - destruct Ha as [Hm Hq].
    pose proof (track_progress_tied m q f cp true w s Hl Hm Hq Hclear) as H.
    cbv zeta in H. rewrite Hw in H. exact H.
  - pose proof (reflect_on_plan_tied sm rk na f fin true w s Hl Ha Hclear) as H.
    cbv zeta in H. rewrite Hw in H. exact H.
Qed.

Lemma bare_world_loads : loads_as "p.md" bare_world bare_state.
Proof. exists ["ws"; "p.md"]. vm_compute. reflexivity. Qed.

Lemma guarded_world_loads : loads_as "p.md" guarded_world bare_state.
Proof. exists ["ws"; "p.md"]. vm_compute. reflexivity. Qed.

(** The plan without steps: reflected upon and not completed; completed by
    force and removed; completed by force where the removal is refused. *)
Lemma cleanup_outcomes_of_the_bare_plan :
  (let c := ReflectOnPlan "nothing to do" None None "p.md" false true in
   let out := run_call c bare_world in
   let s' := call_state c (call_stamp c bare_world) bare_state in
   wrote bare_world (snd out) ["ws"; "p.md"] (_serialize_markdown s')
   /\ fst out = Ok "Error: cleanup_plan_file requires a completed plan"
   /\ persisted (snd out) ["ws"; "p.md"] s')
  /\ (let c := TrackProgress "done" (Some 50) "p.md" true true in
      let out := run_call c bare_world in
      let s' := call_state c (call_stamp c bare_world) bare_state in
      wrote bare_world (snd out) ["ws"; "p.md"] (_serialize_markdown s')
      /\ (exists rel, fst out = Ok ("Completed plan and removed " +:+ rel))
      /\ w_nodes (snd out) !! ["ws"; "p.md"] = None)
  /\ (let c := TrackProgress "done" (Some 50) "p.md" true true in
      let out := run_call c guarded_world in
      let s' := call_state c (call_stamp c guarded_world) bare_state in
      wrote guarded_world (snd out) ["ws"; "p.md"] (_serialize_markdown s')
      /\ (exists rel,
             fst out = Ok ("Warning: Plan completed but cleanup failed for '"
                           +:+ rel +:+ "': " +:+ "[Errno 13] Permission denied"))
      /\ persisted (snd out) ["ws"; "p.md"] s').
Proof.
  split; [| split].
  - apply (cleanup_outcomes (ReflectOnPlan "nothing to do" None None "p.md" false true)
             bare_world bare_state).
    + reflexivity.
    + apply bare_world_loads.
    + reflexivity.
    + reflexivity.
    + reflexivity.
  - apply (cleanup_outcomes (TrackProgress "done" (Some 50) "p.md" true true)
             bare_world bare_state).
    + reflexivity.
    + apply bare_world_loads.
    + split; [reflexivity | simpl; lia].
    + reflexivity.
    + reflexivity.
  - apply (cleanup_outcomes (TrackProgress "done" (Some 50) "p.md" true true)
             guarded_world bare_state).
    + reflexivity.
    + apply guarded_world_loads.
    + split; [reflexivity | simpl; lia].
    + reflexivity.
    + reflexivity.
Defined.

(** ** The percentage a call stores *)



(** ** Plans without steps *)





(** ** The percentage after a step update *)

Lemma updated_steps_length (n : Z) (st : string) (l : list item) :
  List.length (updated_steps n st l) = List.length l.
Proof.
  unfold updated_steps. rewrite length_alter.
  destruct (String.eqb st "in_progress"); [| reflexivity].
  rewrite demote_others_eq, List.length_map. apply enumerate_length.
Qed.

(** C4, as the code has it. After a successful [update_plan] the state
    written has at least one step and its percentage is
    [int(round((completed / total) * 100))] in binary64, the quotient first;
    the plan is completed when every step is. For a plan of fewer than 2^43
    steps that percentage is an integer nearest to [100 * completed / total]
    (either neighbour at a tie), and 100 when every step is completed. *)
Theorem update_plan_percent
    (step_number : Z) (new_status note plan_file : string) (w : world) (s : state) :
  loads_as plan_file w s ->
  succeeded (update_plan step_number new_status note plan_file w) ->
  exists s',
    persisted (snd (update_plan step_number new_status note plan_file w))
              (w_resolve w plan_file) s'
    /\ let total := Z.of_nat (List.length (steps s')) in
       let completed := completed_count (steps s') in
       1 <= total /\ 0 <= completed <= total
       /\ percent_complete s' = Some (PInt (ratio_percent completed total))
       /\ (completed = total -> status s' = "completed")
       /\ (total < 2 ^ 43 ->
           nearest_percent completed total (ratio_percent completed total) = true
           /\ (completed = total -> percent_complete s' = Some (PInt 100))).
Proof.
  intros Hl Hs. apply loads_as_loaded in Hl.
  destruct (update_plan_succeeded _ _ _ _ _ _ _ Hl Hs) as (Hn & _ & t & Hp & _).
  exists (update_plan_state step_number new_status note t s).
  split; [exact Hp |]. cbv zeta.
  rewrite update_plan_state_percent, update_plan_state_status, update_plan_state_steps.
  set (l := updated_steps step_number new_status (steps s)).
  assert (Hlen : Z.of_nat (List.length l) = Z.of_nat (List.length (steps s)))
    by (unfold l; now rewrite updated_steps_length).
  pose proof (completed_count_range l) as Hc.
  assert (Hr : step_ratio l = ratio_percent (completed_count l) (Z.of_nat (List.length l))).
  { unfold step_ratio. destruct l; [cbn in Hlen; lia | reflexivity]. }
  rewrite Hr. split; [lia |]. split; [exact Hc |]. split; [reflexivity |]. split.
  - intros Hfull. apply completed_count_full in Hfull.
    unfold all_completed. destruct l; [cbn in Hlen; lia |]. now rewrite Hfull.
  - intros Hb.
    split; [apply ratio_percent_nearest; [lia | exact Hc] |].
    intros Hfull. rewrite Hfull. now rewrite ratio_percent_full by lia.
Qed.

(** Completing the second step of the plan of two steps. *)
Lemma update_plan_percent_in_the_plan :
  exists s',
    persisted (snd (update_plan 2 "completed" "" "plan.md" planned_world))
              (w_resolve planned_world "plan.md") s'
    /\ let total := Z.of_nat (List.length (steps s')) in
       let completed := completed_count (steps s') in
       1 <= total /\ 0 <= completed <= total
       /\ percent_complete s' = Some (PInt (ratio_percent completed total))
       /\ (completed = total -> status s' = "completed")
       /\ (total < 2 ^ 43 ->
           nearest_percent completed total (ratio_percent completed total) = true
           /\ (completed = total -> percent_complete s' = Some (PInt 100))).
Proof.
  apply (update_plan_percent 2 "completed" "" "plan.md" planned_world planned_state).
  - apply planned_world_loads.
  - exists "Updated step 2 to 'completed' in plan.md". split; vm_compute; reflexivity.
Defined.

Lemma forty_world_loads : loads_as "p.md" forty_world forty_state.
Proof. exists ["ws"; "p.md"]. vm_compute. reflexivity. Qed.

(** C4, as the specification states it, fails: completing the 23rd step of
    forty, the first 22 being completed, stores 57, where
    [round(100 * 23 / 40)] is 58. *)
Lemma percent_of_23_steps_of_40 :
  loads_as "p.md" forty_world forty_state
  /\ answer (update_plan 23 "completed" "" "p.md" forty_world)
     = Some "Updated step 23 to 'completed' in p.md"
  /\ (exists s', loads_as "p.md" (snd (update_plan 23 "completed" "" "p.md" forty_world)) s'
                 /\ Z.of_nat (List.length (steps s')) = 40
                 /\ completed_count (steps s') = 23
                 /\ percent_complete s' = Some (PInt 57))
  /\ spec_percent 23 40 = 58.
Proof.
  split; [apply forty_world_loads |]. split; [vm_compute; reflexivity |].
  split; [| vm_compute; reflexivity].
  eexists. split; [exists ["ws"; "p.md"]; vm_compute; reflexivity |].
  repeat split; vm_compute; reflexivity.
Qed.

(** ** Beyond the claims: what does hold of the coercer and of the round trip *)

(** X1. The round trip of a state the coercer returned under a proper clock
    gives the same state in every field and leaves the world as it was,
    unless the pattern captured other than the state block and the decoder
    refused it. *)
Theorem round_trip_or_refusal
    (raw : list (string * json)) (w0 w0' w : world) (s : state) :
  clock_ok w0 ->
  _coerce_state raw w0 = (Ok s, w0') ->
  _load_state_from_markdown (_serialize_markdown s) w = (Ok s, w)
  \/ exists err,
       fst (_load_state_from_markdown (_serialize_markdown s) w)
       = Raise (ValueError ("Plan file contains invalid JSON state: " +:+ err)).
Proof. intros Hc H. apply reload_wf. eapply coerce_state_output_wf; eassumption. Qed.

(** The plan of two steps, decoded and coerced, then written and read. *)
Lemma round_trip_of_the_plan :
  _load_state_from_markdown (_serialize_markdown planned_state) empty_workspace
  = (Ok planned_state, empty_workspace)
  \/ exists err,
       fst (_load_state_from_markdown (_serialize_markdown planned_state) empty_workspace)
       = Raise (ValueError ("Plan file contains invalid JSON state: " +:+ err)).
Proof.
  apply (round_trip_or_refusal (sorted_entries planned_state) still_workspace still_workspace
           empty_workspace planned_state).
  - intros n. split; reflexivity.
  - vm_compute. reflexivity.
Defined.

(** X2. Whatever the coercer is given, it returns a structurally valid state
    or raises the [TypeError] of [_normalize_text_items]. *)
Theorem coercer_returns_valid_state_or_raises (raw : list (string * json)) (w : world) :
  match fst (_coerce_state raw w) with
  | Ok s => structurally_valid s
  | Raise e => exists msg, e = TypeError msg
  end.
Proof. apply coerce_state_valid_or_raises. Qed.

(** ** Beyond the claims: the document and its prose *)

(** X3. The round trip of a state the coercer returned under a proper clock
    is exact, the world left as it was, whenever the prose of its document,
    the lines before the state block, does not contain the opening marker. *)
Theorem round_trip_of_marker_free_prose
    (raw : list (string * json)) (w0 w0' w : world) (s : state) :
  clock_ok w0 ->
  _coerce_state raw w0 = (Ok s, w0') ->
  Text.contains STATE_START (Text.join NL (prose_lines s)) = false ->
  _load_state_from_markdown (_serialize_markdown s) w = (Ok s, w).
Proof.
  intros Hc H Hm. apply reload_clean; [| exact Hm].
  eapply coerce_state_output_wf; eassumption.
Qed.

(** The plan of two steps, decoded and coerced, then written and read. *)
Lemma round_trip_of_the_plan_is_exact :
  _load_state_from_markdown (_serialize_markdown planned_state) empty_workspace
  = (Ok planned_state, empty_workspace).
Proof.
  apply (round_trip_of_marker_free_prose (sorted_entries planned_state) still_workspace
           still_workspace empty_workspace planned_state).
  - intros n. split; reflexivity.
  - vm_compute. reflexivity.
  - vm_compute. reflexivity.
Defined.

(** X4. Whatever stands before the state block is ignored when the document
    is loaded, as long as it does not contain the opening marker: a document
    that ends in the block of a text in braces loads as the block alone
    does. *)
Theorem prose_before_the_block_is_ignored (prose x : string) (w : world) :
  Text.contains STATE_START prose = false ->
  let body := String "{" (x +:+ "}") in
  Pattern.search (prose +:+ state_block body) = Some body
  /\ _load_state_from_markdown (prose +:+ state_block body) w
     = _load_state_from_markdown (state_block body) w.
Proof.
  intros Hp body.
  assert (H1 : Pattern.search (prose +:+ state_block body) = Some body)
    by now apply search_clean.
  assert (H2 : Pattern.search (state_block body) = Some body)
    by (apply (search_clean EmptyString x); reflexivity).
  split; [exact H1 |]. unfold _load_state_from_markdown. now rewrite H1, H2.
Qed.

(** Notes written by hand above the block of an empty object. *)
Lemma notes_before_the_block_are_ignored :
  Pattern.search ("# Notes" +:+ NL +:+ "- keep {this} ```json" +:+ NL
                  +:+ state_block "{}")
  = Some "{}"
  /\ _load_state_from_markdown
       ("# Notes" +:+ NL +:+ "- keep {this} ```json" +:+ NL
        +:+ state_block "{}") empty_workspace
     = _load_state_from_markdown (state_block "{}") empty_workspace.
Proof.
  apply (prose_before_the_block_is_ignored
           ("# Notes" +:+ NL +:+ "- keep {this} ```json" +:+ NL) "" empty_workspace).
  vm_compute. reflexivity.
Defined.

(** ** Beyond the claims: normalized texts *)

(** X5. [_normalize_text_items] returns, in the order of their first
    occurrence, the stripped texts that are not empty, each once: the result
    has no duplicates, is a sublist of the stripped input, holds exactly the
    non-empty stripped inputs, every element is its own strip, and
    normalizing it again changes nothing. *)
Theorem normalize_text_items_spec (values : list string) :
  let result := _normalize_text_items values in
  NoDup result
  /\ sublist result (List.map Text.strip values)
  /\ (forall x, In x result
                <-> Text.nonempty x = true /\ In x (List.map Text.strip values))
  /\ Forall (fun x => Text.strip x = x) result
  /\ _normalize_text_items result = result.
Proof.
  intros result. destruct (normalize_normalized values) as [Hs Hd].
  split; [exact Hd |]. split; [apply normalize_loop_sublist |]. split; [| split].
  - intros x. unfold result, _normalize_text_items. rewrite normalize_loop_In. simpl. tauto.
  - eapply Forall_impl; [exact Hs |]. now intros x [H _].
  - apply normalize_fixed. split; assumption.
Qed.

(** ** Beyond the claims: creating a plan *)

(** X6. [create_plan] never replaces what is there unless told to, and never
    a directory: when the plan path exists and [overwrite] is false, or when
    it is a directory, the call answers an error, writes nothing and makes no
    directory; it only asked about the path. *)
Theorem create_plan_keeps_what_exists
    (text : string) (given_steps : option (list string)) (plan_file : string)
    (overwrite : bool) (w : world) (n : node) :
  w_nodes w !! w_resolve w plan_file = Some n ->
  overwrite = false \/ n = Dir ->
  let out := create_plan text given_steps plan_file overwrite w in
  (exists msg, fst out = Ok msg /\ Text.startswith "Error:" msg = true)
  /\ untouched w (snd out).
Proof.
  intros Hn Hcase out. assert (E : out = create_plan text given_steps plan_file overwrite w)
    by reflexivity. clearbody out. unfold create_plan in E.
  destruct (Text.nonempty (Text.strip text)); cbn [negb] in E.
  2:{ subst out. split; [eexists; split; reflexivity | apply untouched_refl]. }
  set (given := _normalize_text_items _) in E.
  set (normalized := match given with [] => decompose_task _ 6 | _ => given end) in E.
  lazymatch type of E with
  | context [match ?e with Some msg => ret msg | None => _ end] =>
      destruct e as [early |] eqn:Hearly
  end.
  { assert (He : Text.startswith "Error:" early = true).
    { destruct given; [| discriminate]. destruct normalized as [| first r]; [discriminate |].
      destruct (Text.startswith "Error:" first) eqn:E'; [| discriminate].
      now injection Hearly as <-. }
    subst out. split; [exists early; now split | apply untouched_refl]. }
  clear Hearly. unfold bind at 1 in E.
  destruct (resolve_cases plan_file w) as [[Hr Hin] | [err Hr]]; rewrite Hr in E.
  2:{ subst out. split; [eexists; split; reflexivity | apply untouched_refl]. }
  unfold path_exists, path_is_dir, bind, io_stat, ret in E. cbn [w_nodes] in E.
  rewrite Hn in E.
  destruct Hcase as [-> | ->].
  - cbn [negb andb] in E. subst out. split; [eexists; split; reflexivity |].
    apply (untouched_stats w [ev_stat (w_resolve w plan_file)]). repeat constructor.
  - destruct overwrite; cbn [negb andb w_nodes] in E; rewrite ?Hn in E;
      cbn [negb andb w_nodes w_root w_resolve w_clock w_ticks w_oserror w_json_error
           w_trace] in E;
      rewrite ?Hn in E; subst out;
      (split; [eexists; split; reflexivity |]).
    + apply (untouched_stats w [ev_stat (w_resolve w plan_file);
                                ev_stat (w_resolve w plan_file);
                                ev_stat (w_resolve w plan_file)]). repeat constructor.
    + apply (untouched_stats w [ev_stat (w_resolve w plan_file)]). repeat constructor.
Qed.

(** A second plan at the path of the plan of two steps. *)
Lemma create_plan_keeps_the_plan :
  let out := create_plan "Another task" None "plan.md" false planned_world in
  (exists msg, fst out = Ok msg /\ Text.startswith "Error:" msg = true)
  /\ untouched planned_world (snd out).
Proof.
  apply (create_plan_keeps_what_exists "Another task" None "plan.md" false planned_world
           (File (_serialize_markdown planned_state))).
  - vm_compute. reflexivity.
  - now left.
Defined.

(** X7. A successful [create_plan] leaves the document of a state with the
    stripped task, active, at 0 percent, created and updated at the time read
    from the clock; its steps are those given, normalized, or else the
    decomposition of the task: at least one, numbered from 1, with distinct
    descriptions, the first in progress and the others pending; no subgoals,
    no reflections, and the one progress entry "Plan created". *)
Theorem created_plan_shape
    (text : string) (given_steps : option (list string)) (plan_file : string)
    (overwrite : bool) (w : world) :
  succeeded (create_plan text given_steps plan_file overwrite w) ->
  let w' := snd (create_plan text given_steps plan_file overwrite w) in
  let t := w_clock w (w_ticks w) in
  exists s' first rest,
    persisted w' (w_resolve w plan_file) s'
    /\ task s' = Text.strip text /\ status s' = "active"
    /\ percent_complete s' = Some (PInt 0)
    /\ created_at s' = t /\ updated_at s' = t
    /\ steps s' = first :: rest
    /\ item_status first = "in_progress"
    /\ Forall (fun it => item_status it = "pending") rest
    /\ List.map item_description (steps s') = planned_steps (Text.strip text) given_steps
    /\ NoDup (List.map item_description (steps s'))
    /\ (forall i it, steps s' !! i = Some it -> item_id it = Z.of_nat i + 1)
    /\ subgoals s' = [] /\ reflections s' = []
    /\ progress_log s' = [mk_progress t "Plan created" (Some (PInt 0))].
Proof.
  intros Hs w' t.
  destruct (call_succeeded (CreatePlan text given_steps plan_file overwrite) w
              (create_plan_state text given_steps t) ltac:(discriminate) Hs)
    as (_ & _ & _ & _ & _ & _ & Hp).
  specialize (Hp eq_refl). cbn [call_state call_stamp creates plan_file_of run_call] in Hp.
  fold t in Hp. fold w' in Hp.
  destruct (planned_steps_normalized (Text.strip text) given_steps) as [[Hsolid Hnd] Hne].
  pose proof (built_descriptions (planned_steps (Text.strip text) given_steps)
                "in_progress" "pending") as Hd.
  pose proof (built_items_wf _ Hsolid) as Hwf.
  set (s' := create_plan_state text given_steps t) in *.
  assert (Hsteps : steps s'
                   = set_first_status "in_progress"
                       (_build_plan_items (planned_steps (Text.strip text) given_steps)
                          "pending")) by reflexivity.
  destruct (planned_steps (Text.strip text) given_steps) as [| x r] eqn:Hpl; [congruence |].
  exists s', (mk_item 1 x "in_progress"),
    (List.map (fun it : Z * string => mk_item (fst it) (snd it) "pending")
       (Py.enumerate (1 + 1) r)).
  split; [exact Hp |]. repeat (split; [reflexivity |]).
  split; [rewrite Hsteps; reflexivity |]. split; [reflexivity |].
  split; [apply built_statuses |].
  split; [rewrite Hsteps; exact Hd |].
  split; [rewrite Hsteps, Hd; exact Hnd |].
  split; [intros i it Hi; rewrite Hsteps in Hi; eapply wf_items_ids; eassumption |].
  repeat split.
Qed.

(** The plan of two steps, as [create_plan] decomposes its task. *)
Lemma planned_world_shape :
  let w' := planned_world in
  let t := w_clock empty_workspace (w_ticks empty_workspace) in
  exists s' first rest,
    persisted w' (w_resolve empty_workspace "plan.md") s'
    /\ task s' = Text.strip "Write the parser then test it" /\ status s' = "active"
    /\ percent_complete s' = Some (PInt 0)
    /\ created_at s' = t /\ updated_at s' = t
    /\ steps s' = first :: rest
    /\ item_status first = "in_progress"
    /\ Forall (fun it => item_status it = "pending") rest
    /\ List.map item_description (steps s')
       = planned_steps (Text.strip "Write the parser then test it") None
    /\ NoDup (List.map item_description (steps s'))
    /\ (forall i it, steps s' !! i = Some it -> item_id it = Z.of_nat i + 1)
    /\ subgoals s' = [] /\ reflections s' = []
    /\ progress_log s' = [mk_progress t "Plan created" (Some (PInt 0))].
Proof.
  apply (created_plan_shape "Write the parser then test it" None "plan.md" false
           empty_workspace).
  exists "Created plan plan.md with 2 step(s)". split; vm_compute; reflexivity.
Defined.

(** ** Beyond the claims: what a call changes and what it keeps *)

(** X8. A successful [update_plan] changes the status of the step it names
    and nothing else of the steps but the demotion of the steps in progress
    when the new status is "in_progress": ids, descriptions and the number of
    steps are kept, and so are the task, the creation time, the subgoals and
    the reflections; the progress log gains the stripped note, if there is
    one; the plan is completed exactly when every step is, and active
    otherwise. *)
Theorem update_plan_changes_one_step
    (step_number : Z) (new_status note plan_file : string) (w : world) (s : state) :
  loads_as plan_file w s ->
  succeeded (update_plan step_number new_status note plan_file w) ->
  let w' := snd (update_plan step_number new_status note plan_file w) in
  let k := Z.to_nat (step_number - 1) in
  exists s' t,
    persisted w' (w_resolve w plan_file) s'
    /\ task s' = task s /\ created_at s' = created_at s /\ updated_at s' = t
    /\ subgoals s' = subgoals s /\ reflections s' = reflections s
    /\ progress_log s'
       = progress_log s
         ++ (if Text.nonempty (Text.strip note)
             then [mk_progress t (Text.strip note) None] else [])
    /\ List.length (steps s') = List.length (steps s)
    /\ (forall i it, steps s !! i = Some it ->
          steps s' !! i
          = Some (mk_item (item_id it) (item_description it)
                    (if Nat.eqb i k then new_status
                     else if String.eqb new_status "in_progress" && is_in_progress it
                          then "pending" else item_status it)))
    /\ (status s' = "completed" <-> forallb is_completed (steps s') = true)
    /\ (status s' = "completed" \/ status s' = "active").
Proof.
  intros Hl Hs w' k.
  destruct (call_succeeded (UpdatePlan step_number new_status note plan_file) w s
              (fun _ => Hl) Hs) as ([Hn Hv] & _ & _ & _ & _ & _ & Hp).
  specialize (Hp eq_refl). cbn [call_state call_stamp creates plan_file_of run_call] in Hp.
  set (t := stamp plan_file w) in *. fold w' in Hp.
  destruct (update_plan_state_fields step_number new_status note t s)
    as (E1 & E2 & E3 & E4 & E5 & E6 & E7 & E8 & E9).
  set (s' := update_plan_state step_number new_status note t s) in *.
  pose proof (updated_steps_length step_number new_status (steps s)) as Hlen.
  exists s', t. split; [exact Hp |]. repeat (split; [assumption |]).
  split; [now rewrite E7 |].
  split; [intros i it Hi; rewrite E7; now apply updated_steps_lookup |].
  assert (Hne : updated_steps step_number new_status (steps s) <> []).
  { intros E. rewrite E in Hlen. cbn in Hlen. lia. }
  rewrite E8, E7, (all_completed_nonempty _ Hne).
  destruct (forallb is_completed _); split; try tauto; split; [discriminate | congruence].
Qed.

(** Blocking the second step of the plan of two steps, with a note. *)
Lemma update_plan_blocks_the_second_step :
  let w' := snd (update_plan 2 "blocked" " waiting for review " "plan.md" planned_world) in
  exists s' t,
    persisted w' (w_resolve planned_world "plan.md") s'
    /\ task s' = task planned_state /\ created_at s' = created_at planned_state
    /\ updated_at s' = t
    /\ subgoals s' = subgoals planned_state /\ reflections s' = reflections planned_state
    /\ progress_log s'
       = progress_log planned_state
         ++ (if Text.nonempty (Text.strip " waiting for review ")
             then [mk_progress t (Text.strip " waiting for review ") None] else [])
    /\ List.length (steps s') = List.length (steps planned_state)
    /\ (forall i it, steps planned_state !! i = Some it ->
          steps s' !! i
          = Some (mk_item (item_id it) (item_description it)
                    (if Nat.eqb i (Z.to_nat (2 - 1)) then "blocked"
                     else if String.eqb "blocked" "in_progress" && is_in_progress it
                          then "pending" else item_status it)))
    /\ (status s' = "completed" <-> forallb is_completed (steps s') = true)
    /\ (status s' = "completed" \/ status s' = "active").
Proof.
  apply (update_plan_changes_one_step 2 "blocked" " waiting for review " "plan.md"
           planned_world planned_state).
  - exists ["ws"; "plan.md"]. vm_compute. reflexivity.
  - exists "Updated step 2 to 'blocked' in plan.md". split; vm_compute; reflexivity.
Defined.

(** X9. A successful [set_subgoals] replaces the subgoals by the normalized
    ones given, or, when [replace] is false, by the normalized list of the
    descriptions there were followed by those given; they are numbered from
    1, each with a status of the four: pending when its description is new,
    the status its description had when the descriptions there were are
    distinct.  Nothing else of the state changes but the time of the
    update: not the steps, and neither the status nor the percentage of the
    plan. *)
Theorem set_subgoals_merges_by_description
    (new_subgoals : list string) (plan_file : string) (replace : bool)
    (w : world) (s : state) :
  loads_as plan_file w s ->
  succeeded (set_subgoals new_subgoals plan_file replace w) ->
  let w' := snd (set_subgoals new_subgoals plan_file replace w) in
  let current := List.map item_description (subgoals s) in
  let merged :=
    if replace then _normalize_text_items new_subgoals
    else _normalize_text_items (current ++ _normalize_text_items new_subgoals) in
  exists s',
    persisted w' (w_resolve w plan_file) s'
    /\ List.map item_description (subgoals s') = merged
    /\ (forall i it, subgoals s' !! i = Some it ->
          item_id it = Z.of_nat i + 1 /\ str_in (item_status it) VALID_STATUSES = true)
    /\ (forall it', In it' (subgoals s') -> ~ In (item_description it') current ->
          item_status it' = "pending")
    /\ (NoDup current ->
        forall it it', In it (subgoals s) -> In it' (subgoals s') ->
          item_description it' = item_description it -> item_status it' = item_status it)
    /\ task s' = task s /\ status s' = status s
    /\ percent_complete s' = percent_complete s /\ created_at s' = created_at s
    /\ steps s' = steps s /\ progress_log s' = progress_log s
    /\ reflections s' = reflections s.
Proof.
  intros Hl Hs w' current merged.
  destruct (call_succeeded (SetSubgoals new_subgoals plan_file replace) w s
              (fun _ => Hl) Hs) as (_ & _ & _ & _ & _ & _ & Hp).
  specialize (Hp eq_refl). cbn [call_state call_stamp creates plan_file_of run_call] in Hp.
  set (t := stamp plan_file w) in *. fold w' in Hp.
  destruct (set_subgoals_state_fields (_normalize_text_items new_subgoals) replace t s)
    as (E1 & E2 & E3 & E4 & E5 & E6 & E7 & E8 & E9).
  fold current in E9. fold merged in E9.
  set (s' := set_subgoals_state (_normalize_text_items new_subgoals) replace t s) in *.
  destruct (loads_as_items_wf _ _ _ Hl) as [_ Hwf].
  assert (Hsolid : Forall solid merged)
    by (unfold merged; destruct replace; apply normalize_normalized).
  pose proof (merged_subgoals_wf merged (subgoals s) Hsolid) as Hwf'.
  assert (Hst : forall it', In it' (subgoals s') ->
            item_status it'
            = (if str_in (status_by_description (subgoals s) (item_description it') "pending")
                         VALID_STATUSES
               then status_by_description (subgoals s) (item_description it') "pending"
               else "pending")).
  { intros it' Hin. rewrite E9 in Hin.
    apply list_elem_of_In, list_elem_of_lookup_1 in Hin as [i Hi].
    rewrite merged_lookup in Hi. destruct (merged !! i); [| discriminate].
    cbn in Hi. injection Hi as <-. reflexivity. }
  exists s'. split; [exact Hp |].
  split; [rewrite E9; apply merged_descriptions |].
  split.
  { intros i it Hi. rewrite E9 in Hi. split; [eapply wf_items_ids; eassumption |].
    destruct Hwf' as [Hw _]. rewrite Forall_forall in Hw.
    apply (Hw it). eapply list_elem_of_lookup_2; eassumption. }
  split.
  { intros it' Hin Hnew. rewrite (Hst it' Hin).
    now rewrite (status_by_description_absent _ _ _ Hnew). }
  split.
  { intros Hnd it it' Hin Hin' Hd. rewrite (Hst it' Hin'), Hd.
    rewrite (status_by_description_found _ it "pending" Hnd Hin).
    destruct Hwf as [Hw _]. rewrite Forall_forall in Hw.
    destruct (Hw it) as [_ Hv]; [now apply list_elem_of_In |]. now rewrite Hv. }
  repeat split; assumption.
Qed.

(** Two subgoals for the plan of two steps. *)
Lemma set_subgoals_of_the_plan :
  let w' := snd (set_subgoals [" quality "; "tests"; "quality"] "plan.md" true planned_world) in
  let current := List.map item_description (subgoals planned_state) in
  let merged := _normalize_text_items [" quality "; "tests"; "quality"] in
  exists s',
    persisted w' (w_resolve planned_world "plan.md") s'
    /\ List.map item_description (subgoals s') = merged
    /\ (forall i it, subgoals s' !! i = Some it ->
          item_id it = Z.of_nat i + 1 /\ str_in (item_status it) VALID_STATUSES = true)
    /\ (forall it', In it' (subgoals s') -> ~ In (item_description it') current ->
          item_status it' = "pending")
    /\ (NoDup current ->
        forall it it', In it (subgoals planned_state) -> In it' (subgoals s') ->
          item_description it' = item_description it -> item_status it' = item_status it)
    /\ task s' = task planned_state /\ status s' = status planned_state
    /\ percent_complete s' = percent_complete planned_state
    /\ created_at s' = created_at planned_state
    /\ steps s' = steps planned_state /\ progress_log s' = progress_log planned_state
    /\ reflections s' = reflections planned_state.
Proof.
  apply (set_subgoals_merges_by_description [" quality "; "tests"; "quality"] "plan.md" true
           planned_world planned_state).
  - exists ["ws"; "plan.md"]. vm_compute. reflexivity.
  - exists "Set 2 subgoal(s) in plan.md". split; vm_compute; reflexivity.
Defined.

(** X10. Appending subgoals keeps the ones there were, in their order, with
    their ids and statuses, when their descriptions are distinct; the given
    ones that are new follow them, pending. *)
Theorem set_subgoals_appends
    (new_subgoals : list string) (plan_file : string) (w : world) (s : state) :
  loads_as plan_file w s ->
  succeeded (set_subgoals new_subgoals plan_file false w) ->
  NoDup (List.map item_description (subgoals s)) ->
  let w' := snd (set_subgoals new_subgoals plan_file false w) in
  exists s' added,
    persisted w' (w_resolve w plan_file) s'
    /\ subgoals s' = subgoals s ++ added
    /\ List.map item_description added
       = List.filter
           (fun x => negb (str_in x (List.map item_description (subgoals s))))
           (_normalize_text_items new_subgoals)
    /\ Forall (fun it => item_status it = "pending") added.
Proof.
  intros Hl Hs Hnd w'.
  destruct (call_succeeded (SetSubgoals new_subgoals plan_file false) w s
              (fun _ => Hl) Hs) as (_ & _ & _ & _ & _ & _ & Hp).
  specialize (Hp eq_refl). cbn [call_state call_stamp creates plan_file_of run_call] in Hp.
  set (t := stamp plan_file w) in *. fold w' in Hp.
  destruct (set_subgoals_state_fields (_normalize_text_items new_subgoals) false t s)
    as (_ & _ & _ & _ & _ & _ & _ & _ & E9).
  set (s' := set_subgoals_state (_normalize_text_items new_subgoals) false t s) in *.
  destruct (loads_as_items_wf _ _ _ Hl) as [_ Hwf].
  set (current := List.map item_description (subgoals s)) in *.
  set (fresh := List.filter (fun x => negb (str_in x current))
                  (_normalize_text_items new_subgoals)).
  assert (Hm : _normalize_text_items (current ++ _normalize_text_items new_subgoals)
               = current ++ fresh).
  { apply normalize_appended; [| apply normalize_normalized].
    split; [now apply wf_items_descriptions | exact Hnd]. }
  rewrite Hm in E9.
  assert (Hfresh : forall x, In x fresh -> ~ In x current).
  { intros x Hx. apply List.filter_In in Hx as [_ Hx]. intros Hin.
    apply str_in_In in Hin. rewrite Hin in Hx. discriminate. }
  pose proof (merged_appended (subgoals s) fresh Hwf Hnd Hfresh) as Hma.
  fold current in Hma. rewrite Hma in E9.
  eexists s', _. split; [exact Hp |]. split; [exact E9 |]. split.
  - generalize (1 + Z.of_nat (List.length (subgoals s))). generalize fresh. clear.
    induction fresh as [| x r IH]; intros start; [reflexivity |].
    cbn [Py.enumerate List.map fst snd item_description]. now rewrite IH.
  - apply built_statuses.
Qed.

(** One subgoal more for the plan of one step and one subgoal; the subgoal
    there was is given again. *)
Lemma set_subgoals_appends_to_the_plan :
  let w' := snd (set_subgoals ["docs"; "quality"] "p.md" false refined_world) in
  exists s' added,
    persisted w' (w_resolve refined_world "p.md") s'
    /\ subgoals s' = subgoals refined_state ++ added
    /\ List.map item_description added
       = List.filter
           (fun x => negb (str_in x (List.map item_description (subgoals refined_state))))
           (_normalize_text_items ["docs"; "quality"])
    /\ Forall (fun it => item_status it = "pending") added.
Proof.
  apply (set_subgoals_appends ["docs"; "quality"] "p.md" refined_world refined_state).
  - exists ["ws"; "p.md"]. vm_compute. reflexivity.
  - exists "Updated 2 subgoal(s) in p.md". split; vm_compute; reflexivity.
  - apply NoDup_literal. reflexivity.
Defined.

(** X11. No call other than [create_plan] rewrites history: the state a
    successful call writes has the task and the time of creation of the one
    it loaded, the same steps by id and description, and the progress log
    and the reflections it loaded, each followed by at most one new entry. *)
Theorem calls_keep_the_history (c : call) (w : world) (s : state) :
  creates c = false ->
  loads_as (plan_file_of c) w s ->
  succeeded (run_call c w) ->
  let w' := snd (run_call c w) in
  let p := w_resolve w (plan_file_of c) in
  exists s',
    wrote w w' p (_serialize_markdown s')
    /\ (w_nodes w' !! p = None \/ persisted w' p s')
    /\ (cleanup_of c = false -> persisted w' p s')
    /\ task s' = task s /\ created_at s' = created_at s
    /\ (exists added, progress_log s' = progress_log s ++ added
                      /\ (List.length added <= 1)%nat)
    /\ (exists added, reflections s' = reflections s ++ added
                      /\ (List.length added <= 1)%nat)
    /\ List.map item_id (steps s') = List.map item_id (steps s)
    /\ List.map item_description (steps s') = List.map item_description (steps s).
Proof.
  intros Hc Hl Hs w' p.
  destruct (call_succeeded c w s (fun _ => Hl) Hs) as (Ha & _ & _ & _ & Hw & Hp & Hp').
  destruct (loads_as_items_wf _ _ _ Hl) as [Hwf _].
  exists (call_state c (call_stamp c w) s).
  split; [exact Hw |]. split; [exact Hp |]. split; [exact Hp' |].
  now apply call_state_keeps.
Qed.

(** Progress logged on the plan of two steps. *)
Lemma track_progress_keeps_the_history :
  let c := TrackProgress "half way" (Some 50) "plan.md" false false in
  let w' := snd (run_call c planned_world) in
  let p := w_resolve planned_world "plan.md" in
  exists s',
    wrote planned_world w' p (_serialize_markdown s')
    /\ (w_nodes w' !! p = None \/ persisted w' p s')
    /\ (cleanup_of c = false -> persisted w' p s')
    /\ task s' = task planned_state /\ created_at s' = created_at planned_state
    /\ (exists added, progress_log s' = progress_log planned_state ++ added
                      /\ (List.length added <= 1)%nat)
    /\ (exists added, reflections s' = reflections planned_state ++ added
                      /\ (List.length added <= 1)%nat)
    /\ List.map item_id (steps s') = List.map item_id (steps planned_state)
    /\ List.map item_description (steps s')
       = List.map item_description (steps planned_state).
Proof.
  apply (calls_keep_the_history (TrackProgress "half way" (Some 50) "plan.md" false false)
           planned_world planned_state).
  - reflexivity.
  - exists ["ws"; "plan.md"]. vm_compute. reflexivity.
  - exists "Logged progress in plan.md (status=active, progress=50%)".
    split; vm_compute; reflexivity.
Defined.

(** ** Beyond the claims: errors and exceptions *)

(** X12. [_read_existing_state] only asks: it writes nothing, whether it
    returns or raises.  When it returns a state, the error text is empty and
    the path is the one the plan file resolves to, inside the workspace root,
    where a file is; when it returns no state, the error text starts with
    "Error:". So a caller that tests the error text has a state whenever the
    text is empty. *)
Theorem read_existing_state_outcomes (plan_file : string) (w : world) :
  let out := _read_existing_state plan_file w in
  untouched w (snd out)
  /\ match fst out with
     | Ok (op, Some s, err) =>
         err = EmptyString /\ op = Some (w_resolve w plan_file)
         /\ is_Some (relative_to (w_root w) (w_resolve w plan_file))
         /\ exists content, w_nodes w !! w_resolve w plan_file = Some (File content)
     | Ok (op, None, err) => Text.startswith "Error:" err = true
     | Raise e => True
     end.
Proof.
  split; [apply loaded_untouched |].
  pose proof (read_existing_spec plan_file w) as H.
  destruct (fst (_read_existing_state plan_file w)) as [[[[p |] [s |]] err] | e];
    try exact H; try exact I; try contradiction.
  destruct H as (He & Hp & Hin & content & _ & _ & Hn & _). subst p.
  split; [exact He |]. split; [reflexivity |]. split; [exact Hin |]. eauto.
Qed.

(** X14. In a world that refuses no I/O call, an error is answered before
    anything is written: a call that answers a message starting with "Error:"
    has left every file as it was, but for one case, the refusal of a cleanup
    asked for on a plan that is not completed, which is answered after the
    new state was written. *)
Theorem error_answers_change_no_file (c : call) (w : world) (msg : string) :
  (forall n, w_oserror w n = None) ->
  fst (run_call c w) = Ok msg ->
  Text.startswith "Error:" msg = true ->
  let w' := snd (run_call c w) in
  same_files w w'
  \/ (cleanup_of c = true
      /\ msg = "Error: cleanup_plan_file requires a completed plan"
      /\ exists s s',
           loads_as (plan_file_of c) w s
           /\ persisted w' (w_resolve w (plan_file_of c)) s'
           /\ status s' <> "completed").
Proof.
  intros _ Hm He w'.
  destruct (call_cases c w) as [[Hu _] | [[(m & _ & _ & Hs) _] | (s & Hl & Hw)]].
  - left. now apply untouched_same_files.
  - now left.
  - destruct Hw as (_ & _ & _ & _ & _ & Hend).
    destruct (cleanup_of c) eqn:Hc.
    + destruct Hend as [(Hst & Hm' & Hp) | [(_ & [rel Hm'] & _) | (_ & (rel & err & Hm') & _)]].
      * right. split; [reflexivity |]. rewrite Hm in Hm'. injection Hm' as ->.
        split; [reflexivity |].
        exists s, (call_state c (call_stamp c w) s). split; [| now split].
        apply Hl. destruct c; try reflexivity; discriminate.
      * rewrite Hm in Hm'. injection Hm' as ->. discriminate.
      * rewrite Hm in Hm'. injection Hm' as ->. discriminate.
    + destruct Hend as (m & Hm' & He' & _). congruence.
Qed.

(** A step beyond the last, and a cleanup asked for too early. *)
Lemma errors_on_the_plan_change_no_file :
  (let c := UpdatePlan 5 "completed" "" "plan.md" in
   let w' := snd (run_call c planned_world) in
   same_files planned_world w'
   \/ (cleanup_of c = true
       /\ "Error: step_number 5 is out of range (1..2)"
          = "Error: cleanup_plan_file requires a completed plan"
       /\ exists s s',
            loads_as (plan_file_of c) planned_world s
            /\ persisted w' (w_resolve planned_world (plan_file_of c)) s'
            /\ status s' <> "completed"))
  /\ (let c := TrackProgress "note" None "plan.md" false true in
      let w' := snd (run_call c planned_world) in
      same_files planned_world w'
      \/ (cleanup_of c = true
          /\ "Error: cleanup_plan_file requires a completed plan"
             = "Error: cleanup_plan_file requires a completed plan"
          /\ exists s s',
               loads_as (plan_file_of c) planned_world s
               /\ persisted w' (w_resolve planned_world (plan_file_of c)) s'
               /\ status s' <> "completed")).
Proof.
  split.
  - apply (error_answers_change_no_file (UpdatePlan 5 "completed" "" "plan.md")
             planned_world "Error: step_number 5 is out of range (1..2)");
      [intros n; reflexivity | vm_compute; reflexivity | vm_compute; reflexivity].
  - apply (error_answers_change_no_file (TrackProgress "note" None "plan.md" false true)
             planned_world "Error: cleanup_plan_file requires a completed plan");
      [intros n; reflexivity | vm_compute; reflexivity | vm_compute; reflexivity].
Defined.

(** ** Beyond the claims: one call after the other *)

(** X15. What a call writes, the next call can load.  Under a clock that
    gives proper times and an operating system that refuses nothing, a call
    that succeeds on a plan of fewer than 2^43 steps (or creates one) and
    asks for no cleanup leaves the document of the state it computed; the
    coercer leaves that state as it is, in every field and without reading
    the clock; and the document loads as that very state, unless its prose
    contains the opening marker. *)
Theorem written_plan_loads (c : call) (w : world) (s : state) :
  clock_ok w ->
  (forall n, w_oserror w n = None) ->
  (creates c = false ->
   loads_as (plan_file_of c) w s /\ Z.of_nat (List.length (steps s)) < 2 ^ 43) ->
  succeeded (run_call c w) ->
  cleanup_of c = false ->
  let w' := snd (run_call c w) in
  let s' := call_state c (call_stamp c w) s in
  persisted w' (w_resolve w (plan_file_of c)) s'
  /\ (forall w0, _coerce_state (state_entries s') w0 = (Ok s', w0))
  /\ (Text.contains STATE_START (Text.join NL (prose_lines s')) = false ->
      loads_as (plan_file_of c) w' s').
Proof.
  intros Hclock Hos Hl Hs Hc w' s'.
  destruct (call_succeeded c w s (fun H => proj1 (Hl H)) Hs)
    as (Ha & Hin & L & _ & _ & _ & Hp).
  specialize (Hp Hc). fold w' in Hp, L. fold s' in Hp.
  assert (Hwf : wf_state s').
  { apply call_state_wf; [| exact Ha | now apply call_stamp_solid].
    intros H. destruct (Hl H) as [Hload Hlen]. split; [| exact Hlen].
    eapply loads_as_wf; eassumption. }
  split; [exact Hp |].
  split; [intros w0; rewrite coerce_state_entries; now apply coerce_state_wf |].
  intros Hm.
  destruct L as (Hroot & Hres & _ & Hose & _).
  apply persisted_loads; try assumption.
  - now rewrite Hroot, Hres.
  - now rewrite Hres.
  - rewrite Hose. apply Hos.
Qed.

(** Completing the first step of the plan of two steps, with a note. *)
Lemma updated_plan_loads :
  let c := UpdatePlan 1 "completed" "parser written" "plan.md" in
  let w' := snd (run_call c still_planned_world) in
  let s' := call_state c (call_stamp c still_planned_world) planned_state in
  persisted w' (w_resolve still_planned_world (plan_file_of c)) s'
  /\ (forall w0, _coerce_state (state_entries s') w0 = (Ok s', w0))
  /\ (Text.contains STATE_START (Text.join NL (prose_lines s')) = false ->
      loads_as (plan_file_of c) w' s').
Proof.
  apply (written_plan_loads (UpdatePlan 1 "completed" "parser written" "plan.md")
           still_planned_world planned_state).
  - intros n. split; vm_compute; reflexivity.
  - intros n. vm_compute. reflexivity.
  - intros _. split; [exists ["ws"; "plan.md"]; vm_compute; reflexivity | reflexivity].
  - exists "Updated step 1 to 'completed' in plan.md". split; vm_compute; reflexivity.
  - reflexivity.
Defined.

(** X16. In a world that refuses no I/O call, so that every write is whole,
    from its creation on and whatever calls follow, a plan never loads with
    more than one step in progress. *)
Theorem created_plan_has_one_step_in_progress_at_most
    (text : string) (given_steps : option (list string)) (plan_file : string)
    (overwrite : bool) (w : world) (calls : list call) (s : state) :
  (forall n, w_oserror w n = None) ->
  succeeded (create_plan text given_steps plan_file overwrite w) ->
  loads_as plan_file
    (run_calls calls (snd (create_plan text given_steps plan_file overwrite w))) s ->
  (in_progress_count (steps s) <= 1)%nat.
Proof.
  intros _ Hc Hl.
  destruct (create_plan_spec text given_steps plan_file overwrite w)
    as (L & msg & Hm & [[He _] | (_ & s' & Hi & _ & _ & Hp & _)]).
  { exfalso. eapply succeeded_not_error; eassumption. }
  set (w1 := snd (create_plan text given_steps plan_file overwrite w)) in *.
  apply loads_as_loaded in Hl.
  assert (Hr : w_resolve (run_calls calls w1) plan_file = w_resolve w plan_file).
  { destruct (run_calls_later calls w1) as (_ & -> & _). now destruct L as (_ & -> & _). }
  rewrite Hr in Hl.
  assert (Hat : sound_at w1 (w_resolve w plan_file))
    by (eapply persisted_sound_at; [exact Hp | now apply initial_sound]).
  apply (run_calls_sound_at calls) in Hat.
  now destruct (loaded_sound _ _ _ _ Hat Hl) as (_ & _ & Hcount).
Qed.

(** The plan of two steps, created with its first step in progress, after
    its second step was put in progress: the first is pending again. *)
Lemma moved_plan_has_one_step_in_progress :
  (in_progress_count (steps moved_state) <= 1)%nat
  /\ List.map item_status (steps moved_state) = ["pending"; "in_progress"].
Proof.
  split; [| reflexivity].
  apply (created_plan_has_one_step_in_progress_at_most "Write the parser then test it" None
           "plan.md" false empty_workspace (List.tl moving) moved_state).
  - intros n. reflexivity.
  - exists "Created plan plan.md with 2 step(s)". split; vm_compute; reflexivity.
  - exists ["ws"; "plan.md"]. vm_compute. reflexivity.
Defined.

(** X17. Whatever an operation writes, removes or makes is at the path its
    plan file resolves to: it writes or removes that path only, and makes its
    parent directory only; when that path is outside the workspace root it
    touches nothing; and whatever it does, every file at another path is as
    it was. *)
Theorem calls_change_only_the_plan_file (c : call) (w : world) :
  let p := w_resolve w (plan_file_of c) in
  let w' := snd (run_call c w) in
  (exists evs, w_trace w' = evs ++ w_trace w /\ Forall (changes_only p) evs)
  /\ same_files_but p w w'
  /\ (is_Some (relative_to (w_root w) p) \/ untouched w w').
Proof.
  intros p w'. split; [| split].
  - destruct (relative_to (w_root w) p) as [rel |] eqn:Hrel.
    + destruct (call_makes c w) as (evs & T & F). exists evs. split; [exact T |].
      eapply Forall_impl; [exact F |]. intros e. apply touches_changes.
    + exists []. split; [now apply call_outside | constructor].
  - destruct (call_cases c w) as [[Hu _] | [[(m & _ & _ & Hs) _] | (s & _ & Hw)]].
    + now apply same_files_weaken, untouched_same_files.
    + now apply same_files_weaken.
    + now destruct Hw as (_ & _ & _ & F & _).
  - destruct (relative_to (w_root w) p) as [rel |] eqn:Hrel; [left; eauto |].
    right. unfold w'. rewrite (call_outside_world c w Hrel). apply untouched_refl.
Qed.

(** ** Beyond the claims: the coercer and the decomposition *)

(** X18. The coercer is idempotent: the state it returns under a proper
    clock, given back to it as the dict the program keeps, comes out the same
    in every field, and the clock is not read. *)
Theorem coercer_is_idempotent
    (raw : list (string * json)) (w0 w0' w : world) (s : state) :
  clock_ok w0 ->
  _coerce_state raw w0 = (Ok s, w0') ->
  _coerce_state (state_entries s) w = (Ok s, w).
Proof.
  intros Hc H. rewrite coerce_state_entries. apply coerce_state_wf.
  eapply coerce_state_output_wf; eassumption.
Qed.

(** A dict with blanks, a status unknown and a percentage out of range. *)
Lemma coercer_is_idempotent_on_a_rough_dict :
  _coerce_state
    (state_entries
       (mk_state "t" "active" "2024-01-01T00:00:00+00:00" "2024-01-01T00:00:00+00:00"
          None [mk_item 1 "a" "pending"] [] [] []))
    empty_workspace
  = (Ok (mk_state "t" "active" "2024-01-01T00:00:00+00:00" "2024-01-01T00:00:00+00:00"
           None [mk_item 1 "a" "pending"] [] [] []),
     empty_workspace).
Proof.
  apply (coercer_is_idempotent
           [("task", JStr " t "); ("status", JStr "paused"); ("percent_complete", JInt 120);
            ("steps", JList [JStr " a "; JStr " "])]
           still_workspace
           (snd (_coerce_state
                   [("task", JStr " t "); ("status", JStr "paused");
                    ("percent_complete", JInt 120);
                    ("steps", JList [JStr " a "; JStr " "])] still_workspace))).
  - intros n. split; reflexivity.
  - vm_compute. reflexivity.
Defined.

(** X19. Whatever [decompose_task] returns, for every task and every
    [max_steps], its error messages included, is a list that
    [_normalize_text_items] leaves as it is: distinct texts, none empty, each
    its own strip; and it is never the empty list. *)
Theorem decompose_task_is_normalized (text : string) (max_steps : Z) :
  let result := decompose_task text max_steps in
  _normalize_text_items result = result
  /\ NoDup result
  /\ Forall (fun x => Text.strip x = x /\ Text.nonempty x = true) result
  /\ (exists first rest, result = first :: rest).
Proof.
  intros result. pose proof (decompose_task_normalized text max_steps) as H.
  pose proof (decompose_task_nonempty text max_steps) as Hne.
  split; [now apply normalize_fixed |]. destruct H as [Hs Hd].
  split; [exact Hd |]. split; [exact Hs |].
  fold result in Hne. destruct result as [| x r]; [congruence | eauto].
Qed.

(** ** Beyond the claims: the percentage and the coercer's exception *)

(** X20. The percentage recomputed from the steps never goes down as steps
    are completed: of two states with the same number of steps, fewer than
    2^43, the one with at least as many completed gets at least the
    percentage of the other, both from 0 to 100; and in a plan of fewer than
    100 steps each step completed raises it. *)
Theorem recomputed_percent_is_monotone (s1 s2 : state) :
  List.length (steps s1) = List.length (steps s2) ->
  Z.of_nat (List.length (steps s1)) < 2 ^ 43 ->
  completed_count (steps s1) <= completed_count (steps s2) ->
  exists p1 p2,
    percent_complete (_recompute_percent_from_steps s1) = Some (PInt p1)
    /\ percent_complete (_recompute_percent_from_steps s2) = Some (PInt p2)
    /\ 0 <= p1 /\ p1 <= p2 /\ p2 <= 100
    /\ (completed_count (steps s1) < completed_count (steps s2) ->
        Z.of_nat (List.length (steps s1)) < 100 -> p1 < p2).
Proof.
  intros Hlen Hbound Hc.
  exists (step_ratio (steps s1)), (step_ratio (steps s2)).
  rewrite !recompute_percent. split; [reflexivity |]. split; [reflexivity |].
  unfold step_ratio.
  destruct (steps s1) as [| x1 l1] eqn:E1, (steps s2) as [| x2 l2] eqn:E2;
    try discriminate Hlen.
  - cbn in *. lia.
  - rewrite <- E1, <- E2 in *.
    assert (Ht : 1 <= Z.of_nat (List.length (steps s1)))
      by (rewrite E1; cbn [List.length]; lia).
    pose proof (completed_count_range (steps s1)) as R1.
    pose proof (completed_count_range (steps s2)) as R2.
    rewrite <- Hlen in *.
    destruct (ratio_percent_monotone (completed_count (steps s1))
                (completed_count (steps s2)) _ (conj Ht Hbound) (conj (proj1 R1) Hc)
                (proj2 R2)) as (H0 & H1 & H2 & H3).
    auto.
Qed.

(** The plan of two steps, and the same with its first step completed. *)
Lemma percent_of_the_plan_goes_up :
  exists p1 p2,
    percent_complete (_recompute_percent_from_steps planned_state) = Some (PInt p1)
    /\ percent_complete
         (_recompute_percent_from_steps
            (with_steps planned_state
               [mk_item 1 "Write the parser" "completed"; mk_item 2 "test it" "pending"]))
       = Some (PInt p2)
    /\ 0 <= p1 /\ p1 <= p2 /\ p2 <= 100
    /\ (completed_count (steps planned_state)
        < completed_count
            (steps (with_steps planned_state
                      [mk_item 1 "Write the parser" "completed";
                       mk_item 2 "test it" "pending"])) ->
        Z.of_nat (List.length (steps planned_state)) < 100 -> p1 < p2).
Proof.
  apply (recomputed_percent_is_monotone planned_state
           (with_steps planned_state
              [mk_item 1 "Write the parser" "completed"; mk_item 2 "test it" "pending"])).
  - reflexivity.
  - reflexivity.
  - vm_compute. discriminate.
Defined.

(** X21. The coercer raises exactly on a reflection that has a summary and
    whose risks or next actions are a truthy value that cannot be iterated (a
    number other than zero, [True]): there is such a dict in the list under
    "reflections" if and only if [_coerce_state] raises. *)
Theorem coercer_raises_exactly_on_scalar_lists (raw : list (string * json)) (w : world) :
  (exists e, fst (_coerce_state raw w) = Raise e)
  <-> exists entries d,
        Py.get raw "reflections" = Some (JList entries)
        /\ In (JDict d) entries
        /\ Text.nonempty (Text.strip (Py.str (Py.get_or d "summary" (JStr "")))) = true
        /\ (truthy_scalar (Py.get d "risks") = true
            \/ truthy_scalar (Py.get d "next_actions") = true).
Proof.
  unfold _coerce_state. unfold bind at 1.
  destruct (or_now_returns (Text.strip (Py.str (Py.get_or raw "created_at" (JStr "")))) w)
    as [t Ht].
  destruct (or_now _ w) as [r w1]. cbn [fst] in Ht. subst r.
  unfold bind at 1.
  destruct (coerce_progress_returns (Py.get raw "progress_log") w1) as [pl Hpl].
  destruct (_coerce_progress _ w1) as [r w2]. cbn [fst] in Hpl. subst r.
  unfold bind at 1.
  assert (H : (exists e, fst (_coerce_reflections (Py.get raw "reflections") w2) = Raise e)
              <-> exists entries d,
                    Py.get raw "reflections" = Some (JList entries)
                    /\ In (JDict d) entries
                    /\ Text.nonempty
                         (Text.strip (Py.str (Py.get_or d "summary" (JStr "")))) = true
                    /\ (truthy_scalar (Py.get d "risks") = true
                        \/ truthy_scalar (Py.get d "next_actions") = true)).
  { unfold _coerce_reflections.
    destruct (Py.get raw "reflections") as [[| | | | | entries |] |];
      try (split; [intros [e H]; discriminate | intros (l & d & H & _); discriminate]).
    rewrite (for_each_raises coerce_reflection unreadable_reflection entries w2
               coerce_reflection_raises).
    split.
    - intros (x & Hin & d & -> & Hs & Hbad). exists entries, d. auto.
    - intros (l & d & [= <-] & Hin & Hs & Hbad). exists (JDict d). split; [exact Hin |].
      exists d. auto. }
  destruct (_coerce_reflections (Py.get raw "reflections") w2) as [[rl | e] w3];
    cbn [fst] in *.
  - rewrite <- H. split; intros [e He]; discriminate.
  - rewrite <- H. split; eauto.
Qed.

(** ** Beyond the claims: a write that fails *)


